(** * GiSTXConfig: data-dictionary compiler (reader, validator, emitter)

    A shallow embedding of [excel_reader.py], [xml_generator.py],
    [processor.py] and [models.py], and the properties of the
    specification proved (or refuted) against it.

    Text is modelled as [string] over the code points 0..255 (Latin-1);
    the character classes below are Python's classification of those
    code points.  Cell values are text, integers, booleans or empty, as
    openpyxl reads them from a workbook: an integer cell is the result of
    its [int] on the digits in the file, so of no more digits than [int]
    and [str] convert.  Float and date cells are outside the model. *)

From Stdlib Require Import String Ascii List ZArith Lia Bool Arith PeanoNat.
From Stdlib Require Import DecimalString DecimalPos Permutation.
Import ListNotations.
Open Scope string_scope.
Open Scope list_scope.
Open Scope nat_scope.
Set Warnings "-comment-terminator-in-string".

(* ================================================================== *)
(** * Python [str] primitives *)
(* ================================================================== *)

Module Py.

Definition chr (n : nat) : string := String (ascii_of_nat n) EmptyString.

Definition TAB : string := chr 9.
Definition LF : string := chr 10.
Definition CR : string := chr 13.
Definition DQUOTE : string := chr 34.

Definition in_range (lo hi n : nat) : bool := (lo <=? n) && (n <=? hi).

(** [str.isspace] on one character. *)
Definition isspace (c : ascii) : bool :=
  let n := nat_of_ascii c in
  in_range 9 13 n || in_range 28 32 n || (n =? 133) || (n =? 160).

(** Unicode category Nd, which is what [\d] matches. *)
Definition isdecimal (c : ascii) : bool := in_range 48 57 (nat_of_ascii c).

(** [str.isdigit]: decimal digits and the superscript digits. *)
Definition isdigit (c : ascii) : bool :=
  let n := nat_of_ascii c in
  in_range 48 57 n || (n =? 178) || (n =? 179) || (n =? 185).

Definition isnumeric (c : ascii) : bool :=
  isdigit c || in_range 188 190 (nat_of_ascii c).

Definition isupper (c : ascii) : bool :=
  let n := nat_of_ascii c in
  in_range 65 90 n || in_range 192 214 n || in_range 216 222 n.

Definition isalpha (c : ascii) : bool :=
  let n := nat_of_ascii c in
  in_range 65 90 n || in_range 97 122 n || (n =? 170) || (n =? 181) || (n =? 186)
  || in_range 192 214 n || in_range 216 246 n || in_range 248 255 n.

(** [str.isalnum] on one character. *)
Definition isalnum (c : ascii) : bool := isalpha c || isnumeric c.

Definition lower_char (c : ascii) : ascii :=
  if isupper c then ascii_of_nat (nat_of_ascii c + 32) else c.

(** [s.lower()] *)
Fixpoint lower (s : string) : string :=
  match s with
  | EmptyString => EmptyString
  | String c s' => String (lower_char c) (lower s')
  end.

(** Truthiness of a [str]. *)
Definition truthy (s : string) : bool :=
  match s with EmptyString => false | _ => true end.

(** [f"..."]: the pieces of a formatted string, concatenated. *)
Definition fstr (pieces : list string) : string := String.concat "" pieces.

(** [any(p(c) for c in s)] *)
Fixpoint any_char (p : ascii -> bool) (s : string) : bool :=
  match s with
  | EmptyString => false
  | String c s' => p c || any_char p s'
  end.

(** [s.startswith(p)] *)
Definition startswith (s p : string) : bool := String.prefix p s.

(** [sub in s] *)
Fixpoint contains (s sub : string) : bool :=
  String.prefix sub s ||
  match s with
  | EmptyString => false
  | String _ s' => contains s' sub
  end.

(** [s[a:]] for [0 <= a]. *)
Fixpoint drop (a : nat) (s : string) : string :=
  match a, s with
  | O, _ => s
  | S a', EmptyString => EmptyString
  | S a', String _ s' => drop a' s'
  end.

(** [s[:b]] for [0 <= b]. *)
Fixpoint take (b : nat) (s : string) : string :=
  match b, s with
  | O, _ => EmptyString
  | S _, EmptyString => EmptyString
  | S b', String c s' => String c (take b' s')
  end.

(** [s[a:b]] for [0 <= a] and [0 <= b]; empty when [b <= a]. *)
Definition slice (a b : nat) (s : string) : string := take (b - a) (drop a s).

(** [s[:-k]] for [0 < k]. *)
Definition drop_last (k : nat) (s : string) : string :=
  take (String.length s - k) s.

(** [s.endswith(p)] *)
Definition endswith (s p : string) : bool :=
  (String.length p <=? String.length s) &&
  String.eqb (drop (String.length s - String.length p) s) p.

(** [s.lstrip(chars)], [s.rstrip(chars)] and [s.strip(chars)], with the
    stripped characters given as a predicate. *)
Fixpoint lstrip_by (p : ascii -> bool) (s : string) : string :=
  match s with
  | EmptyString => EmptyString
  | String c s' => if p c then lstrip_by p s' else s
  end.

Fixpoint rstrip_by (p : ascii -> bool) (s : string) : string :=
  match s with
  | EmptyString => EmptyString
  | String c s' =>
      match rstrip_by p s' with
      | EmptyString => if p c then EmptyString else String c EmptyString
      | r => String c r
      end
  end.

Definition strip_by (p : ascii -> bool) (s : string) : string :=
  rstrip_by p (lstrip_by p s).

(** [s.strip()] *)
Definition strip (s : string) : string := strip_by isspace s.

(** [s.strip(c)] for a one-character [c]. *)
Definition strip_char (c : ascii) (s : string) : string :=
  strip_by (Ascii.eqb c) s.

(** [s.split(c)] for a one-character separator: never empty. *)
Fixpoint split (c : ascii) (s : string) : list string :=
  match s with
  | EmptyString => [EmptyString]
  | String a s' =>
      if Ascii.eqb a c then EmptyString :: split c s'
      else match split c s' with
           | h :: t => String a h :: t
           | [] => [String a EmptyString]
           end
  end.

(** [s.split(c, 1)] for a one-character separator. *)
Fixpoint split1 (c : ascii) (s : string) : list string :=
  match s with
  | EmptyString => [EmptyString]
  | String a s' =>
      if Ascii.eqb a c then [EmptyString; s']
      else match split1 c s' with
           | h :: t => String a h :: t
           | [] => [String a EmptyString]
           end
  end.

(** [s.split(sep)] for a separator of any positive length; [skip] counts
    the characters of a separator still to be passed over. *)
Fixpoint split_str_aux (sep : string) (skip : nat) (s : string) : list string :=
  match s with
  | EmptyString => [EmptyString]
  | String a s' =>
      match skip with
      | S k =>
          match k with
          | O => EmptyString :: split_str_aux sep 0 s'
          | S _ => split_str_aux sep k s'
          end
      | O =>
          if String.prefix sep s then
            match String.length sep with
            | 0 | 1 => EmptyString :: split_str_aux sep 0 s'
            | S k => split_str_aux sep k s'
            end
          else match split_str_aux sep 0 s' with
               | h :: t => String a h :: t
               | [] => [String a EmptyString]
               end
      end
  end.

Definition split_str (sep s : string) : list string := split_str_aux sep 0 s.

(** [s.find(c)]: [None] stands for [-1]. *)
Fixpoint find (c : ascii) (s : string) : option nat :=
  match s with
  | EmptyString => None
  | String a s' =>
      if Ascii.eqb a c then Some 0
      else match find c s' with Some i => Some (S i) | None => None end
  end.

(** [s.replace(old, new)] for a non-empty [old]. *)
Fixpoint replace_aux (old new : string) (skip : nat) (s : string) : string :=
  match s with
  | EmptyString => EmptyString
  | String a s' =>
      match skip with
      | S k => replace_aux old new k s'
      | O =>
          if String.prefix old s
          then String.append new (replace_aux old new (String.length old - 1) s')
          else String a (replace_aux old new 0 s')
      end
  end.

Definition replace (old new s : string) : string := replace_aux old new 0 s.

(** [sep.join(l)] *)
Definition join (sep : string) (l : list string) : string := String.concat sep l.

(** [[i for i, ch in enumerate(s) if ch == c]] *)
Fixpoint indices_from (i : nat) (c : ascii) (s : string) : list nat :=
  match s with
  | EmptyString => []
  | String a s' =>
      if Ascii.eqb a c then i :: indices_from (S i) c s'
      else indices_from (S i) c s'
  end.

Definition indices_of (c : ascii) (s : string) : list nat := indices_from 0 c s.

(** [str(n)] for a non-negative [int]. *)
Definition str_of_nat (n : nat) : string := NilZero.string_of_uint (Nat.to_uint n).

(** [str(z)] for an [int]. *)
Definition str_of_Z (z : Z) : string := NilZero.string_of_int (Z.to_int z).

(** [int(s)] for a [s] made of decimal digits. *)
Fixpoint int_acc (acc : N) (s : string) : N :=
  match s with
  | EmptyString => acc
  | String c s' => int_acc (acc * 10 + N.of_nat (nat_of_ascii c - 48)) s'
  end.

Definition int (s : string) : N := int_acc 0 s.

(** [sys.int_info.default_max_str_digits]: the interpreter's limit on the
    digits of a text that [int] converts. *)
Definition MAX_STR_DIGITS : nat := 4300.

(** Whether [int(s)] raises [ValueError], for a [s] made of decimal
    digits: it does beyond the limit, leading zeros counted; otherwise it
    returns [int s]. *)
Definition int_raises (s : string) : bool := MAX_STR_DIGITS <? String.length s.

(** [str(ex)] for the [ValueError] that [int(s)] raises then. *)
Definition int_error (s : string) : string :=
  fstr ["Exceeds the limit (4300 digits) for integer string conversion: value has ";
        str_of_nat (String.length s);
        " digits; use sys.set_int_max_str_digits() to increase the limit"].

(** [l.count(x)] *)
Definition count (x : string) (l : list string) : nat :=
  List.length (filter (String.eqb x) l).

(** [x in l] for a list or a set of strings. *)
Definition mem (x : string) (l : list string) : bool :=
  existsb (String.eqb x) l.

(** [len(set(l)) != len(l)] *)
Fixpoint has_duplicates (l : list string) : bool :=
  match l with
  | [] => false
  | x :: r => mem x r || has_duplicates r
  end.

(** Comparison of [str] by code point. *)
Definition str_leb (a b : string) : bool :=
  match String.compare a b with Gt => false | _ => true end.

Fixpoint insert_sorted (x : string) (l : list string) : list string :=
  match l with
  | [] => [x]
  | y :: r => if str_leb x y then x :: l else y :: insert_sorted x r
  end.

Fixpoint dedup (l : list string) : list string :=
  match l with
  | [] => []
  | x :: r => if mem x r then dedup r else x :: dedup r
  end.

(** [sorted({f for f in l if l.count(f) > 1})] *)
Definition sorted_duplicates (l : list string) : list string :=
  fold_right insert_sorted [] (dedup (filter (fun f => 1 <? count f l) l)).

(** [re.split(r"\r\n|\n|\r", text)] *)
Fixpoint re_split_newlines (s : string) : list string :=
  match s with
  | EmptyString => [EmptyString]
  | String a s' =>
      let tail_after :=
        if Ascii.eqb a (ascii_of_nat 13) then
          match s' with
          | String b s'' =>
              if Ascii.eqb b (ascii_of_nat 10) then Some (re_split_newlines s'')
              else Some (re_split_newlines s')
          | EmptyString => Some (re_split_newlines s')
          end
        else if Ascii.eqb a (ascii_of_nat 10) then Some (re_split_newlines s')
        else None in
      match tail_after with
      | Some t => EmptyString :: t
      | None =>
          match re_split_newlines s' with
          | h :: t => String a h :: t
          | [] => [String a EmptyString]
          end
      end
  end.

Arguments split c%_char s%_string.
Arguments split1 c%_char s%_string.
Arguments find c%_char s%_string.
Arguments strip_char c%_char s%_string.
Arguments indices_of c%_char s%_string.

End Py.

(* ================================================================== *)
(** * Regular expressions ([re]) *)
(* ================================================================== *)

(** A backtracking matcher for the fragment of Python's [re] syntax that
    the program uses.  Repetition is over character classes only, which
    is all the patterns of the program need. *)
Module Re.

Inductive re : Type :=
| Eps                                   (* the empty pattern *)
| Cls (p : ascii -> bool)               (* one character of a class *)
| Lit (s : string)                      (* literal text *)
| Seq (r1 r2 : re)                      (* r1r2 *)
| Alt (r1 r2 : re)                      (* r1|r2, tried in this order *)
| Opt (r : re)                          (* r?, greedy *)
| Star (p : ascii -> bool)              (* [class]*, greedy *)
| Plus (p : ascii -> bool)              (* [class]+, greedy *)
| LazyPlus (p : ascii -> bool)          (* [class]+? *)
| Grp (n : nat) (r : re)                (* capture group number n *)
| Bol                                   (* ^ *)
| Eol                                   (* $ *)
| WordB                                 (* \b *)
| NotBehind (s : string)                (* (?<!s) *)
| NotAhead (s : string).                (* (?!s) *)

(** A position in the subject: the text before it, reversed, and the
    text after it. *)
Definition pos : Type := (string * string)%type.
Definition before (x : pos) : string := fst x.
Definition after (x : pos) : string := snd x.

Definition caps : Type := list (nat * string).
Definition result : Type := (pos * caps)%type.
Definition cont : Type := pos -> caps -> option result.

Fixpoint advance (n : nat) (bef aft : string) : pos :=
  match n, aft with
  | S n', String a aft' => advance n' (String a bef) aft'
  | _, _ => (bef, aft)
  end.

Fixpoint rev_string (acc s : string) : string :=
  match s with
  | EmptyString => acc
  | String a s' => rev_string (String a acc) s'
  end.

(** [\w]: alphanumeric or underscore. *)
Definition word (c : ascii) : bool := Py.isalnum c || Ascii.eqb c "_".
(** [\s] *)
Definition space (c : ascii) : bool := Py.isspace c.
(** [\d] *)
Definition digit (c : ascii) : bool := Py.isdecimal c.
(** [.]: anything but a line feed. *)
Definition dot (c : ascii) : bool := negb (Ascii.eqb c (ascii_of_nat 10)).

Definition first_is (p : ascii -> bool) (s : string) : bool :=
  match s with String a _ => p a | EmptyString => false end.

Fixpoint star_greedy (p : ascii -> bool) (k : cont) (bef aft : string) (c : caps)
  : option result :=
  match aft with
  | String a aft' =>
      if p a then
        match star_greedy p k (String a bef) aft' c with
        | Some r => Some r
        | None => k (bef, aft) c
        end
      else k (bef, aft) c
  | EmptyString => k (bef, aft) c
  end.

Fixpoint plus_lazy (p : ascii -> bool) (k : cont) (bef aft : string) (c : caps)
  : option result :=
  match aft with
  | String a aft' =>
      if p a then
        match k (String a bef, aft') c with
        | Some r => Some r
        | None => plus_lazy p k (String a bef) aft' c
        end
      else None
  | EmptyString => None
  end.

(** [run r k x c]: match [r] at [x] and hand over to the continuation [k];
    the first way to match that the continuation accepts is the result. *)
Fixpoint run (r : re) (k : cont) (x : pos) (c : caps) : option result :=
  match r with
  | Eps => k x c
  | Cls p =>
      match after x with
      | String a aft' => if p a then k (String a (before x), aft') c else None
      | EmptyString => None
      end
  | Lit s =>
      if String.prefix s (after x)
      then k (advance (String.length s) (before x) (after x)) c
      else None
  | Seq r1 r2 => run r1 (run r2 k) x c
  | Alt r1 r2 =>
      match run r1 k x c with
      | Some res => Some res
      | None => run r2 k x c
      end
  | Opt r1 =>
      match run r1 k x c with
      | Some res => Some res
      | None => k x c
      end
  | Star p => star_greedy p k (before x) (after x) c
  | Plus p =>
      match after x with
      | String a aft' =>
          if p a then star_greedy p k (String a (before x)) aft' c else None
      | EmptyString => None
      end
  | LazyPlus p => plus_lazy p k (before x) (after x) c
  | Grp n r1 =>
      run r1
        (fun y c' =>
           k y ((n, Py.take (String.length (after x) - String.length (after y))
                      (after x)) :: c'))
        x c
  | Bol => match before x with EmptyString => k x c | _ => None end
  | Eol =>
      match after x with
      | EmptyString => k x c
      | String a EmptyString =>
          if Ascii.eqb a (ascii_of_nat 10) then k x c else None
      | _ => None
      end
  | WordB =>
      if xorb (first_is word (before x)) (first_is word (after x))
      then k x c else None
  | NotBehind s =>
      if String.prefix (rev_string EmptyString s) (before x) then None else k x c
  | NotAhead s =>
      if String.prefix s (after x) then None else k x c
  end.

Fixpoint seq (rs : list re) : re :=
  match rs with
  | [] => Eps
  | [r] => r
  | r :: rs' => Seq r (seq rs')
  end.

Fixpoint alts (rs : list re) : re :=
  match rs with
  | [] => NotAhead EmptyString
  | [r] => r
  | r :: rs' => Alt r (alts rs')
  end.

Definition accept : cont := fun x c => Some (x, c).
Definition accept_at_end : cont :=
  fun x c => match after x with EmptyString => Some (x, c) | _ => None end.

(** [pattern.match(s)]: the captures of a match anchored at the start. *)
Definition match_ (r : re) (s : string) : option caps :=
  option_map snd (run r accept (EmptyString, s) []).

(** [pattern.fullmatch(s)] *)
Definition fullmatch (r : re) (s : string) : bool :=
  match run r accept_at_end (EmptyString, s) [] with
  | Some _ => true
  | None => false
  end.

(** [m.group(n)]: [None] when the group took no part in the match. *)
Fixpoint group (n : nat) (c : caps) : option string :=
  match c with
  | [] => None
  | (m, s) :: c' => if n =? m then Some s else group n c'
  end.

(** [pattern.findall(s)] for a pattern without groups that never matches
    the empty string; [skip] counts the characters of the last match
    still to be passed over. *)
Fixpoint findall_aux (r : re) (skip : nat) (bef aft : string) : list string :=
  match aft with
  | EmptyString => []
  | String a aft' =>
      match skip with
      | S k => findall_aux r k (String a bef) aft'
      | O =>
          match run r accept (bef, aft) [] with
          | Some (y, _) =>
              match String.length aft - String.length (after y) with
              | O => findall_aux r 0 (String a bef) aft'
              | S k => Py.take (S k) aft :: findall_aux r k (String a bef) aft'
              end
          | None => findall_aux r 0 (String a bef) aft'
          end
      end
  end.

Definition findall (r : re) (s : string) : list string :=
  findall_aux r 0 EmptyString s.

(** [pattern.sub(repl, s)] for a literal replacement and a pattern that
    never matches the empty string. *)
Fixpoint sub_aux (r : re) (repl : string) (skip : nat) (bef aft : string) : string :=
  match aft with
  | EmptyString => EmptyString
  | String a aft' =>
      match skip with
      | S k => sub_aux r repl k (String a bef) aft'
      | O =>
          match run r accept (bef, aft) [] with
          | Some (y, _) =>
              match String.length aft - String.length (after y) with
              | O => String a (sub_aux r repl 0 (String a bef) aft')
              | S k => String.append repl (sub_aux r repl k (String a bef) aft')
              end
          | None => String a (sub_aux r repl 0 (String a bef) aft')
          end
      end
  end.

Definition sub (r : re) (repl s : string) : string :=
  sub_aux r repl 0 EmptyString s.

End Re.

(* ================================================================== *)
(** * The data model ([models.py]) *)
(* ================================================================== *)

Inductive ResponseSourceType : Type := STATIC | CSV | DATABASE.

Inductive CalculationType : Type :=
| NONE | QUERY | CASE | CONSTANT | LOOKUP | MATH | CONCAT
| AGE_FROM_DATE | AGE_AT_DATE | DATE_OFFSET | DATE_DIFF.

Definition CalculationType_eqb (a b : CalculationType) : bool :=
  match a, b with
  | NONE, NONE | QUERY, QUERY | CASE, CASE | CONSTANT, CONSTANT
  | LOOKUP, LOOKUP | MATH, MATH | CONCAT, CONCAT
  | AGE_FROM_DATE, AGE_FROM_DATE | AGE_AT_DATE, AGE_AT_DATE
  | DATE_OFFSET, DATE_OFFSET | DATE_DIFF, DATE_DIFF => true
  | _, _ => false
  end.

Module Filter.
Record t : Type := mk { column : string; value : string; operator : string }.
End Filter.

Module CalculationParameter.
Record t : Type := mk { name : string; fieldName : string }.
End CalculationParameter.

(** A node of a calculation expression; [parts] nests. *)
Module CalculationPart.
#[warnings="-register-all"]
Inductive t : Type :=
  mk (type : CalculationType)
     (constantValue lookupField querySql : string)
     (queryParameters : list CalculationParameter.t)
     (mathOperator : string)
     (parts : list t)
     (concatSeparator : string).

Definition type (p : t) : CalculationType := let (x, _, _, _, _, _, _, _) := p in x.
Definition constantValue (p : t) : string := let (_, x, _, _, _, _, _, _) := p in x.
Definition lookupField (p : t) : string := let (_, _, x, _, _, _, _, _) := p in x.
Definition querySql (p : t) : string := let (_, _, _, x, _, _, _, _) := p in x.
Definition queryParameters (p : t) : list CalculationParameter.t :=
  let (_, _, _, _, x, _, _, _) := p in x.
Definition mathOperator (p : t) : string := let (_, _, _, _, _, x, _, _) := p in x.
Definition parts (p : t) : list t := let (_, _, _, _, _, _, x, _) := p in x.
Definition concatSeparator (p : t) : string := let (_, _, _, _, _, _, _, x) := p in x.

(** [CalculationPart()] with every field at its default. *)
Definition default : t := mk NONE "" "" "" [] "" [] "".
End CalculationPart.

Module CaseCondition.
Record t : Type := mk {
  field : string;
  operator : string;
  value : string;
  result : option CalculationPart.t
}.
End CaseCondition.

Module Question.
Record t : Type := mk {
  fieldName : string;
  questionType : string;
  fieldType : string;
  questionText : string;
  maxCharacters : string;
  responses : string;
  responseSourceType : ResponseSourceType;
  responseSourceFile : string;
  responseSourceTable : string;
  responseFilters : list Filter.t;
  responseDisplayColumn : string;
  responseValueColumn : string;
  responseDistinct : option bool;
  responseEmptyMessage : string;
  responseDontKnowValue : string;
  responseDontKnowLabel : string;
  responseNotInListValue : string;
  responseNotInListLabel : string;
  calculationType : CalculationType;
  calculationQuerySql : string;
  calculationQueryParameters : list CalculationParameter.t;
  calculationCaseConditions : list CaseCondition.t;
  calculationCaseElse : option CalculationPart.t;
  calculationConstantValue : string;
  calculationLookupField : string;
  calculationMathOperator : string;
  calculationMathParts : list CalculationPart.t;
  calculationConcatSeparator : string;
  calculationConcatParts : list CalculationPart.t;
  calculationUnit : string;
  lowerRange : string;
  upperRange : string;
  logicChecks : list string;
  uniqueCheckMessage : string;
  dontKnow : string;
  refuse : string;
  na : string;
  skip : string;
  mask : string
}.

(** [Question()] with every field at its default. *)
Definition default : t :=
  mk "" "" "" "" "" "" STATIC "" "" [] "" "" None "" "" "" "" "" NONE "" [] [] None "" "" "" [] "" [] "" "" "" [] "" "" "" "" "" "".

(** Assignment to one attribute. *)
Definition set_fieldName (v : string) (q : t) : t :=
  mk v (q.(questionType)) (q.(fieldType)) (q.(questionText))
     (q.(maxCharacters)) (q.(responses)) (q.(responseSourceType))
     (q.(responseSourceFile)) (q.(responseSourceTable)) (q.(responseFilters))
     (q.(responseDisplayColumn)) (q.(responseValueColumn))
     (q.(responseDistinct)) (q.(responseEmptyMessage))
     (q.(responseDontKnowValue)) (q.(responseDontKnowLabel))
     (q.(responseNotInListValue)) (q.(responseNotInListLabel))
     (q.(calculationType)) (q.(calculationQuerySql))
     (q.(calculationQueryParameters)) (q.(calculationCaseConditions))
     (q.(calculationCaseElse)) (q.(calculationConstantValue))
     (q.(calculationLookupField)) (q.(calculationMathOperator))
     (q.(calculationMathParts)) (q.(calculationConcatSeparator))
     (q.(calculationConcatParts)) (q.(calculationUnit)) (q.(lowerRange))
     (q.(upperRange)) (q.(logicChecks)) (q.(uniqueCheckMessage))
     (q.(dontKnow)) (q.(refuse)) (q.(na)) (q.(skip)) (q.(mask)).
Definition set_questionType (v : string) (q : t) : t :=
  mk (q.(fieldName)) v (q.(fieldType)) (q.(questionText)) (q.(maxCharacters))
     (q.(responses)) (q.(responseSourceType)) (q.(responseSourceFile))
     (q.(responseSourceTable)) (q.(responseFilters))
     (q.(responseDisplayColumn)) (q.(responseValueColumn))
     (q.(responseDistinct)) (q.(responseEmptyMessage))
     (q.(responseDontKnowValue)) (q.(responseDontKnowLabel))
     (q.(responseNotInListValue)) (q.(responseNotInListLabel))
     (q.(calculationType)) (q.(calculationQuerySql))
     (q.(calculationQueryParameters)) (q.(calculationCaseConditions))
     (q.(calculationCaseElse)) (q.(calculationConstantValue))
     (q.(calculationLookupField)) (q.(calculationMathOperator))
     (q.(calculationMathParts)) (q.(calculationConcatSeparator))
     (q.(calculationConcatParts)) (q.(calculationUnit)) (q.(lowerRange))
     (q.(upperRange)) (q.(logicChecks)) (q.(uniqueCheckMessage))
     (q.(dontKnow)) (q.(refuse)) (q.(na)) (q.(skip)) (q.(mask)).
Definition set_fieldType (v : string) (q : t) : t :=
  mk (q.(fieldName)) (q.(questionType)) v (q.(questionText))
     (q.(maxCharacters)) (q.(responses)) (q.(responseSourceType))
     (q.(responseSourceFile)) (q.(responseSourceTable)) (q.(responseFilters))
     (q.(responseDisplayColumn)) (q.(responseValueColumn))
     (q.(responseDistinct)) (q.(responseEmptyMessage))
     (q.(responseDontKnowValue)) (q.(responseDontKnowLabel))
     (q.(responseNotInListValue)) (q.(responseNotInListLabel))
     (q.(calculationType)) (q.(calculationQuerySql))
     (q.(calculationQueryParameters)) (q.(calculationCaseConditions))
     (q.(calculationCaseElse)) (q.(calculationConstantValue))
     (q.(calculationLookupField)) (q.(calculationMathOperator))
     (q.(calculationMathParts)) (q.(calculationConcatSeparator))
     (q.(calculationConcatParts)) (q.(calculationUnit)) (q.(lowerRange))
     (q.(upperRange)) (q.(logicChecks)) (q.(uniqueCheckMessage))
     (q.(dontKnow)) (q.(refuse)) (q.(na)) (q.(skip)) (q.(mask)).
Definition set_questionText (v : string) (q : t) : t :=
  mk (q.(fieldName)) (q.(questionType)) (q.(fieldType)) v (q.(maxCharacters))
     (q.(responses)) (q.(responseSourceType)) (q.(responseSourceFile))
     (q.(responseSourceTable)) (q.(responseFilters))
     (q.(responseDisplayColumn)) (q.(responseValueColumn))
     (q.(responseDistinct)) (q.(responseEmptyMessage))
     (q.(responseDontKnowValue)) (q.(responseDontKnowLabel))
     (q.(responseNotInListValue)) (q.(responseNotInListLabel))
     (q.(calculationType)) (q.(calculationQuerySql))
     (q.(calculationQueryParameters)) (q.(calculationCaseConditions))
     (q.(calculationCaseElse)) (q.(calculationConstantValue))
     (q.(calculationLookupField)) (q.(calculationMathOperator))
     (q.(calculationMathParts)) (q.(calculationConcatSeparator))
     (q.(calculationConcatParts)) (q.(calculationUnit)) (q.(lowerRange))
     (q.(upperRange)) (q.(logicChecks)) (q.(uniqueCheckMessage))
     (q.(dontKnow)) (q.(refuse)) (q.(na)) (q.(skip)) (q.(mask)).
Definition set_maxCharacters (v : string) (q : t) : t :=
  mk (q.(fieldName)) (q.(questionType)) (q.(fieldType)) (q.(questionText)) v
     (q.(responses)) (q.(responseSourceType)) (q.(responseSourceFile))
     (q.(responseSourceTable)) (q.(responseFilters))
     (q.(responseDisplayColumn)) (q.(responseValueColumn))
     (q.(responseDistinct)) (q.(responseEmptyMessage))
     (q.(responseDontKnowValue)) (q.(responseDontKnowLabel))
     (q.(responseNotInListValue)) (q.(responseNotInListLabel))
     (q.(calculationType)) (q.(calculationQuerySql))
     (q.(calculationQueryParameters)) (q.(calculationCaseConditions))
     (q.(calculationCaseElse)) (q.(calculationConstantValue))
     (q.(calculationLookupField)) (q.(calculationMathOperator))
     (q.(calculationMathParts)) (q.(calculationConcatSeparator))
     (q.(calculationConcatParts)) (q.(calculationUnit)) (q.(lowerRange))
     (q.(upperRange)) (q.(logicChecks)) (q.(uniqueCheckMessage))
     (q.(dontKnow)) (q.(refuse)) (q.(na)) (q.(skip)) (q.(mask)).
Definition set_responses (v : string) (q : t) : t :=
  mk (q.(fieldName)) (q.(questionType)) (q.(fieldType)) (q.(questionText))
     (q.(maxCharacters)) v (q.(responseSourceType)) (q.(responseSourceFile))
     (q.(responseSourceTable)) (q.(responseFilters))
     (q.(responseDisplayColumn)) (q.(responseValueColumn))
     (q.(responseDistinct)) (q.(responseEmptyMessage))
     (q.(responseDontKnowValue)) (q.(responseDontKnowLabel))
     (q.(responseNotInListValue)) (q.(responseNotInListLabel))
     (q.(calculationType)) (q.(calculationQuerySql))
     (q.(calculationQueryParameters)) (q.(calculationCaseConditions))
     (q.(calculationCaseElse)) (q.(calculationConstantValue))
     (q.(calculationLookupField)) (q.(calculationMathOperator))
     (q.(calculationMathParts)) (q.(calculationConcatSeparator))
     (q.(calculationConcatParts)) (q.(calculationUnit)) (q.(lowerRange))
     (q.(upperRange)) (q.(logicChecks)) (q.(uniqueCheckMessage))
     (q.(dontKnow)) (q.(refuse)) (q.(na)) (q.(skip)) (q.(mask)).
Definition set_responseSourceType (v : ResponseSourceType) (q : t) : t :=
  mk (q.(fieldName)) (q.(questionType)) (q.(fieldType)) (q.(questionText))
     (q.(maxCharacters)) (q.(responses)) v (q.(responseSourceFile))
     (q.(responseSourceTable)) (q.(responseFilters))
     (q.(responseDisplayColumn)) (q.(responseValueColumn))
     (q.(responseDistinct)) (q.(responseEmptyMessage))
     (q.(responseDontKnowValue)) (q.(responseDontKnowLabel))
     (q.(responseNotInListValue)) (q.(responseNotInListLabel))
     (q.(calculationType)) (q.(calculationQuerySql))
     (q.(calculationQueryParameters)) (q.(calculationCaseConditions))
     (q.(calculationCaseElse)) (q.(calculationConstantValue))
     (q.(calculationLookupField)) (q.(calculationMathOperator))
     (q.(calculationMathParts)) (q.(calculationConcatSeparator))
     (q.(calculationConcatParts)) (q.(calculationUnit)) (q.(lowerRange))
     (q.(upperRange)) (q.(logicChecks)) (q.(uniqueCheckMessage))
     (q.(dontKnow)) (q.(refuse)) (q.(na)) (q.(skip)) (q.(mask)).
Definition set_responseSourceFile (v : string) (q : t) : t :=
  mk (q.(fieldName)) (q.(questionType)) (q.(fieldType)) (q.(questionText))
     (q.(maxCharacters)) (q.(responses)) (q.(responseSourceType)) v
     (q.(responseSourceTable)) (q.(responseFilters))
     (q.(responseDisplayColumn)) (q.(responseValueColumn))
     (q.(responseDistinct)) (q.(responseEmptyMessage))
     (q.(responseDontKnowValue)) (q.(responseDontKnowLabel))
     (q.(responseNotInListValue)) (q.(responseNotInListLabel))
     (q.(calculationType)) (q.(calculationQuerySql))
     (q.(calculationQueryParameters)) (q.(calculationCaseConditions))
     (q.(calculationCaseElse)) (q.(calculationConstantValue))
     (q.(calculationLookupField)) (q.(calculationMathOperator))
     (q.(calculationMathParts)) (q.(calculationConcatSeparator))
     (q.(calculationConcatParts)) (q.(calculationUnit)) (q.(lowerRange))
     (q.(upperRange)) (q.(logicChecks)) (q.(uniqueCheckMessage))
     (q.(dontKnow)) (q.(refuse)) (q.(na)) (q.(skip)) (q.(mask)).
Definition set_responseSourceTable (v : string) (q : t) : t :=
  mk (q.(fieldName)) (q.(questionType)) (q.(fieldType)) (q.(questionText))
     (q.(maxCharacters)) (q.(responses)) (q.(responseSourceType))
     (q.(responseSourceFile)) v (q.(responseFilters))
     (q.(responseDisplayColumn)) (q.(responseValueColumn))
     (q.(responseDistinct)) (q.(responseEmptyMessage))
     (q.(responseDontKnowValue)) (q.(responseDontKnowLabel))
     (q.(responseNotInListValue)) (q.(responseNotInListLabel))
     (q.(calculationType)) (q.(calculationQuerySql))
     (q.(calculationQueryParameters)) (q.(calculationCaseConditions))
     (q.(calculationCaseElse)) (q.(calculationConstantValue))
     (q.(calculationLookupField)) (q.(calculationMathOperator))
     (q.(calculationMathParts)) (q.(calculationConcatSeparator))
     (q.(calculationConcatParts)) (q.(calculationUnit)) (q.(lowerRange))
     (q.(upperRange)) (q.(logicChecks)) (q.(uniqueCheckMessage))
     (q.(dontKnow)) (q.(refuse)) (q.(na)) (q.(skip)) (q.(mask)).
Definition set_responseFilters (v : list Filter.t) (q : t) : t :=
  mk (q.(fieldName)) (q.(questionType)) (q.(fieldType)) (q.(questionText))
     (q.(maxCharacters)) (q.(responses)) (q.(responseSourceType))
     (q.(responseSourceFile)) (q.(responseSourceTable)) v
     (q.(responseDisplayColumn)) (q.(responseValueColumn))
     (q.(responseDistinct)) (q.(responseEmptyMessage))
     (q.(responseDontKnowValue)) (q.(responseDontKnowLabel))
     (q.(responseNotInListValue)) (q.(responseNotInListLabel))
     (q.(calculationType)) (q.(calculationQuerySql))
     (q.(calculationQueryParameters)) (q.(calculationCaseConditions))
     (q.(calculationCaseElse)) (q.(calculationConstantValue))
     (q.(calculationLookupField)) (q.(calculationMathOperator))
     (q.(calculationMathParts)) (q.(calculationConcatSeparator))
     (q.(calculationConcatParts)) (q.(calculationUnit)) (q.(lowerRange))
     (q.(upperRange)) (q.(logicChecks)) (q.(uniqueCheckMessage))
     (q.(dontKnow)) (q.(refuse)) (q.(na)) (q.(skip)) (q.(mask)).
Definition set_responseDisplayColumn (v : string) (q : t) : t :=
  mk (q.(fieldName)) (q.(questionType)) (q.(fieldType)) (q.(questionText))
     (q.(maxCharacters)) (q.(responses)) (q.(responseSourceType))
     (q.(responseSourceFile)) (q.(responseSourceTable)) (q.(responseFilters))
     v (q.(responseValueColumn)) (q.(responseDistinct))
     (q.(responseEmptyMessage)) (q.(responseDontKnowValue))
     (q.(responseDontKnowLabel)) (q.(responseNotInListValue))
     (q.(responseNotInListLabel)) (q.(calculationType))
     (q.(calculationQuerySql)) (q.(calculationQueryParameters))
     (q.(calculationCaseConditions)) (q.(calculationCaseElse))
     (q.(calculationConstantValue)) (q.(calculationLookupField))
     (q.(calculationMathOperator)) (q.(calculationMathParts))
     (q.(calculationConcatSeparator)) (q.(calculationConcatParts))
     (q.(calculationUnit)) (q.(lowerRange)) (q.(upperRange)) (q.(logicChecks))
     (q.(uniqueCheckMessage)) (q.(dontKnow)) (q.(refuse)) (q.(na)) (q.(skip))
     (q.(mask)).
Definition set_responseValueColumn (v : string) (q : t) : t :=
  mk (q.(fieldName)) (q.(questionType)) (q.(fieldType)) (q.(questionText))
     (q.(maxCharacters)) (q.(responses)) (q.(responseSourceType))
     (q.(responseSourceFile)) (q.(responseSourceTable)) (q.(responseFilters))
     (q.(responseDisplayColumn)) v (q.(responseDistinct))
     (q.(responseEmptyMessage)) (q.(responseDontKnowValue))
     (q.(responseDontKnowLabel)) (q.(responseNotInListValue))
     (q.(responseNotInListLabel)) (q.(calculationType))
     (q.(calculationQuerySql)) (q.(calculationQueryParameters))
     (q.(calculationCaseConditions)) (q.(calculationCaseElse))
     (q.(calculationConstantValue)) (q.(calculationLookupField))
     (q.(calculationMathOperator)) (q.(calculationMathParts))
     (q.(calculationConcatSeparator)) (q.(calculationConcatParts))
     (q.(calculationUnit)) (q.(lowerRange)) (q.(upperRange)) (q.(logicChecks))
     (q.(uniqueCheckMessage)) (q.(dontKnow)) (q.(refuse)) (q.(na)) (q.(skip))
     (q.(mask)).
Definition set_responseDistinct (v : option bool) (q : t) : t :=
  mk (q.(fieldName)) (q.(questionType)) (q.(fieldType)) (q.(questionText))
     (q.(maxCharacters)) (q.(responses)) (q.(responseSourceType))
     (q.(responseSourceFile)) (q.(responseSourceTable)) (q.(responseFilters))
     (q.(responseDisplayColumn)) (q.(responseValueColumn)) v
     (q.(responseEmptyMessage)) (q.(responseDontKnowValue))
     (q.(responseDontKnowLabel)) (q.(responseNotInListValue))
     (q.(responseNotInListLabel)) (q.(calculationType))
     (q.(calculationQuerySql)) (q.(calculationQueryParameters))
     (q.(calculationCaseConditions)) (q.(calculationCaseElse))
     (q.(calculationConstantValue)) (q.(calculationLookupField))
     (q.(calculationMathOperator)) (q.(calculationMathParts))
     (q.(calculationConcatSeparator)) (q.(calculationConcatParts))
     (q.(calculationUnit)) (q.(lowerRange)) (q.(upperRange)) (q.(logicChecks))
     (q.(uniqueCheckMessage)) (q.(dontKnow)) (q.(refuse)) (q.(na)) (q.(skip))
     (q.(mask)).
Definition set_responseEmptyMessage (v : string) (q : t) : t :=
  mk (q.(fieldName)) (q.(questionType)) (q.(fieldType)) (q.(questionText))
     (q.(maxCharacters)) (q.(responses)) (q.(responseSourceType))
     (q.(responseSourceFile)) (q.(responseSourceTable)) (q.(responseFilters))
     (q.(responseDisplayColumn)) (q.(responseValueColumn))
     (q.(responseDistinct)) v (q.(responseDontKnowValue))
     (q.(responseDontKnowLabel)) (q.(responseNotInListValue))
     (q.(responseNotInListLabel)) (q.(calculationType))
     (q.(calculationQuerySql)) (q.(calculationQueryParameters))
     (q.(calculationCaseConditions)) (q.(calculationCaseElse))
     (q.(calculationConstantValue)) (q.(calculationLookupField))
     (q.(calculationMathOperator)) (q.(calculationMathParts))
     (q.(calculationConcatSeparator)) (q.(calculationConcatParts))
     (q.(calculationUnit)) (q.(lowerRange)) (q.(upperRange)) (q.(logicChecks))
     (q.(uniqueCheckMessage)) (q.(dontKnow)) (q.(refuse)) (q.(na)) (q.(skip))
     (q.(mask)).
Definition set_responseDontKnowValue (v : string) (q : t) : t :=
  mk (q.(fieldName)) (q.(questionType)) (q.(fieldType)) (q.(questionText))
     (q.(maxCharacters)) (q.(responses)) (q.(responseSourceType))
     (q.(responseSourceFile)) (q.(responseSourceTable)) (q.(responseFilters))
     (q.(responseDisplayColumn)) (q.(responseValueColumn))
     (q.(responseDistinct)) (q.(responseEmptyMessage)) v
     (q.(responseDontKnowLabel)) (q.(responseNotInListValue))
     (q.(responseNotInListLabel)) (q.(calculationType))
     (q.(calculationQuerySql)) (q.(calculationQueryParameters))
     (q.(calculationCaseConditions)) (q.(calculationCaseElse))
     (q.(calculationConstantValue)) (q.(calculationLookupField))
     (q.(calculationMathOperator)) (q.(calculationMathParts))
     (q.(calculationConcatSeparator)) (q.(calculationConcatParts))
     (q.(calculationUnit)) (q.(lowerRange)) (q.(upperRange)) (q.(logicChecks))
     (q.(uniqueCheckMessage)) (q.(dontKnow)) (q.(refuse)) (q.(na)) (q.(skip))
     (q.(mask)).
Definition set_responseDontKnowLabel (v : string) (q : t) : t :=
  mk (q.(fieldName)) (q.(questionType)) (q.(fieldType)) (q.(questionText))
     (q.(maxCharacters)) (q.(responses)) (q.(responseSourceType))
     (q.(responseSourceFile)) (q.(responseSourceTable)) (q.(responseFilters))
     (q.(responseDisplayColumn)) (q.(responseValueColumn))
     (q.(responseDistinct)) (q.(responseEmptyMessage))
     (q.(responseDontKnowValue)) v (q.(responseNotInListValue))
     (q.(responseNotInListLabel)) (q.(calculationType))
     (q.(calculationQuerySql)) (q.(calculationQueryParameters))
     (q.(calculationCaseConditions)) (q.(calculationCaseElse))
     (q.(calculationConstantValue)) (q.(calculationLookupField))
     (q.(calculationMathOperator)) (q.(calculationMathParts))
     (q.(calculationConcatSeparator)) (q.(calculationConcatParts))
     (q.(calculationUnit)) (q.(lowerRange)) (q.(upperRange)) (q.(logicChecks))
     (q.(uniqueCheckMessage)) (q.(dontKnow)) (q.(refuse)) (q.(na)) (q.(skip))
     (q.(mask)).
Definition set_responseNotInListValue (v : string) (q : t) : t :=
  mk (q.(fieldName)) (q.(questionType)) (q.(fieldType)) (q.(questionText))
     (q.(maxCharacters)) (q.(responses)) (q.(responseSourceType))
     (q.(responseSourceFile)) (q.(responseSourceTable)) (q.(responseFilters))
     (q.(responseDisplayColumn)) (q.(responseValueColumn))
     (q.(responseDistinct)) (q.(responseEmptyMessage))
     (q.(responseDontKnowValue)) (q.(responseDontKnowLabel)) v
     (q.(responseNotInListLabel)) (q.(calculationType))
     (q.(calculationQuerySql)) (q.(calculationQueryParameters))
     (q.(calculationCaseConditions)) (q.(calculationCaseElse))
     (q.(calculationConstantValue)) (q.(calculationLookupField))
     (q.(calculationMathOperator)) (q.(calculationMathParts))
     (q.(calculationConcatSeparator)) (q.(calculationConcatParts))
     (q.(calculationUnit)) (q.(lowerRange)) (q.(upperRange)) (q.(logicChecks))
     (q.(uniqueCheckMessage)) (q.(dontKnow)) (q.(refuse)) (q.(na)) (q.(skip))
     (q.(mask)).
Definition set_responseNotInListLabel (v : string) (q : t) : t :=
  mk (q.(fieldName)) (q.(questionType)) (q.(fieldType)) (q.(questionText))
     (q.(maxCharacters)) (q.(responses)) (q.(responseSourceType))
     (q.(responseSourceFile)) (q.(responseSourceTable)) (q.(responseFilters))
     (q.(responseDisplayColumn)) (q.(responseValueColumn))
     (q.(responseDistinct)) (q.(responseEmptyMessage))
     (q.(responseDontKnowValue)) (q.(responseDontKnowLabel))
     (q.(responseNotInListValue)) v (q.(calculationType))
     (q.(calculationQuerySql)) (q.(calculationQueryParameters))
     (q.(calculationCaseConditions)) (q.(calculationCaseElse))
     (q.(calculationConstantValue)) (q.(calculationLookupField))
     (q.(calculationMathOperator)) (q.(calculationMathParts))
     (q.(calculationConcatSeparator)) (q.(calculationConcatParts))
     (q.(calculationUnit)) (q.(lowerRange)) (q.(upperRange)) (q.(logicChecks))
     (q.(uniqueCheckMessage)) (q.(dontKnow)) (q.(refuse)) (q.(na)) (q.(skip))
     (q.(mask)).
Definition set_calculationType (v : CalculationType) (q : t) : t :=
  mk (q.(fieldName)) (q.(questionType)) (q.(fieldType)) (q.(questionText))
     (q.(maxCharacters)) (q.(responses)) (q.(responseSourceType))
     (q.(responseSourceFile)) (q.(responseSourceTable)) (q.(responseFilters))
     (q.(responseDisplayColumn)) (q.(responseValueColumn))
     (q.(responseDistinct)) (q.(responseEmptyMessage))
     (q.(responseDontKnowValue)) (q.(responseDontKnowLabel))
     (q.(responseNotInListValue)) (q.(responseNotInListLabel)) v
     (q.(calculationQuerySql)) (q.(calculationQueryParameters))
     (q.(calculationCaseConditions)) (q.(calculationCaseElse))
     (q.(calculationConstantValue)) (q.(calculationLookupField))
     (q.(calculationMathOperator)) (q.(calculationMathParts))
     (q.(calculationConcatSeparator)) (q.(calculationConcatParts))
     (q.(calculationUnit)) (q.(lowerRange)) (q.(upperRange)) (q.(logicChecks))
     (q.(uniqueCheckMessage)) (q.(dontKnow)) (q.(refuse)) (q.(na)) (q.(skip))
     (q.(mask)).
Definition set_calculationQuerySql (v : string) (q : t) : t :=
  mk (q.(fieldName)) (q.(questionType)) (q.(fieldType)) (q.(questionText))
     (q.(maxCharacters)) (q.(responses)) (q.(responseSourceType))
     (q.(responseSourceFile)) (q.(responseSourceTable)) (q.(responseFilters))
     (q.(responseDisplayColumn)) (q.(responseValueColumn))
     (q.(responseDistinct)) (q.(responseEmptyMessage))
     (q.(responseDontKnowValue)) (q.(responseDontKnowLabel))
     (q.(responseNotInListValue)) (q.(responseNotInListLabel))
     (q.(calculationType)) v (q.(calculationQueryParameters))
     (q.(calculationCaseConditions)) (q.(calculationCaseElse))
     (q.(calculationConstantValue)) (q.(calculationLookupField))
     (q.(calculationMathOperator)) (q.(calculationMathParts))
     (q.(calculationConcatSeparator)) (q.(calculationConcatParts))
     (q.(calculationUnit)) (q.(lowerRange)) (q.(upperRange)) (q.(logicChecks))
     (q.(uniqueCheckMessage)) (q.(dontKnow)) (q.(refuse)) (q.(na)) (q.(skip))
     (q.(mask)).
Definition set_calculationQueryParameters (v : list CalculationParameter.t) (q : t) : t :=
  mk (q.(fieldName)) (q.(questionType)) (q.(fieldType)) (q.(questionText))
     (q.(maxCharacters)) (q.(responses)) (q.(responseSourceType))
     (q.(responseSourceFile)) (q.(responseSourceTable)) (q.(responseFilters))
     (q.(responseDisplayColumn)) (q.(responseValueColumn))
     (q.(responseDistinct)) (q.(responseEmptyMessage))
     (q.(responseDontKnowValue)) (q.(responseDontKnowLabel))
     (q.(responseNotInListValue)) (q.(responseNotInListLabel))
     (q.(calculationType)) (q.(calculationQuerySql)) v
     (q.(calculationCaseConditions)) (q.(calculationCaseElse))
     (q.(calculationConstantValue)) (q.(calculationLookupField))
     (q.(calculationMathOperator)) (q.(calculationMathParts))
     (q.(calculationConcatSeparator)) (q.(calculationConcatParts))
     (q.(calculationUnit)) (q.(lowerRange)) (q.(upperRange)) (q.(logicChecks))
     (q.(uniqueCheckMessage)) (q.(dontKnow)) (q.(refuse)) (q.(na)) (q.(skip))
     (q.(mask)).
Definition set_calculationCaseConditions (v : list CaseCondition.t) (q : t) : t :=
  mk (q.(fieldName)) (q.(questionType)) (q.(fieldType)) (q.(questionText))
     (q.(maxCharacters)) (q.(responses)) (q.(responseSourceType))
     (q.(responseSourceFile)) (q.(responseSourceTable)) (q.(responseFilters))
     (q.(responseDisplayColumn)) (q.(responseValueColumn))
     (q.(responseDistinct)) (q.(responseEmptyMessage))
     (q.(responseDontKnowValue)) (q.(responseDontKnowLabel))
     (q.(responseNotInListValue)) (q.(responseNotInListLabel))
     (q.(calculationType)) (q.(calculationQuerySql))
     (q.(calculationQueryParameters)) v (q.(calculationCaseElse))
     (q.(calculationConstantValue)) (q.(calculationLookupField))
     (q.(calculationMathOperator)) (q.(calculationMathParts))
     (q.(calculationConcatSeparator)) (q.(calculationConcatParts))
     (q.(calculationUnit)) (q.(lowerRange)) (q.(upperRange)) (q.(logicChecks))
     (q.(uniqueCheckMessage)) (q.(dontKnow)) (q.(refuse)) (q.(na)) (q.(skip))
     (q.(mask)).
Definition set_calculationCaseElse (v : option CalculationPart.t) (q : t) : t :=
  mk (q.(fieldName)) (q.(questionType)) (q.(fieldType)) (q.(questionText))
     (q.(maxCharacters)) (q.(responses)) (q.(responseSourceType))
     (q.(responseSourceFile)) (q.(responseSourceTable)) (q.(responseFilters))
     (q.(responseDisplayColumn)) (q.(responseValueColumn))
     (q.(responseDistinct)) (q.(responseEmptyMessage))
     (q.(responseDontKnowValue)) (q.(responseDontKnowLabel))
     (q.(responseNotInListValue)) (q.(responseNotInListLabel))
     (q.(calculationType)) (q.(calculationQuerySql))
     (q.(calculationQueryParameters)) (q.(calculationCaseConditions)) v
     (q.(calculationConstantValue)) (q.(calculationLookupField))
     (q.(calculationMathOperator)) (q.(calculationMathParts))
     (q.(calculationConcatSeparator)) (q.(calculationConcatParts))
     (q.(calculationUnit)) (q.(lowerRange)) (q.(upperRange)) (q.(logicChecks))
     (q.(uniqueCheckMessage)) (q.(dontKnow)) (q.(refuse)) (q.(na)) (q.(skip))
     (q.(mask)).
Definition set_calculationConstantValue (v : string) (q : t) : t :=
  mk (q.(fieldName)) (q.(questionType)) (q.(fieldType)) (q.(questionText))
     (q.(maxCharacters)) (q.(responses)) (q.(responseSourceType))
     (q.(responseSourceFile)) (q.(responseSourceTable)) (q.(responseFilters))
     (q.(responseDisplayColumn)) (q.(responseValueColumn))
     (q.(responseDistinct)) (q.(responseEmptyMessage))
     (q.(responseDontKnowValue)) (q.(responseDontKnowLabel))
     (q.(responseNotInListValue)) (q.(responseNotInListLabel))
     (q.(calculationType)) (q.(calculationQuerySql))
     (q.(calculationQueryParameters)) (q.(calculationCaseConditions))
     (q.(calculationCaseElse)) v (q.(calculationLookupField))
     (q.(calculationMathOperator)) (q.(calculationMathParts))
     (q.(calculationConcatSeparator)) (q.(calculationConcatParts))
     (q.(calculationUnit)) (q.(lowerRange)) (q.(upperRange)) (q.(logicChecks))
     (q.(uniqueCheckMessage)) (q.(dontKnow)) (q.(refuse)) (q.(na)) (q.(skip))
     (q.(mask)).
Definition set_calculationLookupField (v : string) (q : t) : t :=
  mk (q.(fieldName)) (q.(questionType)) (q.(fieldType)) (q.(questionText))
     (q.(maxCharacters)) (q.(responses)) (q.(responseSourceType))
     (q.(responseSourceFile)) (q.(responseSourceTable)) (q.(responseFilters))
     (q.(responseDisplayColumn)) (q.(responseValueColumn))
     (q.(responseDistinct)) (q.(responseEmptyMessage))
     (q.(responseDontKnowValue)) (q.(responseDontKnowLabel))
     (q.(responseNotInListValue)) (q.(responseNotInListLabel))
     (q.(calculationType)) (q.(calculationQuerySql))
     (q.(calculationQueryParameters)) (q.(calculationCaseConditions))
     (q.(calculationCaseElse)) (q.(calculationConstantValue)) v
     (q.(calculationMathOperator)) (q.(calculationMathParts))
     (q.(calculationConcatSeparator)) (q.(calculationConcatParts))
     (q.(calculationUnit)) (q.(lowerRange)) (q.(upperRange)) (q.(logicChecks))
     (q.(uniqueCheckMessage)) (q.(dontKnow)) (q.(refuse)) (q.(na)) (q.(skip))
     (q.(mask)).
Definition set_calculationMathOperator (v : string) (q : t) : t :=
  mk (q.(fieldName)) (q.(questionType)) (q.(fieldType)) (q.(questionText))
     (q.(maxCharacters)) (q.(responses)) (q.(responseSourceType))
     (q.(responseSourceFile)) (q.(responseSourceTable)) (q.(responseFilters))
     (q.(responseDisplayColumn)) (q.(responseValueColumn))
     (q.(responseDistinct)) (q.(responseEmptyMessage))
     (q.(responseDontKnowValue)) (q.(responseDontKnowLabel))
     (q.(responseNotInListValue)) (q.(responseNotInListLabel))
     (q.(calculationType)) (q.(calculationQuerySql))
     (q.(calculationQueryParameters)) (q.(calculationCaseConditions))
     (q.(calculationCaseElse)) (q.(calculationConstantValue))
     (q.(calculationLookupField)) v (q.(calculationMathParts))
     (q.(calculationConcatSeparator)) (q.(calculationConcatParts))
     (q.(calculationUnit)) (q.(lowerRange)) (q.(upperRange)) (q.(logicChecks))
     (q.(uniqueCheckMessage)) (q.(dontKnow)) (q.(refuse)) (q.(na)) (q.(skip))
     (q.(mask)).
Definition set_calculationMathParts (v : list CalculationPart.t) (q : t) : t :=
  mk (q.(fieldName)) (q.(questionType)) (q.(fieldType)) (q.(questionText))
     (q.(maxCharacters)) (q.(responses)) (q.(responseSourceType))
     (q.(responseSourceFile)) (q.(responseSourceTable)) (q.(responseFilters))
     (q.(responseDisplayColumn)) (q.(responseValueColumn))
     (q.(responseDistinct)) (q.(responseEmptyMessage))
     (q.(responseDontKnowValue)) (q.(responseDontKnowLabel))
     (q.(responseNotInListValue)) (q.(responseNotInListLabel))
     (q.(calculationType)) (q.(calculationQuerySql))
     (q.(calculationQueryParameters)) (q.(calculationCaseConditions))
     (q.(calculationCaseElse)) (q.(calculationConstantValue))
     (q.(calculationLookupField)) (q.(calculationMathOperator)) v
     (q.(calculationConcatSeparator)) (q.(calculationConcatParts))
     (q.(calculationUnit)) (q.(lowerRange)) (q.(upperRange)) (q.(logicChecks))
     (q.(uniqueCheckMessage)) (q.(dontKnow)) (q.(refuse)) (q.(na)) (q.(skip))
     (q.(mask)).
Definition set_calculationConcatSeparator (v : string) (q : t) : t :=
  mk (q.(fieldName)) (q.(questionType)) (q.(fieldType)) (q.(questionText))
     (q.(maxCharacters)) (q.(responses)) (q.(responseSourceType))
     (q.(responseSourceFile)) (q.(responseSourceTable)) (q.(responseFilters))
     (q.(responseDisplayColumn)) (q.(responseValueColumn))
     (q.(responseDistinct)) (q.(responseEmptyMessage))
     (q.(responseDontKnowValue)) (q.(responseDontKnowLabel))
     (q.(responseNotInListValue)) (q.(responseNotInListLabel))
     (q.(calculationType)) (q.(calculationQuerySql))
     (q.(calculationQueryParameters)) (q.(calculationCaseConditions))
     (q.(calculationCaseElse)) (q.(calculationConstantValue))
     (q.(calculationLookupField)) (q.(calculationMathOperator))
     (q.(calculationMathParts)) v (q.(calculationConcatParts))
     (q.(calculationUnit)) (q.(lowerRange)) (q.(upperRange)) (q.(logicChecks))
     (q.(uniqueCheckMessage)) (q.(dontKnow)) (q.(refuse)) (q.(na)) (q.(skip))
     (q.(mask)).
Definition set_calculationConcatParts (v : list CalculationPart.t) (q : t) : t :=
  mk (q.(fieldName)) (q.(questionType)) (q.(fieldType)) (q.(questionText))
     (q.(maxCharacters)) (q.(responses)) (q.(responseSourceType))
     (q.(responseSourceFile)) (q.(responseSourceTable)) (q.(responseFilters))
     (q.(responseDisplayColumn)) (q.(responseValueColumn))
     (q.(responseDistinct)) (q.(responseEmptyMessage))
     (q.(responseDontKnowValue)) (q.(responseDontKnowLabel))
     (q.(responseNotInListValue)) (q.(responseNotInListLabel))
     (q.(calculationType)) (q.(calculationQuerySql))
     (q.(calculationQueryParameters)) (q.(calculationCaseConditions))
     (q.(calculationCaseElse)) (q.(calculationConstantValue))
     (q.(calculationLookupField)) (q.(calculationMathOperator))
     (q.(calculationMathParts)) (q.(calculationConcatSeparator)) v
     (q.(calculationUnit)) (q.(lowerRange)) (q.(upperRange)) (q.(logicChecks))
     (q.(uniqueCheckMessage)) (q.(dontKnow)) (q.(refuse)) (q.(na)) (q.(skip))
     (q.(mask)).
Definition set_calculationUnit (v : string) (q : t) : t :=
  mk (q.(fieldName)) (q.(questionType)) (q.(fieldType)) (q.(questionText))
     (q.(maxCharacters)) (q.(responses)) (q.(responseSourceType))
     (q.(responseSourceFile)) (q.(responseSourceTable)) (q.(responseFilters))
     (q.(responseDisplayColumn)) (q.(responseValueColumn))
     (q.(responseDistinct)) (q.(responseEmptyMessage))
     (q.(responseDontKnowValue)) (q.(responseDontKnowLabel))
     (q.(responseNotInListValue)) (q.(responseNotInListLabel))
     (q.(calculationType)) (q.(calculationQuerySql))
     (q.(calculationQueryParameters)) (q.(calculationCaseConditions))
     (q.(calculationCaseElse)) (q.(calculationConstantValue))
     (q.(calculationLookupField)) (q.(calculationMathOperator))
     (q.(calculationMathParts)) (q.(calculationConcatSeparator))
     (q.(calculationConcatParts)) v (q.(lowerRange)) (q.(upperRange))
     (q.(logicChecks)) (q.(uniqueCheckMessage)) (q.(dontKnow)) (q.(refuse))
     (q.(na)) (q.(skip)) (q.(mask)).
Definition set_lowerRange (v : string) (q : t) : t :=
  mk (q.(fieldName)) (q.(questionType)) (q.(fieldType)) (q.(questionText))
     (q.(maxCharacters)) (q.(responses)) (q.(responseSourceType))
     (q.(responseSourceFile)) (q.(responseSourceTable)) (q.(responseFilters))
     (q.(responseDisplayColumn)) (q.(responseValueColumn))
     (q.(responseDistinct)) (q.(responseEmptyMessage))
     (q.(responseDontKnowValue)) (q.(responseDontKnowLabel))
     (q.(responseNotInListValue)) (q.(responseNotInListLabel))
     (q.(calculationType)) (q.(calculationQuerySql))
     (q.(calculationQueryParameters)) (q.(calculationCaseConditions))
     (q.(calculationCaseElse)) (q.(calculationConstantValue))
     (q.(calculationLookupField)) (q.(calculationMathOperator))
     (q.(calculationMathParts)) (q.(calculationConcatSeparator))
     (q.(calculationConcatParts)) (q.(calculationUnit)) v (q.(upperRange))
     (q.(logicChecks)) (q.(uniqueCheckMessage)) (q.(dontKnow)) (q.(refuse))
     (q.(na)) (q.(skip)) (q.(mask)).
Definition set_upperRange (v : string) (q : t) : t :=
  mk (q.(fieldName)) (q.(questionType)) (q.(fieldType)) (q.(questionText))
     (q.(maxCharacters)) (q.(responses)) (q.(responseSourceType))
     (q.(responseSourceFile)) (q.(responseSourceTable)) (q.(responseFilters))
     (q.(responseDisplayColumn)) (q.(responseValueColumn))
     (q.(responseDistinct)) (q.(responseEmptyMessage))
     (q.(responseDontKnowValue)) (q.(responseDontKnowLabel))
     (q.(responseNotInListValue)) (q.(responseNotInListLabel))
     (q.(calculationType)) (q.(calculationQuerySql))
     (q.(calculationQueryParameters)) (q.(calculationCaseConditions))
     (q.(calculationCaseElse)) (q.(calculationConstantValue))
     (q.(calculationLookupField)) (q.(calculationMathOperator))
     (q.(calculationMathParts)) (q.(calculationConcatSeparator))
     (q.(calculationConcatParts)) (q.(calculationUnit)) (q.(lowerRange)) v
     (q.(logicChecks)) (q.(uniqueCheckMessage)) (q.(dontKnow)) (q.(refuse))
     (q.(na)) (q.(skip)) (q.(mask)).
Definition set_logicChecks (v : list string) (q : t) : t :=
  mk (q.(fieldName)) (q.(questionType)) (q.(fieldType)) (q.(questionText))
     (q.(maxCharacters)) (q.(responses)) (q.(responseSourceType))
     (q.(responseSourceFile)) (q.(responseSourceTable)) (q.(responseFilters))
     (q.(responseDisplayColumn)) (q.(responseValueColumn))
     (q.(responseDistinct)) (q.(responseEmptyMessage))
     (q.(responseDontKnowValue)) (q.(responseDontKnowLabel))
     (q.(responseNotInListValue)) (q.(responseNotInListLabel))
     (q.(calculationType)) (q.(calculationQuerySql))
     (q.(calculationQueryParameters)) (q.(calculationCaseConditions))
     (q.(calculationCaseElse)) (q.(calculationConstantValue))
     (q.(calculationLookupField)) (q.(calculationMathOperator))
     (q.(calculationMathParts)) (q.(calculationConcatSeparator))
     (q.(calculationConcatParts)) (q.(calculationUnit)) (q.(lowerRange))
     (q.(upperRange)) v (q.(uniqueCheckMessage)) (q.(dontKnow)) (q.(refuse))
     (q.(na)) (q.(skip)) (q.(mask)).
Definition set_uniqueCheckMessage (v : string) (q : t) : t :=
  mk (q.(fieldName)) (q.(questionType)) (q.(fieldType)) (q.(questionText))
     (q.(maxCharacters)) (q.(responses)) (q.(responseSourceType))
     (q.(responseSourceFile)) (q.(responseSourceTable)) (q.(responseFilters))
     (q.(responseDisplayColumn)) (q.(responseValueColumn))
     (q.(responseDistinct)) (q.(responseEmptyMessage))
     (q.(responseDontKnowValue)) (q.(responseDontKnowLabel))
     (q.(responseNotInListValue)) (q.(responseNotInListLabel))
     (q.(calculationType)) (q.(calculationQuerySql))
     (q.(calculationQueryParameters)) (q.(calculationCaseConditions))
     (q.(calculationCaseElse)) (q.(calculationConstantValue))
     (q.(calculationLookupField)) (q.(calculationMathOperator))
     (q.(calculationMathParts)) (q.(calculationConcatSeparator))
     (q.(calculationConcatParts)) (q.(calculationUnit)) (q.(lowerRange))
     (q.(upperRange)) (q.(logicChecks)) v (q.(dontKnow)) (q.(refuse)) (q.(na))
     (q.(skip)) (q.(mask)).
Definition set_dontKnow (v : string) (q : t) : t :=
  mk (q.(fieldName)) (q.(questionType)) (q.(fieldType)) (q.(questionText))
     (q.(maxCharacters)) (q.(responses)) (q.(responseSourceType))
     (q.(responseSourceFile)) (q.(responseSourceTable)) (q.(responseFilters))
     (q.(responseDisplayColumn)) (q.(responseValueColumn))
     (q.(responseDistinct)) (q.(responseEmptyMessage))
     (q.(responseDontKnowValue)) (q.(responseDontKnowLabel))
     (q.(responseNotInListValue)) (q.(responseNotInListLabel))
     (q.(calculationType)) (q.(calculationQuerySql))
     (q.(calculationQueryParameters)) (q.(calculationCaseConditions))
     (q.(calculationCaseElse)) (q.(calculationConstantValue))
     (q.(calculationLookupField)) (q.(calculationMathOperator))
     (q.(calculationMathParts)) (q.(calculationConcatSeparator))
     (q.(calculationConcatParts)) (q.(calculationUnit)) (q.(lowerRange))
     (q.(upperRange)) (q.(logicChecks)) (q.(uniqueCheckMessage)) v
     (q.(refuse)) (q.(na)) (q.(skip)) (q.(mask)).
Definition set_refuse (v : string) (q : t) : t :=
  mk (q.(fieldName)) (q.(questionType)) (q.(fieldType)) (q.(questionText))
     (q.(maxCharacters)) (q.(responses)) (q.(responseSourceType))
     (q.(responseSourceFile)) (q.(responseSourceTable)) (q.(responseFilters))
     (q.(responseDisplayColumn)) (q.(responseValueColumn))
     (q.(responseDistinct)) (q.(responseEmptyMessage))
     (q.(responseDontKnowValue)) (q.(responseDontKnowLabel))
     (q.(responseNotInListValue)) (q.(responseNotInListLabel))
     (q.(calculationType)) (q.(calculationQuerySql))
     (q.(calculationQueryParameters)) (q.(calculationCaseConditions))
     (q.(calculationCaseElse)) (q.(calculationConstantValue))
     (q.(calculationLookupField)) (q.(calculationMathOperator))
     (q.(calculationMathParts)) (q.(calculationConcatSeparator))
     (q.(calculationConcatParts)) (q.(calculationUnit)) (q.(lowerRange))
     (q.(upperRange)) (q.(logicChecks)) (q.(uniqueCheckMessage))
     (q.(dontKnow)) v (q.(na)) (q.(skip)) (q.(mask)).
Definition set_na (v : string) (q : t) : t :=
  mk (q.(fieldName)) (q.(questionType)) (q.(fieldType)) (q.(questionText))
     (q.(maxCharacters)) (q.(responses)) (q.(responseSourceType))
     (q.(responseSourceFile)) (q.(responseSourceTable)) (q.(responseFilters))
     (q.(responseDisplayColumn)) (q.(responseValueColumn))
     (q.(responseDistinct)) (q.(responseEmptyMessage))
     (q.(responseDontKnowValue)) (q.(responseDontKnowLabel))
     (q.(responseNotInListValue)) (q.(responseNotInListLabel))
     (q.(calculationType)) (q.(calculationQuerySql))
     (q.(calculationQueryParameters)) (q.(calculationCaseConditions))
     (q.(calculationCaseElse)) (q.(calculationConstantValue))
     (q.(calculationLookupField)) (q.(calculationMathOperator))
     (q.(calculationMathParts)) (q.(calculationConcatSeparator))
     (q.(calculationConcatParts)) (q.(calculationUnit)) (q.(lowerRange))
     (q.(upperRange)) (q.(logicChecks)) (q.(uniqueCheckMessage))
     (q.(dontKnow)) (q.(refuse)) v (q.(skip)) (q.(mask)).
Definition set_skip (v : string) (q : t) : t :=
  mk (q.(fieldName)) (q.(questionType)) (q.(fieldType)) (q.(questionText))
     (q.(maxCharacters)) (q.(responses)) (q.(responseSourceType))
     (q.(responseSourceFile)) (q.(responseSourceTable)) (q.(responseFilters))
     (q.(responseDisplayColumn)) (q.(responseValueColumn))
     (q.(responseDistinct)) (q.(responseEmptyMessage))
     (q.(responseDontKnowValue)) (q.(responseDontKnowLabel))
     (q.(responseNotInListValue)) (q.(responseNotInListLabel))
     (q.(calculationType)) (q.(calculationQuerySql))
     (q.(calculationQueryParameters)) (q.(calculationCaseConditions))
     (q.(calculationCaseElse)) (q.(calculationConstantValue))
     (q.(calculationLookupField)) (q.(calculationMathOperator))
     (q.(calculationMathParts)) (q.(calculationConcatSeparator))
     (q.(calculationConcatParts)) (q.(calculationUnit)) (q.(lowerRange))
     (q.(upperRange)) (q.(logicChecks)) (q.(uniqueCheckMessage))
     (q.(dontKnow)) (q.(refuse)) (q.(na)) v (q.(mask)).
Definition set_mask (v : string) (q : t) : t :=
  mk (q.(fieldName)) (q.(questionType)) (q.(fieldType)) (q.(questionText))
     (q.(maxCharacters)) (q.(responses)) (q.(responseSourceType))
     (q.(responseSourceFile)) (q.(responseSourceTable)) (q.(responseFilters))
     (q.(responseDisplayColumn)) (q.(responseValueColumn))
     (q.(responseDistinct)) (q.(responseEmptyMessage))
     (q.(responseDontKnowValue)) (q.(responseDontKnowLabel))
     (q.(responseNotInListValue)) (q.(responseNotInListLabel))
     (q.(calculationType)) (q.(calculationQuerySql))
     (q.(calculationQueryParameters)) (q.(calculationCaseConditions))
     (q.(calculationCaseElse)) (q.(calculationConstantValue))
     (q.(calculationLookupField)) (q.(calculationMathOperator))
     (q.(calculationMathParts)) (q.(calculationConcatSeparator))
     (q.(calculationConcatParts)) (q.(calculationUnit)) (q.(lowerRange))
     (q.(upperRange)) (q.(logicChecks)) (q.(uniqueCheckMessage))
     (q.(dontKnow)) (q.(refuse)) (q.(na)) (q.(skip)) v.
End Question.

(* ================================================================== *)
(** * The worksheet (the part of openpyxl the program reads) *)
(* ================================================================== *)

Inductive CellValue : Type :=
| VNone
| VStr (s : string)
| VInt (z : Z)
| VBool (b : bool).

(** A merged range: first row, first column, last row, last column. *)
Definition CellRange : Type := (nat * nat * nat * nat)%type.

Record Worksheet : Type := mkWorksheet {
  title : string;
  sheet_rows : list (list CellValue);
  merged_cells : list CellRange
}.

(** [ws.max_row]: an empty sheet has one row. *)
Definition max_row (ws : Worksheet) : nat := Nat.max 1 (List.length (sheet_rows ws)).

(** [ws.cell(row=row, column=col).value], rows and columns counted from 1. *)
Definition cell_value (ws : Worksheet) (row col : nat) : CellValue :=
  nth (col - 1) (nth (row - 1) (sheet_rows ws) []) VNone.

(** [coord in merged_range] *)
Definition in_cell_range (row col : nat) (r : CellRange) : bool :=
  let '(r1, c1, r2, c2) := r in
  (r1 <=? row) && (row <=? r2) && (c1 <=? col) && (col <=? c2).

(* ================================================================== *)
(** * The reader and validator ([excel_reader.py]) *)
(* ================================================================== *)

Module ExcelReader.

Import Py.

Definition NUMBER_OF_COLUMNS : nat := 14.

Definition COLUMN_NAMES : list string :=
  ["FieldName"; "QuestionType"; "FieldType"; "QuestionText"; "MaxCharacters";
   "Responses"; "LowerRange"; "UpperRange"; "LogicCheck"; "DontKnow"; "Refuse";
   "NA"; "Skip"; "Comments"].

(** ** The compiled patterns *)

Definition is_char (c : ascii) : ascii -> bool := Ascii.eqb c.
Definition one_of (s : string) (c : ascii) : bool := any_char (Ascii.eqb c) s.

(** r"^\d+$" *)
Definition NUMERIC_ONLY_RE : Re.re :=
  Re.seq [Re.Bol; Re.Plus Re.digit; Re.Eol].

(** r"^\d+(\.\d+)?$" *)
Definition DECIMAL_RE : Re.re :=
  Re.seq [Re.Bol; Re.Plus Re.digit;
          Re.Opt (Re.Grp 1 (Re.Seq (Re.Lit ".") (Re.Plus Re.digit))); Re.Eol].

(** r"^([+-])(\d+)([dwmy])$" *)
Definition DATE_RANGE_RE : Re.re :=
  Re.seq [Re.Bol; Re.Grp 1 (Re.Cls (one_of "+-")); Re.Grp 2 (Re.Plus Re.digit);
          Re.Grp 3 (Re.Cls (one_of "dwmy")); Re.Eol].

(** r"^\d{4}-\d{2}-\d{2}$" *)
Definition HARDCODED_DATE_RE : Re.re :=
  Re.seq [Re.Bol; Re.Cls Re.digit; Re.Cls Re.digit; Re.Cls Re.digit; Re.Cls Re.digit;
          Re.Lit "-"; Re.Cls Re.digit; Re.Cls Re.digit;
          Re.Lit "-"; Re.Cls Re.digit; Re.Cls Re.digit; Re.Eol].

(** [a-z] and [0-9] under [re.IGNORECASE]. *)
Definition ascii_letter (c : ascii) : bool :=
  let n := nat_of_ascii c in in_range 65 90 n || in_range 97 122 n.

(** r"\b[a-z_][a-z0-9_]*\b" with [re.IGNORECASE] *)
Definition FIELD_NAME_RE : Re.re :=
  Re.seq [Re.WordB;
          Re.Cls (fun c => ascii_letter c || Ascii.eqb c "_");
          Re.Star (fun c => ascii_letter c || isdecimal c || Ascii.eqb c "_");
          Re.WordB].

(** r"'[^']*'" *)
Definition QUOTED_STRING_RE : Re.re :=
  Re.seq [Re.Lit "'"; Re.Star (fun c => negb (Ascii.eqb c "'")); Re.Lit "'"].

(** r"^(\w+)\s*(?:(=|!=|<>|>|<|>=|<=)\s*)?(.+)$" *)
Definition FILTER_MATCH_RE : Re.re :=
  Re.seq [Re.Bol; Re.Grp 1 (Re.Plus Re.word); Re.Star Re.space;
          Re.Opt (Re.Seq
                    (Re.Grp 2 (Re.alts [Re.Lit "="; Re.Lit "!="; Re.Lit "<>"; Re.Lit ">";
                                        Re.Lit "<"; Re.Lit ">="; Re.Lit "<="]))
                    (Re.Star Re.space));
          Re.Grp 3 (Re.Plus Re.dot); Re.Eol].

(** r"^(@?\w+)\s*=\s*(\w+)$" *)
Definition PARAMETER_RE : Re.re :=
  Re.seq [Re.Bol; Re.Grp 1 (Re.Seq (Re.Opt (Re.Lit "@")) (Re.Plus Re.word));
          Re.Star Re.space; Re.Lit "="; Re.Star Re.space;
          Re.Grp 2 (Re.Plus Re.word); Re.Eol].

(** r"^(\w+)\s+(=|!=|<>|>=|<=|>|<)\s+(.+?)\s*=>\s*(.+)$" *)
Definition WHEN_CONDITION_RE : Re.re :=
  Re.seq [Re.Bol; Re.Grp 1 (Re.Plus Re.word); Re.Plus Re.space;
          Re.Grp 2 (Re.alts [Re.Lit "="; Re.Lit "!="; Re.Lit "<>"; Re.Lit ">=";
                             Re.Lit "<="; Re.Lit ">"; Re.Lit "<"]);
          Re.Plus Re.space; Re.Grp 3 (Re.LazyPlus Re.dot); Re.Star Re.space;
          Re.Lit "=>"; Re.Star Re.space; Re.Grp 4 (Re.Plus Re.dot); Re.Eol].

Definition VALID_QUESTION_TYPES : list string :=
  ["radio"; "combobox"; "checkbox"; "text"; "date"; "information"; "automatic";
   "button"].

Definition VALID_FIELD_TYPES : list string :=
  ["text"; "datetime"; "date"; "phone_num"; "integer"; "text_integer";
   "text_decimal"; "text_id"; "n/a"; "hourmin"].

Definition BUILT_IN_AUTO_FIELDS : list string :=
  ["starttime"; "stoptime"; "uniqueid"; "swver"; "survey_id"; "lastmod"].

Definition LOGIC_KEYWORDS : list string := ["and"; "or"; "not"].

(** ** The reader object and its methods as state transformers *)

Record Reader : Type := mkReader {
  logstring : list string;
  errorsEncountered : bool;
  worksheetErrorsEncountered : bool;
  questionList : list Question.t
}.

(** [ExcelReader()] *)
Definition init : Reader := mkReader [] false false [].

Definition M (A : Type) : Type := Reader -> A * Reader.

Definition ret {A : Type} (a : A) : M A := fun s => (a, s).

Definition bind {A B : Type} (m : M A) (f : A -> M B) : M B :=
  fun s => let (a, s') := m s in f a s'.

Notation "x <- m ;; k" := (bind m (fun x => k))
  (at level 61, m at next level, right associativity).
Notation "m ;; k" := (bind m (fun _ => k))
  (at level 61, right associativity).

Definition pass : M unit := ret tt.

(** [self.logstring.append(message)] *)
Definition log (message : string) : M unit :=
  fun s => (tt, mkReader (logstring s ++ [message]) (errorsEncountered s)
                  (worksheetErrorsEncountered s) (questionList s)).

Definition _error (message : string) : M unit :=
  fun s => (tt, mkReader (logstring s ++ [message]) true true (questionList s)).

(** [for x in l: body(x)] *)
Fixpoint for_each {A : Type} (l : list A) (body : A -> M unit) : M unit :=
  match l with
  | [] => pass
  | x :: l' => body x ;; for_each l' body
  end.

(** A loop that carries the values its body assigns to. *)
Fixpoint for_fold {A B : Type} (l : list A) (body : B -> A -> M B) (b : B) : M B :=
  match l with
  | [] => ret b
  | x :: l' => b' <- body b x ;; for_fold l' body b'
  end.

Definition _split_lines (text : string) : list string :=
  filter truthy (re_split_newlines text).

(** [_to_str]: on an integer cell it is [str], which returns on what [int]
    produced. *)
Definition _to_str (value : CellValue) : string :=
  match value with
  | VNone => ""
  | VStr s => s
  | VInt z => str_of_Z z
  | VBool true => "True"
  | VBool false => "False"
  end.

Definition _get_cell_trim (ws : Worksheet) (row col : nat) : string :=
  strip (_to_str (cell_value ws row col)).

Definition _get_cell_raw (ws : Worksheet) (row col : nat) : string :=
  _to_str (cell_value ws row col).

Definition _is_cell_merged (ws : Worksheet) (row col : nat) : bool :=
  existsb (in_cell_range row col) (merged_cells ws).

Definition count_data_rows (ws : Worksheet) : nat :=
  List.length (filter (fun row_idx => negb (_is_cell_merged ws row_idx 14))
                 (List.seq 2 (max_row ws - 1))).

Definition _check_field_name (worksheet fieldname : string) : M unit :=
  match fieldname with
  | EmptyString =>
      _error (fstr ["ERROR - FieldName: "; worksheet; " has an empty FieldName"])
  | String c0 _ =>
      if isdigit c0 then
        _error (fstr ["ERROR - FieldName: "; worksheet;
                      " has a FieldName that starts with a number: "; fieldname])
      else if any_char (fun c => negb (isalnum c) && negb (Ascii.eqb c "_")) fieldname then
        _error (fstr ["ERROR - FieldName: "; worksheet;
                      " has an invalid FieldName.  Only letters, digits, and underscores are allowed: ";
                      fieldname])
      else if negb (String.eqb fieldname (lower fieldname)) then
        _error (fstr ["ERROR - FieldName: "; worksheet;
                      " has a FieldName that is not all lowercase: "; fieldname])
      else if Ascii.eqb c0 "_" then
        _error (fstr ["ERROR - FieldName: "; worksheet;
                      " has a FieldName that starts with an underscore: "; fieldname])
      else if contains fieldname " " then
        _error (fstr ["ERROR - FieldName: "; worksheet;
                      " has a FieldName that contains a space: "; fieldname])
      else pass
  end.

(** How a call ends: it returns, or it raises an exception, of which
    [str(ex)] is kept. *)
Inductive outcome : Type := Returns | Raises (ex : string).

Definition _check_max_chars_value (worksheet max_chars fieldname : string) : M outcome :=
  let numeric := if startswith max_chars "=" then drop 1 max_chars else max_chars in
  if negb (Re.fullmatch NUMERIC_ONLY_RE numeric) then
    _error (fstr ["ERROR - MaxCharacters: FieldName '"; fieldname; "' in worksheet '";
                  worksheet; "' has a non-numeric value for MaxCharacters: "; max_chars]) ;;
    ret Returns
  else if int_raises numeric then ret (Raises (int_error numeric))
  else
    let num := int numeric in
    if ((num <? 1) || (2000 <? num))%N then
      _error (fstr ["ERROR - MaxCharacters: FieldName '"; fieldname; "' in worksheet '";
                    worksheet;
                    "' has a MaxCharacters value that is out of range (1 to 2000): ";
                    max_chars]) ;;
      ret Returns
    else ret Returns.

(** How the body of a loop ends: go on with the next item, or [return]
    from the method. *)
Inductive flow : Type := Next | Return.

(** [for x in l: body(x)] where the body may [return]. *)
Fixpoint for_return {A : Type} (l : list A) (body : A -> M flow) : M unit :=
  match l with
  | [] => pass
  | x :: l' =>
      f <- body x ;;
      match f with
      | Next => for_return l' body
      | Return => pass
      end
  end.

Definition error_return (message : string) : M flow := _error message ;; ret Return.

Definition when (b : bool) (m : M unit) : M unit := if b then m else pass.

(** The loop of [_check_question_field_type] over the static responses;
    [seen] is the list of keys met so far. *)
Fixpoint static_responses_loop (fieldname worksheet : string) (seen : list string)
    (responses : list string) : M unit :=
  match responses with
  | [] => pass
  | response :: rest =>
      let invalid :=
        _error (fstr ["ERROR - Responses: Invalid static radio button options for '";
                      fieldname; "' in table '"; worksheet;
                      "'. Expected format 'number:Statement', found '"; response; "'."]) in
      match find ":" response with
      | None => invalid
      | Some index =>
          if negb (List.length (split ":" response) =? 2) then invalid
          else
            let key := take index response in
            let seen := seen ++ [key] in
            let duplicates := sorted_duplicates seen in
            if has_duplicates seen then
              _error (fstr ["ERROR - Responses: The Responses for FieldName '"; fieldname;
                            "' in table '"; worksheet; "' has duplicates ";
                            join "," duplicates])
            else if startswith response " " then
              _error (fstr ["ERROR - Responses: Invalid static radio button options for '";
                            fieldname; "' in table '"; worksheet;
                            "'. Please remove leading spaces."])
            else if contains response ": " then
              _error (fstr ["ERROR - Responses: Invalid static radio button options for '";
                            fieldname; "' in table '"; worksheet;
                            "'. Please remove space after the colon (:) for static responses."])
            else static_responses_loop fieldname worksheet seen rest
      end
  end.

Definition is_static (t : ResponseSourceType) : bool :=
  match t with STATIC => true | _ => false end.

Definition _check_question_field_type (q : Question.t) (worksheet : string) : M unit :=
  let questiontype := q.(Question.questionType) in
  let fieldtype := q.(Question.fieldType) in
  let fieldname := q.(Question.fieldName) in
  when (negb (mem questiontype VALID_QUESTION_TYPES))
    (_error (fstr ["ERROR - QuestionType: The QuestionType "; questiontype;
                   " for FieldName '"; fieldname; "' in table '"; worksheet;
                   "' is not among the predefined list."])) ;;
  when (negb (mem fieldtype VALID_FIELD_TYPES))
    (_error (fstr ["ERROR - FieldType: The FieldType '"; fieldtype; "' for FieldName '";
                   fieldname; "' in table '"; worksheet;
                   "' is not among the predefined list."])) ;;
  when (String.eqb questiontype "radio" && negb (String.eqb fieldtype "integer"))
    (_error (fstr ["ERROR - FieldType: The FieldType for FieldName '"; fieldname;
                   "' in table '"; worksheet;
                   "' must be integer when the QuestionType is 'radio'."])) ;;
  when (String.eqb questiontype "checkbox" && negb (String.eqb fieldtype "text"))
    (_error (fstr ["ERROR - FieldType: The FieldType for FieldName '"; fieldname;
                   "' in table '"; worksheet;
                   "' must be text when the QuestionType is 'checkbox'."])) ;;
  when (String.eqb questiontype "date" && negb (mem fieldtype ["date"; "datetime"]))
    (_error (fstr ["ERROR - FieldType: The FieldType for FieldName '"; fieldname;
                   "' in table '"; worksheet;
                   "' must be date when the QuestionType is 'date' or 'datetime'."])) ;;
  when (mem questiontype ["radio"; "checkbox"]
        && is_static q.(Question.responseSourceType)
        && truthy q.(Question.responses))
    (static_responses_loop fieldname worksheet []
       (_split_lines q.(Question.responses))).

Definition _check_numeric_range (worksheet value fieldname range_name : string) : M unit :=
  when (negb (Re.fullmatch DECIMAL_RE value))
    (_error (fstr ["ERROR - "; range_name; ": FieldName '"; fieldname; "' in worksheet '";
                   worksheet; "' has a non-numeric value for "; range_name; ": "; value])).

Definition is_leap (y : N) : bool :=
  ((y mod 4 =? 0) && (negb (y mod 100 =? 0) || (y mod 400 =? 0)))%N.

Definition days_in_month (y m : N) : N :=
  (match m with
   | 1 | 3 | 5 | 7 | 8 | 10 | 12 => 31
   | 4 | 6 | 9 | 11 => 30
   | 2 => if is_leap y then 29 else 28
   | _ => 0
   end)%N.

(** Whether [datetime.strptime(value, "%Y-%m-%d")] returns, for a [value]
    of the shape dddd-dd-dd; otherwise it raises [ValueError]. *)
Definition strptime_ymd (value : string) : bool :=
  let y := int (slice 0 4 value) in
  let m := int (slice 5 7 value) in
  let d := int (slice 8 10 value) in
  ((1 <=? y) && (1 <=? m) && (m <=? 12) && (1 <=? d) && (d <=? days_in_month y m))%N.

Definition _check_date_range (worksheet value fieldname range_name : string) : M unit :=
  if String.eqb value "-9" then
    _error (fstr ["ERROR - "; range_name; ": FieldName '"; fieldname; "' in worksheet '";
                  worksheet; "' has a missing value for "; range_name])
  else if mem value ["0"; "+0d"; "-0d"] then pass
  else if Re.fullmatch DATE_RANGE_RE value then pass
  else if Re.fullmatch HARDCODED_DATE_RE value then
    if strptime_ymd value then pass
    else
      _error (fstr ["ERROR - "; range_name; ": FieldName '"; fieldname; "' in worksheet '";
                    worksheet; "' has an invalid date value: "; value])
  else
    _error (fstr ["ERROR - "; range_name; ": FieldName '"; fieldname; "' in worksheet '";
                  worksheet; "' has an invalid format for "; range_name; ": "; value]).

Definition _check_logic_check_syntax (worksheet logic_check fieldname : string) : M unit :=
  if negb (contains logic_check ";") then
    _error (fstr ["ERROR - LogicCheck: FieldName '"; fieldname; "' in worksheet '"; worksheet;
                  "' has invalid syntax for LogicCheck (missing semicolon): "; logic_check])
  else
    match split1 ";" logic_check with
    | [part0; part1] =>
        let expression := strip part0 in
        let message := strip part1 in
        if negb (startswith message "'" && endswith message "'") then
          _error (fstr ["ERROR - LogicCheck: FieldName '"; fieldname; "' in worksheet '";
                        worksheet;
                        "' has invalid syntax for LogicCheck (message must be in single quotes): ";
                        logic_check])
        else
          let operators := ["="; "!="; "<>"; ">"; ">="; "<"; "<="; "and"; "or"] in
          when (negb (existsb (fun op => contains expression op) operators))
            (_error (fstr ["ERROR - LogicCheck: FieldName '"; fieldname; "' in worksheet '";
                           worksheet;
                           "' has invalid syntax for LogicCheck (no operator found): ";
                           logic_check]))
    | _ =>
        _error (fstr ["ERROR - LogicCheck: FieldName '"; fieldname; "' in worksheet '";
                      worksheet; "' has invalid syntax for LogicCheck: "; logic_check])
    end.

Definition _check_special_button (worksheet value fieldname button_name : string) : M unit :=
  when (negb (mem value ["True"; "False"]))
    (_error (fstr ["ERROR: - "; button_name; " FieldName '"; fieldname; "' in worksheet '";
                   worksheet; "' has an invalid value for '"; button_name; "': "; value])).

(** [l[i]] where the index is known to be in range. *)
Definition at_ (l : list nat) (i : nat) : nat := nth i l 0.

(** The body of the loop of [_check_skip_syntax]. *)
Definition _check_skip_syntax_line (worksheet fieldname skip : string) : M flow :=
  let invalid :=
    error_return (fstr ["ERROR - Skip: FieldName '"; fieldname; "' in worksheet '"; worksheet;
                        "' has invalid syntax for Skip: "; skip]) in
  match find ":" skip with
  | None => invalid
  | Some colon =>
      let skip_type := if String.eqb (take colon skip) "preskip" then "preskip" else "postskip" in
      if negb (mem skip_type ["preskip"; "postskip"]) then invalid
      else
        match split "," skip with
        | [logic_section; _] =>
            let len_skip := if String.eqb skip_type "postskip" then 13 else 12 in
            let logic_string := split ":" logic_section in
            if negb (List.length logic_string =? 2) then invalid
            else
              let logic_tokens := split " " logic_section in
              if negb (List.length logic_tokens =? 5)
                 && negb (contains logic_section "does not contain") then invalid
              else if negb (List.length logic_tokens =? 7)
                      && contains logic_section "does not contain" then invalid
              else
                let space_indices := indices_of " " skip in
                if List.length space_indices <? 4 then invalid
                else
                  let fieldname_to_check := slice len_skip (at_ space_indices 2) skip in
                  if contains fieldname_to_check " " then invalid
                  else if negb (contains logic_section "does not contain") then
                    let condition :=
                      slice (at_ space_indices 2 + 1) (at_ space_indices 3) skip in
                    if negb (mem condition ["="; ">"; ">="; "<"; "<="; "<>"; "'contains'"])
                    then
                      error_return
                        (fstr ["ERROR - Skip: FieldName '"; fieldname; "' in worksheet '";
                               worksheet; "' has invalid syntax for LogicCheck: "; skip])
                    else ret Next
                  else ret Next
        | _ => invalid
        end
  end.

Definition _check_skip_syntax (worksheet skip_text fieldname : string) : M unit :=
  for_return (_split_lines skip_text) (_check_skip_syntax_line worksheet fieldname).

Definition _parse_operator (op : string) : string :=
  let op := strip op in
  if String.eqb op ">" then "&gt;"
  else if String.eqb op "<" then "&lt;"
  else if String.eqb op ">=" then "&gt;="
  else if String.eqb op "<=" then "&lt;="
  else if mem op ["="; "!="; "<>"] then op
  else "=".

(** [m.group(n)] for a group that takes part in every match. *)
Definition group_ (n : nat) (m : Re.caps) : string :=
  match Re.group n m with Some s => s | None => "" end.

(** [parts[0]] and [parts[1]] of [value.split(",", 1)], the latter [None]
    when there is no comma. *)
Definition split_value_label (value : string) : string * option string :=
  match split1 "," value with
  | [v] => (v, None)
  | v :: l :: _ => (v, Some l)
  | [] => ("", None)
  end.

(** The body of the loop of [_parse_dynamic_responses]. *)
Definition _parse_dynamic_responses_line (worksheet fieldname : string)
    (question : Question.t) (line : string) : M Question.t :=
  let trimmed := strip line in
  if negb (truthy trimmed) then ret question
  else
    match split1 ":" trimmed with
    | [part0; part1] =>
        let key := lower (strip part0) in
        let value := strip part1 in
        if String.eqb key "source" then
          let lowered := lower value in
          if String.eqb lowered "csv" then
            ret (Question.set_responseSourceType CSV question)
          else if String.eqb lowered "database" then
            ret (Question.set_responseSourceType DATABASE question)
          else
            _error (fstr ["ERROR - Responses: Invalid source type '"; value;
                          "' for FieldName '"; fieldname; "' in worksheet '"; worksheet;
                          "'. Must be 'csv' or 'database'."]) ;;
            ret question
        else if String.eqb key "file" then
          ret (Question.set_responseSourceFile value question)
        else if String.eqb key "table" then
          ret (Question.set_responseSourceTable value question)
        else if String.eqb key "filter" then
          match Re.match_ FILTER_MATCH_RE value with
          | Some m =>
              let op := match Re.group 2 m with
                        | Some g => if truthy g then g else "="
                        | None => "="
                        end in
              ret (Question.set_responseFilters
                     (question.(Question.responseFilters) ++
                      [{| Filter.column := strip (group_ 1 m);
                          Filter.operator := _parse_operator op;
                          Filter.value := strip (group_ 3 m) |}])
                     question)
          | None =>
              _error (fstr ["ERROR - Responses: Invalid filter format for FieldName '";
                            fieldname; "' in worksheet '"; worksheet; "': '"; value;
                            "'. Expected 'column [operator] value'."]) ;;
              ret question
          end
        else if String.eqb key "display" then
          ret (Question.set_responseDisplayColumn value question)
        else if String.eqb key "value" then
          ret (Question.set_responseValueColumn value question)
        else if String.eqb key "distinct" then
          let lowered := lower value in
          if String.eqb lowered "true" then
            ret (Question.set_responseDistinct (Some true) question)
          else if String.eqb lowered "false" then
            ret (Question.set_responseDistinct (Some false) question)
          else
            _error (fstr ["ERROR - Responses: Invalid boolean value for 'distinct' for FieldName '";
                          fieldname; "' in worksheet '"; worksheet;
                          "'. Must be 'true' or 'false'."]) ;;
            ret question
        else if String.eqb key "empty_message" then
          ret (Question.set_responseEmptyMessage value question)
        else if String.eqb key "dont_know" then
          let (v, l) := split_value_label value in
          let question := Question.set_responseDontKnowValue (strip v) question in
          ret (match l with
               | Some l => Question.set_responseDontKnowLabel (strip l) question
               | None => question
               end)
        else if String.eqb key "not_in_list" then
          let (v, l) := split_value_label value in
          let question := Question.set_responseNotInListValue (strip v) question in
          ret (match l with
               | Some l => Question.set_responseNotInListLabel (strip l) question
               | None => question
               end)
        else
          log (fstr ["WARNING - Responses: Unknown dynamic response key '"; key;
                     "' for FieldName '"; fieldname; "' in worksheet '"; worksheet; "'."]) ;;
          ret question
    | _ =>
        _error (fstr ["ERROR - Responses: Invalid dynamic response line format for FieldName '";
                      fieldname; "' in worksheet '"; worksheet; "': '"; trimmed; "'"]) ;;
        ret question
    end.

Definition _parse_dynamic_responses (responses : string) (question : Question.t)
    (worksheet fieldname : string) : M Question.t :=
  for_fold (_split_lines responses)
    (_parse_dynamic_responses_line worksheet fieldname) question.

Definition _parse_parameter (param_str : string) (question : Question.t)
    (worksheet fieldname : string) : M Question.t :=
  match Re.match_ PARAMETER_RE param_str with
  | None =>
      _error (fstr ["ERROR - Calculation: Invalid parameter format '"; param_str;
                    "' for FieldName '"; fieldname; "' in worksheet '"; worksheet;
                    "'. Expected format: '@paramName = fieldName'."]) ;;
      ret question
  | Some m =>
      let name := strip (group_ 1 m) in
      let name := if negb (startswith name "@") then String.append "@" name else name in
      ret (Question.set_calculationQueryParameters
             (question.(Question.calculationQueryParameters) ++
              [{| CalculationParameter.name := name;
                  CalculationParameter.fieldName := strip (group_ 2 m) |}])
             question)
  end.

Definition _parse_result_value (value : string) : CalculationPart.t :=
  CalculationPart.mk CONSTANT value "" "" [] "" [] "".

Definition _parse_when_condition (when_str : string) (question : Question.t)
    (worksheet fieldname : string) : M Question.t :=
  match Re.match_ WHEN_CONDITION_RE when_str with
  | None =>
      _error (fstr ["ERROR - Calculation: Invalid when condition format '"; when_str;
                    "' for FieldName '"; fieldname; "' in worksheet '"; worksheet;
                    "'. Expected format: 'field operator value => result'."]) ;;
      ret question
  | Some m =>
      ret (Question.set_calculationCaseConditions
             (question.(Question.calculationCaseConditions) ++
              [{| CaseCondition.field := strip (group_ 1 m);
                  CaseCondition.operator := strip (group_ 2 m);
                  CaseCondition.value := strip (group_ 3 m);
                  CaseCondition.result := Some (_parse_result_value (strip (group_ 4 m))) |}])
             question)
  end.

Definition _parse_part_line (part_line worksheet fieldname : string)
  : M (option CalculationPart.t) :=
  match split1 " " part_line with
  | [word0; word1] =>
      let part_type := lower (strip word0) in
      let part_value := strip word1 in
      if String.eqb part_type "constant" then
        ret (Some (CalculationPart.mk CONSTANT part_value "" "" [] "" [] ""))
      else if String.eqb part_type "lookup" then
        ret (Some (CalculationPart.mk LOOKUP "" part_value "" [] "" [] ""))
      else if String.eqb part_type "query" then
        ret (Some (CalculationPart.mk QUERY "" "" part_value [] "" [] ""))
      else
        _error (fstr ["ERROR - Calculation: Invalid part type '"; part_type;
                      "' for FieldName '"; fieldname; "' in worksheet '"; worksheet;
                      "'. Must be 'constant', 'lookup', or 'query'."]) ;;
        ret None
  | _ =>
      _error (fstr ["ERROR - Calculation: Invalid part format '"; part_line;
                    "' for FieldName '"; fieldname; "' in worksheet '"; worksheet;
                    "'. Expected 'type value'."]) ;;
      ret None
  end.

(** The chain of [if]/[elif] on [ctype == ...] is a case analysis: the
    types are distinct, so at most one branch can be entered. *)
Definition _validate_calculation_fields (question : Question.t)
    (worksheet fieldname : string) : M unit :=
  let missing (kind what : string) :=
    _error (fstr ["ERROR - Calculation: "; kind; " calculation for FieldName '"; fieldname;
                  "' in worksheet '"; worksheet; "' "; what]) in
  match question.(Question.calculationType) with
  | NONE => pass
  | QUERY =>
      when (negb (truthy question.(Question.calculationQuerySql)))
        (missing "Query" "is missing required 'sql' field.")
  | CASE =>
      when (List.length question.(Question.calculationCaseConditions) =? 0)
        (missing "Case" "is missing 'when' conditions.")
  | CONSTANT =>
      when (negb (truthy question.(Question.calculationConstantValue)))
        (missing "Constant" "is missing required 'value' field.")
  | LOOKUP =>
      when (negb (truthy question.(Question.calculationLookupField)))
        (missing "Lookup" "is missing required 'field' field.")
  | MATH =>
      when (negb (truthy question.(Question.calculationMathOperator)))
        (missing "Math" "is missing required 'operator' field.") ;;
      when (List.length question.(Question.calculationMathParts) <? 2)
        (missing "Math" "must have at least 2 parts.")
  | CONCAT =>
      when (List.length question.(Question.calculationConcatParts) =? 0)
        (missing "Concat" "must have at least 1 part.")
  | AGE_FROM_DATE =>
      when (negb (truthy question.(Question.calculationLookupField)))
        (missing "AgeFromDate" "is missing required 'field' field.") ;;
      when (negb (truthy question.(Question.calculationConstantValue)))
        (missing "AgeFromDate" "is missing required 'value' field.")
  | AGE_AT_DATE =>
      when (negb (truthy question.(Question.calculationLookupField)))
        (missing "AgeAtDate" "is missing required 'field' field.") ;;
      when (negb (truthy question.(Question.calculationConstantValue)))
        (missing "AgeAtDate" "is missing required 'value' field.")
  | DATE_OFFSET =>
      when (negb (truthy question.(Question.calculationLookupField)))
        (missing "DateOffset" "is missing required 'field' field.") ;;
      if negb (truthy question.(Question.calculationConstantValue)) then
        missing "DateOffset" "is missing required 'value' field."
      else
        when (negb (Re.fullmatch DATE_RANGE_RE question.(Question.calculationConstantValue)))
          (missing "DateOffset"
             (fstr ["has invalid 'value' format: ";
                    question.(Question.calculationConstantValue);
                    ". Expected format like '+28d', '-1y', etc."]))
  | DATE_DIFF =>
      when (negb (truthy question.(Question.calculationLookupField)))
        (missing "DateDiff" "is missing required 'field' field (start date).") ;;
      when (negb (truthy question.(Question.calculationConstantValue)))
        (missing "DateDiff" "is missing required 'value' field (end date).") ;;
      if negb (truthy question.(Question.calculationUnit)) then
        missing "DateDiff" "is missing required 'unit' field."
      else
        when (negb (mem (lower question.(Question.calculationUnit)) ["d"; "w"; "m"; "y"]))
          (missing "DateDiff"
             (fstr ["has invalid 'unit': "; question.(Question.calculationUnit);
                    ". Must be 'd', 'w', 'm', or 'y'."]))
  end.

(** The [mapping] of [_parse_automatic_calculation]. *)
Definition calc_mapping : list (string * CalculationType) :=
  [("query", QUERY); ("case", CASE); ("constant", CONSTANT); ("lookup", LOOKUP);
   ("math", MATH); ("concat", CONCAT); ("age_from_date", AGE_FROM_DATE);
   ("age_at_date", AGE_AT_DATE); ("date_offset", DATE_OFFSET); ("date_diff", DATE_DIFF)].

Fixpoint dict_get {V : Type} (d : list (string * V)) (k : string) : option V :=
  match d with
  | [] => None
  | (k', v) :: d' => if String.eqb k k' then Some v else dict_get d' k
  end.

(** What the first loop of [_parse_automatic_calculation] assigns to. *)
Record calc_vars : Type := mkCalcVars {
  cv_question : Question.t;
  current_calc : string;
  when_lines : list string;
  part_lines : list string
}.

Definition with_question (v : calc_vars) (q : Question.t) : calc_vars :=
  mkCalcVars q (current_calc v) (when_lines v) (part_lines v).

(** The body of the first loop of [_parse_automatic_calculation]. *)
Definition _parse_automatic_calculation_line (worksheet fieldname : string)
    (v : calc_vars) (line : string) : M calc_vars :=
  let question := cv_question v in
  let trimmed := strip line in
  if negb (truthy trimmed) then ret v
  else
    match split1 ":" trimmed with
    | [part0; part1] =>
        let key := lower (strip part0) in
        let value := strip part1 in
        if String.eqb key "calc" then
          let current_calc := lower value in
          let v := mkCalcVars question current_calc (when_lines v) (part_lines v) in
          match dict_get calc_mapping current_calc with
          | Some t => ret (with_question v (Question.set_calculationType t question))
          | None =>
              _error (fstr ["ERROR - Calculation: Invalid calculation type '"; value;
                            "' for FieldName '"; fieldname; "' in worksheet '"; worksheet;
                            "'. Must be 'query', 'case', 'constant', 'lookup', 'math', 'concat', 'age_from_date', 'age_at_date', 'date_offset', or 'date_diff'."]) ;;
              ret v
          end
        else if String.eqb key "sql" then
          ret (with_question v (Question.set_calculationQuerySql value question))
        else if String.eqb key "param" then
          q <- _parse_parameter value question worksheet fieldname ;;
          ret (with_question v q)
        else if String.eqb key "when" then
          ret (mkCalcVars question (current_calc v) (when_lines v ++ [value]) (part_lines v))
        else if String.eqb key "else" then
          if String.eqb (current_calc v) "case" then
            ret (with_question v
                   (Question.set_calculationCaseElse (Some (_parse_result_value value))
                      question))
          else ret v
        else if String.eqb key "value" then
          if mem (current_calc v)
               ["constant"; "age_from_date"; "age_at_date"; "date_offset"; "date_diff"] then
            ret (with_question v (Question.set_calculationConstantValue value question))
          else ret v
        else if String.eqb key "field" then
          if mem (current_calc v)
               ["lookup"; "age_from_date"; "age_at_date"; "date_offset"; "date_diff"] then
            ret (with_question v (Question.set_calculationLookupField value question))
          else ret v
        else if String.eqb key "unit" then
          if String.eqb (current_calc v) "date_diff" then
            ret (with_question v (Question.set_calculationUnit value question))
          else ret v
        else if String.eqb key "operator" then
          if String.eqb (current_calc v) "math" then
            if mem value ["+"; "-"; "*"; "/"] then
              ret (with_question v (Question.set_calculationMathOperator value question))
            else
              _error (fstr ["ERROR - Calculation: Invalid math operator '"; value;
                            "' for FieldName '"; fieldname; "' in worksheet '"; worksheet;
                            "'. Must be +, -, *, or /."]) ;;
              ret v
          else ret v
        else if String.eqb key "separator" then
          if mem (current_calc v) ["concat"; "age_at_date"] then
            ret (with_question v (Question.set_calculationConcatSeparator value question))
          else ret v
        else if String.eqb key "part" then
          ret (mkCalcVars question (current_calc v) (when_lines v) (part_lines v ++ [value]))
        else
          log (fstr ["WARNING - Calculation: Unknown calculation key '"; key;
                     "' for FieldName '"; fieldname; "' in worksheet '"; worksheet; "'."]) ;;
          ret v
    | _ =>
        _error (fstr ["ERROR - Calculation: Invalid line format for FieldName '"; fieldname;
                      "' in worksheet '"; worksheet; "': '"; trimmed; "'"]) ;;
        ret v
    end.

Definition _parse_automatic_calculation (responses : string) (question : Question.t)
    (worksheet fieldname : string) : M Question.t :=
  v <- for_fold (_split_lines responses)
         (_parse_automatic_calculation_line worksheet fieldname)
         (mkCalcVars question "" [] []) ;;
  let current_calc := current_calc v in
  question <-
    (if String.eqb current_calc "case" then
       for_fold (when_lines v)
         (fun question when_line =>
            _parse_when_condition when_line question worksheet fieldname)
         (cv_question v)
     else ret (cv_question v)) ;;
  question <-
    (if mem current_calc ["math"; "concat"] then
       for_fold (part_lines v)
         (fun question part_line =>
            part <- _parse_part_line part_line worksheet fieldname ;;
            match part with
            | None => ret question
            | Some part =>
                if String.eqb current_calc "math" then
                  ret (Question.set_calculationMathParts
                         (question.(Question.calculationMathParts) ++ [part]) question)
                else
                  ret (Question.set_calculationConcatParts
                         (question.(Question.calculationConcatParts) ++ [part]) question)
            end)
         question
     else ret question) ;;
  _validate_calculation_fields question worksheet fieldname ;;
  ret question.

(** ** Access to the attributes of the reader *)

Definition get_worksheetErrorsEncountered : M bool :=
  fun s => (worksheetErrorsEncountered s, s).

Definition get_questionList : M (list Question.t) :=
  fun s => (questionList s, s).

Definition set_worksheetErrorsEncountered (b : bool) : M unit :=
  fun s => (tt, mkReader (logstring s) (errorsEncountered s) b (questionList s)).

Definition set_questionList (l : list Question.t) : M unit :=
  fun s => (tt, mkReader (logstring s) (errorsEncountered s)
                  (worksheetErrorsEncountered s) l).

(** [self.questionList.append(q)] *)
Definition questionList_append (q : Question.t) : M unit :=
  fun s => (tt, mkReader (logstring s) (errorsEncountered s)
                  (worksheetErrorsEncountered s) (questionList s ++ [q])).

(** ** The rows of a sheet *)

(** The body of the loop over the lines of the LogicCheck cell. *)
Definition logic_check_line (worksheet : string) (q : Question.t) (check : string)
  : M Question.t :=
  let trimmed := strip check in
  if startswith trimmed "unique;" then
    match split1 ";" trimmed with
    | [_; part1] =>
        let message := strip part1 in
        if startswith message "'" && endswith message "'" then
          ret (Question.set_uniqueCheckMessage (strip_char "'" message) q)
        else
          _error (fstr ["ERROR - LogicCheck: FieldName '"; q.(Question.fieldName);
                        "' in worksheet '"; worksheet;
                        "' has invalid syntax for unique check message (must be in single quotes): ";
                        trimmed]) ;;
          ret q
    | _ =>
        _error (fstr ["ERROR - LogicCheck: FieldName '"; q.(Question.fieldName);
                      "' in worksheet '"; worksheet;
                      "' has invalid syntax for unique check (missing message): "; trimmed]) ;;
        ret q
    end
  else
    let q := Question.set_logicChecks (q.(Question.logicChecks) ++ [trimmed]) q in
    _check_logic_check_syntax worksheet trimmed q.(Question.fieldName) ;;
    ret q.

Definition or_default (s default : string) : string := if truthy s then s else default.

(** The body of the loop of [create_question_list] over the rows, with
    the handler of unexpected exceptions that closes it.  Of the
    operations of the body one can raise, the [int] of
    [_check_max_chars_value] on a text beyond the limit of digits; every
    other is total on text, and [_to_str] returns on the cell values of
    the model.  So the handler is entered from that call only, and is
    written where the call returns: it records its diagnostic and the
    row gives no question. *)
Definition process_row (worksheet : Worksheet) (row_idx : nat) : M unit :=
  let title := title worksheet in
  if row_idx =? 1 then
    let current_headers :=
      map (fun i => _get_cell_trim worksheet 1 (i + 1)) (List.seq 0 NUMBER_OF_COLUMNS) in
    when (negb (if list_eq_dec string_dec current_headers COLUMN_NAMES then true else false))
      (_error (fstr ["ERROR: The header names in the "; title;
                     " are incorrect. Header names should be: ";
                     "FieldName, QuestionType, FieldType, QuestionText, MaxCharacters, ";
                     "Responses, LowerRange, UpperRange, LogicCheck, DontKnow, Refuse, NA, Skip, Comments"]))
  else if _is_cell_merged worksheet row_idx NUMBER_OF_COLUMNS then pass
  else
    let q := Question.default in
    let q := Question.set_fieldName (_get_cell_trim worksheet row_idx 1) q in
    if negb (truthy q.(Question.fieldName)) then
      _error (fstr ["ERROR - FieldName: Row "; str_of_nat row_idx; " in worksheet '"; title;
                    "' has a blank FieldName."])
    else
      _check_field_name title q.(Question.fieldName) ;;
      let q := Question.set_questionType (_get_cell_trim worksheet row_idx 2) q in
      let q := Question.set_fieldType (_get_cell_trim worksheet row_idx 3) q in
      let q := Question.set_questionText (_get_cell_trim worksheet row_idx 4) q in
      when (String.eqb q.(Question.questionText) ""
            && negb (String.eqb q.(Question.questionType) "automatic"))
        (_error (fstr ["ERROR - QuestionText: FieldName '"; q.(Question.fieldName);
                       "' in worksheet '"; title; "' has blank QuestionText."])) ;;
      let max_chars := _get_cell_trim worksheet row_idx 5 in
      let q := Question.set_maxCharacters (or_default max_chars "-9") q in
      checked <-
        (if negb (String.eqb q.(Question.maxCharacters) "-9")
         then _check_max_chars_value title q.(Question.maxCharacters) q.(Question.fieldName)
         else ret Returns) ;;
      match checked with
      | Raises ex =>
          _error (fstr ["ERROR: An unexpected error occurred while processing row ";
                        str_of_nat row_idx; " in worksheet '"; title;
                        "'. The error was: "; ex])
      | Returns =>
      let raw_responses := _get_cell_raw worksheet row_idx 6 in
      let raw_stripped := strip raw_responses in
      q <-
        (if startswith (lower raw_stripped) "source:" then
           _parse_dynamic_responses raw_responses q title q.(Question.fieldName)
         else if startswith (lower raw_stripped) "calc:" then
           if String.eqb q.(Question.questionType) "automatic" then
             if negb (mem (lower q.(Question.fieldName)) BUILT_IN_AUTO_FIELDS) then
               _parse_automatic_calculation raw_responses q title q.(Question.fieldName)
             else ret q
           else
             _error (fstr ["ERROR - Calculation: FieldName '"; q.(Question.fieldName);
                           "' in worksheet '"; title; "' ";
                           "has calculation syntax but QuestionType is not 'automatic'."]) ;;
             ret q
         else if startswith (lower raw_stripped) "mask:" then
           if String.eqb q.(Question.questionType) "text" then
             ret (Question.set_mask (strip (drop 5 raw_stripped)) q)
           else
             _error (fstr ["ERROR - Mask: FieldName '"; q.(Question.fieldName);
                           "' in worksheet '"; title; "' ";
                           "has mask syntax but QuestionType is not 'text'."]) ;;
             ret q
         else ret (Question.set_responses raw_responses q)) ;;
      _check_question_field_type q title ;;
      let lower_val := _get_cell_trim worksheet row_idx 7 in
      let upper_val := _get_cell_trim worksheet row_idx 8 in
      let q := Question.set_lowerRange (or_default lower_val "-9") q in
      let q := Question.set_upperRange (or_default upper_val "-9") q in
      (if String.eqb q.(Question.questionType) "date" then
         _check_date_range title q.(Question.lowerRange) q.(Question.fieldName) "LowerRange" ;;
         _check_date_range title q.(Question.upperRange) q.(Question.fieldName) "UpperRange"
       else
         when (negb (String.eqb q.(Question.lowerRange) "-9"))
           (_check_numeric_range title q.(Question.lowerRange) q.(Question.fieldName)
              "LowerRange") ;;
         when (negb (String.eqb q.(Question.upperRange) "-9"))
           (_check_numeric_range title q.(Question.upperRange) q.(Question.fieldName)
              "UpperRange")) ;;
      let logic_raw := _get_cell_trim worksheet row_idx 9 in
      q <-
        (if truthy logic_raw then
           for_fold (_split_lines logic_raw) (logic_check_line title) q
         else ret q) ;;
      let q := Question.set_dontKnow (or_default (_get_cell_trim worksheet row_idx 10) "-9") q in
      when (negb (String.eqb q.(Question.dontKnow) "-9"))
        (_check_special_button title q.(Question.dontKnow) q.(Question.fieldName) "DontKnow") ;;
      let q := Question.set_refuse (or_default (_get_cell_trim worksheet row_idx 11) "-9") q in
      when (negb (String.eqb q.(Question.refuse) "-9"))
        (_check_special_button title q.(Question.refuse) q.(Question.fieldName) "Refuse") ;;
      let q := Question.set_na (or_default (_get_cell_trim worksheet row_idx 12) "-9") q in
      when (negb (String.eqb q.(Question.na) "-9"))
        (_check_special_button title q.(Question.na) q.(Question.fieldName) "NA") ;;
      let q := Question.set_skip (_get_cell_trim worksheet row_idx 13) q in
      when (truthy q.(Question.skip))
        (_check_skip_syntax title q.(Question.skip) q.(Question.fieldName)) ;;
      questionList_append q
      end.

(** ** The checks over the whole sheet *)

(** A [dict] from field names to positions, used for look-up only. *)
Definition index_dict : Type := string -> option nat.

Definition dict_set (k : string) (v : nat) (d : index_dict) : index_dict :=
  fun k' => if String.eqb k' k then Some v else d k'.

(** [enumerate(l)] *)
Definition enumerate {A : Type} (l : list A) : list (nat * A) :=
  combine (List.seq 0 (List.length l)) l.

(** [{q.fieldName: i for i, q in enumerate(self.questionList)}] *)
Definition field_index (questions : list Question.t) : index_dict :=
  fold_left (fun d iq => dict_set (snd iq).(Question.fieldName) (fst iq) d)
    (enumerate questions) (fun _ => None).

(** [d[k]] for a key that is present. *)
Definition item (d : index_dict) (k : string) : nat :=
  match d k with Some i => i | None => 0 end.

(** [{m for m in matches if m.lower() not in self.LOGIC_KEYWORDS}], as the
    list of the elements that make up the set. *)
Definition referenced_names (matches : list string) : list string :=
  filter (fun m => negb (mem (lower m) LOGIC_KEYWORDS)) matches.

(** The field names a logic check refers to. *)
Definition logic_check_matches (logic_check : string) : list string :=
  let expression := strip (hd "" (split1 ";" logic_check)) in
  let clean_expression := Re.sub QUOTED_STRING_RE "" expression in
  Re.findall FIELD_NAME_RE clean_expression.

(** The body of the innermost loop of [_check_logic_field_names]. *)
Definition _check_logic_field_name (worksheet : string) (field_index : index_dict)
    (cur_field ref : string) : M unit :=
  match field_index ref with
  | Some i =>
      when (item field_index cur_field <? i)
        (_error (fstr ["ERROR - LogicCheck: In worksheet '"; worksheet;
                       "', the LogicCheck for FieldName '"; cur_field;
                       "' uses a FieldName AFTER the current question: "; ref]))
  | None =>
      _error (fstr ["ERROR - LogicCheck: In worksheet '"; worksheet;
                    "', the LogicCheck for FieldName '"; cur_field;
                    "' uses a nonexistent FieldName: "; ref])
  end.

(** [set_iter l] is the order in which Python iterates over the set made
    of the elements of [l]; the interpreter fixes it anew at every start. *)
Definition _check_logic_field_names (set_iter : list string -> list string)
    (worksheet : string) : M unit :=
  questions <- get_questionList ;;
  let field_index := field_index questions in
  for_each questions (fun question =>
    for_each question.(Question.logicChecks) (fun logic_check =>
      let cur_field := question.(Question.fieldName) in
      let matches := logic_check_matches logic_check in
      let referenced := set_iter (referenced_names matches) in
      for_each referenced (_check_logic_field_name worksheet field_index cur_field))).

(** The body of the inner loop of [_check_skip_to_field_names]. *)
Definition _check_skip_to_field_names_line (worksheet : string) (field_index : index_dict)
    (cur_field skip : string) : M unit :=
  let words := filter truthy (split " " skip) in
  if List.length words <? 4 then
    _error (fstr ["ERROR - Skip: In worksheet '"; worksheet; "', the skip for FieldName '";
                  cur_field; "' has invalid structure: "; skip])
  else
    let fieldname_to_check := strip_char "," (strip (nth 2 words "")) in
    let fieldname_to_skip_to := strip (last words "") in
    let cur_index := item field_index cur_field in
    match field_index fieldname_to_check with
    | Some i =>
        when (cur_index <? i)
          (_error (fstr ["ERROR - Skip: In worksheet '"; worksheet;
                         "', the skip for FieldName '"; cur_field;
                         "' checks skip for a FieldName AFTER the current question: ";
                         fieldname_to_check]))
    | None =>
        _error (fstr ["ERROR - Skip: In worksheet '"; worksheet;
                      "', the skip for FieldName '"; cur_field;
                      "' checks skip of a nonexistent FieldName: "; fieldname_to_check])
    end ;;
    match field_index fieldname_to_skip_to with
    | Some target_index =>
        if target_index <? cur_index then
          _error (fstr ["ERROR - Skip: In worksheet '"; worksheet;
                        "', the skip for FieldName '"; cur_field;
                        "' skips to a FieldName BEFORE the current question: ";
                        fieldname_to_skip_to])
        else if target_index =? cur_index then
          _error (fstr ["ERROR - Skip: In worksheet '"; worksheet;
                        "', the skip for FieldName '"; cur_field;
                        "' skips to the current question: "; fieldname_to_skip_to])
        else pass
    | None =>
        _error (fstr ["ERROR - Skip: In worksheet '"; worksheet;
                      "', the skip for FieldName '"; cur_field;
                      "' skips to a nonexistent FieldName: "; fieldname_to_skip_to])
    end.

Definition _check_skip_to_field_names (worksheet : string) : M unit :=
  questions <- get_questionList ;;
  let field_index := field_index questions in
  for_each questions (fun question =>
    if negb (truthy question.(Question.skip)) then pass
    else
      let cur_field := question.(Question.fieldName) in
      for_each (_split_lines question.(Question.skip))
        (_check_skip_to_field_names_line worksheet field_index cur_field)).

(** The condition under which [_check_required_max_characters] reports a
    question. *)
Definition needs_max_characters (question : Question.t) : bool :=
  mem question.(Question.fieldType) ["text"; "text_integer"; "phone_num"]
  && negb (mem question.(Question.questionType) ["automatic"; "checkbox"; "combobox"])
  && String.eqb question.(Question.maxCharacters) "-9".

Definition _check_required_max_characters (worksheet : string) : M unit :=
  questions <- get_questionList ;;
  for_each questions (fun question =>
    when (needs_max_characters question)
      (_error (fstr ["ERROR - MaxCharacters: In worksheet '"; worksheet;
                     "', MaxCharacters for FieldName '"; question.(Question.fieldName);
                     "' needs a value"]))).

Definition _check_duplicate_columns (worksheet : string) : M unit :=
  questions <- get_questionList ;;
  let fields :=
    map Question.fieldName
      (filter (fun q => negb (String.eqb q.(Question.questionType) "information"))
         questions) in
  let duplicates := sorted_duplicates fields in
  when (has_duplicates fields)
    (_error (fstr ["ERROR - Duplicate fieldnames found in worksheet: "; worksheet;
                   ". Duplicated fieldnames: "; join "," duplicates; ". ";
                   "Check for empty rows at the end of the spreadsheet and delete them."])).

(** ** [create_question_list] *)

Definition create_question_list (set_iter : list string -> list string)
    (worksheet : Worksheet) : M (list Question.t) :=
  set_worksheetErrorsEncountered false ;;
  log (fstr [CR; "Checking worksheet: '"; title worksheet; "'"]) ;;
  set_questionList [] ;;
  for_each (List.seq 1 (max_row worksheet)) (process_row worksheet) ;;
  failed <- get_worksheetErrorsEncountered ;;
  when (negb failed)
    (_check_logic_field_names set_iter (title worksheet) ;;
     _check_skip_to_field_names (title worksheet) ;;
     _check_required_max_characters (title worksheet) ;;
     _check_duplicate_columns (title worksheet) ;;
     failed <- get_worksheetErrorsEncountered ;;
     when (negb failed) (log (fstr ["No errors found in '"; title worksheet; "'"]))) ;;
  get_questionList.

End ExcelReader.

(* ================================================================== *)
(** * The emitter ([xml_generator.py]) *)
(* ================================================================== *)

(** The file is modelled by the list of the texts written to it, one per
    call of [f.write]; its content is their concatenation.  A method that
    can raise returns an [option], [None] standing for the exception; a
    method that writes comes with what it had written when it raised. *)
Module XmlGenerator.

Import Py.

Definition T1 : string := TAB.
Definition T2 : string := fstr [TAB; TAB].
Definition T3 : string := fstr [TAB; TAB; TAB].

(** The [option] monad, for the statements that can raise. *)
Definition obind {A B : Type} (m : option A) (f : A -> option B) : option B :=
  match m with Some a => f a | None => None end.

Notation "x <-? m ;; k" := (obind m (fun x => k))
  (at level 61, m at next level, right associativity).

Definition _convert_operator_to_xml (op : string) : string :=
  let op := strip op in
  match ExcelReader.dict_get
          [("=", "="); ("!=", "!="); ("<>", "&lt;&gt;"); (">", "&gt;"); ("<", "&lt;");
           (">=", "&gt;="); ("<=", "&lt;=")] op with
  | Some x => x
  | None => "="
  end.

(** [space_indices[i]]: raises [IndexError] out of range. *)
Definition idx (space_indices : list nat) (i : nat) : option nat :=
  nth_error space_indices i.

Definition _generate_skip (skip skip_type : string) : option string :=
  let len_skip := if String.eqb skip_type "postSkip" then 13 else 12 in
  let space_indices := indices_of " " skip in
  s2 <-? idx space_indices 2 ;;
  let fieldname_to_check := slice len_skip s2 skip in
  cv <-?
    (if List.length space_indices =? 9 then
       s5 <-? idx space_indices 5 ;;
       s6 <-? idx space_indices 6 ;;
       Some ("does not contain", slice (s5 + 1) (s6 - 1) skip)
     else if contains skip "contains" then
       s3 <-? idx space_indices 3 ;;
       s4 <-? idx space_indices 4 ;;
       Some ("contains", slice (s3 + 1) (s4 - 1) skip)
     else
       s3 <-? idx space_indices 3 ;;
       let condition := slice (s2 + 1) s3 skip in
       let condition := replace ">" "&gt;" (replace "<" "&lt;" condition) in
       s4 <-? idx space_indices 4 ;;
       Some (condition, slice (s3 + 1) (s4 - 1) skip)) ;;
  let (condition, value) := cv : string * string in
  let fieldname_to_skip_to := drop (last space_indices 0 + 1) skip in
  Some (fstr [T3; "<skip fieldname='"; fieldname_to_check; "' condition = '"; condition;
              "' response='"; value; "' ";
              "response_type='fixed' skiptofieldname ='"; fieldname_to_skip_to;
              "'></skip>"]).

(** r"(?<!&lt;)(?<!&gt;)<(?!=)" *)
Definition BARE_LT_RE : Re.re :=
  Re.seq [Re.NotBehind "&lt;"; Re.NotBehind "&gt;"; Re.Lit "<"; Re.NotAhead "="].

(** r"(?<!&lt;=)(?<!&gt;=)>(?!=)" *)
Definition BARE_GT_RE : Re.re :=
  Re.seq [Re.NotBehind "&lt;="; Re.NotBehind "&gt;="; Re.Lit ">"; Re.NotAhead "="].

(** The lines of a logic check made of several [or] branches. *)
Fixpoint or_lines (parts : list string) : list string :=
  match parts with
  | [] => []
  | [part] => [fstr [T3; strip part]]
  | part :: rest => fstr [T3; strip part; " or"] :: or_lines rest
  end.

Definition _generate_logic_check (logic_check : string) : option string :=
  match split1 ";" logic_check with
  | [part0; part1] =>
      let expression := strip part0 in
      let message := strip part1 in
      let expression := replace "!=" "&lt;&gt;" expression in
      let expression := replace "<>" "&lt;&gt;" expression in
      let expression := replace "<=" "&lt;=" expression in
      let expression := replace ">=" "&gt;=" expression in
      let expression := Re.sub BARE_LT_RE "&lt;" expression in
      let expression := Re.sub BARE_GT_RE "&gt;" expression in
      if contains expression " or " then
        let parts := split_str " or " expression in
        let lines := or_lines parts ++ [";"; fstr [T3; message]] in
        Some (join LF lines)
      else Some (fstr [T3; expression; "; "; message])
  | _ => None
  end.

(** ["\t" * indent_level] *)
Fixpoint tabs (indent_level : nat) : string :=
  match indent_level with
  | O => ""
  | S n => String.append TAB (tabs n)
  end.

Definition parameter_lines (indent : string) (params : list CalculationParameter.t)
  : list string :=
  map (fun param =>
         fstr [indent; "<parameter name='"; param.(CalculationParameter.name);
               "' field='"; param.(CalculationParameter.fieldName); "' />"; LF])
      params.

Definition separator_attr (separator : string) : string :=
  if truthy separator then fstr [" separator='"; separator; "'"] else "".

Fixpoint _generate_calculation_part (part : CalculationPart.t) (indent_level : nat)
  : list string :=
  let indent := tabs indent_level in
  let nested :=
    (fix nested (l : list CalculationPart.t) : list string :=
       match l with
       | [] => []
       | p :: l' => _generate_calculation_part p (indent_level + 1) ++ nested l'
       end) in
  match part with
  | CalculationPart.mk type constantValue lookupField querySql queryParameters
      mathOperator parts concatSeparator =>
      match type with
      | CONSTANT =>
          [fstr [indent; "<result type='constant' value='"; constantValue; "' />"; LF]]
      | LOOKUP =>
          [fstr [indent; "<part type='lookup' field='"; lookupField; "' />"; LF]]
      | QUERY =>
          [fstr [indent; "<part type='query'>"; LF];
           fstr [indent; TAB; "<sql>"; querySql; "</sql>"; LF]]
          ++ parameter_lines (String.append indent TAB) queryParameters
          ++ [fstr [indent; "</part>"; LF]]
      | MATH =>
          [fstr [indent; "<part type='math' operator='"; mathOperator; "'>"; LF]]
          ++ nested parts
          ++ [fstr [indent; "</part>"; LF]]
      | CONCAT =>
          [fstr [indent; "<part type='concat'"; separator_attr concatSeparator; ">"; LF]]
          ++ nested parts
          ++ [fstr [indent; "</part>"; LF]]
      | _ => []
      end
  end.

Definition _generate_calculation_xml (q : Question.t) : list string :=
  match q.(Question.calculationType) with
  | QUERY =>
      [fstr [T2; "<calculation type='query'>"; LF];
       fstr [T3; "<sql>"; q.(Question.calculationQuerySql); "</sql>"; LF]]
      ++ parameter_lines T3 q.(Question.calculationQueryParameters)
      ++ [fstr [T2; "</calculation>"; LF]]
  | CASE =>
      [fstr [T2; "<calculation type='case'>"; LF]]
      ++ flat_map
           (fun cond =>
              let op := _convert_operator_to_xml cond.(CaseCondition.operator) in
              [fstr [T3; "<when field='"; cond.(CaseCondition.field); "' operator='"; op;
                     "' value='"; cond.(CaseCondition.value); "'>"; LF]]
              ++ match cond.(CaseCondition.result) with
                 | Some result => _generate_calculation_part result 4
                 | None => []
                 end
              ++ [fstr [T3; "</when>"; LF]])
           q.(Question.calculationCaseConditions)
      ++ match q.(Question.calculationCaseElse) with
         | Some part =>
             [fstr [T3; "<else>"; LF]]
             ++ _generate_calculation_part part 4
             ++ [fstr [T3; "</else>"; LF]]
         | None => []
         end
      ++ [fstr [T2; "</calculation>"; LF]]
  | CONSTANT =>
      [fstr [T2; "<calculation type='constant' value='";
             q.(Question.calculationConstantValue); "' />"; LF]]
  | LOOKUP =>
      [fstr [T2; "<calculation type='lookup' field='";
             q.(Question.calculationLookupField); "' />"; LF]]
  | MATH =>
      [fstr [T2; "<calculation type='math' operator='";
             q.(Question.calculationMathOperator); "'>"; LF]]
      ++ flat_map (fun part => _generate_calculation_part part 3)
           q.(Question.calculationMathParts)
      ++ [fstr [T2; "</calculation>"; LF]]
  | CONCAT =>
      [fstr [T2; "<calculation type='concat'";
             separator_attr q.(Question.calculationConcatSeparator); ">"; LF]]
      ++ flat_map (fun part => _generate_calculation_part part 3)
           q.(Question.calculationConcatParts)
      ++ [fstr [T2; "</calculation>"; LF]]
  | AGE_FROM_DATE =>
      [fstr [T2; "<calculation type='age_from_date' field='";
             q.(Question.calculationLookupField); "' value='";
             q.(Question.calculationConstantValue); "'/>"; LF]]
  | AGE_AT_DATE =>
      [fstr [T2; "<calculation type='age_at_date' field='";
             q.(Question.calculationLookupField); "' value='";
             q.(Question.calculationConstantValue); "'";
             separator_attr q.(Question.calculationConcatSeparator); "/>"; LF]]
  | DATE_OFFSET =>
      [fstr [T2; "<calculation type='date_offset' field='";
             q.(Question.calculationLookupField); "' value='";
             q.(Question.calculationConstantValue); "' />"; LF]]
  | DATE_DIFF =>
      [fstr [T2; "<calculation type='date_diff' field='";
             q.(Question.calculationLookupField); "' value='";
             q.(Question.calculationConstantValue); "' unit='";
             q.(Question.calculationUnit); "' />"; LF]]
  | NONE => []
  end.

(** The opening tag of a question and, unless the question is automatic,
    its text. *)
Definition open_tag (q : Question.t) : string :=
  fstr [T1; "<question type = '"; q.(Question.questionType); "' fieldname = '";
        q.(Question.fieldName); "' fieldtype = '"; q.(Question.fieldType); "'>"; LF].

Definition text_line (q : Question.t) : string :=
  fstr [T2; "<text>"; q.(Question.questionText); "</text>"; LF].

Definition text_block (q : Question.t) : list string :=
  if negb (String.eqb q.(Question.questionType) "automatic") then [text_line q] else [].

Definition calculation_block (q : Question.t) : list string :=
  if String.eqb q.(Question.questionType) "automatic"
     && negb (CalculationType_eqb q.(Question.calculationType) NONE)
  then _generate_calculation_xml q else [].

Definition max_characters_block (q : Question.t) : list string :=
  if negb (String.eqb q.(Question.maxCharacters) "-9")
  then [fstr [T2; "<maxCharacters>"; q.(Question.maxCharacters); "</maxCharacters>"; LF]]
  else [].

Definition mask_block (q : Question.t) : list string :=
  if truthy q.(Question.mask)
  then [fstr [T2; "<mask value="; DQUOTE; q.(Question.mask); DQUOTE; " />"; LF]]
  else [].

Definition unique_check_block (q : Question.t) : list string :=
  if truthy q.(Question.uniqueCheckMessage)
  then [fstr [T2; "<unique_check>"; LF];
        fstr [T3; "<message>"; q.(Question.uniqueCheckMessage); "</message>"; LF];
        fstr [T2; "</unique_check>"; LF]]
  else [].

Definition numeric_check_block (q : Question.t) : list string :=
  if negb (String.eqb q.(Question.questionType) "date")
     && negb (String.eqb q.(Question.lowerRange) "-9")
  then [fstr [T2; "<numeric_check>"; LF];
        fstr [T3; "<values minvalue ='"; q.(Question.lowerRange); "' maxvalue='";
              q.(Question.upperRange); "' other_values = '"; q.(Question.lowerRange); "' ";
              "message = 'Number must be between "; q.(Question.lowerRange); " and ";
              q.(Question.upperRange); "!'></values>"; LF];
        fstr [T2; "</numeric_check>"; LF]]
  else [].

Definition date_range_block (q : Question.t) : list string :=
  if String.eqb q.(Question.questionType) "date"
  then [fstr [T2; "<date_range>"; LF];
        fstr [T3; "<min_date>"; q.(Question.lowerRange); "</min_date>"; LF];
        fstr [T3; "<max_date>"; q.(Question.upperRange); "</max_date>"; LF];
        fstr [T2; "</date_range>"; LF]]
  else [].

(** ** Writing to the file *)

(** The texts written so far, and the result unless an exception ended
    the method. *)
Definition W (A : Type) : Type := (list string * option A)%type.

Definition wret {A : Type} (a : A) : W A := ([], Some a).

Definition wbind {A B : Type} (m : W A) (f : A -> W B) : W B :=
  match m with
  | (w, None) => (w, None)
  | (w, Some a) => let (w', r) := f a in (w ++ w', r)
  end.

Notation "x <-w m ;; k" := (wbind m (fun x => k))
  (at level 61, m at next level, right associativity).
Notation "m ;;w k" := (wbind m (fun _ => k))
  (at level 61, right associativity).

(** [f.write(text)] *)
Definition write (text : string) : W unit := ([text], Some tt).

(** Several calls of [f.write] in a row. *)
Definition write_all (texts : list string) : W unit := (texts, Some tt).

(** The value of an expression that may raise. *)
Definition eval {A : Type} (o : option A) : W A := ([], o).

(** [for x in l: body(x)] *)
Fixpoint wfor {A : Type} (l : list A) (body : A -> W unit) : W unit :=
  match l with
  | [] => wret tt
  | x :: l' => body x ;;w wfor l' body
  end.

Definition logic_checks_block (q : Question.t) : W unit :=
  wfor q.(Question.logicChecks) (fun logic_check =>
    write (fstr [T2; "<logic_check>"; LF]) ;;w
    text <-w eval (_generate_logic_check logic_check) ;;
    write (String.append text LF) ;;w
    write (fstr [T2; "</logic_check>"; LF])).

Definition label_attr (label : string) : string :=
  if truthy label then fstr [" label='"; label; "'"] else "".

Definition response_line (response : string) : string :=
  match find ":" response with
  | Some index =>
      fstr [T3; "<response value = '"; take index response; "'>";
            strip (drop (index + 1) response); "</response>"; LF]
  | None =>
      (* [find] gave -1: the value is [response[:-1]], the label [response[0:]] *)
      fstr [T3; "<response value = '"; drop_last 1 response; "'>";
            strip response; "</response>"; LF]
  end.

Definition responses_block (q : Question.t) : list string :=
  if mem q.(Question.questionType) ["radio"; "checkbox"; "combobox"] then
    let attrs :=
      match q.(Question.responseSourceType) with
      | CSV => fstr [" source='csv' file='"; q.(Question.responseSourceFile); "'"]
      | DATABASE =>
          fstr [" source='database' table='"; q.(Question.responseSourceTable); "'"]
      | STATIC => ""
      end in
    [fstr [T2; "<responses"; attrs; ">"; LF]]
    ++ map (fun flt =>
              fstr [T3; "<filter column='"; flt.(Filter.column); "' operator='";
                    flt.(Filter.operator); "' value='"; flt.(Filter.value); "'/>"; LF])
         q.(Question.responseFilters)
    ++ (if truthy q.(Question.responseDisplayColumn)
        then [fstr [T3; "<display column='"; q.(Question.responseDisplayColumn); "'/>"; LF]]
        else [])
    ++ (if truthy q.(Question.responseValueColumn)
        then [fstr [T3; "<value column='"; q.(Question.responseValueColumn); "'/>"; LF]]
        else [])
    ++ match q.(Question.responseDistinct) with
       | Some b =>
           [fstr [T3; "<distinct>"; if b then "true" else "false"; "</distinct>"; LF]]
       | None => []
       end
    ++ (if truthy q.(Question.responseEmptyMessage)
        then [fstr [T3; "<empty_message>"; q.(Question.responseEmptyMessage);
                    "</empty_message>"; LF]]
        else [])
    ++ (if truthy q.(Question.responseDontKnowValue)
        then [fstr [T3; "<dont_know value='"; q.(Question.responseDontKnowValue); "'";
                    label_attr q.(Question.responseDontKnowLabel); "/>"; LF]]
        else [])
    ++ (if truthy q.(Question.responseNotInListValue)
        then [fstr [T3; "<not_in_list value='"; q.(Question.responseNotInListValue); "'";
                    label_attr q.(Question.responseNotInListLabel); "/>"; LF]]
        else [])
    ++ (if ExcelReader.is_static q.(Question.responseSourceType) then
          let responses := filter truthy (re_split_newlines q.(Question.responses)) in
          if List.length responses =? 0
          then [fstr [T3; "<response></response>"; LF]]
          else map response_line responses
        else [])
    ++ [fstr [T2; "</responses>"; LF]]
  else [].

Definition skip_group (tag skip_type : string) (group : list string) : W unit :=
  match group with
  | [] => wret tt
  | _ =>
      write (fstr [T2; "<"; tag; ">"; LF]) ;;w
      wfor group (fun s =>
        text <-w eval (_generate_skip s skip_type) ;;
        write (String.append text LF)) ;;w
      write (fstr [T2; "</"; tag; ">"; LF])
  end.

Definition skip_block (q : Question.t) : W unit :=
  if truthy q.(Question.skip) then
    let skips := filter truthy (re_split_newlines q.(Question.skip)) in
    let pre := filter (fun s => startswith s "preskip:") skips in
    let post := filter (fun s => startswith s "postskip:") skips in
    skip_group "preskip" "preSkip" pre ;;w
    skip_group "postskip" "postSkip" post
  else wret tt.

Definition special_buttons_block (q : Question.t) : list string :=
  (if mem q.(Question.dontKnow) ["TRUE"; "True"]
   then [fstr [T2; "<dont_know>-7</dont_know>"; LF]] else [])
  ++ (if mem q.(Question.refuse) ["TRUE"; "True"]
      then [fstr [T2; "<refuse>-8</refuse>"; LF]] else [])
  ++ (if mem q.(Question.na) ["TRUE"; "True"]
      then [fstr [T2; "<na>-6</na>"; LF]] else []).

(** The body of the loop of [write_xml]: one question. *)
Definition write_question (q : Question.t) : W unit :=
  write (open_tag q) ;;w
  write_all (text_block q) ;;w
  write_all (calculation_block q) ;;w
  write_all (max_characters_block q) ;;w
  write_all (mask_block q) ;;w
  write_all (unique_check_block q) ;;w
  write_all (numeric_check_block q) ;;w
  write_all (date_range_block q) ;;w
  logic_checks_block q ;;w
  write_all (responses_block q) ;;w
  skip_block q ;;w
  write_all (special_buttons_block q) ;;w
  write (fstr [T1; "</question>"; LF; LF]).

(** The name of the file [write_xml] writes to, inside [xml_path]. *)
Definition xml_file_name (worksheet_name : string) : string :=
  let xml_name :=
    if endswith worksheet_name "_dd" then drop_last 3 worksheet_name
    else drop_last 4 worksheet_name in
  fstr [xml_name; ".xml"].

(** [write_xml]: what it writes to the file, and the name of the file
    unless it raised. *)
Definition write_xml (worksheet_name : string) (question_list : list Question.t)
  : W string :=
  write (fstr ["<?xml version = '1.0' encoding = 'utf-8'?>"; LF]) ;;w
  write (fstr ["<survey>"; LF; LF]) ;;w
  wfor question_list write_question ;;w
  write (fstr [T1; "<question type = 'information' fieldname = 'end_of_questions' fieldtype = 'n/a'>"; LF]) ;;w
  write (fstr [T2; "<text>Press the 'Finish' button to save the data.</text >"; LF]) ;;w
  write (fstr [T1; "</question>"; LF; LF]) ;;w
  write (fstr ["</survey>"; LF]) ;;w
  wret (xml_file_name worksheet_name).

(** The content of the file after [write_xml]. *)
Definition written (w : W string) : string := fstr (fst w).

End XmlGenerator.

(* ================================================================== *)
(** * The run ([processor.py]) *)
(* ================================================================== *)

(** [GiSTXProcessor.run] is modelled by the calls it makes that read the
    sheets or produce output, in the order it makes them, and by how it
    ends.  The wording of the processor's own log, the reading of the
    [crfs] sheet and the content of the archive belong to collaborators
    and are left out. *)
Module Processor.

Import Py.

Record AppConfig : Type := mkAppConfig {
  excelFile : string;
  csvFiles : string;
  outputPath : string;
  surveyName : string;
  surveyId : string
}.

Inductive Event : Type :=
| CreateQuestionList (title : string)          (* reader.create_question_list(ws) *)
| WriteXml (file content : string)             (* xml_generator.write_xml(...), returned *)
| WriteXmlRaised (file content : string)       (* the same, ended by an exception *)
| WriteManifest (surveyName surveyId databaseName : string) (xmlFiles : list string)
                                               (* JsonGenerator.write_manifest(...) *)
| CreateZipFile (zip_file : string) (files : list string)
                                               (* self._create_zip_file() *)
| WriteLogfile.                                (* self._write_logfile() *)

Inductive Outcome : Type :=
| Returned (code : nat)
| Raised.

(** The attributes of the processor that steer the run. *)
Record t : Type := mk {
  errorsEncountered : bool;
  generated_files : list string;
  question_list_cache : list (string * list Question.t)
}.

(** [GiSTXProcessor(config)] *)
Definition init : t := mk false [] [].

(** [d[k] = v] on a [dict], which keeps the order of first insertion. *)
Fixpoint cache_set (k : string) (v : list Question.t)
    (d : list (string * list Question.t)) : list (string * list Question.t) :=
  match d with
  | [] => [(k, v)]
  | (k', v') :: d' =>
      if String.eqb k k' then (k, v) :: d' else (k', v') :: cache_set k v d'
  end.

(** What the run needs from outside: the iteration order of sets of
    strings, and [ET.parse] on a written file, which answers with the
    details of the syntax error if there is one. *)
Record Environment : Type := mkEnvironment {
  set_iter : list string -> list string;
  xml_syntax_error : string -> option string
}.

Definition _validate_xml_syntax (env : Environment) (content : string) : bool :=
  match xml_syntax_error env content with
  | None => true
  | Some _ => false
  end.

(** The sheets the run compiles. *)
Definition selected_worksheets (workbook : list Worksheet) : list Worksheet :=
  filter (fun ws => endswith (title ws) "_dd" || endswith (title ws) "_xml") workbook.

(** The body of the first loop of [run]: read and check one sheet. *)
Definition read_sheet (env : Environment) (st : t * list Event) (ws : Worksheet)
  : t * list Event :=
  let (self, events) := st in
  let (qlist, reader) :=
    ExcelReader.create_question_list (set_iter env) ws ExcelReader.init in
  (mk (if ExcelReader.errorsEncountered reader then true else errorsEncountered self)
      (generated_files self)
      (cache_set (title ws) qlist (question_list_cache self)),
   events ++ [CreateQuestionList (title ws)]).

(** The second loop of [run], over the items of the cache.  The result is
    [None] for the processor when [write_xml] raised. *)
Fixpoint write_sheets (env : Environment)
    (items : list (string * list Question.t))
    (self : t) (xml_files : list string) (events : list Event)
  : option (t * list string) * list Event :=
  match items with
  | [] => (Some (self, xml_files), events)
  | (ws_name, qlist) :: items' =>
      let xml_name := replace "_xml" ".xml" (replace "_dd" ".xml" ws_name) in
      let xml_files := xml_files ++ [xml_name] in
      let written := XmlGenerator.write_xml ws_name qlist in
      let content := XmlGenerator.written written in
      match snd written with
      | None =>
          (None, events ++ [WriteXmlRaised (XmlGenerator.xml_file_name ws_name) content])
      | Some xml_path =>
          let self :=
            mk (if negb (_validate_xml_syntax env content) then true
                else errorsEncountered self)
               (generated_files self ++ [xml_path])
               (question_list_cache self) in
          write_sheets env items' self xml_files (events ++ [WriteXml xml_path content])
      end
  end.

(** [run]: [workbook] is [None] when the Excel file does not exist. *)
Definition run (env : Environment) (config : AppConfig)
    (workbook : option (list Worksheet)) : list Event * Outcome :=
  match workbook with
  | None => ([WriteLogfile], Returned 1)
  | Some workbook =>
      let worksheets := selected_worksheets workbook in
      let (self, events) := fold_left (read_sheet env) worksheets (init, []) in
      let emitted :=
        if negb (errorsEncountered self) then
          match write_sheets env (question_list_cache self) self [] events with
          | (None, events) => (None, events)
          | (Some (self, xml_files), events) =>
              let manifest_path := "survey_manifest.gistx" in
              (Some (mk (errorsEncountered self)
                        (generated_files self ++ [manifest_path])
                        (question_list_cache self)),
               events ++ [WriteManifest (surveyName config) (surveyId config)
                            (fstr [surveyId config; ".sqlite"]) xml_files])
          end
        else (Some self, events) in
      match emitted with
      | (None, events) => (events, Raised)
      | (Some self, events) =>
          let events :=
            if negb (errorsEncountered self)
            then events ++ [CreateZipFile (fstr [surveyId config; ".zip"])
                             (generated_files self)]
            else events in
          (events ++ [WriteLogfile],
           Returned (if errorsEncountered self then 1 else 0))
      end
  end.

End Processor.

(* ================================================================== *)
(** * Properties *)
(* ================================================================== *)

Import Py ExcelReader.

(** ** Text *)

Lemma append_empty_r (s : string) : String.append s "" = s.
Proof. induction s; simpl; congruence. Qed.

Lemma append_assoc (a b c : string) :
  String.append (String.append a b) c = String.append a (String.append b c).
Proof. induction a; simpl; congruence. Qed.

Lemma append_cancel_l (p a b : string) :
  String.append p a = String.append p b -> a = b.
Proof. induction p; simpl; intros H; [assumption | inversion H; auto]. Qed.

Lemma append_length (a b : string) :
  String.length (String.append a b) = String.length a + String.length b.
Proof. induction a; simpl; congruence. Qed.

Lemma append_same_length (a b c d : string) :
  String.length a = String.length b ->
  String.append a c = String.append b d -> a = b /\ c = d.
Proof.
  revert b; induction a as [|x a IH]; intros [|y b] Hl H; simpl in *;
    try discriminate; auto.
  inversion H; subst. destruct (IH b) as [-> ->]; auto.
Qed.

Lemma append_cancel_r (a b s : string) :
  String.append a s = String.append b s -> a = b.
Proof.
  intros H. apply (append_same_length a b s s); auto.
  apply (f_equal String.length) in H. rewrite !append_length in H. lia.
Qed.

(** Formatted strings as nested concatenations, the literals kept whole. *)
Ltac fstr_unfold :=
  unfold fstr; cbn [String.concat];
  repeat match goal with
         | |- context [String.append EmptyString ?x] =>
             change (String.append EmptyString x) with x
         end.

Ltac fstr_unfold_in H :=
  unfold fstr in H; cbn [String.concat] in H;
  repeat match type of H with
         | context [String.append EmptyString ?x] =>
             change (String.append EmptyString x) with x in H
         end.

(** ** Diagnostics as an effect on the reader *)

Definition nonempty {A : Type} (l : list A) : bool :=
  match l with [] => false | _ => true end.

(** The reader after the diagnostics [msgs] have been recorded. *)
Definition add_errors (msgs : list string) (s : Reader) : Reader :=
  mkReader (logstring s ++ msgs)
    (errorsEncountered s || nonempty msgs)
    (worksheetErrorsEncountered s || nonempty msgs)
    (questionList s).

Lemma add_errors_nil (s : Reader) : add_errors [] s = s.
Proof.
  destruct s; unfold add_errors; simpl.
  rewrite app_nil_r, !orb_false_r. reflexivity.
Qed.

Lemma add_errors_app (l1 l2 : list string) (s : Reader) :
  add_errors l2 (add_errors l1 s) = add_errors (l1 ++ l2) s.
Proof.
  unfold add_errors; simpl. rewrite <- app_assoc, <- !orb_assoc.
  destruct l1, l2; simpl; reflexivity.
Qed.

Lemma error_add_errors (msg : string) (s : Reader) :
  _error msg s = (tt, add_errors [msg] s).
Proof. unfold _error, add_errors; simpl. rewrite !orb_true_r. reflexivity. Qed.

Lemma add_errors_questionList (msgs : list string) (s : Reader) :
  questionList (add_errors msgs s) = questionList s.
Proof. reflexivity. Qed.

(** A method that does nothing but record the diagnostics [msgs]. *)
Definition records (m : M unit) (msgs : list string) : Prop :=
  forall s, m s = (tt, add_errors msgs s).

Lemma records_pass : records pass [].
Proof. intros s. unfold pass, ret. rewrite add_errors_nil. reflexivity. Qed.

Lemma records_error (msg : string) : records (_error msg) [msg].
Proof. intros s. apply error_add_errors. Qed.

Lemma records_seq (m1 m2 : M unit) (l1 l2 : list string) :
  records m1 l1 -> records m2 l2 -> records (m1 ;; m2) (l1 ++ l2).
Proof.
  intros H1 H2 s. unfold bind. rewrite H1, H2, add_errors_app. reflexivity.
Qed.

Lemma records_when (b : bool) (m : M unit) (l : list string) :
  records m l -> records (when b m) (if b then l else []).
Proof. destruct b; simpl; auto using records_pass. Qed.

Lemma records_for_each {A : Type} (l : list A) (body : A -> M unit)
    (f : A -> list string) :
  (forall x, In x l -> records (body x) (f x)) ->
  records (for_each l body) (flat_map f l).
Proof.
  induction l as [|x l IH]; intros H; simpl.
  - apply records_pass.
  - apply records_seq; [apply H; left; reflexivity|].
    apply IH. intros y Hy. apply H. right; assumption.
Qed.

(** A check over the whole sheet: it reads the list of questions and
    records the diagnostics [f] makes of it. *)
Lemma records_reading (body : list Question.t -> M unit)
    (f : list Question.t -> list string) :
  (forall qs, records (body qs) (f qs)) ->
  forall s, (questions <- get_questionList ;; body questions) s
            = (tt, add_errors (f (questionList s)) s).
Proof. intros H s. unfold bind, get_questionList. apply H. Qed.

(** ** The required-max-characters pass *)

Definition needs_value_message (worksheet fieldname : string) : string :=
  fstr ["ERROR - MaxCharacters: In worksheet '"; worksheet;
        "', MaxCharacters for FieldName '"; fieldname; "' needs a value"].

Lemma needs_value_message_inj (worksheet a b : string) :
  needs_value_message worksheet a = needs_value_message worksheet b -> a = b.
Proof.
  unfold needs_value_message. intros H. fstr_unfold_in H.
  do 3 apply append_cancel_l in H.
  apply append_cancel_r in H. assumption.
Qed.

Lemma mem_true_iff (x : string) (l : list string) : mem x l = true <-> In x l.
Proof.
  unfold mem. rewrite existsb_exists. split.
  - intros [y [Hy E]]. apply String.eqb_eq in E. subst; assumption.
  - intros H. exists x. split; [assumption | apply String.eqb_refl].
Qed.

Lemma check_required_max_characters_records (worksheet : string) (s : Reader) :
  _check_required_max_characters worksheet s
  = (tt, add_errors
           (map (fun q => needs_value_message worksheet q.(Question.fieldName))
              (filter needs_max_characters (questionList s))) s).
Proof.
  unfold _check_required_max_characters.
  rewrite (records_reading _
             (fun qs => flat_map (fun q => if needs_max_characters q
                                           then [needs_value_message worksheet
                                                   q.(Question.fieldName)]
                                           else []) qs)).
  - f_equal. f_equal. induction (questionList s) as [|q l IH]; simpl; auto.
    destruct (needs_max_characters q); simpl; congruence.
  - intros qs. apply records_for_each. intros q _.
    apply records_when, records_error.
Qed.

(** C9. Whenever the required-max-characters pass runs, it records
    nothing but "needs a value" diagnostics, one for each question of the
    sheet, in order, whose fieldType is text, text_integer or phone_num,
    whose questionType is none of automatic, checkbox, combobox and whose
    maxCharacters is the unset sentinel -9; so a field name is reported
    exactly when a question of that name meets the three conditions, and
    a question that misses one of them is passed over. *)
Theorem required_max_characters_exactly (worksheet : string) (s : Reader) :
  let required (q : Question.t) : Prop :=
    (q.(Question.fieldType) = "text" \/ q.(Question.fieldType) = "text_integer"
     \/ q.(Question.fieldType) = "phone_num")
    /\ q.(Question.questionType) <> "automatic"
    /\ q.(Question.questionType) <> "checkbox"
    /\ q.(Question.questionType) <> "combobox"
    /\ q.(Question.maxCharacters) = "-9" in
  exists reported : list Question.t,
    snd (_check_required_max_characters worksheet s)
    = add_errors
        (map (fun q => needs_value_message worksheet q.(Question.fieldName)) reported) s
    /\ (forall q, In q reported <-> In q (questionList s) /\ required q)
    /\ (forall name,
          In (needs_value_message worksheet name)
             (map (fun q => needs_value_message worksheet q.(Question.fieldName)) reported)
          <-> exists q, In q (questionList s) /\ q.(Question.fieldName) = name /\ required q)
    /\ ((forall q, In q (questionList s) -> ~ required q) ->
        snd (_check_required_max_characters worksheet s) = s).
Proof.
  intros required.
  assert (Hreq : forall q, needs_max_characters q = true <-> required q).
  { intros q. unfold needs_max_characters, required.
    rewrite !andb_true_iff, negb_true_iff, mem_true_iff, String.eqb_eq.
    rewrite <- not_true_iff_false, mem_true_iff. simpl.
    intuition congruence. }
  assert (Hin : forall q, In q (filter needs_max_characters (questionList s))
                          <-> In q (questionList s) /\ required q).
  { intros q. rewrite filter_In, Hreq. reflexivity. }
  exists (filter needs_max_characters (questionList s)).
  rewrite check_required_max_characters_records. cbn [snd].
  split; [reflexivity|]. split; [exact Hin|]. split.
  - intros name. rewrite in_map_iff. split.
    + intros [q [E Hq]]. apply needs_value_message_inj in E.
      apply Hin in Hq. exists q. tauto.
    + intros [q [Hq [E Hr]]]. exists q. subst. split; [reflexivity|].
      apply Hin. tauto.
  - intros Hnone.
    replace (filter needs_max_characters (questionList s)) with (@nil Question.t).
    + simpl. apply add_errors_nil.
    + symmetry. destruct (filter needs_max_characters (questionList s)) as [|q l] eqn:E; auto.
      exfalso. destruct (proj1 (Hin q) (or_introl eq_refl)) as [H1 H2].
      exact (Hnone q H1 H2).
Qed.

(** ** The shape of a field name *)

(** [c] occurs in [s]. *)
Fixpoint char_in (c : ascii) (s : string) : Prop :=
  match s with
  | EmptyString => False
  | String a s' => a = c \/ char_in c s'
  end.

Lemma any_char_true_iff (p : ascii -> bool) (s : string) :
  any_char p s = true <-> exists c, char_in c s /\ p c = true.
Proof.
  induction s as [|a s IH]; simpl.
  - split; [discriminate | intros [c [[] _]]].
  - rewrite orb_true_iff, IH. split.
    + intros [H | [c [Hc Hp]]]; [exists a | exists c]; auto.
    + intros [c [[-> | Hc] Hp]]; [left | right; exists c]; auto.
Qed.

Lemma prefix_cons (c : ascii) (p : string) (a : ascii) (s : string) :
  String.prefix (String c p) (String a s) = Ascii.eqb c a && String.prefix p s.
Proof.
  change (String.prefix (String c p) (String a s))
    with (if ascii_dec c a then String.prefix p s else false).
  destruct (ascii_dec c a) as [-> | Hne].
  - rewrite Ascii.eqb_refl. reflexivity.
  - apply Ascii.eqb_neq in Hne. rewrite Hne. reflexivity.
Qed.

Lemma contains_cons (a : ascii) (s sub : string) :
  contains (String a s) sub = String.prefix sub (String a s) || contains s sub.
Proof. reflexivity. Qed.

Lemma contains_space_char_in (s : string) :
  contains s " " = true -> char_in " " s.
Proof.
  induction s as [|a s IH].
  - discriminate.
  - rewrite contains_cons, prefix_cons. cbn [char_in].
    destruct (Ascii.eqb " " a) eqn:E.
    + apply Ascii.eqb_eq in E. auto.
    + cbn [andb orb]. auto.
Qed.

Definition field_name_message (what worksheet fieldname : string) : string :=
  fstr ["ERROR - FieldName: "; worksheet; what; fieldname].

Definition starts_with_number : string := " has a FieldName that starts with a number: ".
Definition invalid_character : string :=
  " has an invalid FieldName.  Only letters, digits, and underscores are allowed: ".
Definition not_all_lowercase : string := " has a FieldName that is not all lowercase: ".
Definition starts_with_underscore : string :=
  " has a FieldName that starts with an underscore: ".
Definition contains_a_space : string := " has a FieldName that contains a space: ".

(** The shape rules in the order the specification lists them: leading
    digit, leading underscore, character other than letter, digit or
    underscore, not all lowercase, space; the first that matches gives
    the diagnostic. *)
Definition shape_rules_in_stated_order (worksheet fieldname : string) : list string :=
  match fieldname with
  | EmptyString => []
  | String c0 _ =>
      if isdigit c0 then [field_name_message starts_with_number worksheet fieldname]
      else if Ascii.eqb c0 "_" then
        [field_name_message starts_with_underscore worksheet fieldname]
      else if any_char (fun c => negb (isalnum c) && negb (Ascii.eqb c "_")) fieldname then
        [field_name_message invalid_character worksheet fieldname]
      else if negb (String.eqb fieldname (lower fieldname)) then
        [field_name_message not_all_lowercase worksheet fieldname]
      else if contains fieldname " " then
        [field_name_message contains_a_space worksheet fieldname]
      else []
  end.

(** C5, as stated, fails: for the name _A, which starts with an
    underscore and is not all lowercase, the stated order gives the
    leading-underscore diagnostic, and the program records the
    not-all-lowercase one. *)
Lemma field_name_rule_order_counterexample :
  shape_rules_in_stated_order "demo_dd" "_A"
  = ["ERROR - FieldName: demo_dd has a FieldName that starts with an underscore: _A"]
  /\ logstring (snd (_check_field_name "demo_dd" "_A" init))
     = ["ERROR - FieldName: demo_dd has a FieldName that is not all lowercase: _A"]
  /\ logstring (snd (_check_field_name "demo_dd" "_A" init))
     <> shape_rules_in_stated_order "demo_dd" "_A".
Proof.
  split; [reflexivity|]. split; [reflexivity|]. vm_compute. discriminate.
Qed.

Lemma check_field_name_cons (worksheet : string) (c0 : ascii) (rest : string) :
  let name := String c0 rest in
  _check_field_name worksheet name
  = if isdigit c0 then _error (field_name_message starts_with_number worksheet name)
    else if any_char (fun c => negb (isalnum c) && negb (Ascii.eqb c "_")) name
    then _error (field_name_message invalid_character worksheet name)
    else if negb (String.eqb name (lower name))
    then _error (field_name_message not_all_lowercase worksheet name)
    else if Ascii.eqb c0 "_"
    then _error (field_name_message starts_with_underscore worksheet name)
    else if contains name " "
    then _error (field_name_message contains_a_space worksheet name)
    else pass.
Proof. reflexivity. Qed.

(** C5, amended. For every non-empty field name the rules are tried in
    the order: starts with a digit, contains a character other than
    letter, digit or underscore, is not all lowercase, starts with an
    underscore; the first that matches records its diagnostic, which ends
    with the name, and nothing else is recorded; a name that matches none
    of the four records nothing.  A name with a space has a character
    that is no letter, digit or underscore, so the rule on spaces, tried
    last, never gives the diagnostic. *)
Theorem field_name_first_matching_rule
    (worksheet : string) (c0 : ascii) (rest : string) (s : Reader) :
  let name := String c0 rest in
  let leading_digit := isdigit c0 = true in
  let bad_character := exists c, char_in c name /\ isalnum c = false /\ c <> "_"%char in
  let mixed_case := name <> lower name in
  let leading_underscore := c0 = "_"%char in
  let after := snd (_check_field_name worksheet name s) in
  (leading_digit ->
   after = add_errors [field_name_message starts_with_number worksheet name] s)
  /\ (~ leading_digit -> bad_character ->
      after = add_errors [field_name_message invalid_character worksheet name] s)
  /\ (~ leading_digit -> ~ bad_character -> mixed_case ->
      after = add_errors [field_name_message not_all_lowercase worksheet name] s)
  /\ (~ leading_digit -> ~ bad_character -> ~ mixed_case -> leading_underscore ->
      after = add_errors [field_name_message starts_with_underscore worksheet name] s)
  /\ (~ leading_digit -> ~ bad_character -> ~ mixed_case -> ~ leading_underscore ->
      after = s)
  /\ (char_in " " name -> bad_character).
Proof.
  intros name leading_digit bad_character mixed_case leading_underscore after.
  assert (Hbad : any_char (fun c => negb (isalnum c) && negb (Ascii.eqb c "_")) name = true
                 <-> bad_character).
  { rewrite any_char_true_iff. unfold bad_character.
    split; intros [c [Hc Hp]]; exists c; split; auto.
    - apply andb_true_iff in Hp. destruct Hp as [H1 H2].
      apply negb_true_iff in H1, H2. apply Ascii.eqb_neq in H2. auto.
    - destruct Hp as [H1 H2]. apply Ascii.eqb_neq in H2. rewrite H1, H2. reflexivity. }
  assert (Hcase : String.eqb name (lower name) = false <-> mixed_case).
  { unfold mixed_case. apply String.eqb_neq. }
  assert (Hspace : char_in " " name -> bad_character).
  { intros H. exists " "%char. repeat split; auto. discriminate. }
  pose proof (check_field_name_cons worksheet c0 rest) as Hcode.
  cbv zeta in Hcode. fold name in Hcode.
  subst after. rewrite Hcode. clear Hcode.
  unfold leading_digit, leading_underscore.
  destruct (isdigit c0) eqn:Ed.
  { rewrite error_add_errors. cbn [snd].
    repeat split; intros; try reflexivity; try congruence; tauto. }
  destruct (any_char _ name) eqn:Eb.
  { rewrite error_add_errors. cbn [snd]. pose proof (proj1 Hbad eq_refl) as Hb.
    repeat split; intros; try reflexivity; try congruence; tauto. }
  assert (Hnb : ~ bad_character) by (intros H; apply Hbad in H; discriminate).
  destruct (String.eqb name (lower name)) eqn:El; cbn [negb].
  2:{ rewrite error_add_errors. cbn [snd]. pose proof (proj1 Hcase eq_refl) as Hc.
      repeat split; intros; try reflexivity; try congruence; tauto. }
  assert (Hnc : ~ mixed_case) by (intros H; apply Hcase in H; discriminate).
  destruct (Ascii.eqb c0 "_") eqn:Eu.
  { rewrite error_add_errors. cbn [snd]. apply Ascii.eqb_eq in Eu.
    repeat split; intros; try reflexivity; try congruence; tauto. }
  apply Ascii.eqb_neq in Eu.
  destruct (contains name " ") eqn:Es.
  { exfalso. apply Hnb, Hspace, contains_space_char_in, Es. }
  unfold pass, ret. cbn [snd].
  repeat split; intros; try reflexivity; try congruence; tauto.
Qed.

(** ** The filter directive *)

(** C6 (the program departs from the claim). The directive line
    [filter: code >= 3] gives the operator [&gt;] and the value [= 3],
    and records no diagnostic: in the pattern for filters the alternative
    [>] stands before [>=] and wins.  The pattern for when-conditions
    lists the longer operators first and reads the same text as [>=]. *)
Theorem filter_ge_read_as_gt :
  _parse_dynamic_responses_line "demo_dd" "color" Question.default "filter: code >= 3" init
  = (Question.set_responseFilters
       [{| Filter.column := "code"; Filter.value := "= 3"; Filter.operator := "&gt;" |}]
       Question.default,
     init)
  /\ option_map (Re.group 2) (Re.match_ FILTER_MATCH_RE "code >= 3") = Some (Some ">")
  /\ option_map (Re.group 2) (Re.match_ FILTER_MATCH_RE "code <= 3") = Some (Some "<")
  /\ option_map (Re.group 2) (Re.match_ WHEN_CONDITION_RE "code >= 3 => x")
     = Some (Some ">=").
Proof. repeat split; vm_compute; reflexivity. Qed.

(** ** What the emitter writes *)

Import XmlGenerator.

Lemma fst_wbind {A B : Type} (m : W A) (f : A -> W B) :
  fst (wbind m f)
  = fst m ++ match snd m with Some a => fst (f a) | None => [] end.
Proof.
  destruct m as [w [a|]]; simpl.
  - destruct (f a); reflexivity.
  - rewrite app_nil_r. reflexivity.
Qed.

Lemma Forall_wbind {A B : Type} (P : string -> Prop) (m : W A) (f : A -> W B) :
  Forall P (fst m) -> (forall a, Forall P (fst (f a))) -> Forall P (fst (wbind m f)).
Proof.
  intros Hm Hf. rewrite fst_wbind. apply Forall_app. split; [assumption|].
  destruct (snd m); auto.
Qed.

Lemma Forall_wfor {A : Type} (P : string -> Prop) (l : list A) (body : A -> W unit) :
  (forall x, Forall P (fst (body x))) -> Forall P (fst (wfor l body)).
Proof.
  intros H. induction l as [|x l IH]; simpl.
  - constructor.
  - apply Forall_wbind; auto.
Qed.

(** Induction on a calculation part, with the nested parts covered. *)
Fixpoint CalculationPart_ind' (P : CalculationPart.t -> Prop)
    (step : forall type constantValue lookupField querySql queryParameters
                   mathOperator parts concatSeparator,
        Forall P parts ->
        P (CalculationPart.mk type constantValue lookupField querySql queryParameters
             mathOperator parts concatSeparator))
    (part : CalculationPart.t) : P part :=
  match part with
  | CalculationPart.mk type constantValue lookupField querySql queryParameters
      mathOperator parts concatSeparator =>
      step type constantValue lookupField querySql queryParameters mathOperator parts
        concatSeparator
        ((fix all (l : list CalculationPart.t) : Forall P l :=
            match l with
            | [] => Forall_nil P
            | p :: l' => Forall_cons p (CalculationPart_ind' P step p) (all l')
            end) parts)
  end.

Lemma Forall_wbind_result {A B : Type} (P : string -> Prop) (m : W A) (f : A -> W B) :
  Forall P (fst m) -> (forall a, snd m = Some a -> Forall P (fst (f a))) ->
  Forall P (fst (wbind m f)).
Proof.
  intros Hm Hf. rewrite fst_wbind. apply Forall_app. split; [assumption|].
  destruct (snd m); auto.
Qed.

(** ** What a method of the reader depends on *)

(** Two readers agree on the sheet in hand: on its error flag and on its
    list of questions.  The log and the flag of the whole reader, which
    outlive a sheet, may differ. *)
Definition same_sheet (s1 s2 : Reader) : Prop :=
  worksheetErrorsEncountered s1 = worksheetErrorsEncountered s2
  /\ questionList s1 = questionList s2.

(** A method is blind to the log and to the flag of the reader: from
    readers that agree on the sheet it returns the same value and leaves
    readers that agree on the sheet. *)
Definition blind {A : Type} (m : M A) : Prop :=
  forall s1 s2, same_sheet s1 s2 ->
    fst (m s1) = fst (m s2) /\ same_sheet (snd (m s1)) (snd (m s2)).

Lemma blind_ret {A : Type} (a : A) : blind (ret a).
Proof. intros s1 s2 H. split; [reflexivity | exact H]. Qed.

Lemma blind_pass : blind pass.
Proof. apply blind_ret. Qed.

Lemma blind_bind {A B : Type} (m : M A) (f : A -> M B) :
  blind m -> (forall a, blind (f a)) -> blind (bind m f).
Proof.
  intros Hm Hf s1 s2 H. unfold bind.
  destruct (Hm s1 s2 H) as [Ha Hs].
  destruct (m s1) as [a1 t1], (m s2) as [a2 t2]; simpl in *. subst a2.
  apply Hf; assumption.
Qed.

Lemma blind_error (msg : string) : blind (_error msg).
Proof. intros s1 s2 [H1 H2]. repeat split; simpl; auto. Qed.

Lemma blind_log (msg : string) : blind (log msg).
Proof. intros s1 s2 [H1 H2]. repeat split; simpl; auto. Qed.

Lemma blind_when (b : bool) (m : M unit) : blind m -> blind (when b m).
Proof. destruct b; simpl; auto using blind_pass. Qed.

Lemma blind_for_each {A : Type} (l : list A) (body : A -> M unit) :
  (forall x, blind (body x)) -> blind (for_each l body).
Proof.
  intros H. induction l; simpl; [apply blind_pass|].
  apply blind_bind; auto.
Qed.

Lemma blind_for_fold {A B : Type} (l : list A) (body : B -> A -> M B) :
  (forall b x, blind (body b x)) -> forall b, blind (for_fold l body b).
Proof.
  intros H. induction l; intros b; simpl; [apply blind_ret|].
  apply blind_bind; auto.
Qed.

Lemma blind_for_return {A : Type} (l : list A) (body : A -> M flow) :
  (forall x, blind (body x)) -> blind (for_return l body).
Proof.
  intros H. induction l; simpl; [apply blind_pass|].
  apply blind_bind; auto. intros []; auto using blind_pass.
Qed.

Lemma blind_questionList_append (q : Question.t) : blind (questionList_append q).
Proof. intros s1 s2 [H1 H2]. repeat split; simpl; auto. congruence. Qed.

Lemma blind_get_questionList : blind get_questionList.
Proof. intros s1 s2 [H1 H2]. repeat split; simpl; auto. Qed.

Lemma blind_get_worksheetErrorsEncountered : blind get_worksheetErrorsEncountered.
Proof. intros s1 s2 [H1 H2]. repeat split; simpl; auto. Qed.

Create HintDb blind.

(** Take a method apart along its control structure. *)
Ltac blind_step :=
  first
    [ apply blind_ret
    | apply blind_pass
    | apply blind_error
    | apply blind_log
    | apply blind_questionList_append
    | apply blind_get_questionList
    | apply blind_get_worksheetErrorsEncountered
    | solve [auto with blind nocore]
    | apply blind_when
    | apply blind_bind; [|intros ?]
    | apply blind_for_each; intros ?
    | apply blind_for_fold; intros ? ?
    | apply blind_for_return; intros ?
    | match goal with
      | |- blind (if ?b then _ else _) => destruct b
      | |- blind (match ?x with _ => _ end) => destruct x
      | |- blind (let (_, _) := ?x in _) => destruct x
      end ].

Ltac blind_auto := repeat blind_step.

Lemma blind_check_field_name (worksheet fieldname : string) :
  blind (_check_field_name worksheet fieldname).
Proof. unfold _check_field_name. blind_auto. Qed.
#[local] Hint Resolve blind_check_field_name : blind.

Lemma blind_check_max_chars_value (worksheet max_chars fieldname : string) :
  blind (_check_max_chars_value worksheet max_chars fieldname).
Proof. unfold _check_max_chars_value. blind_auto. Qed.
#[local] Hint Resolve blind_check_max_chars_value : blind.

Lemma blind_static_responses_loop (fieldname worksheet : string) (responses : list string) :
  forall seen, blind (static_responses_loop fieldname worksheet seen responses).
Proof.
  induction responses as [|response rest IH]; intros seen; simpl; [apply blind_pass|].
  blind_auto.
Qed.
#[local] Hint Resolve blind_static_responses_loop : blind.

Lemma blind_check_question_field_type (q : Question.t) (worksheet : string) :
  blind (_check_question_field_type q worksheet).
Proof.
  unfold _check_question_field_type. blind_auto.
Qed.
#[local] Hint Resolve blind_check_question_field_type : blind.

Lemma blind_check_numeric_range (worksheet value fieldname range_name : string) :
  blind (_check_numeric_range worksheet value fieldname range_name).
Proof. unfold _check_numeric_range. blind_auto. Qed.
#[local] Hint Resolve blind_check_numeric_range : blind.

Lemma blind_check_date_range (worksheet value fieldname range_name : string) :
  blind (_check_date_range worksheet value fieldname range_name).
Proof. unfold _check_date_range. blind_auto. Qed.
#[local] Hint Resolve blind_check_date_range : blind.

Lemma blind_check_logic_check_syntax (worksheet logic_check fieldname : string) :
  blind (_check_logic_check_syntax worksheet logic_check fieldname).
Proof. unfold _check_logic_check_syntax. blind_auto. Qed.
#[local] Hint Resolve blind_check_logic_check_syntax : blind.

Lemma blind_check_special_button (worksheet value fieldname button_name : string) :
  blind (_check_special_button worksheet value fieldname button_name).
Proof. unfold _check_special_button. blind_auto. Qed.
#[local] Hint Resolve blind_check_special_button : blind.

Lemma blind_check_skip_syntax (worksheet skip_text fieldname : string) :
  blind (_check_skip_syntax worksheet skip_text fieldname).
Proof.
  unfold _check_skip_syntax, _check_skip_syntax_line, error_return. blind_auto.
Qed.
#[local] Hint Resolve blind_check_skip_syntax : blind.

Lemma blind_parse_dynamic_responses (responses : string) (question : Question.t)
    (worksheet fieldname : string) :
  blind (_parse_dynamic_responses responses question worksheet fieldname).
Proof.
  unfold _parse_dynamic_responses. apply blind_for_fold. intros q line.
  unfold _parse_dynamic_responses_line. blind_auto.
Qed.
#[local] Hint Resolve blind_parse_dynamic_responses : blind.

Lemma blind_parse_parameter (param_str : string) (question : Question.t)
    (worksheet fieldname : string) :
  blind (_parse_parameter param_str question worksheet fieldname).
Proof. unfold _parse_parameter. blind_auto. Qed.
#[local] Hint Resolve blind_parse_parameter : blind.

Lemma blind_parse_when_condition (when_str : string) (question : Question.t)
    (worksheet fieldname : string) :
  blind (_parse_when_condition when_str question worksheet fieldname).
Proof. unfold _parse_when_condition. blind_auto. Qed.
#[local] Hint Resolve blind_parse_when_condition : blind.

Lemma blind_parse_part_line (part_line worksheet fieldname : string) :
  blind (_parse_part_line part_line worksheet fieldname).
Proof. unfold _parse_part_line. blind_auto. Qed.
#[local] Hint Resolve blind_parse_part_line : blind.

Lemma blind_validate_calculation_fields (question : Question.t)
    (worksheet fieldname : string) :
  blind (_validate_calculation_fields question worksheet fieldname).
Proof. unfold _validate_calculation_fields. blind_auto. Qed.
#[local] Hint Resolve blind_validate_calculation_fields : blind.

Lemma blind_parse_automatic_calculation (responses : string) (question : Question.t)
    (worksheet fieldname : string) :
  blind (_parse_automatic_calculation responses question worksheet fieldname).
Proof.
  unfold _parse_automatic_calculation.
  apply blind_bind.
  { apply blind_for_fold. intros v line.
    unfold _parse_automatic_calculation_line.
    blind_auto. }
  intros v. apply blind_bind.
  { destruct (String.eqb _ _); [|apply blind_ret].
    apply blind_for_fold. intros q w. apply blind_parse_when_condition. }
  intros q. apply blind_bind.
  { destruct (mem _ _); [|apply blind_ret].
    apply blind_for_fold. intros q' p.
    apply blind_bind; [apply blind_parse_part_line|]. intros part. blind_auto. }
  intros q'. apply blind_bind; [apply blind_validate_calculation_fields|].
  intros _. apply blind_ret.
Qed.
#[local] Hint Resolve blind_parse_automatic_calculation : blind.

Lemma blind_logic_check_line (worksheet : string) (q : Question.t) (check : string) :
  blind (logic_check_line worksheet q check).
Proof.
  unfold logic_check_line. blind_auto.
Qed.
#[local] Hint Resolve blind_logic_check_line : blind.

Lemma blind_process_row (worksheet : Worksheet) (row_idx : nat) :
  blind (process_row worksheet row_idx).
Proof.
  unfold process_row.
  destruct (row_idx =? 1); [blind_auto|].
  destruct (_is_cell_merged _ _ _); [blind_auto|].
  cbv zeta.
  destruct (negb (truthy _)); [blind_auto|].
  apply blind_bind; [apply blind_check_field_name | intros _].
  apply blind_bind; [blind_auto | intros _].
  apply blind_bind;
    [destruct (negb _); [apply blind_check_max_chars_value | apply blind_ret]|].
  intros [|ex]; [|apply blind_error].
  apply blind_bind.
  { repeat match goal with
           | |- blind (if ?b then _ else _) => destruct b
           end;
      first [ apply blind_parse_dynamic_responses
            | apply blind_parse_automatic_calculation
            | blind_auto ]. }
  intros q.
  apply blind_bind; [apply blind_check_question_field_type | intros _].
  apply blind_bind.
  { destruct (String.eqb _ _).
    - apply blind_bind; [|intros _]; apply blind_check_date_range.
    - apply blind_bind; [|intros _]; apply blind_when, blind_check_numeric_range. }
  intros _.
  apply blind_bind.
  { destruct (truthy _); [|apply blind_ret].
    apply blind_for_fold. intros q' check. apply blind_logic_check_line. }
  intros q'.
  repeat (apply blind_bind; [apply blind_when, blind_check_special_button | intros _]).
  apply blind_bind; [apply blind_when, blind_check_skip_syntax | intros _].
  apply blind_questionList_append.
Qed.

(** ** The checks over the whole sheet as lists of diagnostics *)

Definition logic_after_message (worksheet cur_field ref : string) : string :=
  fstr ["ERROR - LogicCheck: In worksheet '"; worksheet;
        "', the LogicCheck for FieldName '"; cur_field;
        "' uses a FieldName AFTER the current question: "; ref].

Definition logic_nonexistent_message (worksheet cur_field ref : string) : string :=
  fstr ["ERROR - LogicCheck: In worksheet '"; worksheet;
        "', the LogicCheck for FieldName '"; cur_field;
        "' uses a nonexistent FieldName: "; ref].

(** What [_check_logic_field_names] records for one reference. *)
Definition logic_reference_diagnostics (worksheet : string) (index : index_dict)
    (cur_field ref : string) : list string :=
  match index ref with
  | Some i =>
      if item index cur_field <? i then [logic_after_message worksheet cur_field ref]
      else []
  | None => [logic_nonexistent_message worksheet cur_field ref]
  end.

Lemma check_logic_field_name_records (worksheet : string) (index : index_dict)
    (cur_field ref : string) :
  records (_check_logic_field_name worksheet index cur_field ref)
    (logic_reference_diagnostics worksheet index cur_field ref).
Proof.
  unfold _check_logic_field_name, logic_reference_diagnostics.
  destruct (index ref) as [i|].
  - destruct (item index cur_field <? i); simpl;
      [apply records_error | apply records_pass].
  - apply records_error.
Qed.

Definition logic_diagnostics (set_iter : list string -> list string)
    (worksheet : string) (questions : list Question.t) : list string :=
  flat_map (fun question =>
    flat_map (fun logic_check =>
      flat_map
        (logic_reference_diagnostics worksheet (field_index questions)
           question.(Question.fieldName))
        (set_iter (referenced_names (logic_check_matches logic_check))))
      question.(Question.logicChecks))
    questions.

Lemma check_logic_field_names_records (set_iter : list string -> list string)
    (worksheet : string) (s : Reader) :
  _check_logic_field_names set_iter worksheet s
  = (tt, add_errors (logic_diagnostics set_iter worksheet (questionList s)) s).
Proof.
  unfold _check_logic_field_names.
  apply (records_reading _ (logic_diagnostics set_iter worksheet)).
  intros qs. unfold logic_diagnostics.
  apply records_for_each. intros q _.
  apply records_for_each. intros lc _.
  apply records_for_each. intros ref _.
  apply check_logic_field_name_records.
Qed.

Definition skip_structure_message (worksheet cur_field skip : string) : string :=
  fstr ["ERROR - Skip: In worksheet '"; worksheet; "', the skip for FieldName '";
        cur_field; "' has invalid structure: "; skip].

Definition skip_check_after_message (worksheet cur_field name : string) : string :=
  fstr ["ERROR - Skip: In worksheet '"; worksheet; "', the skip for FieldName '"; cur_field;
        "' checks skip for a FieldName AFTER the current question: "; name].

Definition skip_check_nonexistent_message (worksheet cur_field name : string) : string :=
  fstr ["ERROR - Skip: In worksheet '"; worksheet; "', the skip for FieldName '"; cur_field;
        "' checks skip of a nonexistent FieldName: "; name].

Definition skip_before_message (worksheet cur_field target : string) : string :=
  fstr ["ERROR - Skip: In worksheet '"; worksheet; "', the skip for FieldName '"; cur_field;
        "' skips to a FieldName BEFORE the current question: "; target].

Definition skip_self_message (worksheet cur_field target : string) : string :=
  fstr ["ERROR - Skip: In worksheet '"; worksheet; "', the skip for FieldName '"; cur_field;
        "' skips to the current question: "; target].

Definition skip_nonexistent_message (worksheet cur_field target : string) : string :=
  fstr ["ERROR - Skip: In worksheet '"; worksheet; "', the skip for FieldName '"; cur_field;
        "' skips to a nonexistent FieldName: "; target].

(** The words of a skip line, and the two names read from them. *)
Definition skip_words (skip : string) : list string := filter truthy (split " " skip).
Definition skip_checked_field (skip : string) : string :=
  strip_char "," (strip (nth 2 (skip_words skip) "")).
Definition skip_target (skip : string) : string := strip (last (skip_words skip) "").

Definition skip_checked_diagnostics (worksheet : string) (index : index_dict)
    (cur_field skip : string) : list string :=
  match index (skip_checked_field skip) with
  | Some i =>
      if item index cur_field <? i
      then [skip_check_after_message worksheet cur_field (skip_checked_field skip)]
      else []
  | None => [skip_check_nonexistent_message worksheet cur_field (skip_checked_field skip)]
  end.

Definition skip_target_diagnostics (worksheet : string) (index : index_dict)
    (cur_field skip : string) : list string :=
  match index (skip_target skip) with
  | Some target_index =>
      if target_index <? item index cur_field
      then [skip_before_message worksheet cur_field (skip_target skip)]
      else if target_index =? item index cur_field
      then [skip_self_message worksheet cur_field (skip_target skip)]
      else []
  | None => [skip_nonexistent_message worksheet cur_field (skip_target skip)]
  end.

(** What [_check_skip_to_field_names] records for one skip line. *)
Definition skip_line_diagnostics (worksheet : string) (index : index_dict)
    (cur_field skip : string) : list string :=
  if List.length (skip_words skip) <? 4
  then [skip_structure_message worksheet cur_field skip]
  else skip_checked_diagnostics worksheet index cur_field skip
       ++ skip_target_diagnostics worksheet index cur_field skip.

Lemma check_skip_to_field_names_line_records (worksheet : string) (index : index_dict)
    (cur_field skip : string) :
  records (_check_skip_to_field_names_line worksheet index cur_field skip)
    (skip_line_diagnostics worksheet index cur_field skip).
Proof.
  unfold _check_skip_to_field_names_line, skip_line_diagnostics.
  fold (skip_words skip). fold (skip_checked_field skip). fold (skip_target skip).
  destruct (List.length (skip_words skip) <? 4); [apply records_error|].
  apply records_seq.
  - unfold skip_checked_diagnostics.
    destruct (index (skip_checked_field skip)) as [i|]; [|apply records_error].
    destruct (item index cur_field <? i); simpl;
      [apply records_error | apply records_pass].
  - unfold skip_target_diagnostics.
    destruct (index (skip_target skip)) as [j|]; [|apply records_error].
    destruct (j <? item index cur_field); [apply records_error|].
    destruct (j =? item index cur_field); [apply records_error | apply records_pass].
Qed.

Definition skip_diagnostics (worksheet : string) (questions : list Question.t)
  : list string :=
  flat_map (fun question =>
    if negb (truthy question.(Question.skip)) then []
    else flat_map
           (skip_line_diagnostics worksheet (field_index questions)
              question.(Question.fieldName))
           (_split_lines question.(Question.skip)))
    questions.

Lemma check_skip_to_field_names_records (worksheet : string) (s : Reader) :
  _check_skip_to_field_names worksheet s
  = (tt, add_errors (skip_diagnostics worksheet (questionList s)) s).
Proof.
  unfold _check_skip_to_field_names.
  apply (records_reading _ (skip_diagnostics worksheet)).
  intros qs. unfold skip_diagnostics.
  apply records_for_each. intros q _.
  destruct (negb (truthy _)); [apply records_pass|].
  apply records_for_each. intros line _.
  apply check_skip_to_field_names_line_records.
Qed.

Definition max_characters_diagnostics (worksheet : string) (questions : list Question.t)
  : list string :=
  map (fun q => needs_value_message worksheet q.(Question.fieldName))
    (filter needs_max_characters questions).

Definition duplicate_diagnostics (worksheet : string) (questions : list Question.t)
  : list string :=
  let fields :=
    map Question.fieldName
      (filter (fun q => negb (String.eqb q.(Question.questionType) "information"))
         questions) in
  if has_duplicates fields then
    [fstr ["ERROR - Duplicate fieldnames found in worksheet: "; worksheet;
           ". Duplicated fieldnames: "; join "," (sorted_duplicates fields); ". ";
           "Check for empty rows at the end of the spreadsheet and delete them."]]
  else [].

Lemma check_duplicate_columns_records (worksheet : string) (s : Reader) :
  _check_duplicate_columns worksheet s
  = (tt, add_errors (duplicate_diagnostics worksheet (questionList s)) s).
Proof.
  unfold _check_duplicate_columns.
  apply (records_reading _ (duplicate_diagnostics worksheet)).
  intros qs. unfold duplicate_diagnostics. cbv zeta.
  destruct (has_duplicates _); simpl; [apply records_error | apply records_pass].
Qed.

(** ** The two phases of [create_question_list] *)

(** The start of [create_question_list], up to the end of the loop over
    the rows. *)
Definition rows_phase (worksheet : Worksheet) : M unit :=
  set_worksheetErrorsEncountered false ;;
  log (fstr [CR; "Checking worksheet: '"; title worksheet; "'"]) ;;
  set_questionList [] ;;
  for_each (List.seq 1 (max_row worksheet)) (process_row worksheet).

(** The diagnostics of the four checks over the whole sheet, in the order
    in which the checks are made. *)
Definition late_diagnostics (set_iter : list string -> list string)
    (worksheet : string) (questions : list Question.t) : list string :=
  logic_diagnostics set_iter worksheet questions
  ++ skip_diagnostics worksheet questions
  ++ max_characters_diagnostics worksheet questions
  ++ duplicate_diagnostics worksheet questions.

Definition no_errors_line (worksheet : string) : string :=
  fstr ["No errors found in '"; worksheet; "'"].

(** The reader when the loop over the rows begins. *)
Definition rows_start (worksheet : Worksheet) (s : Reader) : Reader :=
  mkReader (logstring s ++ [fstr [CR; "Checking worksheet: '"; title worksheet; "'"]])
    (errorsEncountered s) false [].

Lemma rows_phase_start (worksheet : Worksheet) (s : Reader) :
  rows_phase worksheet s
  = for_each (List.seq 1 (max_row worksheet)) (process_row worksheet)
      (rows_start worksheet s).
Proof. reflexivity. Qed.

Lemma create_question_list_start (set_iter : list string -> list string)
    (worksheet : Worksheet) (s : Reader) :
  create_question_list set_iter worksheet s
  = ((for_each (List.seq 1 (max_row worksheet)) (process_row worksheet) ;;
      failed <- get_worksheetErrorsEncountered ;;
      when (negb failed)
        (_check_logic_field_names set_iter (title worksheet) ;;
         _check_skip_to_field_names (title worksheet) ;;
         _check_required_max_characters (title worksheet) ;;
         _check_duplicate_columns (title worksheet) ;;
         failed <- get_worksheetErrorsEncountered ;;
         when (negb failed) (log (no_errors_line (title worksheet)))) ;;
      get_questionList) (rows_start worksheet s)).
Proof. reflexivity. Qed.

Lemma create_question_list_phases (set_iter : list string -> list string)
    (worksheet : Worksheet) (s : Reader) :
  let after_rows := snd (rows_phase worksheet s) in
  let late := late_diagnostics set_iter (title worksheet) (questionList after_rows) in
  create_question_list set_iter worksheet s
  = (questionList after_rows,
     if worksheetErrorsEncountered after_rows then after_rows
     else if nonempty late then add_errors late after_rows
          else snd (log (no_errors_line (title worksheet)) after_rows)).
Proof.
  rewrite create_question_list_start, rows_phase_start.
  unfold bind at 1.
  destruct (for_each _ _ _) as [[] s1]. cbn [snd].
  unfold bind at 1. cbn [get_worksheetErrorsEncountered].
  destruct (worksheetErrorsEncountered s1) eqn:Hflag; cbn [negb when].
  - reflexivity.
  - unfold bind.
    rewrite check_logic_field_names_records, check_skip_to_field_names_records,
      check_required_max_characters_records, check_duplicate_columns_records.
    rewrite !add_errors_questionList, !add_errors_app.
    fold (max_characters_diagnostics (title worksheet) (questionList s1)).
    rewrite <- ?app_assoc.
    fold (late_diagnostics set_iter (title worksheet) (questionList s1)).
    cbn [get_worksheetErrorsEncountered]. unfold add_errors at 1.
    cbn [worksheetErrorsEncountered]. rewrite Hflag. cbn [orb].
    destruct (late_diagnostics _ _ _) as [|m late] eqn:Hlate; cbn [nonempty negb when].
    + rewrite add_errors_nil. reflexivity.
    + reflexivity.
Qed.

(** ** Sheets used as examples *)

(** A row of text cells; an empty text stands for an empty cell. *)
Definition text_row (cells : list string) : list CellValue :=
  map (fun c => if truthy c then VStr c else VNone) cells.

Definition header_row : list CellValue := text_row COLUMN_NAMES.

(** Two rows named dob, the first without question text. *)
Definition sheet_with_blank_text_and_duplicate : Worksheet :=
  mkWorksheet "demo_dd"
    [header_row;
     text_row ["dob"; "text"; "text"; ""; "10"; ""; ""; ""; ""; ""; ""; ""; ""; ""];
     text_row ["dob"; "text"; "text"; "Date of birth"; "10"; ""; ""; ""; ""; ""; ""; ""; ""; ""]]
    [].

(** A sheet without errors: a logic check, a skip and a date. *)
Definition clean_sheet : Worksheet :=
  mkWorksheet "demo_dd"
    [header_row;
     text_row ["age"; "text"; "integer"; "Age?"; "3"; ""; "0"; "120";
               "age >= 18 and age < 99;'Must be an adult'"; ""; ""; ""; ""; ""];
     text_row ["sex"; "radio"; "integer"; "Sex?"; ""; fstr ["1:Male"; LF; "2:Female"];
               ""; ""; ""; "True"; ""; ""; "preskip: if age < 5, skip to dob"; ""];
     text_row ["dob"; "date"; "date"; "Born?"; ""; ""; "-100y"; "0"; ""; ""; ""; ""; ""; ""]]
    [].

(** ** The guard before the checks over the whole sheet *)

(** C2, as stated, fails: in a sheet whose first row has no question text
    and whose two rows share the name dob, the row's diagnostic is the
    only one in the log; the check for duplicate names, which would
    record one on this list of questions, was not made. *)
Lemma late_checks_skipped_counterexample :
  let result := create_question_list (fun l => l) sheet_with_blank_text_and_duplicate init in
  logstring (snd result)
  = [fstr [CR; "Checking worksheet: 'demo_dd'"];
     "ERROR - QuestionText: FieldName 'dob' in worksheet 'demo_dd' has blank QuestionText."]
  /\ logstring (snd (_check_duplicate_columns "demo_dd" (snd result)))
     = logstring (snd result)
       ++ ["ERROR - Duplicate fieldnames found in worksheet: demo_dd. Duplicated fieldnames: dob. Check for empty rows at the end of the spreadsheet and delete them."].
Proof. vm_compute. split; reflexivity. Qed.

(** C2, amended. The four checks over the whole sheet (field names in
    logic checks, skip targets, required max-characters, duplicate names)
    are made only when the rows of the sheet recorded no error; then all
    four are made, each on the whole list of questions, and each records
    what it finds whatever the checks before it recorded, so the
    diagnostics add up.  When a row recorded an error none of the four is
    made and the reader is left as the rows left it. *)
Theorem late_checks_only_after_clean_rows
    (set_iter : list string -> list string) (worksheet : Worksheet) (s : Reader) :
  let after_rows := snd (rows_phase worksheet s) in
  let questions := questionList after_rows in
  let name := title worksheet in
  let late :=
    logic_diagnostics set_iter name questions ++ skip_diagnostics name questions
    ++ max_characters_diagnostics name questions ++ duplicate_diagnostics name questions in
  let finished := snd (create_question_list set_iter worksheet s) in
  (worksheetErrorsEncountered after_rows = true -> finished = after_rows)
  /\ (worksheetErrorsEncountered after_rows = false -> late <> [] ->
      finished = add_errors late after_rows)
  /\ (worksheetErrorsEncountered after_rows = false -> late = [] ->
      finished = snd (log (no_errors_line name) after_rows))
  /\ (forall r, questionList r = questions ->
        snd (_check_logic_field_names set_iter name r)
        = add_errors (logic_diagnostics set_iter name questions) r
        /\ snd (_check_skip_to_field_names name r)
           = add_errors (skip_diagnostics name questions) r
        /\ snd (_check_required_max_characters name r)
           = add_errors (max_characters_diagnostics name questions) r
        /\ snd (_check_duplicate_columns name r)
           = add_errors (duplicate_diagnostics name questions) r).
Proof.
  intros after_rows questions name late finished.
  subst finished. rewrite create_question_list_phases. cbn [snd].
  fold after_rows. fold questions. fold name.
  change (late_diagnostics set_iter name questions) with late.
  repeat split.
  - intros H. rewrite H. reflexivity.
  - intros H Hlate. rewrite H. destruct late; [congruence | reflexivity].
  - intros H Hlate. rewrite H, Hlate. reflexivity.
  - rewrite check_logic_field_names_records. cbn [snd]. congruence.
  - rewrite check_skip_to_field_names_records. cbn [snd]. congruence.
  - rewrite check_required_max_characters_records. cbn [snd].
    unfold max_characters_diagnostics. congruence.
  - rewrite check_duplicate_columns_records. cbn [snd]. congruence.
Qed.

(** ** Two passes over the same sheet *)

Lemma rows_phase_same_sheet (worksheet : Worksheet) (s1 s2 : Reader) :
  same_sheet (snd (rows_phase worksheet s1)) (snd (rows_phase worksheet s2)).
Proof.
  rewrite !rows_phase_start.
  apply blind_for_each.
  - intros row_idx. apply blind_process_row.
  - split; reflexivity.
Qed.

Lemma flat_map_nil_iff {A B : Type} (f : A -> list B) (l : list A) :
  flat_map f l = [] <-> forall x, In x l -> f x = [].
Proof.
  induction l as [|a l IH]; simpl.
  - split; [intros _ x [] | reflexivity].
  - split.
    + intros H. apply app_eq_nil in H. destruct H as [Ha Hl].
      intros x [<- | Hx]; [assumption | apply IH; assumption].
    + intros H. rewrite (H a (or_introl eq_refl)). simpl. apply IH. auto.
Qed.

(** Whether the check of the logic checks finds anything does not depend
    on the order in which the sets of names are gone through. *)
Lemma logic_diagnostics_nil_any_order (iter1 iter2 : list string -> list string)
    (worksheet : string) (questions : list Question.t) :
  (forall l x, In x (iter1 l) <-> In x l) ->
  (forall l x, In x (iter2 l) <-> In x l) ->
  logic_diagnostics iter1 worksheet questions = [] ->
  logic_diagnostics iter2 worksheet questions = [].
Proof.
  intros H1 H2. unfold logic_diagnostics. rewrite !flat_map_nil_iff.
  intros H q Hq. specialize (H q Hq). rewrite flat_map_nil_iff in *.
  intros lc Hlc. specialize (H lc Hlc). rewrite flat_map_nil_iff in *.
  intros ref Href. apply H. apply H1. apply (proj1 (H2 _ _)). exact Href.
Qed.

(** C8. Two passes over the same cells give the same result when the
    first records no error for the sheet: whatever the reader held
    before each pass (a new reader, or the one the first pass left) and
    in whatever order each pass goes through its sets of names, both
    passes return the same list of questions, the second records no error
    either, and the emitter writes the same text, character for
    character, from both. *)
Theorem pipeline_deterministic
    (iter1 iter2 : list string -> list string) (worksheet : Worksheet) (s1 s2 : Reader) :
  (forall l x, In x (iter1 l) <-> In x l) ->
  (forall l x, In x (iter2 l) <-> In x l) ->
  worksheetErrorsEncountered (snd (create_question_list iter1 worksheet s1)) = false ->
  fst (create_question_list iter1 worksheet s1)
  = fst (create_question_list iter2 worksheet s2)
  /\ worksheetErrorsEncountered (snd (create_question_list iter2 worksheet s2)) = false
  /\ write_xml (title worksheet) (fst (create_question_list iter1 worksheet s1))
     = write_xml (title worksheet) (fst (create_question_list iter2 worksheet s2)).
Proof.
  intros H1 H2.
  rewrite !create_question_list_phases. cbn [fst snd].
  destruct (rows_phase_same_sheet worksheet s1 s2) as [Hflag Hqs].
  set (a1 := snd (rows_phase worksheet s1)) in *.
  set (a2 := snd (rows_phase worksheet s2)) in *.
  rewrite <- Hqs, <- Hflag.
  destruct (worksheetErrorsEncountered a1) eqn:Ha1.
  { intros H. congruence. }
  destruct (late_diagnostics iter1 (title worksheet) (questionList a1)) as [|m l] eqn:Hl1.
  2:{ cbn [nonempty add_errors worksheetErrorsEncountered]. rewrite orb_true_r.
      discriminate. }
  intros _.
  assert (Hl2 : late_diagnostics iter2 (title worksheet) (questionList a1) = []).
  { unfold late_diagnostics in *.
    apply app_eq_nil in Hl1. destruct Hl1 as [Hlogic Hrest].
    rewrite Hrest, (logic_diagnostics_nil_any_order iter1 iter2); auto. }
  rewrite Hl2. cbn [nonempty log snd worksheetErrorsEncountered].
  repeat split. congruence.
Qed.

Lemma pipeline_deterministic_witness :
  let first := create_question_list (fun l => l) clean_sheet init in
  let second := create_question_list (@rev string) clean_sheet (snd first) in
  fst first = fst second
  /\ worksheetErrorsEncountered (snd second) = false
  /\ write_xml "demo_dd" (fst first) = write_xml "demo_dd" (fst second).
Proof.
  apply (pipeline_deterministic (fun l => l) (@rev string) clean_sheet init).
  - intros l x. tauto.
  - intros l x. symmetry. apply in_rev.
  - vm_compute. reflexivity.
Defined.

(** ** The guard before emission *)

Module RunProperties.

Import Processor.

(** Whether reading a sheet with a new reader records an error. *)
Definition sheet_failed (env : Environment) (ws : Worksheet) : bool :=
  ExcelReader.errorsEncountered
    (snd (create_question_list (set_iter env) ws ExcelReader.init)).

Definition reads (sheets : list Worksheet) : list Event :=
  map (fun ws => CreateQuestionList (title ws)) sheets.

Definition is_read (e : Event) : Prop :=
  match e with CreateQuestionList _ => True | _ => False end.

Definition is_write_xml (e : Event) : Prop :=
  match e with WriteXml _ _ | WriteXmlRaised _ _ => True | _ => False end.

Lemma read_sheets (env : Environment) (sheets : list Worksheet) :
  forall st,
    snd (fold_left (read_sheet env) sheets st) = snd st ++ reads sheets
    /\ Processor.errorsEncountered (fst (fold_left (read_sheet env) sheets st))
       = Processor.errorsEncountered (fst st) || existsb (sheet_failed env) sheets.
Proof.
  induction sheets as [|ws sheets IH]; intros [self events]; cbn [fold_left].
  - cbn [reads map existsb fst snd]. rewrite app_nil_r, orb_false_r. auto.
  - destruct (IH (read_sheet env (self, events) ws)) as [He Hf].
    rewrite He, Hf. unfold read_sheet, sheet_failed. cbn [reads map existsb].
    destruct (create_question_list (set_iter env) ws ExcelReader.init)
      as [qlist reader].
    cbn [fst snd Processor.errorsEncountered].
    rewrite <- app_assoc. split; [reflexivity|].
    destruct (ExcelReader.errorsEncountered reader), (Processor.errorsEncountered self);
      reflexivity.
Qed.

Lemma write_sheets_events (env : Environment) (items : list (string * list Question.t)) :
  forall self xml_files events,
  exists written,
    snd (write_sheets env items self xml_files events) = events ++ written
    /\ Forall is_write_xml written.
Proof.
  induction items as [|[ws_name qlist] items IH]; intros self xml_files events; simpl.
  - exists []. rewrite app_nil_r. auto.
  - destruct (snd (XmlGenerator.write_xml ws_name qlist)) as [xml_path|].
    + match goal with
      | |- context [write_sheets env items ?self' ?files ?events'] =>
          destruct (IH self' files events') as [written [He Hw]]
      end.
      rewrite He. eexists. rewrite <- app_assoc. split; [reflexivity|].
      constructor; [exact I | exact Hw].
    + simpl. eexists. split; [reflexivity|]. constructor; [exact I | constructor].
Qed.

Lemma Forall_not_read (events : list Event) :
  Forall is_write_xml events -> Forall (fun e => ~ is_read e) events.
Proof. apply Forall_impl. intros [] H; simpl in *; tauto. Qed.

(** C1. In every run all the sheets are read and checked before
    anything is emitted: the events of the run are the reading of every
    selected sheet, in order, followed by events none of which is a
    reading.  If at least one sheet recorded an error, nothing but the
    log follows: no markup document for any sheet, the clean ones
    included, no manifest and no archive, and the run returns 1. *)
Theorem nothing_emitted_if_a_sheet_failed
    (env : Environment) (config : AppConfig) (workbook : list Worksheet) :
  let sheets := selected_worksheets workbook in
  exists rest,
    fst (run env config (Some workbook)) = reads sheets ++ rest
    /\ Forall (fun e => ~ is_read e) rest
    /\ ((exists ws, In ws sheets /\ sheet_failed env ws = true) ->
        rest = [WriteLogfile] /\ snd (run env config (Some workbook)) = Returned 1).
Proof.
  intros sheets. unfold run. fold sheets.
  destruct (read_sheets env sheets (Processor.init, [])) as [He Hf].
  destruct (fold_left (read_sheet env) sheets (Processor.init, [])) as [self events].
  cbn [fst snd app Processor.errorsEncountered Processor.init orb] in He, Hf.
  subst events.
  destruct (Processor.errorsEncountered self) eqn:Hself; cbn [negb].
  - exists [WriteLogfile]. cbn [fst snd]. rewrite Hself. cbn [negb].
    split; [reflexivity|]. split; [repeat constructor; auto|].
    intros _. split; reflexivity.
  - assert (Hnone : ~ exists ws, In ws sheets /\ sheet_failed env ws = true).
    { intros [ws [Hin Hfail]].
      assert (existsb (sheet_failed env) sheets = true)
        by (apply existsb_exists; exists ws; auto).
      congruence. }
    destruct (write_sheets_events env (question_list_cache self) self [] (reads sheets))
      as [written [He Hw]].
    apply Forall_not_read in Hw.
    destruct (write_sheets env (question_list_cache self) self [] (reads sheets))
      as [[[self' xml_files]|] events'].
    + cbn [snd] in He. subst events'. cbn [Processor.errorsEncountered].
      destruct (Processor.errorsEncountered self'); cbn [negb fst snd];
        rewrite <- ?app_assoc; eexists; (split; [reflexivity|]);
        (split; [|intros H; contradiction]);
        repeat (apply Forall_app; split); auto; repeat constructor; auto.
    + cbn [snd] in He. subst events'. cbn [fst snd].
      eexists. split; [reflexivity|]. split; [assumption | intros H; contradiction].
Qed.

(** A sheet like [sheet_with_blank_text_and_duplicate], under another name. *)
Definition failing_sheet : Worksheet :=
  mkWorksheet "visit_xml" (sheet_rows sheet_with_blank_text_and_duplicate) [].

Definition example_environment : Environment :=
  mkEnvironment (fun l => l) (fun _ => None).

Definition example_config : AppConfig :=
  mkAppConfig "survey.xlsx" "" "out" "Demo" "demo".

Lemma nothing_emitted_witness :
  run example_environment example_config (Some [clean_sheet; failing_sheet])
  = ([CreateQuestionList "demo_dd"; CreateQuestionList "visit_xml"; WriteLogfile],
     Returned 1).
Proof.
  destruct (nothing_emitted_if_a_sheet_failed example_environment example_config
              [clean_sheet; failing_sheet]) as [rest [Hrun [_ Hfailed]]].
  destruct Hfailed as [Hrest Hcode].
  - exists failing_sheet. split; [right; left; reflexivity | vm_compute; reflexivity].
  - subst rest.
    destruct (run example_environment example_config (Some [clean_sheet; failing_sheet]))
      as [events outcome].
    cbn [fst snd] in Hrun, Hcode. subst. reflexivity.
Defined.

End RunProperties.

(** ** The index of field names *)

Lemma combine_snoc {A B : Type} (l : list A) (l' : list B) (a : A) (b : B) :
  List.length l = List.length l' ->
  combine (l ++ [a]) (l' ++ [b]) = combine l l' ++ [(a, b)].
Proof.
  revert l'. induction l as [|x l IH]; intros [|y l'] H; simpl in *;
    try discriminate; [reflexivity|].
  rewrite IH by congruence. reflexivity.
Qed.

Lemma enumerate_snoc {A : Type} (l : list A) (a : A) :
  enumerate (l ++ [a]) = enumerate l ++ [(List.length l, a)].
Proof.
  unfold enumerate. rewrite length_app. simpl List.length.
  rewrite seq_app. simpl seq.
  apply combine_snoc. apply length_seq.
Qed.

Lemma field_index_snoc (questions : list Question.t) (q : Question.t) (name : string) :
  field_index (questions ++ [q]) name
  = if String.eqb name q.(Question.fieldName) then Some (List.length questions)
    else field_index questions name.
Proof.
  unfold field_index. rewrite enumerate_snoc, fold_left_app. reflexivity.
Qed.

(** The index gives a name the position of the last question that bears
    it, and nothing to a name that no question bears. *)
Lemma field_index_some (questions : list Question.t) (name : string) (j : nat) :
  field_index questions name = Some j ->
  exists q, nth_error questions j = Some q /\ q.(Question.fieldName) = name.
Proof.
  revert j. induction questions as [|q questions IH] using rev_ind; intros j.
  - discriminate.
  - rewrite field_index_snoc. destruct (String.eqb name (Question.fieldName q)) eqn:E.
    + intros H. inversion H; subst. exists q. split.
      * rewrite nth_error_app2 by lia. rewrite Nat.sub_diag. reflexivity.
      * apply String.eqb_eq in E. auto.
    + intros H. destruct (IH j H) as [q' [Hn Hq]]. exists q'. split; [|assumption].
      rewrite nth_error_app1; [assumption|]. apply nth_error_Some. congruence.
Qed.

Lemma field_index_position (questions : list Question.t) (i : nat) (q : Question.t) :
  nth_error questions i = Some q ->
  exists j, field_index questions q.(Question.fieldName) = Some j /\ i <= j.
Proof.
  revert i. induction questions as [|q' questions IH] using rev_ind; intros i Hi.
  - destruct i; discriminate.
  - rewrite field_index_snoc.
    assert (Hlt : i < List.length (questions ++ [q']))
      by (apply nth_error_Some; congruence).
    rewrite length_app in Hlt. simpl in Hlt.
    destruct (String.eqb (Question.fieldName q) (Question.fieldName q')) eqn:E.
    + exists (List.length questions). split; [reflexivity | lia].
    + destruct (Nat.eq_dec i (List.length questions)) as [-> | Hne].
      * rewrite nth_error_app2, Nat.sub_diag in Hi by lia. inversion Hi; subst.
        rewrite String.eqb_refl in E. discriminate.
      * rewrite nth_error_app1 in Hi by lia. apply IH; assumption.
Qed.

Lemma item_position (questions : list Question.t) (i : nat) (q : Question.t) :
  nth_error questions i = Some q ->
  field_index questions q.(Question.fieldName)
  = Some (item (field_index questions) q.(Question.fieldName))
  /\ i <= item (field_index questions) q.(Question.fieldName).
Proof.
  intros H. destruct (field_index_position questions i q H) as [j [Hj Hij]].
  unfold item. rewrite Hj. auto.
Qed.

(** ** The targets of skips *)

Lemma split_lines_truthy (text line : string) :
  In line (_split_lines text) -> truthy text = true.
Proof. destruct text; [intros [] | reflexivity]. Qed.

Lemma skip_line_diagnostics_logged (worksheet : string) (s : Reader)
    (q : Question.t) (line msg : string) :
  In q (questionList s) ->
  In line (_split_lines q.(Question.skip)) ->
  In msg (skip_line_diagnostics worksheet (field_index (questionList s))
            q.(Question.fieldName) line) ->
  In msg (logstring (snd (_check_skip_to_field_names worksheet s))).
Proof.
  intros Hq Hline Hmsg. rewrite check_skip_to_field_names_records. cbn [snd add_errors logstring].
  apply in_or_app. right. unfold skip_diagnostics. apply in_flat_map.
  exists q. split; [assumption|].
  rewrite (split_lines_truthy _ _ Hline). cbn [negb].
  apply in_flat_map. exists line. auto.
Qed.

Lemma skip_messages_distinct (worksheet cur_field target : string) :
  skip_before_message worksheet cur_field target
  <> skip_self_message worksheet cur_field target
  /\ skip_before_message worksheet cur_field target
     <> skip_nonexistent_message worksheet cur_field target
  /\ skip_self_message worksheet cur_field target
     <> skip_nonexistent_message worksheet cur_field target.
Proof.
  unfold skip_before_message, skip_self_message, skip_nonexistent_message.
  repeat split; intros H; fstr_unfold_in H;
    do 4 apply append_cancel_l in H; simpl in H; discriminate.
Qed.

(** C3. Whenever the pass over the skip targets runs, for every skip
    line of every question: the position the index gives the question is
    not before the place of the question in the list; a line of fewer
    than four words gets the diagnostic of an invalid structure;
    otherwise a target the index places before the question gets the
    "BEFORE the current question" diagnostic, a target at the position of
    the question gets the "skips to the current question" diagnostic, and
    a target that is no field name gets the "nonexistent" diagnostic, the
    three being different texts.  Hence, when the pass leaves the sheet
    free of errors, every skip line has a target that is the name of a
    question placed strictly after the question that bears the skip. *)
Theorem skip_target_must_come_after
    (worksheet : string) (s : Reader) (i : nat) (q : Question.t) (line : string) :
  nth_error (questionList s) i = Some q ->
  In line (_split_lines q.(Question.skip)) ->
  let index := field_index (questionList s) in
  let cur := q.(Question.fieldName) in
  let target := skip_target line in
  let after := snd (_check_skip_to_field_names worksheet s) in
  i <= item index cur
  /\ (List.length (skip_words line) < 4 ->
      In (skip_structure_message worksheet cur line) (logstring after))
  /\ (4 <= List.length (skip_words line) ->
      (forall j, index target = Some j -> j < item index cur ->
         In (skip_before_message worksheet cur target) (logstring after))
      /\ (forall j, index target = Some j -> j = item index cur ->
            In (skip_self_message worksheet cur target) (logstring after))
      /\ (index target = None ->
          In (skip_nonexistent_message worksheet cur target) (logstring after)))
  /\ (skip_before_message worksheet cur target <> skip_self_message worksheet cur target
      /\ skip_before_message worksheet cur target
         <> skip_nonexistent_message worksheet cur target
      /\ skip_self_message worksheet cur target
         <> skip_nonexistent_message worksheet cur target)
  /\ (worksheetErrorsEncountered after = false ->
      4 <= List.length (skip_words line)
      /\ exists j q',
           index target = Some j /\ i < j
           /\ nth_error (questionList s) j = Some q'
           /\ q'.(Question.fieldName) = target).
Proof.
  intros Hi Hline index cur target after.
  assert (Hq : In q (questionList s)) by (eapply nth_error_In; eassumption).
  destruct (item_position _ _ _ Hi) as [_ Hpos]. fold index cur in Hpos.
  assert (Hlog : forall msg,
             In msg (skip_line_diagnostics worksheet index cur line) ->
             In msg (logstring after)).
  { intros msg. apply skip_line_diagnostics_logged; assumption. }
  split; [exact Hpos|]. split; [|split; [|split]].
  - intros Hshort. apply Hlog. unfold skip_line_diagnostics.
    apply Nat.ltb_lt in Hshort. rewrite Hshort. left; reflexivity.
  - intros Hwords.
    assert (Hlong : (List.length (skip_words line) <? 4) = false)
      by (apply Nat.ltb_ge; exact Hwords).
    assert (Htarget : forall msg,
               In msg (skip_target_diagnostics worksheet index cur line) ->
               In msg (logstring after)).
    { intros msg Hmsg. apply Hlog. unfold skip_line_diagnostics. rewrite Hlong.
      apply in_or_app. right. exact Hmsg. }
    repeat split.
    + intros j Hj Hlt. apply Htarget. unfold skip_target_diagnostics.
      fold target. rewrite Hj.
      apply Nat.ltb_lt in Hlt. rewrite Hlt. left; reflexivity.
    + intros j Hj Heq. apply Htarget. unfold skip_target_diagnostics.
      fold target. rewrite Hj. subst j.
      rewrite Nat.ltb_irrefl, Nat.eqb_refl. left; reflexivity.
    + intros Hnone. apply Htarget. unfold skip_target_diagnostics.
      fold target. rewrite Hnone. left; reflexivity.
  - apply skip_messages_distinct.
  - intros Hclean. subst after.
    rewrite check_skip_to_field_names_records in Hclean.
    cbn [snd add_errors worksheetErrorsEncountered] in Hclean.
    apply orb_false_iff in Hclean. destruct Hclean as [_ Hnone].
    assert (Hnil : skip_diagnostics worksheet (questionList s) = [])
      by (destruct (skip_diagnostics worksheet (questionList s)); [reflexivity | discriminate]).
    unfold skip_diagnostics in Hnil. rewrite flat_map_nil_iff in Hnil.
    specialize (Hnil q Hq). rewrite (split_lines_truthy _ _ Hline) in Hnil.
    cbn [negb] in Hnil. rewrite flat_map_nil_iff in Hnil.
    specialize (Hnil line Hline). fold index cur in Hnil.
    unfold skip_line_diagnostics in Hnil.
    destruct (List.length (skip_words line) <? 4) eqn:Hlen; [discriminate|].
    apply Nat.ltb_ge in Hlen. split; [exact Hlen|].
    apply app_eq_nil in Hnil. destruct Hnil as [_ Hnil].
    unfold skip_target_diagnostics in Hnil. fold target in Hnil.
    destruct (index target) as [j|] eqn:Hj; [|discriminate].
    destruct (j <? item index cur) eqn:Hlt; [discriminate|].
    destruct (j =? item index cur) eqn:Heq; [discriminate|].
    apply Nat.ltb_ge in Hlt. apply Nat.eqb_neq in Heq.
    destruct (field_index_some _ _ _ Hj) as [q' [Hn Hname]].
    exists j, q'. repeat split; auto. lia.
Qed.

Lemma skip_target_must_come_after_witness :
  let s := snd (create_question_list (fun l => l) clean_sheet init) in
  exists j q',
    field_index (questionList s) "dob" = Some j /\ 1 < j
    /\ nth_error (questionList s) j = Some q' /\ q'.(Question.fieldName) = "dob".
Proof.
  intros s.
  destruct (skip_target_must_come_after "demo_dd" s 1
              (nth 1 (questionList s) Question.default)
              "preskip: if age < 5, skip to dob") as [_ [_ [_ [_ H]]]].
  - vm_compute. reflexivity.
  - vm_compute. left. reflexivity.
  - apply H. vm_compute. reflexivity.
Defined.

(** ** The field names in logic checks *)

(** A sheet whose logic check joins two comparisons with an upper-case AND. *)
Definition sheet_with_uppercase_keyword : Worksheet :=
  mkWorksheet "demo_dd"
    [header_row;
     text_row ["age"; "text"; "integer"; "Age?"; "3"; ""; ""; "";
               "age > 1 AND age < 99;'Out of range'"; ""; ""; ""; ""; ""]]
    [].

(** C4, as stated, fails: AND is extracted from the logic check, is none
    of and, or, not, and is the name of no field, and yet the sheet ends
    without any diagnostic. *)
Lemma uppercase_keyword_counterexample :
  let result := create_question_list (fun l => l) sheet_with_uppercase_keyword init in
  In "AND" (logic_check_matches "age > 1 AND age < 99;'Out of range'")
  /\ ~ In "AND" LOGIC_KEYWORDS
  /\ map Question.logicChecks (fst result) = [["age > 1 AND age < 99;'Out of range'"]]
  /\ field_index (fst result) "AND" = None
  /\ logstring (snd result)
     = [fstr [CR; "Checking worksheet: 'demo_dd'"]; "No errors found in 'demo_dd'"].
Proof.
  cbv zeta. split; [|split; [|split; [|split]]].
  - vm_compute. tauto.
  - intros [H | [H | [H | []]]]; discriminate.
  - vm_compute. reflexivity.
  - vm_compute. reflexivity.
  - vm_compute. reflexivity.
Qed.

Lemma logic_reference_diagnostics_logged (set_iter : list string -> list string)
    (worksheet : string) (s : Reader) (q : Question.t) (logic_check ref msg : string) :
  (forall l x, In x (set_iter l) <-> In x l) ->
  In q (questionList s) ->
  In logic_check q.(Question.logicChecks) ->
  In ref (referenced_names (logic_check_matches logic_check)) ->
  In msg (logic_reference_diagnostics worksheet (field_index (questionList s))
            q.(Question.fieldName) ref) ->
  In msg (logstring (snd (_check_logic_field_names set_iter worksheet s))).
Proof.
  intros Hiter Hq Hlc Href Hmsg. rewrite check_logic_field_names_records.
  cbn [snd add_errors logstring]. apply in_or_app. right.
  unfold logic_diagnostics. apply in_flat_map. exists q. split; [assumption|].
  apply in_flat_map. exists logic_check. split; [assumption|].
  apply in_flat_map. exists ref. split; [apply Hiter; assumption | assumption].
Qed.

(** C4, amended. For every logic-check expression, every extracted
    identifier whose lower-case form is none of and, or, not is looked up
    in the index: if it is the name of no field the "nonexistent
    FieldName" diagnostic naming it is recorded; if the index places it
    strictly after the current field the "AFTER the current question"
    diagnostic naming it is recorded; if the index places it at or before
    the current field the check of this identifier records nothing.  An
    identifier whose lower-case form is one of the three words is not
    looked up at all. *)
Theorem logic_check_references_resolve_backwards
    (set_iter : list string -> list string) (worksheet : string) (s : Reader)
    (q : Question.t) (logic_check ref : string) :
  (forall l x, In x (set_iter l) <-> In x l) ->
  In q (questionList s) ->
  In logic_check q.(Question.logicChecks) ->
  In ref (logic_check_matches logic_check) ->
  let index := field_index (questionList s) in
  let cur := q.(Question.fieldName) in
  let after := snd (_check_logic_field_names set_iter worksheet s) in
  (~ In (lower ref) LOGIC_KEYWORDS ->
   (index ref = None ->
    In (logic_nonexistent_message worksheet cur ref) (logstring after))
   /\ (forall j, index ref = Some j -> item index cur < j ->
         In (logic_after_message worksheet cur ref) (logstring after))
   /\ (forall j, index ref = Some j -> j <= item index cur ->
         forall r, snd (_check_logic_field_name worksheet index cur ref r) = r))
  /\ (In (lower ref) LOGIC_KEYWORDS ->
      ~ In ref (referenced_names (logic_check_matches logic_check))).
Proof.
  intros Hiter Hq Hlc Href index cur after.
  split.
  - intros Hkey.
    assert (Hrefd : In ref (referenced_names (logic_check_matches logic_check))).
    { unfold referenced_names. apply filter_In. split; [assumption|].
      apply negb_true_iff, not_true_iff_false. rewrite mem_true_iff. exact Hkey. }
    assert (Hlog : forall msg,
               In msg (logic_reference_diagnostics worksheet index cur ref) ->
               In msg (logstring after)).
    { intros msg. apply logic_reference_diagnostics_logged with logic_check; assumption. }
    repeat split.
    + intros Hnone. apply Hlog. unfold logic_reference_diagnostics.
      rewrite Hnone. left; reflexivity.
    + intros j Hj Hlt. apply Hlog. unfold logic_reference_diagnostics.
      rewrite Hj. apply Nat.ltb_lt in Hlt. rewrite Hlt. left; reflexivity.
    + intros j Hj Hle r. rewrite check_logic_field_name_records. cbn [snd].
      unfold logic_reference_diagnostics. rewrite Hj.
      apply Nat.ltb_ge in Hle. rewrite Hle. apply add_errors_nil.
  - intros Hkey Hin. unfold referenced_names in Hin. apply filter_In in Hin.
    destruct Hin as [_ Hin]. apply negb_true_iff in Hin.
    apply mem_true_iff in Hkey. congruence.
Qed.

(** A sheet whose first question refers, in its logic check, to the
    second question and to a name that no question bears. *)
Definition sheet_with_forward_reference : Worksheet :=
  mkWorksheet "demo_dd"
    [header_row;
     text_row ["age"; "text"; "integer"; "Age?"; "3"; ""; ""; "";
               "age > weight or height > 1;'Check'"; ""; ""; ""; ""; ""];
     text_row ["weight"; "text"; "integer"; "Weight?"; "3"; ""; ""; ""; ""; ""; ""; "";
               ""; ""]]
    [].

Lemma logic_check_references_witness :
  let s := mkReader [] false false
             (fst (create_question_list (fun l => l) sheet_with_forward_reference init)) in
  In "ERROR - LogicCheck: In worksheet 'demo_dd', the LogicCheck for FieldName 'age' uses a FieldName AFTER the current question: weight"
     (logstring (snd (_check_logic_field_names (@rev string) "demo_dd" s))).
Proof.
  intros s.
  destruct (logic_check_references_resolve_backwards (@rev string) "demo_dd" s
              (nth 0 (questionList s) Question.default)
              "age > weight or height > 1;'Check'" "weight") as [H _].
  - intros l x. symmetry. apply in_rev.
  - vm_compute. left. reflexivity.
  - vm_compute. left. reflexivity.
  - vm_compute. tauto.
  - destruct H as [_ [H _]].
    + intros [E | [E | [E | []]]]; discriminate E.
    + apply (H 1); vm_compute; [reflexivity | lia].
Defined.

(** ** Skip lines in the markup *)

(** The text has no space. *)
Definition spaceless (w : string) : bool := negb (any_char (Ascii.eqb " ") w).

Lemma spaceless_cons (a : ascii) (w : string) :
  spaceless (String a w) = true -> Ascii.eqb a " " = false /\ spaceless w = true.
Proof.
  unfold spaceless. cbn [any_char]. rewrite negb_orb, andb_true_iff, !negb_true_iff.
  rewrite (Ascii.eqb_sym " " a). auto.
Qed.

Lemma indices_from_spaceless (w rest : string) :
  spaceless w = true ->
  forall i, indices_from i " " (String.append w rest)
            = indices_from (String.length w + i) " " rest.
Proof.
  induction w as [|a w IH]; intros Hw i; [reflexivity|].
  apply spaceless_cons in Hw. destruct Hw as [Ha Hw].
  cbn [String.append indices_from String.length]. rewrite Ha, (IH Hw).
  f_equal. lia.
Qed.

Lemma indices_from_last_word (w : string) :
  spaceless w = true -> forall i, indices_from i " " w = [].
Proof.
  intros Hw i. rewrite <- (append_empty_r w), indices_from_spaceless by assumption.
  reflexivity.
Qed.

Lemma drop_app (x y : string) (n : nat) :
  drop (String.length x + n) (String.append x y) = drop n y.
Proof. induction x; simpl; auto. Qed.

Lemma drop_zero (s : string) : drop 0 s = s.
Proof. destruct s; reflexivity. Qed.

Lemma take_app (x y : string) : take (String.length x) (String.append x y) = x.
Proof. induction x; simpl; congruence. Qed.

Lemma slice_app (x y z : string) (a b : nat) :
  a = String.length x -> b = String.length x + String.length y ->
  slice a b (String.append x (String.append y z)) = y.
Proof.
  intros -> ->. unfold slice.
  replace (String.length x + String.length y - String.length x) with (String.length y)
    by lia.
  rewrite <- (Nat.add_0_r (String.length x)) at 1.
  rewrite drop_app, drop_zero. apply take_app.
Qed.

(** A skip line in the shape the emitter reads a "does not contain" from:
    the prefix with its "if", the checked field, the phrase, the value
    and its comma, then two words and the target. *)
Definition does_not_contain_line (prefix field value word1 word2 target : string) : string :=
  fstr [prefix; " if "; field; " does not contain "; value; ", "; word1; " "; word2; " ";
        target].

Lemma does_not_contain_indices (prefix field value word1 word2 target : string) :
  spaceless prefix = true -> spaceless field = true -> spaceless value = true ->
  spaceless word1 = true -> spaceless word2 = true -> spaceless target = true ->
  let p := String.length prefix in
  let a := String.length field in
  let b := String.length value in
  let c := String.length word1 in
  let d := String.length word2 in
  indices_of " " (does_not_contain_line prefix field value word1 word2 target)
  = [p; p + 3; p + 4 + a; p + 9 + a; p + 13 + a; p + 21 + a; p + 23 + a + b;
     p + 24 + a + b + c; p + 25 + a + b + c + d].
Proof.
  intros Hp Hf Hv H1 H2 Ht p a b c d.
  unfold does_not_contain_line, indices_of. fstr_unfold.
  rewrite (indices_from_spaceless prefix) by assumption.
  change (indices_from ?i " " (String.append " if " ?x))
    with (i :: (3 + i) :: indices_from (4 + i) " " x).
  rewrite (indices_from_spaceless field) by assumption.
  change (indices_from ?i " " (String.append " does not contain " ?x))
    with (i :: (5 + i) :: (9 + i) :: (17 + i) :: indices_from (18 + i) " " x).
  rewrite (indices_from_spaceless value) by assumption.
  change (indices_from ?i " " (String.append ", " ?x))
    with ((1 + i) :: indices_from (2 + i) " " x).
  rewrite (indices_from_spaceless word1) by assumption.
  change (indices_from ?i " " (String.append " " ?x))
    with (i :: indices_from (1 + i) " " x).
  rewrite (indices_from_spaceless word2) by assumption.
  change (indices_from ?i " " (String.append " " ?x))
    with (i :: indices_from (1 + i) " " x).
  rewrite (indices_from_last_word target) by assumption.
  fold p a b c d. repeat (f_equal; try lia).
Qed.

Section DoesNotContain.

Variables prefix field value word1 word2 target : string.

Let line : string := does_not_contain_line prefix field value word1 word2 target.
Let p : nat := String.length prefix.
Let a : nat := String.length field.
Let b : nat := String.length value.
Let c : nat := String.length word1.
Let d : nat := String.length word2.

Lemma does_not_contain_field : slice (p + 4) (p + 4 + a) line = field.
Proof.
  unfold line, does_not_contain_line. fstr_unfold.
  rewrite <- append_assoc.
  apply slice_app; rewrite ?append_length; simpl; subst p a; lia.
Qed.

Lemma does_not_contain_value :
  slice (p + 21 + a + 1) (p + 23 + a + b - 1) line = value.
Proof.
  unfold line, does_not_contain_line. fstr_unfold.
  rewrite <- (append_assoc prefix " if ").
  rewrite <- (append_assoc (String.append prefix " if ") field).
  rewrite <- (append_assoc (String.append (String.append prefix " if ") field)
                " does not contain ").
  apply slice_app; rewrite ?append_length; simpl; subst p a b; lia.
Qed.

Lemma does_not_contain_target :
  drop (p + 25 + a + b + c + d + 1) line = target.
Proof.
  unfold line, does_not_contain_line. fstr_unfold.
  replace (p + 25 + a + b + c + d + 1)
    with (String.length prefix
          + (String.length " if "
             + (String.length field
                + (String.length " does not contain "
                   + (String.length value
                      + (String.length ", "
                         + (String.length word1
                            + (String.length " "
                               + (String.length word2 + (String.length " " + 0))))))))))
    by (simpl; subst p a b c d; lia).
  rewrite !drop_app. apply drop_zero.
Qed.

Lemma generate_skip_does_not_contain (skip_type : string) :
  spaceless prefix = true -> spaceless field = true -> spaceless value = true ->
  spaceless word1 = true -> spaceless word2 = true -> spaceless target = true ->
  (if String.eqb skip_type "postSkip" then 13 else 12) = p + 4 ->
  _generate_skip line skip_type
  = Some (fstr [T3; "<skip fieldname='"; field;
                "' condition = 'does not contain' response='"; value; "' ";
                "response_type='fixed' skiptofieldname ='"; target; "'></skip>"]).
Proof.
  intros Hp Hf Hv H1 H2 Ht Hlen.
  pose proof (does_not_contain_indices prefix field value word1 word2 target
                Hp Hf Hv H1 H2 Ht) as Hidx.
  cbv zeta in Hidx. fold line p a b c d in Hidx.
  unfold _generate_skip. rewrite Hlen, Hidx.
  cbv zeta. cbn [List.length Nat.eqb idx nth_error obind last].
  rewrite does_not_contain_field, does_not_contain_value, does_not_contain_target.
  reflexivity.
Qed.

End DoesNotContain.

(** The text has no character [c]. *)
Definition lacks (c : ascii) (w : string) : bool := negb (any_char (Ascii.eqb c) w).

Lemma lacks_cons (c a : ascii) (w : string) :
  lacks c (String a w) = negb (Ascii.eqb a c) && lacks c w.
Proof.
  unfold lacks. cbn [any_char]. rewrite negb_orb, (Ascii.eqb_sym c a). reflexivity.
Qed.

Lemma lacks_app (c : ascii) (x y : string) :
  lacks c (String.append x y) = lacks c x && lacks c y.
Proof.
  induction x as [|a x IH]; [reflexivity|].
  cbn [String.append]. rewrite !lacks_cons, IH, andb_assoc. reflexivity.
Qed.

Lemma split_lacks (c : ascii) (x : string) : lacks c x = true -> split c x = [x].
Proof.
  induction x as [|a x IH]; [reflexivity|].
  rewrite lacks_cons, andb_true_iff, negb_true_iff. intros [Ha Hx].
  cbn [split]. rewrite Ha, (IH Hx). reflexivity.
Qed.

Lemma split_app (c : ascii) (x y : string) :
  lacks c x = true -> split c (String.append x (String c y)) = x :: split c y.
Proof.
  induction x as [|a x IH].
  - intros _. cbn [String.append split]. rewrite Ascii.eqb_refl. reflexivity.
  - rewrite lacks_cons, andb_true_iff, negb_true_iff. intros [Ha Hx].
    cbn [String.append split]. rewrite Ha, (IH Hx). reflexivity.
Qed.

Lemma contains_char (c : ascii) (w : string) :
  contains w (String c EmptyString) = any_char (Ascii.eqb c) w.
Proof.
  induction w as [|a w IH]; [reflexivity|].
  rewrite contains_cons, prefix_cons, IH.
  cbn [any_char]. destruct w; cbn [String.prefix]; rewrite andb_true_r; reflexivity.
Qed.

Lemma contains_app_r (x y sub : string) :
  contains y sub = true -> contains (String.append x y) sub = true.
Proof.
  intros H. induction x as [|a x IH]; [exact H|].
  cbn [String.append]. rewrite contains_cons, IH. apply orb_true_r.
Qed.

(** A "does not contain" line in the shape above passes the check of the
    syntax of skips. *)
Lemma does_not_contain_line_accepted
    (prefix field value word1 word2 target worksheet fieldname : string) (s : Reader) :
  prefix = "preskip:" \/ prefix = "postskip:" ->
  lacks " " field && lacks ":" field && lacks "," field = true ->
  lacks " " value && lacks ":" value && lacks "," value = true ->
  lacks " " word1 && lacks "," word1 = true ->
  lacks " " word2 && lacks "," word2 = true ->
  lacks " " target && lacks "," target = true ->
  _check_skip_syntax_line worksheet fieldname
    (does_not_contain_line prefix field value word1 word2 target) s
  = (Next, s).
Proof.
  intros Hprefix Hf Hv H1 H2 Ht.
  repeat match goal with
         | H : _ && _ = true |- _ => apply andb_true_iff in H; destruct H
         end.
  set (line := does_not_contain_line prefix field value word1 word2 target).
  set (logic_section :=
         String.append prefix
           (String " " (String.append "if"
              (String " " (String.append field
                 (String " " (String.append "does"
                    (String " " (String.append "not"
                       (String " " (String.append "contain" (String " " value)))))))))))).
  set (tail_ :=
         String.append " "
           (String.append word1
              (String.append " " (String.append word2 (String.append " " target))))).
  assert (Hline : line = String.append logic_section (String "," tail_)).
  { subst line logic_section tail_. unfold does_not_contain_line. fstr_unfold.
    repeat first [rewrite append_assoc | progress cbn [String.append]].
    reflexivity. }
  assert (Hspaces : List.length (indices_of " " line) = 9
                    /\ at_ (indices_of " " line) 2
                       = String.length prefix + 4 + String.length field).
  { subst line. rewrite does_not_contain_indices;
      [split; reflexivity | destruct Hprefix; subst; reflexivity | assumption ..]. }
  destruct Hspaces as [Hcount Hthird].
  assert (Hfield : slice (String.length prefix + 4)
                     (String.length prefix + 4 + String.length field) line = field)
    by apply does_not_contain_field.
  assert (Hcomma : split "," line = [logic_section; tail_]).
  { rewrite Hline, split_app.
    - rewrite split_lacks; [reflexivity|].
      subst tail_. rewrite !lacks_app.
      repeat (apply andb_true_iff; split); auto.
    - subst logic_section. destruct Hprefix; subst prefix;
        rewrite !lacks_app; cbn [String.append]; rewrite !lacks_cons, !lacks_app;
        repeat (apply andb_true_iff; split); auto. }
  assert (Hdnc : contains logic_section "does not contain" = true).
  { subst logic_section.
    repeat first [ reflexivity
                 | apply contains_app_r
                 | rewrite contains_cons; apply orb_true_iff; right ]. }
  assert (Hcolon : List.length (split ":" logic_section) = 2).
  { subst logic_section.
    assert (Hrest : forall w, lacks ":" w = true ->
                      List.length (split ":" (String.append w (String ":"
                        (String " " (String.append "if"
                          (String " " (String.append field
                            (String " " (String.append "does"
                              (String " " (String.append "not"
                                (String " " (String.append "contain"
                                  (String " " value)))))))))))))) = 2).
    { intros w Hw. rewrite split_app by assumption.
      rewrite split_lacks; [reflexivity|].
      rewrite !lacks_cons, !lacks_app. cbn [String.append]. rewrite !lacks_cons, !lacks_app.
      cbn [String.append]. rewrite !lacks_cons.
      repeat (apply andb_true_iff; split); auto. }
    destruct Hprefix; subst prefix.
    - apply (Hrest "preskip"). reflexivity.
    - apply (Hrest "postskip"). reflexivity. }
  assert (Htokens : List.length (split " " logic_section) = 7).
  { subst logic_section.
    rewrite split_app by (destruct Hprefix; subst; reflexivity).
    rewrite split_app by reflexivity.
    rewrite split_app by assumption.
    rewrite split_app by reflexivity.
    rewrite split_app by reflexivity.
    rewrite split_app by reflexivity.
    rewrite split_lacks by assumption. reflexivity. }
  assert (Hnospace : contains field " " = false).
  { rewrite contains_char. apply negb_true_iff. assumption. }
  unfold _check_skip_syntax_line. fold line.
  assert (Hfind : exists colon, find ":" line = Some colon
                    /\ mem (if String.eqb (take colon line) "preskip"
                            then "preskip" else "postskip") ["preskip"; "postskip"] = true
                    /\ (if String.eqb (if String.eqb (take colon line) "preskip"
                                        then "preskip" else "postskip") "postskip"
                        then 13 else 12) = String.length prefix + 4).
  { subst line. unfold does_not_contain_line. fstr_unfold.
    destruct Hprefix; subst prefix; eexists; repeat split. }
  destruct Hfind as [colon [Hfind [Hmem Hlen]]].
  rewrite Hfind, Hmem, Hcomma. cbn [negb]. rewrite Hcolon, Htokens, Hdnc, Hcount.
  cbn [Nat.eqb negb andb Nat.ltb Nat.leb]. rewrite Hlen, Hthird, Hfield, Hnospace.
  reflexivity.
Qed.

(** A skip line with a one-word operator, in the same shape. *)
Definition operator_line (prefix field op value word1 word2 target : string) : string :=
  fstr [prefix; " if "; field; " "; op; " "; value; ", "; word1; " "; word2; " "; target].

Section OperatorLine.

Variables prefix field op value word1 word2 target : string.

Let line : string := operator_line prefix field op value word1 word2 target.
Let p : nat := String.length prefix.
Let a : nat := String.length field.
Let o : nat := String.length op.
Let b : nat := String.length value.
Let c : nat := String.length word1.
Let d : nat := String.length word2.

Hypothesis prefix_spaceless : spaceless prefix = true.
Hypothesis field_spaceless : spaceless field = true.
Hypothesis op_spaceless : spaceless op = true.
Hypothesis value_spaceless : spaceless value = true.
Hypothesis word1_spaceless : spaceless word1 = true.
Hypothesis word2_spaceless : spaceless word2 = true.
Hypothesis target_spaceless : spaceless target = true.

Lemma operator_line_indices :
  indices_of " " line
  = [p; p + 3; p + 4 + a; p + 5 + a + o; p + 7 + a + o + b; p + 8 + a + o + b + c;
     p + 9 + a + o + b + c + d].
Proof.
  unfold line, operator_line, indices_of. fstr_unfold.
  rewrite (indices_from_spaceless prefix) by assumption.
  change (indices_from ?i " " (String.append " if " ?x))
    with (i :: (3 + i) :: indices_from (4 + i) " " x).
  rewrite (indices_from_spaceless field) by assumption.
  change (indices_from ?i " " (String.append " " ?x))
    with (i :: indices_from (1 + i) " " x).
  rewrite (indices_from_spaceless op) by assumption.
  change (indices_from ?i " " (String.append " " ?x))
    with (i :: indices_from (1 + i) " " x).
  rewrite (indices_from_spaceless value) by assumption.
  change (indices_from ?i " " (String.append ", " ?x))
    with ((1 + i) :: indices_from (2 + i) " " x).
  rewrite (indices_from_spaceless word1) by assumption.
  change (indices_from ?i " " (String.append " " ?x))
    with (i :: indices_from (1 + i) " " x).
  rewrite (indices_from_spaceless word2) by assumption.
  change (indices_from ?i " " (String.append " " ?x))
    with (i :: indices_from (1 + i) " " x).
  rewrite (indices_from_last_word target) by assumption.
  fold p a o b c d. repeat (f_equal; try lia).
Qed.

Lemma operator_line_field : slice (p + 4) (p + 4 + a) line = field.
Proof.
  unfold line, operator_line. fstr_unfold.
  rewrite <- append_assoc.
  apply slice_app; rewrite ?append_length; simpl; subst p a; lia.
Qed.

Lemma operator_line_op : slice (p + 4 + a + 1) (p + 5 + a + o) line = op.
Proof.
  unfold line, operator_line. fstr_unfold.
  rewrite <- (append_assoc prefix " if ").
  rewrite <- (append_assoc (String.append prefix " if ") field).
  rewrite <- (append_assoc (String.append (String.append prefix " if ") field) " ").
  apply slice_app; rewrite ?append_length; simpl; subst p a o; lia.
Qed.

Lemma operator_line_value :
  slice (p + 5 + a + o + 1) (p + 7 + a + o + b - 1) line = value.
Proof.
  unfold line, operator_line. fstr_unfold.
  rewrite <- (append_assoc prefix " if ").
  rewrite <- (append_assoc (String.append prefix " if ") field).
  rewrite <- (append_assoc (String.append (String.append prefix " if ") field) " ").
  rewrite <- (append_assoc
                (String.append (String.append (String.append prefix " if ") field) " ") op).
  rewrite <- (append_assoc
                (String.append
                   (String.append (String.append (String.append prefix " if ") field) " ")
                   op) " ").
  apply slice_app; rewrite ?append_length; simpl; subst p a o b; lia.
Qed.

Lemma operator_line_target :
  drop (p + 9 + a + o + b + c + d + 1) line = target.
Proof.
  unfold line, operator_line. fstr_unfold.
  replace (p + 9 + a + o + b + c + d + 1)
    with (String.length prefix
          + (String.length " if "
             + (String.length field
                + (String.length " "
                   + (String.length op
                      + (String.length " "
                         + (String.length value
                            + (String.length ", "
                               + (String.length word1
                                  + (String.length " "
                                     + (String.length word2
                                        + (String.length " " + 0))))))))))))
    by (simpl; subst p a o b c d; lia).
  rewrite !drop_app. apply drop_zero.
Qed.

(** With a one-word operator the value is read at the same place whether
    or not the line holds the text "contains"; only the condition
    differs. *)
Lemma generate_skip_operator_line (skip_type : string) :
  (if String.eqb skip_type "postSkip" then 13 else 12) = p + 4 ->
  _generate_skip line skip_type
  = Some (fstr [T3; "<skip fieldname='"; field; "' condition = '";
                if contains line "contains" then "contains"
                else replace ">" "&gt;" (replace "<" "&lt;" op);
                "' response='"; value; "' ";
                "response_type='fixed' skiptofieldname ='"; target; "'></skip>"]).
Proof.
  intros Hlen. unfold _generate_skip. rewrite Hlen, operator_line_indices.
  cbv zeta. cbn [List.length Nat.eqb idx nth_error obind last].
  rewrite operator_line_field, operator_line_target.
  destruct (contains line "contains"); cbn [obind];
    rewrite operator_line_value, ?operator_line_op; reflexivity.
Qed.

End OperatorLine.

(** The [<skip>] element for a checked field, a condition, a value and a
    target. *)
Definition skip_element (field condition value target : string) : string :=
  fstr [T3; "<skip fieldname='"; field; "' condition = '"; condition; "' response='"; value;
        "' "; "response_type='fixed' skiptofieldname ='"; target; "'></skip>"].

(** A sheet whose second question has a "does not contain" skip with the
    target right after the comma. *)
Definition sheet_with_short_does_not_contain : Worksheet :=
  mkWorksheet "demo_dd"
    [header_row;
     text_row ["age"; "text"; "integer"; "Age?"; "3"; ""; ""; ""; ""; ""; ""; ""; ""; ""];
     text_row ["sex"; "text"; "integer"; "Sex?"; "1"; ""; ""; ""; ""; ""; ""; "";
               "postskip: if age does not contain 1, name"; ""];
     text_row ["name"; "text"; "text"; "Name?"; "80"; ""; ""; ""; ""; ""; ""; ""; ""; ""]]
    [].

(** C7. The emitter misses what the claim says and what its other
    branches do.  The line [postskip: if age does not contain 1, name]
    passes the check of the syntax of skips, which knows the phrase by its
    text, and the whole sheet is free of errors; but the emitter knows
    the phrase by a count of nine spaces only, finds seven, takes the
    line for one with a one-word operator and gives the condition [does]
    and the response [no].  The same count makes it take a line of nine
    spaces with a one-word operator for a [does not contain]. *)
Lemma does_not_contain_short_tail_counterexample :
  let line := "postskip: if age does not contain 1, name" in
  let result := create_question_list (fun l => l) sheet_with_short_does_not_contain init in
  _check_skip_syntax_line "demo_dd" "sex" line init = (Next, init)
  /\ map Question.skip (fst result) = [""; line; ""]
  /\ ExcelReader.errorsEncountered (snd result) = false
  /\ _generate_skip line "postSkip" = Some (skip_element "age" "does" "no" "name")
  /\ _check_skip_syntax_line "demo_dd" "sex"
       "preskip: if age = 1, then skip to the name" init = (Next, init)
  /\ _generate_skip "preskip: if age = 1, then skip to the name" "preSkip"
     = Some (skip_element "age" "does not contain" "ski" "name").
Proof. vm_compute. repeat split; reflexivity. Qed.

(** What the emitter does read well.  For every skip line of the shape
    [preskip: if F does not contain V, W1 W2 T] or
    [postskip: if F does not contain V, W1 W2 T], nine spaces in all, with
    no space or comma in the five words and no colon in F and V: the
    check of the syntax of skips accepts the line, and the emitter gives
    the [<skip>] element with fieldname F, condition [does not contain],
    response V and target T, the value being read between the sixth and
    the seventh space.  In a line of the same shape with a one-word
    operator the value is read between the fourth and the fifth space,
    and at that same place when the line holds the text [contains], for
    which the condition is the word [contains]. *)
Theorem does_not_contain_read_from_nine_spaces
    (field value word1 word2 target : string) :
  lacks " " field && lacks ":" field && lacks "," field = true ->
  lacks " " value && lacks ":" value && lacks "," value = true ->
  lacks " " word1 && lacks "," word1 = true ->
  lacks " " word2 && lacks "," word2 = true ->
  lacks " " target && lacks "," target = true ->
  let pre := does_not_contain_line "preskip:" field value word1 word2 target in
  let post := does_not_contain_line "postskip:" field value word1 word2 target in
  (forall worksheet fieldname s,
      _check_skip_syntax_line worksheet fieldname pre s = (Next, s)
      /\ _check_skip_syntax_line worksheet fieldname post s = (Next, s))
  /\ _generate_skip pre "preSkip"
     = Some (skip_element field "does not contain" value target)
  /\ _generate_skip post "postSkip"
     = Some (skip_element field "does not contain" value target)
  /\ (forall op, lacks " " op = true ->
        let line := operator_line "preskip:" field op value word1 word2 target in
        _generate_skip line "preSkip"
        = Some (skip_element field
                  (if contains line "contains" then "contains"
                   else replace ">" "&gt;" (replace "<" "&lt;" op))
                  value target))
  /\ (forall op, lacks " " op = true ->
        let line := operator_line "postskip:" field op value word1 word2 target in
        _generate_skip line "postSkip"
        = Some (skip_element field
                  (if contains line "contains" then "contains"
                   else replace ">" "&gt;" (replace "<" "&lt;" op))
                  value target)).
Proof.
  intros Hf Hv H1 H2 Ht pre post.
  assert (Hfs : spaceless field = true /\ spaceless value = true
                /\ spaceless word1 = true /\ spaceless word2 = true
                /\ spaceless target = true).
  { repeat match goal with
           | H : _ && _ = true |- _ => apply andb_true_iff in H; destruct H
           end.
    repeat split; assumption. }
  destruct Hfs as [Sf [Sv [S1 [S2 St]]]].
  split; [|split; [|split; [|split]]].
  - intros worksheet fieldname s.
    split; apply does_not_contain_line_accepted; auto.
  - apply generate_skip_does_not_contain; auto.
  - apply generate_skip_does_not_contain; auto.
  - intros op Hop line. apply generate_skip_operator_line; auto.
  - intros op Hop line. apply generate_skip_operator_line; auto.
Qed.

Lemma does_not_contain_witness :
  _generate_skip "postskip: if age does not contain 7, skip to name" "postSkip"
  = Some (skip_element "age" "does not contain" "7" "name")
  /\ _generate_skip "preskip: if age 'contains' 7, skip to name" "preSkip"
     = Some (skip_element "age" "contains" "7" "name").
Proof.
  destruct (does_not_contain_read_from_nine_spaces "age" "7" "skip" "to" "name")
    as [_ [_ [Hpost [Hpre _]]]]; try reflexivity.
  split; [exact Hpost | exact (Hpre "'contains'" eq_refl)].
Defined.

(** ** The theorems above at concrete inputs *)

Lemma field_name_first_matching_rule_witness :
  snd (_check_field_name "demo_dd" "_a" init)
  = add_errors
      ["ERROR - FieldName: demo_dd has a FieldName that starts with an underscore: _a"]
      init
  /\ snd (_check_field_name "demo_dd" "age_2" init) = init.
Proof.
  split.
  - destruct (field_name_first_matching_rule "demo_dd" "_" "a" init)
      as [_ [_ [_ [H _]]]].
    apply H.
    + discriminate.
    + intros [c [[<- | [<- | []]] [Hal Hne]]]; [apply Hne; reflexivity | discriminate].
    + intros Hcase. apply Hcase. reflexivity.
    + reflexivity.
  - destruct (field_name_first_matching_rule "demo_dd" "a" "ge_2" init)
      as [_ [_ [_ [_ [H _]]]]].
    apply H.
    + discriminate.
    + intros [c [Hin [Hal Hne]]]. simpl in Hin.
      repeat destruct Hin as [<- | Hin]; try discriminate; try (apply Hne; reflexivity).
      contradiction.
    + intros Hcase. apply Hcase. reflexivity.
    + discriminate.
Defined.

(** A text question without a maximum and a combobox without one. *)
Definition questions_without_maximum : list Question.t :=
  [Question.set_maxCharacters "-9"
     (Question.set_fieldType "text"
        (Question.set_questionType "text"
           (Question.set_fieldName "name" Question.default)));
   Question.set_maxCharacters "-9"
     (Question.set_fieldType "text"
        (Question.set_questionType "combobox"
           (Question.set_fieldName "color" Question.default)))].

Lemma required_max_characters_witness :
  let s := mkReader [] false false questions_without_maximum in
  logstring (snd (_check_required_max_characters "demo_dd" s))
  = ["ERROR - MaxCharacters: In worksheet 'demo_dd', MaxCharacters for FieldName 'name' needs a value"].
Proof.
  intros s.
  destruct (required_max_characters_exactly "demo_dd" s)
    as [reported [Hafter [Hreported _]]].
  rewrite Hafter. cbn [add_errors logstring s app].
  assert (Hname : forall q, In q reported <-> q = nth 0 questions_without_maximum Question.default).
  { intros q. rewrite Hreported. cbn [questionList s questions_without_maximum In nth].
    split.
    - intros [[<- | [<- | []]] [_ [_ [_ [Hcombo _]]]]]; [reflexivity|].
      exfalso. apply Hcombo. reflexivity.
    - intros ->. split; [left; reflexivity|].
      repeat split; try discriminate. left. reflexivity. }
  destruct reported as [|q1 [|q2 rest]].
  - exfalso. apply (proj2 (Hname _) eq_refl).
  - rewrite (proj1 (Hname q1) (or_introl eq_refl)). reflexivity.
  - exfalso.
    pose proof (proj1 (Hreported q1) (or_introl eq_refl)) as [_ H1].
    pose proof (proj1 (Hname q1) (or_introl eq_refl)) as E1.
    pose proof (proj1 (Hname q2) (or_intror (or_introl eq_refl))) as E2.
    subst q1 q2.
    assert (Hcount :
              List.length
                (map (fun q => needs_value_message "demo_dd" q.(Question.fieldName))
                   (nth 0 questions_without_maximum Question.default
                    :: nth 0 questions_without_maximum Question.default :: rest))
              = List.length
                  (map (fun q => needs_value_message "demo_dd" q.(Question.fieldName))
                     (filter needs_max_characters questions_without_maximum))).
    { f_equal. apply (f_equal logstring) in Hafter.
      rewrite check_required_max_characters_records in Hafter.
      cbn [snd add_errors logstring s app questionList] in Hafter.
      symmetry. exact Hafter. }
    simpl in Hcount. discriminate.
Defined.

Lemma late_checks_witness :
  snd (create_question_list (fun l => l) sheet_with_blank_text_and_duplicate init)
  = snd (rows_phase sheet_with_blank_text_and_duplicate init)
  /\ snd (create_question_list (fun l => l) clean_sheet init)
     = snd (log (no_errors_line "demo_dd") (snd (rows_phase clean_sheet init))).
Proof.
  split.
  - destruct (late_checks_only_after_clean_rows (fun l => l)
                sheet_with_blank_text_and_duplicate init) as [H _].
    apply H. vm_compute. reflexivity.
  - destruct (late_checks_only_after_clean_rows (fun l => l) clean_sheet init)
      as [_ [_ [H _]]].
    apply H; vm_compute; reflexivity.
Defined.

(* ================================================================== *)
(** * Further properties *)
(* ================================================================== *)

(** ** What a method does to the reader *)

(** Every diagnostic begins with the word ERROR; the other lines of the
    log (the heading of a sheet, the warnings, the closing line) do not. *)
Definition is_error_line (message : string) : bool := startswith message "ERROR".

Definition has_error (lines : list string) : bool := existsb is_error_line lines.

(** The reader after [lines] went to the log, the flags raised if one of
    them is a diagnostic. *)
Definition emit (lines : list string) (s : Reader) : Reader :=
  mkReader (logstring s ++ lines)
    (errorsEncountered s || has_error lines)
    (worksheetErrorsEncountered s || has_error lines)
    (questionList s).

(** The reader after the questions [qs] were appended to its list. *)
Definition extend (qs : list Question.t) (s : Reader) : Reader :=
  mkReader (logstring s) (errorsEncountered s) (worksheetErrorsEncountered s)
    (questionList s ++ qs).

Lemma has_error_app (l1 l2 : list string) :
  has_error (l1 ++ l2) = has_error l1 || has_error l2.
Proof. apply existsb_app. Qed.

Lemma emit_nil (s : Reader) : emit [] s = s.
Proof.
  destruct s; unfold emit; simpl. rewrite app_nil_r, !orb_false_r. reflexivity.
Qed.

Lemma emit_app (l1 l2 : list string) (s : Reader) :
  emit l2 (emit l1 s) = emit (l1 ++ l2) s.
Proof.
  unfold emit; simpl. rewrite has_error_app, <- app_assoc, <- !orb_assoc. reflexivity.
Qed.

Lemma extend_nil (s : Reader) : extend [] s = s.
Proof. destruct s; unfold extend; simpl. rewrite app_nil_r. reflexivity. Qed.

Lemma extend_app (q1 q2 : list Question.t) (s : Reader) :
  extend q2 (extend q1 s) = extend (q1 ++ q2) s.
Proof. unfold extend; simpl. rewrite <- app_assoc. reflexivity. Qed.

Lemma emit_extend (l : list string) (qs : list Question.t) (s : Reader) :
  emit l (extend qs s) = extend qs (emit l s).
Proof. reflexivity. Qed.

(** [post m Q]: the method [m] reads nothing of the reader; it returns a
    value and sends lines to the log that satisfy [Q]. *)
Definition post {A : Type} (m : M A) (Q : A -> list string -> Prop) : Prop :=
  exists a l, (forall s, m s = (a, emit l s)) /\ Q a l.

Lemma post_ret {A : Type} (a : A) (Q : A -> list string -> Prop) :
  Q a [] -> post (ret a) Q.
Proof.
  intros H. exists a, []. split; [|exact H].
  intros s. rewrite emit_nil. reflexivity.
Qed.

Lemma post_pass (Q : unit -> list string -> Prop) : Q tt [] -> post pass Q.
Proof. apply post_ret. Qed.

Lemma post_error (msg : string) (Q : unit -> list string -> Prop) :
  is_error_line msg = true -> Q tt [msg] -> post (_error msg) Q.
Proof.
  intros E H. exists tt, [msg]. split; [|exact H].
  intros s. unfold _error, emit, has_error. cbn [existsb].
  rewrite E. cbn [orb]. rewrite !orb_true_r. reflexivity.
Qed.

Lemma post_log (msg : string) (Q : unit -> list string -> Prop) :
  is_error_line msg = false -> Q tt [msg] -> post (log msg) Q.
Proof.
  intros E H. exists tt, [msg]. split; [|exact H].
  intros s. unfold log, emit, has_error. cbn [existsb].
  rewrite E. cbn [orb]. rewrite !orb_false_r. reflexivity.
Qed.

Lemma post_bind {A B : Type} (m : M A) (f : A -> M B) (Q : B -> list string -> Prop) :
  post m (fun a l1 => post (f a) (fun b l2 => Q b (l1 ++ l2))) -> post (bind m f) Q.
Proof.
  intros [a [l1 [Hm [b [l2 [Hf HQ]]]]]].
  exists b, (l1 ++ l2). split; [|exact HQ].
  intros s. unfold bind. rewrite Hm, Hf, emit_app. reflexivity.
Qed.

Lemma post_weaken {A : Type} (m : M A) (Q Q' : A -> list string -> Prop) :
  post m Q -> (forall a l, Q a l -> Q' a l) -> post m Q'.
Proof. intros [a [l [Hm HQ]]] H. exists a, l. auto. Qed.

Lemma post_when (b : bool) (m : M unit) (Q : unit -> list string -> Prop) :
  (b = true -> post m Q) -> (b = false -> Q tt []) -> post (when b m) Q.
Proof. destruct b; simpl; intros H1 H2; [auto | apply post_pass; auto]. Qed.

(** A loop whose body keeps [I], a property of the value carried and of
    the lines sent to the log so far. *)
Lemma post_for_fold {A B : Type} (I : B -> list string -> Prop)
    (l : list A) (body : B -> A -> M B) :
  (forall b x done, In x l -> I b done ->
     post (body b x) (fun b' l' => I b' (done ++ l'))) ->
  forall b done, I b done ->
    post (for_fold l body b) (fun b' l' => I b' (done ++ l')).
Proof.
  induction l as [|x l IH]; intros H b done Hb; cbn [for_fold].
  - apply post_ret. rewrite app_nil_r. exact Hb.
  - apply post_bind.
    apply (post_weaken _ _ _ (H b x done (or_introl eq_refl) Hb)).
    intros b' l' Hb'.
    apply (post_weaken _ _ _ (IH (fun b x done Hx => H b x done (or_intror Hx))
                                 b' (done ++ l') Hb')).
    intros b'' l'' Hb''. rewrite app_assoc. exact Hb''.
Qed.

Lemma post_for_each {A : Type} (I : list string -> Prop)
    (l : list A) (body : A -> M unit) :
  (forall x done, In x l -> I done -> post (body x) (fun _ l' => I (done ++ l'))) ->
  forall done, I done -> post (for_each l body) (fun _ l' => I (done ++ l')).
Proof.
  induction l as [|x l IH]; intros H done Hd; cbn [for_each].
  - apply post_pass. rewrite app_nil_r. exact Hd.
  - apply post_bind.
    apply (post_weaken _ _ _ (H x done (or_introl eq_refl) Hd)).
    intros _ l' Hd'.
    apply (post_weaken _ _ _ (IH (fun x done Hx => H x done (or_intror Hx))
                                 (done ++ l') Hd')).
    intros _ l'' Hd''. rewrite app_assoc. exact Hd''.
Qed.

(** A method that reads nothing of the reader, whatever it logs. *)
Definition plain {A : Type} (m : M A) : Prop := post m (fun _ _ => True).

Lemma post_plain {A : Type} (m : M A) (Q : A -> list string -> Prop) :
  plain m -> (forall a l, Q a l) -> post m Q.
Proof. intros H HQ. apply (post_weaken _ _ _ H). auto. Qed.

Lemma plain_for_each {A : Type} (l : list A) (body : A -> M unit) :
  (forall x, plain (body x)) -> plain (for_each l body).
Proof.
  intros H. apply (post_for_each (fun _ => True) l body) with (done := []); auto.
  intros x done _ _. apply H.
Qed.

Lemma plain_for_fold {A B : Type} (l : list A) (body : B -> A -> M B) (b : B) :
  (forall b x, plain (body b x)) -> plain (for_fold l body b).
Proof.
  intros H. apply (post_for_fold (fun _ _ => True) l body) with (done := []); auto.
  intros b' x done _ _. apply H.
Qed.

Lemma plain_for_return {A : Type} (l : list A) (body : A -> M flow) :
  (forall x, plain (body x)) -> plain (for_return l body).
Proof.
  intros H. induction l as [|x l IH]; cbn [for_return]; [apply post_pass; exact I|].
  apply post_bind. apply (post_weaken _ _ _ (H x)). intros f l1 _.
  destruct f; [|apply post_pass; exact I].
  apply (post_weaken _ _ _ IH). auto.
Qed.

Lemma post_seq {A B : Type} (m : M A) (f : A -> M B)
    (Qm : A -> list string -> Prop) (Q : B -> list string -> Prop) :
  post m Qm ->
  (forall a l1, Qm a l1 -> post (f a) (fun b l2 => Q b (l1 ++ l2))) ->
  post (bind m f) Q.
Proof.
  intros Hm Hf. apply post_bind. apply (post_weaken _ _ _ Hm). exact Hf.
Qed.

Lemma plain_ret {A : Type} (a : A) : plain (ret a).
Proof. apply post_ret. exact I. Qed.

Lemma plain_error (msg : string) : is_error_line msg = true -> plain (_error msg).
Proof. intros H. apply post_error; [exact H | exact I]. Qed.

Lemma plain_log (msg : string) : is_error_line msg = false -> plain (log msg).
Proof. intros H. apply post_log; [exact H | exact I]. Qed.

Lemma plain_bind {A B : Type} (m : M A) (f : A -> M B) :
  plain m -> (forall a, plain (f a)) -> plain (bind m f).
Proof.
  intros Hm Hf. apply (post_seq _ _ _ _ Hm). intros a l1 _.
  apply (post_weaken _ _ _ (Hf a)). auto.
Qed.

Lemma plain_when (b : bool) (m : M unit) : plain m -> plain (when b m).
Proof. destruct b; simpl; [auto | intros _; apply plain_ret]. Qed.

Create HintDb plain.

(** Take a method apart along its control structure. *)
Ltac plain_step :=
  first
    [ apply plain_ret
    | apply plain_error; reflexivity
    | apply plain_log; reflexivity
    | solve [auto with plain nocore]
    | apply plain_when
    | apply plain_bind; [|intros ?]
    | apply plain_for_each; intros ?
    | apply plain_for_fold; intros ? ?
    | apply plain_for_return; intros ?
    | match goal with
      | |- plain (if ?b then _ else _) => destruct b
      | |- plain (match ?x with _ => _ end) => destruct x
      | |- plain (let (_, _) := ?x in _) => destruct x
      end ].

Ltac plain_auto := repeat plain_step.

Lemma plain_check_field_name (worksheet fieldname : string) :
  plain (_check_field_name worksheet fieldname).
Proof. unfold _check_field_name. plain_auto. Qed.
#[local] Hint Resolve plain_check_field_name : plain.

Lemma plain_check_max_chars_value (worksheet max_chars fieldname : string) :
  plain (_check_max_chars_value worksheet max_chars fieldname).
Proof. unfold _check_max_chars_value. plain_auto. Qed.
#[local] Hint Resolve plain_check_max_chars_value : plain.

Lemma plain_static_responses_loop (fieldname worksheet : string) (responses : list string) :
  forall seen, plain (static_responses_loop fieldname worksheet seen responses).
Proof.
  induction responses as [|response rest IH]; intros seen; cbn [static_responses_loop];
    [apply plain_ret|].
  plain_auto.
Qed.
#[local] Hint Resolve plain_static_responses_loop : plain.

Lemma plain_check_question_field_type (q : Question.t) (worksheet : string) :
  plain (_check_question_field_type q worksheet).
Proof. unfold _check_question_field_type. plain_auto. Qed.
#[local] Hint Resolve plain_check_question_field_type : plain.

Lemma plain_check_numeric_range (worksheet value fieldname range_name : string) :
  plain (_check_numeric_range worksheet value fieldname range_name).
Proof. unfold _check_numeric_range. plain_auto. Qed.
#[local] Hint Resolve plain_check_numeric_range : plain.

Lemma plain_check_date_range (worksheet value fieldname range_name : string) :
  plain (_check_date_range worksheet value fieldname range_name).
Proof. unfold _check_date_range. plain_auto. Qed.
#[local] Hint Resolve plain_check_date_range : plain.

Lemma plain_check_logic_check_syntax (worksheet logic_check fieldname : string) :
  plain (_check_logic_check_syntax worksheet logic_check fieldname).
Proof. unfold _check_logic_check_syntax. plain_auto. Qed.
#[local] Hint Resolve plain_check_logic_check_syntax : plain.

Lemma plain_check_special_button (worksheet value fieldname button_name : string) :
  plain (_check_special_button worksheet value fieldname button_name).
Proof. unfold _check_special_button. plain_auto. Qed.
#[local] Hint Resolve plain_check_special_button : plain.

Lemma plain_check_skip_syntax (worksheet skip_text fieldname : string) :
  plain (_check_skip_syntax worksheet skip_text fieldname).
Proof.
  unfold _check_skip_syntax, _check_skip_syntax_line, error_return. plain_auto.
Qed.
#[local] Hint Resolve plain_check_skip_syntax : plain.

(** The same for a condition [Q] on the value and the lines: what is left
    are the instances of [Q] at the ends of the method. *)
Ltac post_step :=
  lazymatch goal with
  | |- post (ret _) _ => apply post_ret
  | |- post pass _ => apply post_pass
  | |- post (_error _) _ => apply post_error; [reflexivity|]
  | |- post (error_return _) _ =>
      unfold error_return; apply post_bind, post_error; [reflexivity|]
  | |- post (log _) _ => apply post_log; [reflexivity|]
  | |- post (when _ _) _ => apply post_when; intros ?
  | |- post (bind _ _) _ => apply post_bind
  | |- post (if ?b then _ else _) _ => destruct b eqn:?
  | |- post (match ?x with _ => _ end) _ => destruct x eqn:?
  | |- post (let (_, _) := ?x in _) _ => destruct x eqn:?
  end.

(** ** From a row to a question *)

(** The attributes of a question that are copied from cells of its row. *)
Definition copied_columns (q : Question.t) : list string :=
  [q.(Question.fieldName); q.(Question.questionType); q.(Question.fieldType);
   q.(Question.questionText); q.(Question.maxCharacters); q.(Question.lowerRange);
   q.(Question.upperRange); q.(Question.dontKnow); q.(Question.refuse);
   q.(Question.na); q.(Question.skip)].

(** What [create_question_list] copies from row [row_idx]. *)
Definition row_columns (worksheet : Worksheet) (row_idx : nat) : list string :=
  [_get_cell_trim worksheet row_idx 1; _get_cell_trim worksheet row_idx 2;
   _get_cell_trim worksheet row_idx 3; _get_cell_trim worksheet row_idx 4;
   or_default (_get_cell_trim worksheet row_idx 5) "-9";
   or_default (_get_cell_trim worksheet row_idx 7) "-9";
   or_default (_get_cell_trim worksheet row_idx 8) "-9";
   or_default (_get_cell_trim worksheet row_idx 10) "-9";
   or_default (_get_cell_trim worksheet row_idx 11) "-9";
   or_default (_get_cell_trim worksheet row_idx 12) "-9";
   _get_cell_trim worksheet row_idx 13].

(** The parsers of the Responses and LogicCheck cells leave the copied
    attributes alone. *)
Definition kept (q q' : Question.t) : Prop :=
  copied_columns q' = copied_columns q
  /\ q'.(Question.logicChecks) = q.(Question.logicChecks).

Lemma kept_refl (q : Question.t) : kept q q.
Proof. split; reflexivity. Qed.

(** The operators that [_parse_operator] returns. *)
Definition parsed_operators : list string :=
  ["&gt;"; "&lt;"; "&gt;="; "&lt;="; "="; "!="; "<>"].

(** A part as [_parse_part_line] makes them: a constant, a lookup or a
    query, without parts of its own and without parameters. *)
Definition simple_part (part : CalculationPart.t) : Prop :=
  In (CalculationPart.type part) [CONSTANT; LOOKUP; QUERY]
  /\ CalculationPart.parts part = []
  /\ CalculationPart.queryParameters part = [].

Definition constant_result (result : option CalculationPart.t) : Prop :=
  exists value, result = Some (_parse_result_value value).

(** The shape of what the parsers of the Responses cell put into a
    question. *)
Definition shaped (q : Question.t) : Prop :=
  Forall (fun param => startswith param.(CalculationParameter.name) "@" = true)
    q.(Question.calculationQueryParameters)
  /\ Forall (fun flt => In flt.(Filter.operator) parsed_operators)
       q.(Question.responseFilters)
  /\ Forall simple_part q.(Question.calculationMathParts)
  /\ Forall simple_part q.(Question.calculationConcatParts)
  /\ Forall (fun cond => constant_result cond.(CaseCondition.result))
       q.(Question.calculationCaseConditions)
  /\ (q.(Question.calculationCaseElse) = None
      \/ constant_result q.(Question.calculationCaseElse)).

(** What the parsers keep of the question they are given. *)
Definition held (q0 q : Question.t) : Prop := kept q0 q /\ shaped q.

Lemma parse_operator_parsed (op : string) : In (_parse_operator op) parsed_operators.
Proof.
  unfold _parse_operator, parsed_operators. cbv zeta.
  repeat match goal with
         | |- In (if ?b then _ else _) _ => destruct b eqn:?
         end;
    cbn [In]; auto 10.
  match goal with
  | H : mem _ _ = true |- _ => apply mem_true_iff in H; cbn [In] in H
  end.
  intuition auto.
Qed.

(** A method whose value satisfies [R]. *)
Definition carries {A : Type} (R : A -> Prop) (m : M A) : Prop :=
  post m (fun a _ => R a).

Lemma carries_ret {A : Type} (R : A -> Prop) (a : A) : R a -> carries R (ret a).
Proof. intros H. apply post_ret. exact H. Qed.

Lemma carries_bind {A B : Type} (Rm : A -> Prop) (R : B -> Prop)
    (m : M A) (f : A -> M B) :
  carries Rm m -> (forall a, Rm a -> carries R (f a)) -> carries R (bind m f).
Proof.
  intros Hm Hf. apply (post_seq _ _ _ _ Hm). intros a l1 Ha.
  apply (post_weaken _ _ _ (Hf a Ha)). auto.
Qed.

Lemma carries_after {A B : Type} (R : B -> Prop) (m : M A) (f : A -> M B) :
  plain m -> (forall a, carries R (f a)) -> carries R (bind m f).
Proof. intros Hm Hf. apply (carries_bind (fun _ => True)); auto. Qed.

Lemma carries_for_fold {A B : Type} (R : B -> Prop) (l : list A) (body : B -> A -> M B) :
  (forall b x, R b -> carries R (body b x)) ->
  forall b, R b -> carries R (for_fold l body b).
Proof.
  intros H b Hb.
  apply (post_for_fold (fun b _ => R b) l body) with (done := []); [|exact Hb].
  intros b' x done _ Hb'. apply H. exact Hb'.
Qed.

Lemma Forall_snoc {A : Type} (P : A -> Prop) (l : list A) (x : A) :
  Forall P l -> P x -> Forall P (l ++ [x]).
Proof. intros Hl Hx. apply Forall_app. split; [exact Hl | repeat constructor; exact Hx]. Qed.

(** The parsers assign to one attribute at a time. *)
Ltac held_leaf :=
  match goal with
  | H : held _ _ |- held _ _ =>
      let Hk := fresh in
      let Hs := fresh in
      destruct H as [Hk Hs];
      split;
      [ destruct Hk; split; assumption
      | first
          [ exact Hs
          | let S1 := fresh in
            let S2 := fresh in
            let S3 := fresh in
            let S4 := fresh in
            let S5 := fresh in
            let S6 := fresh in
            destruct Hs as [S1 [S2 [S3 [S4 [S5 S6]]]]];
            split; [|split; [|split; [|split; [|split]]]];
            first
              [ assumption
              | apply Forall_snoc; [assumption|]
              | idtac ] ] ]
  end.

Ltac carries_step :=
  lazymatch goal with
  | |- carries _ (ret (match ?x with _ => _ end)) => destruct x
  | |- carries _ (ret _) => apply carries_ret; cbn [cv_question with_question]
  | |- carries _ (bind (_error _) _) =>
      apply carries_after; [apply plain_error; reflexivity | intros _]
  | |- carries _ (bind (log _) _) =>
      apply carries_after; [apply plain_log; reflexivity | intros _]
  | |- carries _ (if ?b then _ else _) => destruct b
  | |- carries _ (match ?x with _ => _ end) => destruct x
  | |- carries _ (let (_, _) := ?x in _) => destruct x
  end.

Lemma parse_dynamic_responses_kept (q0 : Question.t) (responses : string)
    (question : Question.t) (worksheet fieldname : string) :
  held q0 question ->
  carries (held q0) (_parse_dynamic_responses responses question worksheet fieldname).
Proof.
  unfold _parse_dynamic_responses. intros H.
  apply carries_for_fold; [|exact H]. clear question H. intros question line H.
  unfold _parse_dynamic_responses_line. cbv zeta.
  repeat carries_step; held_leaf.
  all: apply parse_operator_parsed.
Qed.

Lemma parse_parameter_kept (q0 : Question.t) (param_str : string)
    (question : Question.t) (worksheet fieldname : string) :
  held q0 question ->
  carries (held q0) (_parse_parameter param_str question worksheet fieldname).
Proof.
  intros H. unfold _parse_parameter. cbv zeta. repeat carries_step; held_leaf.
  cbn [CalculationParameter.name].
  destruct (startswith (strip (group_ 1 c)) "@") eqn:E; [exact E|].
  cbn [negb String.append]. unfold startswith. rewrite prefix_cons.
  destruct (strip (group_ 1 c)); reflexivity.
Qed.

Lemma parse_when_condition_kept (q0 : Question.t) (when_str : string)
    (question : Question.t) (worksheet fieldname : string) :
  held q0 question ->
  carries (held q0) (_parse_when_condition when_str question worksheet fieldname).
Proof.
  intros H. unfold _parse_when_condition. repeat carries_step; held_leaf.
  eexists. reflexivity.
Qed.

Lemma parse_part_line_simple (part_line worksheet fieldname : string) :
  carries (fun part => match part with Some p => simple_part p | None => True end)
    (_parse_part_line part_line worksheet fieldname).
Proof.
  unfold _parse_part_line. cbv zeta.
  repeat carries_step; try exact I;
    (split; [cbn [CalculationPart.type In]; auto | split; reflexivity]).
Qed.

Lemma plain_validate_calculation_fields (question : Question.t)
    (worksheet fieldname : string) :
  plain (_validate_calculation_fields question worksheet fieldname).
Proof. unfold _validate_calculation_fields. plain_auto. Qed.

Lemma parse_automatic_calculation_kept (q0 : Question.t) (responses : string)
    (question : Question.t) (worksheet fieldname : string) :
  held q0 question ->
  carries (held q0) (_parse_automatic_calculation responses question worksheet fieldname).
Proof.
  intros H. unfold _parse_automatic_calculation.
  apply (carries_bind (fun v => held q0 (cv_question v))).
  { apply carries_for_fold; [|exact H]. clear question H. intros v line H.
    unfold _parse_automatic_calculation_line. cbv zeta.
    repeat first
      [ match goal with
        | |- carries _ (bind (_parse_parameter _ _ _ _) _) =>
            apply (carries_bind (held q0));
            [apply parse_parameter_kept; exact H | intros ? ?]
        end
      | carries_step ];
      held_leaf.
    right. eexists. reflexivity. }
  intros v Hv. cbv zeta.
  apply (carries_bind (held q0)).
  { destruct (String.eqb _ _); [|apply carries_ret; exact Hv].
    apply carries_for_fold; [|exact Hv].
    intros q w Hq. apply parse_when_condition_kept. exact Hq. }
  intros q1 H1.
  apply (carries_bind (held q0)).
  { destruct (mem _ _); [|apply carries_ret; exact H1].
    apply carries_for_fold; [|exact H1].
    intros q p Hq.
    apply (carries_bind _ _ _ _ (parse_part_line_simple _ _ _)).
    intros part Hpart. repeat carries_step; held_leaf; exact Hpart. }
  intros q2 H2.
  apply carries_after; [apply plain_validate_calculation_fields|].
  intros _. apply carries_ret. exact H2.
Qed.

(** ** What a row without diagnostics guarantees *)

(** The characters of a field name that [_check_field_name] lets pass. *)
Definition name_ok (fieldname : string) : Prop :=
  any_char (fun c => negb (isalnum c) && negb (Ascii.eqb c "_")) fieldname = false.

Definition has_semicolon (logic_check : string) : Prop :=
  contains logic_check ";" = true.

(** What the check of the syntax of skips establishes of a line that the
    emitter relies on: one comma, and five words or more before it. *)
Definition skip_syntax_ok (skip : string) : Prop :=
  exists logic_section rest,
    split "," skip = [logic_section; rest]
    /\ 5 <= List.length (split " " logic_section).

Lemma has_error_one (msg : string) (rest : list string) :
  is_error_line msg = true -> has_error (msg :: rest) = true.
Proof. intros H. unfold has_error. cbn [existsb]. rewrite H. reflexivity. Qed.

Lemma has_error_app_false (l1 l2 : list string) :
  has_error (l1 ++ l2) = false -> has_error l1 = false /\ has_error l2 = false.
Proof. rewrite has_error_app. apply orb_false_iff. Qed.

(** A diagnostic was logged, so the lines logged are not free of them. *)
Ltac error_logged :=
  let H := fresh in
  intros H; exfalso;
  cbn [app] in H;
  rewrite has_error_one in H by reflexivity; discriminate H.

Lemma check_field_name_post (worksheet fieldname : string) :
  post (_check_field_name worksheet fieldname)
    (fun _ l => has_error l = false -> name_ok fieldname).
Proof.
  unfold _check_field_name, name_ok.
  destruct fieldname as [|c0 rest]; [apply post_error; [reflexivity | error_logged]|].
  destruct (isdigit c0); [apply post_error; [reflexivity | error_logged]|].
  destruct (any_char _ (String c0 rest)) eqn:E;
    [apply post_error; [reflexivity | error_logged]|].
  apply post_plain; [|auto].
  plain_auto.
Qed.

Lemma check_logic_check_syntax_post (worksheet logic_check fieldname : string) :
  post (_check_logic_check_syntax worksheet logic_check fieldname)
    (fun _ l => has_error l = false -> has_semicolon logic_check).
Proof.
  unfold has_semicolon.
  destruct (contains logic_check ";") eqn:E.
  - apply post_plain; [apply plain_check_logic_check_syntax | auto].
  - unfold _check_logic_check_syntax. rewrite E. cbn [negb].
    apply post_error; [reflexivity | error_logged].
Qed.

Lemma check_skip_syntax_line_post (worksheet fieldname skip : string) :
  post (_check_skip_syntax_line worksheet fieldname skip)
    (fun f l => has_error l = false -> f = Next /\ skip_syntax_ok skip).
Proof.
  unfold _check_skip_syntax_line. cbv zeta.
  repeat (post_step; cbv beta); try error_logged.
  all: intros _; split; [reflexivity|].
  all: subst; eexists _, _; split; [eassumption|].
  all: repeat match goal with
         | H : negb _ && _ = false |- _ => apply andb_false_iff in H
         | H : negb _ = false |- _ => apply negb_false_iff in H
         | H : (_ =? _) = true |- _ => apply Nat.eqb_eq in H
         end.
  all: repeat match goal with
         | H : _ \/ _ |- _ => destruct H
         | H : negb _ = false |- _ => apply negb_false_iff in H
         | H : (_ =? _) = true |- _ => apply Nat.eqb_eq in H
         end;
       try lia; try congruence.
Qed.

Lemma post_for_return_all {A : Type} (P : A -> Prop) (l : list A) (body : A -> M flow) :
  (forall x, post (body x) (fun f l' => has_error l' = false -> f = Next /\ P x)) ->
  post (for_return l body) (fun _ l' => has_error l' = false -> Forall P l).
Proof.
  intros H. induction l as [|x l IH]; cbn [for_return].
  - apply post_pass. intros _. constructor.
  - apply (post_seq _ _ _ _ (H x)). intros f l1 Hx.
    destruct f.
    + apply (post_weaken _ _ _ IH). intros _ l2 Hl E.
      apply has_error_app_false in E. destruct E as [E1 E2].
      constructor; [apply Hx; exact E1 | apply Hl; exact E2].
    + apply post_pass. intros E. rewrite app_nil_r in E.
      destruct (Hx E) as [Hf _]. discriminate Hf.
Qed.

Lemma check_skip_syntax_post (worksheet skip_text fieldname : string) :
  post (_check_skip_syntax worksheet skip_text fieldname)
    (fun _ l => has_error l = false -> Forall skip_syntax_ok (_split_lines skip_text)).
Proof.
  unfold _check_skip_syntax. apply post_for_return_all.
  intros line. apply check_skip_syntax_line_post.
Qed.

(** The loop over the lines of the LogicCheck cell. *)
Definition logic_lines_post (q q' : Question.t) (l : list string) : Prop :=
  copied_columns q' = copied_columns q
  /\ shaped q'
  /\ (has_error l = false -> Forall has_semicolon q'.(Question.logicChecks)).

Lemma logic_check_lines_post (worksheet : string) (q : Question.t) (lines : list string) :
  q.(Question.logicChecks) = [] -> shaped q ->
  post (for_fold lines (logic_check_line worksheet) q) (logic_lines_post q).
Proof.
  intros Hq Hshaped.
  apply (post_for_fold (logic_lines_post q) lines (logic_check_line worksheet))
    with (done := []).
  2:{ split; [reflexivity | split; [exact Hshaped|]]. intros _. rewrite Hq. constructor. }
  intros q' check done _ [Hc [Hs Hl]].
  unfold logic_check_line, logic_lines_post. cbv zeta.
  destruct (startswith (strip check) "unique;").
  - destruct (split1 ";" (strip check)) as [|p0 [|p1 [|p2 rest]]];
      try (apply post_bind, post_error; [reflexivity|]; apply post_ret;
           split; [exact Hc | split; [exact Hs|]];
           intros E; apply has_error_app_false in E; destruct E as [_ E];
           exfalso; revert E; error_logged).
    destruct (_ && _).
    + apply post_ret. rewrite app_nil_r.
      split; [exact Hc | split; [exact Hs | exact Hl]].
    + apply post_bind, post_error; [reflexivity|]. apply post_ret.
      split; [exact Hc | split; [exact Hs|]].
      intros E; apply has_error_app_false in E; destruct E as [_ E].
      exfalso; revert E; error_logged.
  - apply (post_seq _ _ _ _ (check_logic_check_syntax_post _ _ _)).
    intros _ l1 H1. apply post_ret. rewrite app_nil_r.
    split; [exact Hc | split; [exact Hs|]].
    intros E. apply has_error_app_false in E. destruct E as [E0 E1].
    cbn [Question.logicChecks Question.set_logicChecks].
    apply Forall_app. split; [apply Hl; exact E0|].
    constructor; [apply H1; exact E1 | constructor].
Qed.

(** ** The loop over the rows *)

(** [yields m Q]: the method [m] reads nothing of the reader; it appends
    questions to the list and sends lines to the log that satisfy [Q]. *)
Definition yields (m : M unit) (Q : list Question.t -> list string -> Prop) : Prop :=
  exists qs l, (forall s, m s = (tt, extend qs (emit l s))) /\ Q qs l.

Lemma yields_post (m : M unit) (Q : list Question.t -> list string -> Prop) :
  post m (fun _ l => Q [] l) -> yields m Q.
Proof.
  intros [[] [l [Hm HQ]]]. exists [], l. split; [|exact HQ].
  intros s. rewrite extend_nil. apply Hm.
Qed.

Lemma yields_append (q : Question.t) (Q : list Question.t -> list string -> Prop) :
  Q [q] [] -> yields (questionList_append q) Q.
Proof.
  intros H. exists [q], []. split; [|exact H].
  intros s. rewrite emit_nil. reflexivity.
Qed.

Lemma yields_after {A : Type} (m : M A) (f : A -> M unit)
    (Qm : A -> list string -> Prop) (Q : list Question.t -> list string -> Prop) :
  post m Qm ->
  (forall a l1, Qm a l1 -> yields (f a) (fun qs l2 => Q qs (l1 ++ l2))) ->
  yields (bind m f) Q.
Proof.
  intros [a [l1 [Hm Ha]]] Hf.
  destruct (Hf a l1 Ha) as [qs [l2 [Hfa HQ]]].
  exists qs, (l1 ++ l2). split; [|exact HQ].
  intros s. unfold bind. rewrite Hm, Hfa, emit_app. reflexivity.
Qed.

Lemma yields_after_plain {A : Type} (m : M A) (f : A -> M unit)
    (Q : list Question.t -> list string -> Prop) :
  plain m ->
  (forall a l1, yields (f a) (fun qs l2 => Q qs (l1 ++ l2))) ->
  yields (bind m f) Q.
Proof. intros Hm Hf. apply (yields_after _ _ _ _ Hm). intros a l1 _. apply Hf. Qed.

Lemma yields_seq (m k : M unit) (Qm Q : list Question.t -> list string -> Prop) :
  yields m Qm ->
  (forall qs1 l1, Qm qs1 l1 -> yields k (fun qs2 l2 => Q (qs1 ++ qs2) (l1 ++ l2))) ->
  yields (m ;; k) Q.
Proof.
  intros [qs1 [l1 [Hm H1]]] Hk.
  destruct (Hk qs1 l1 H1) as [qs2 [l2 [Hk2 HQ]]].
  exists (qs1 ++ qs2), (l1 ++ l2). split; [|exact HQ].
  intros s. unfold bind. rewrite Hm, Hk2, emit_extend, emit_app, extend_app.
  reflexivity.
Qed.

Lemma yields_weaken (m : M unit) (Q Q' : list Question.t -> list string -> Prop) :
  yields m Q -> (forall qs l, Q qs l -> Q' qs l) -> yields m Q'.
Proof. intros [qs [l [Hm HQ]]] H. exists qs, l. auto. Qed.

(** What makes a question safe to emit, as far as the rows can tell. *)
Definition checked (q : Question.t) : Prop :=
  name_ok q.(Question.fieldName)
  /\ Forall has_semicolon q.(Question.logicChecks)
  /\ Forall skip_syntax_ok (_split_lines q.(Question.skip)).

(** The digits that [_check_max_chars_value] reads in a MaxCharacters. *)
Definition max_chars_numeric (max_chars : string) : string :=
  if startswith max_chars "=" then drop 1 max_chars else max_chars.

(** Whether [_check_max_chars_value] raises: the digits pass the pattern
    and are more than [int] converts. *)
Definition max_chars_raises (max_chars : string) : bool :=
  Re.fullmatch NUMERIC_ONLY_RE (max_chars_numeric max_chars)
  && int_raises (max_chars_numeric max_chars).

(** The rows below the header that are not merged in the last column and
    have a name in the first. *)
Definition named_row (worksheet : Worksheet) (row_idx : nat) : bool :=
  negb (row_idx =? 1)
  && negb (_is_cell_merged worksheet row_idx NUMBER_OF_COLUMNS)
  && truthy (_get_cell_trim worksheet row_idx 1).

(** The rows that give a question: the named rows on which the body of
    the loop does not raise. *)
Definition gives_question (worksheet : Worksheet) (row_idx : nat) : bool :=
  named_row worksheet row_idx
  && negb (max_chars_raises (or_default (_get_cell_trim worksheet row_idx 5) "-9")).

(** The named rows that the handler of unexpected exceptions refuses. *)
Definition refused (worksheet : Worksheet) (row_idx : nat) : bool :=
  named_row worksheet row_idx
  && max_chars_raises (or_default (_get_cell_trim worksheet row_idx 5) "-9").

(** The rows that give a diagnostic instead, for want of a name. *)
Definition lacks_name (worksheet : Worksheet) (row_idx : nat) : bool :=
  negb (row_idx =? 1)
  && negb (_is_cell_merged worksheet row_idx NUMBER_OF_COLUMNS)
  && negb (truthy (_get_cell_trim worksheet row_idx 1)).

Definition row_post (worksheet : Worksheet) (row_idx : nat)
    (qs : list Question.t) (l : list string) : Prop :=
  map copied_columns qs
  = (if gives_question worksheet row_idx then [row_columns worksheet row_idx] else [])
  /\ Forall shaped qs
  /\ (has_error l = false -> Forall checked qs)
  /\ (lacks_name worksheet row_idx || refused worksheet row_idx = true
      -> has_error l = true).

(** How the check of the maximum of characters ends in the body of the
    loop. *)
Lemma check_max_chars_value_outcome (worksheet max_chars fieldname : string) :
  post (_check_max_chars_value worksheet max_chars fieldname)
    (fun o _ =>
       o = if max_chars_raises max_chars
           then Raises (int_error (max_chars_numeric max_chars)) else Returns).
Proof.
  unfold _check_max_chars_value, max_chars_raises. cbv zeta.
  fold (max_chars_numeric max_chars).
  destruct (Re.fullmatch NUMERIC_ONLY_RE (max_chars_numeric max_chars)); cbn [negb andb].
  - destruct (int_raises (max_chars_numeric max_chars)); [apply post_ret; reflexivity|].
    destruct (_ || _)%bool; [|apply post_ret; reflexivity].
    apply post_bind, post_error; [reflexivity|]. apply post_ret. reflexivity.
  - apply post_bind, post_error; [reflexivity|]. apply post_ret. reflexivity.
Qed.

Lemma max_chars_step_outcome (worksheet max_chars fieldname : string) :
  post (if negb (String.eqb max_chars "-9")
        then _check_max_chars_value worksheet max_chars fieldname
        else ret Returns)
    (fun o _ =>
       o = if max_chars_raises max_chars
           then Raises (int_error (max_chars_numeric max_chars)) else Returns).
Proof.
  destruct (String.eqb_spec max_chars "-9") as [-> | _]; cbn [negb].
  - apply post_ret. reflexivity.
  - apply check_max_chars_value_outcome.
Qed.

Lemma has_error_app_r (l1 l2 : list string) :
  has_error (l1 ++ l2) = false -> has_error l2 = false.
Proof. intros H. apply has_error_app_false in H. tauto. Qed.

Lemma has_error_app_l (l1 l2 : list string) :
  has_error (l1 ++ l2) = false -> has_error l1 = false.
Proof. intros H. apply has_error_app_false in H. tauto. Qed.

Lemma held_refl (q : Question.t) : shaped q -> held q q.
Proof. intros H. split; [apply kept_refl | exact H]. Qed.

Lemma held_set_mask (v : string) (q : Question.t) :
  shaped q -> held q (Question.set_mask v q).
Proof. intros H. split; [split; reflexivity | exact H]. Qed.

Lemma held_set_responses (v : string) (q : Question.t) :
  shaped q -> held q (Question.set_responses v q).
Proof. intros H. split; [split; reflexivity | exact H]. Qed.

Lemma shaped_first (name qtype ftype text maxc : string) :
  shaped
    (Question.set_maxCharacters maxc
       (Question.set_questionText text
          (Question.set_fieldType ftype
             (Question.set_questionType qtype
                (Question.set_fieldName name Question.default))))).
Proof. unfold shaped. cbn. repeat (split; [constructor|]). left. reflexivity. Qed.

Lemma shaped_ranges (lower upper : string) (q : Question.t) :
  shaped q -> shaped (Question.set_upperRange upper (Question.set_lowerRange lower q)).
Proof. intros H. exact H. Qed.

Lemma shaped_last (dk rf na sk : string) (q : Question.t) :
  shaped q ->
  shaped (Question.set_skip sk
            (Question.set_na na (Question.set_refuse rf (Question.set_dontKnow dk q)))).
Proof. intros H. exact H. Qed.

Lemma copied_columns_first (name qtype ftype text maxc : string) :
  let q :=
    Question.set_maxCharacters maxc
      (Question.set_questionText text
         (Question.set_fieldType ftype
            (Question.set_questionType qtype
               (Question.set_fieldName name Question.default)))) in
  copied_columns q = [name; qtype; ftype; text; maxc; ""; ""; ""; ""; ""; ""]
  /\ q.(Question.logicChecks) = [].
Proof. split; reflexivity. Qed.

Lemma copied_columns_ranges (lower upper : string) (q : Question.t) :
  copied_columns (Question.set_upperRange upper (Question.set_lowerRange lower q))
  = [q.(Question.fieldName); q.(Question.questionType); q.(Question.fieldType);
     q.(Question.questionText); q.(Question.maxCharacters); lower; upper;
     q.(Question.dontKnow); q.(Question.refuse); q.(Question.na); q.(Question.skip)].
Proof. reflexivity. Qed.

Lemma copied_columns_last (dk rf na sk : string) (q : Question.t) :
  let q' :=
    Question.set_skip sk
      (Question.set_na na (Question.set_refuse rf (Question.set_dontKnow dk q))) in
  copied_columns q'
  = [q.(Question.fieldName); q.(Question.questionType); q.(Question.fieldType);
     q.(Question.questionText); q.(Question.maxCharacters); q.(Question.lowerRange);
     q.(Question.upperRange); dk; rf; na; sk]
  /\ q'.(Question.fieldName) = q.(Question.fieldName)
  /\ q'.(Question.logicChecks) = q.(Question.logicChecks)
  /\ q'.(Question.skip) = sk.
Proof. repeat split; reflexivity. Qed.

Lemma process_row_yields (worksheet : Worksheet) (row_idx : nat) :
  yields (process_row worksheet row_idx) (row_post worksheet row_idx).
Proof.
  unfold process_row, row_post, gives_question, refused, named_row, lacks_name. cbv zeta.
  destruct (row_idx =? 1); cbn [negb andb].
  { apply yields_post. apply post_plain; [plain_auto|].
    intros _ l.
    split; [reflexivity | split; [constructor | split; [constructor | discriminate]]]. }
  destruct (_is_cell_merged _ _ _); cbn [negb andb].
  { apply yields_post. apply post_pass.
    split; [reflexivity | split; [constructor | split; [constructor | discriminate]]]. }
  cbn [Question.fieldName Question.set_fieldName].
  destruct (truthy (_get_cell_trim worksheet row_idx 1)) eqn:Hname; cbn [negb].
  2:{ apply yields_post. apply post_error; [reflexivity|].
      split; [reflexivity | split; [constructor|]].
      split; [error_logged | intros _; apply has_error_one; reflexivity]. }
  (* the name *)
  apply (yields_after _ _ _ _ (check_field_name_post _ _)). intros _ l1 Hl1.
  (* the question text *)
  apply yields_after_plain; [plain_auto|]. intros _ l2.
  (* the maximum of characters *)
  apply (yields_after _ _ _ _ (max_chars_step_outcome _ _ _)). intros checked l3 ->.
  cbn [Question.maxCharacters Question.set_maxCharacters].
  destruct (max_chars_raises (or_default (_get_cell_trim worksheet row_idx 5) "-9"));
    cbn [negb andb orb].
  { apply yields_post. apply post_error; [reflexivity|].
    split; [reflexivity | split; [constructor|]].
    split; [intros E; constructor|]. intros _.
    rewrite !has_error_app. rewrite (has_error_one _ []) by reflexivity.
    rewrite !orb_true_r. reflexivity. }
  (* the Responses cell *)
  match goal with
  | |- yields (bind ?m _) _ =>
      match m with
      | context [Question.set_responses _ ?q0] =>
          assert (Hparse : carries (held q0) m);
          [|assert (Hfirst0 : shaped q0) by apply shaped_first]
      end
  end.
  { destruct (startswith _ "source:");
      [apply parse_dynamic_responses_kept, (held_refl _ (shaped_first _ _ _ _ _))|].
    destruct (startswith _ "calc:").
    { destruct (String.eqb _ "automatic").
      - destruct (negb _);
          [apply parse_automatic_calculation_kept, (held_refl _ (shaped_first _ _ _ _ _))
          | apply carries_ret, (held_refl _ (shaped_first _ _ _ _ _))].
      - carries_step. apply carries_ret, (held_refl _ (shaped_first _ _ _ _ _)). }
    destruct (startswith _ "mask:").
    { destruct (String.eqb _ "text").
      - apply carries_ret, held_set_mask, shaped_first.
      - carries_step. apply carries_ret, (held_refl _ (shaped_first _ _ _ _ _)). }
    apply carries_ret, held_set_responses, shaped_first. }
  apply (yields_after _ _ _ _ Hparse). clear Hparse Hfirst0.
  intros q l4 [[Hq Hlc] Hshaped].
  destruct (copied_columns_first (_get_cell_trim worksheet row_idx 1)
              (_get_cell_trim worksheet row_idx 2) (_get_cell_trim worksheet row_idx 3)
              (_get_cell_trim worksheet row_idx 4)
              (or_default (_get_cell_trim worksheet row_idx 5) "-9")) as [Hfirst Hnone].
  cbv zeta in Hfirst, Hnone. rewrite Hfirst in Hq. rewrite Hnone in Hlc.
  clear Hfirst Hnone.
  injection Hq as G1 G2 G3 G4 G5 G6 G7 G8 G9 G10 G11.
  (* the types *)
  apply yields_after_plain; [plain_auto|]. intros _ l5.
  (* the ranges *)
  apply yields_after_plain; [plain_auto|]. intros _ l6.
  (* the logic checks *)
  match goal with
  | |- yields (bind ?m _) _ =>
      match m with
      | context [ret ?q1] => assert (Hlogic : post m (logic_lines_post q1))
      end
  end.
  { destruct (truthy (_get_cell_trim worksheet row_idx 9)).
    - apply logic_check_lines_post; [exact Hlc | apply shaped_ranges, Hshaped].
    - apply post_ret.
      split; [reflexivity | split; [apply shaped_ranges, Hshaped|]]. intros _.
      change (Forall has_semicolon (Question.logicChecks q)).
      rewrite Hlc. constructor. }
  apply (yields_after _ _ _ _ Hlogic). clear Hlogic. intros q' l7 [Hq' [Hshaped' Hl7]].
  rewrite copied_columns_ranges in Hq'.
  injection Hq' as F1 F2 F3 F4 F5 F6 F7 F8 F9 F10 F11.
  (* the special buttons *)
  apply yields_after_plain; [plain_auto|]. intros _ l8.
  apply yields_after_plain; [plain_auto|]. intros _ l9.
  apply yields_after_plain; [plain_auto|]. intros _ l10.
  (* the skips *)
  match goal with
  | |- yields (bind (when _ (_check_skip_syntax _ ?text _)) _) _ =>
      assert (Hskip :
        post (when (truthy text) (_check_skip_syntax (title worksheet) text
                                    (_get_cell_trim worksheet row_idx 1)))
          (fun _ l => has_error l = false -> Forall skip_syntax_ok (_split_lines text)))
  end.
  { apply post_when; intros Ht.
    - apply check_skip_syntax_post.
    - intros _.
      match goal with
      | |- Forall _ (_split_lines ?t) => destruct t; [constructor | discriminate Ht]
      end. }
  destruct (copied_columns_last
              (or_default (_get_cell_trim worksheet row_idx 10) "-9")
              (or_default (_get_cell_trim worksheet row_idx 11) "-9")
              (or_default (_get_cell_trim worksheet row_idx 12) "-9")
              (_get_cell_trim worksheet row_idx 13) q') as [Hlast [Hn [Hc Hs]]].
  cbv zeta in Hlast, Hn, Hc, Hs.
  rewrite Hs, Hn, F1, G1.
  apply (yields_after _ _ _ _ Hskip). clear Hskip. intros _ l11 Hl11.
  apply yields_append. rewrite !app_nil_r.
  split; [|split; [|split; [|discriminate]]].
  - cbn [map]. rewrite Hlast. unfold row_columns.
    rewrite F1, F2, F3, F4, F5, F6, F7, G1, G2, G3, G4, G5. reflexivity.
  - constructor; [|constructor]. apply shaped_last, Hshaped'.
  - intros E. constructor; [|constructor].
    repeat (apply has_error_app_false in E; destruct E as [? E]).
    unfold checked. rewrite Hn, Hc, Hs, F1, G1. repeat split; auto.
Qed.

Definition rows_post (worksheet : Worksheet) (rows : list nat)
    (qs : list Question.t) (l : list string) : Prop :=
  map copied_columns qs
  = map (row_columns worksheet) (filter (gives_question worksheet) rows)
  /\ Forall shaped qs
  /\ (has_error l = false -> Forall checked qs)
  /\ (existsb (fun i => lacks_name worksheet i || refused worksheet i) rows = true
      -> has_error l = true).

Lemma rows_yield (worksheet : Worksheet) (rows : list nat) :
  yields (for_each rows (process_row worksheet)) (rows_post worksheet rows).
Proof.
  induction rows as [|row_idx rows IH]; cbn [for_each].
  - apply yields_post, post_pass.
    split; [reflexivity | split; [constructor | split; [constructor | discriminate]]].
  - apply (yields_seq _ _ _ _ (process_row_yields worksheet row_idx)).
    intros qs1 l1 [H1 [S1 [C1 B1]]].
    apply (yields_weaken _ _ _ IH). intros qs2 l2 [H2 [S2 [C2 B2]]].
    unfold rows_post. cbn [filter existsb].
    rewrite map_app, H1, H2, has_error_app.
    split; [|split; [|split]].
    + destruct (gives_question worksheet row_idx); reflexivity.
    + apply Forall_app. auto.
    + intros E. apply orb_false_iff in E. destruct E as [E1 E2].
      apply Forall_app. auto.
    + intros E. apply orb_true_iff in E. apply orb_true_iff.
      destruct E as [E | E]; auto.
Qed.

(** The rows of a sheet, the header apart. *)
Definition data_rows (worksheet : Worksheet) : list nat :=
  List.seq 2 (max_row worksheet - 1).

Lemma all_rows (worksheet : Worksheet) :
  List.seq 1 (max_row worksheet) = 1 :: data_rows worksheet.
Proof.
  unfold data_rows, max_row.
  destruct (Nat.max 1 (List.length (sheet_rows worksheet))) as [|n] eqn:E; [lia|].
  replace (S n - 1) with n by lia. reflexivity.
Qed.

Lemma filter_rows (worksheet : Worksheet) (p : Worksheet -> nat -> bool) :
  p worksheet 1 = false ->
  filter (p worksheet) (List.seq 1 (max_row worksheet))
  = filter (p worksheet) (data_rows worksheet).
Proof. intros H. rewrite all_rows. cbn [filter]. rewrite H. reflexivity. Qed.

(** The reader after the loop over the rows of a sheet. *)
Lemma rows_phase_yields (worksheet : Worksheet) :
  exists qs l,
    (forall s,
       snd (rows_phase worksheet s)
       = mkReader (logstring s
                   ++ fstr [CR; "Checking worksheet: '"; title worksheet; "'"] :: l)
           (errorsEncountered s || has_error l) (has_error l) qs)
    /\ map copied_columns qs
       = map (row_columns worksheet)
           (filter (gives_question worksheet) (data_rows worksheet))
    /\ Forall shaped qs
    /\ (has_error l = false -> Forall checked qs)
    /\ (existsb (fun i => lacks_name worksheet i || refused worksheet i)
          (data_rows worksheet) = true
        -> has_error l = true).
Proof.
  destruct (rows_yield worksheet (List.seq 1 (max_row worksheet)))
    as [qs [l [Hrun [Hcols [Hshaped [Hchecked Hblank]]]]]].
  exists qs, l. split; [|split; [|split; [|split]]].
  - intros s. rewrite rows_phase_start, Hrun.
    unfold rows_start, extend, emit. cbn [snd logstring errorsEncountered
      worksheetErrorsEncountered questionList app orb].
    rewrite <- app_assoc. reflexivity.
  - rewrite Hcols, (filter_rows worksheet gives_question); reflexivity.
  - exact Hshaped.
  - exact Hchecked.
  - rewrite all_rows in Hblank. exact Hblank.
Qed.

(** The header: the first fourteen cells of the first row, trimmed. *)
Definition current_headers (worksheet : Worksheet) : list string :=
  map (fun i => _get_cell_trim worksheet 1 (i + 1)) (List.seq 0 NUMBER_OF_COLUMNS).

Lemma wrong_header_logged (worksheet : Worksheet) (s : Reader) :
  current_headers worksheet <> COLUMN_NAMES ->
  worksheetErrorsEncountered (snd (rows_phase worksheet s)) = true.
Proof.
  intros Hwrong. rewrite rows_phase_start, all_rows. cbn [for_each].
  unfold bind at 1.
  assert (Hhead : forall s0,
            worksheetErrorsEncountered (snd (process_row worksheet 1 s0)) = true).
  { intros s0. unfold process_row. cbn [Nat.eqb]. cbv zeta.
    fold (current_headers worksheet).
    destruct (list_eq_dec string_dec (current_headers worksheet) COLUMN_NAMES)
      as [Heq | _]; [destruct (Hwrong Heq)|].
    reflexivity. }
  specialize (Hhead (rows_start worksheet s)).
  destruct (process_row worksheet 1 (rows_start worksheet s)) as [[] s1].
  cbn [snd] in Hhead.
  destruct (rows_yield worksheet (data_rows worksheet)) as [qs [l [Hrun _]]].
  rewrite Hrun. cbn [snd extend emit worksheetErrorsEncountered].
  rewrite Hhead. reflexivity.
Qed.

(** ** Every diagnostic of the checks over the whole sheet is one *)

Lemma Forall_flat_map {A B : Type} (P : B -> Prop) (f : A -> list B) (l : list A) :
  (forall x, In x l -> Forall P (f x)) -> Forall P (flat_map f l).
Proof.
  induction l as [|a l IH]; intros H; cbn [flat_map]; [constructor|].
  apply Forall_app. split; [apply H; left; reflexivity|].
  apply IH. intros x Hx. apply H. right; exact Hx.
Qed.

Definition error_lines (l : list string) : Prop :=
  Forall (fun m => is_error_line m = true) l.

Lemma has_error_nonempty (l : list string) :
  error_lines l -> has_error l = nonempty l.
Proof. intros H. destruct H as [|m l Hm _]; [reflexivity|]. apply has_error_one, Hm. Qed.

Lemma late_diagnostics_error_lines (set_iter : list string -> list string)
    (worksheet : string) (questions : list Question.t) :
  error_lines (late_diagnostics set_iter worksheet questions).
Proof.
  unfold late_diagnostics, error_lines.
  apply Forall_app; split; [|apply Forall_app; split; [|apply Forall_app; split]].
  - unfold logic_diagnostics.
    apply Forall_flat_map; intros q _.
    apply Forall_flat_map; intros lc _.
    apply Forall_flat_map; intros ref _.
    unfold logic_reference_diagnostics.
    destruct (field_index questions ref) as [i|];
      [destruct (_ <? _)|]; repeat constructor.
  - unfold skip_diagnostics.
    apply Forall_flat_map; intros q _.
    destruct (negb _); [constructor|].
    apply Forall_flat_map; intros line _.
    unfold skip_line_diagnostics.
    destruct (_ <? 4); [repeat constructor|].
    apply Forall_app; split.
    + unfold skip_checked_diagnostics.
      destruct (field_index questions _) as [i|];
        [destruct (_ <? _)|]; repeat constructor.
    + unfold skip_target_diagnostics.
      destruct (field_index questions _) as [i|];
        [destruct (_ <? _); [|destruct (_ =? _)]|]; repeat constructor.
  - unfold max_characters_diagnostics.
    apply Forall_map, Forall_forall. intros q _. reflexivity.
  - unfold duplicate_diagnostics. cbv zeta.
    destruct (has_duplicates _); repeat constructor.
Qed.

(** The reader after [create_question_list], in terms of the lines the
    call added to the log. *)
Lemma create_question_list_effect (set_iter : list string -> list string)
    (worksheet : Worksheet) (s : Reader) :
  exists l,
    snd (create_question_list set_iter worksheet s)
    = mkReader (logstring s ++ l) (errorsEncountered s || has_error l) (has_error l)
        (fst (create_question_list set_iter worksheet s)).
Proof.
  rewrite create_question_list_phases. cbn [fst snd].
  destruct (rows_phase_yields worksheet) as [qs [l [Hrun _]]].
  rewrite Hrun. cbn [worksheetErrorsEncountered questionList].
  set (heading := fstr [CR; "Checking worksheet: '"; title worksheet; "'"]).
  assert (Hh : forall rest, has_error (heading :: rest) = has_error rest)
    by reflexivity.
  destruct (has_error l) eqn:El.
  - exists (heading :: l). rewrite Hh, El. reflexivity.
  - pose proof (late_diagnostics_error_lines set_iter (title worksheet) qs) as Hlate.
    apply has_error_nonempty in Hlate.
    destruct (nonempty (late_diagnostics set_iter (title worksheet) qs)) eqn:En.
    + exists (heading :: l ++ late_diagnostics set_iter (title worksheet) qs).
      unfold add_errors. cbn [logstring errorsEncountered worksheetErrorsEncountered
                              questionList].
      rewrite Hh, has_error_app, El, Hlate, En. cbn [orb].
      rewrite orb_false_r, <- app_assoc. reflexivity.
    + exists (heading :: l ++ [no_errors_line (title worksheet)]).
      unfold log. cbn [snd logstring errorsEncountered worksheetErrorsEncountered
                       questionList].
      rewrite Hh, has_error_app, El. cbn [orb].
      replace (has_error [no_errors_line (title worksheet)]) with false by reflexivity.
      rewrite orb_false_r, <- app_assoc. reflexivity.
Qed.

(** ** When the emitter raises *)

(** Whether a method of the emitter returns, rather than raises. *)
Definition returns {A : Type} (w : W A) : bool :=
  match snd w with Some _ => true | None => false end.

Definition is_some {A : Type} (o : option A) : bool :=
  match o with Some _ => true | None => false end.

Lemma returns_wbind {A B : Type} (m : W A) (f : A -> W B) :
  returns (wbind m f)
  = match snd m with Some a => returns (f a) | None => false end.
Proof. destruct m as [w [a|]]; [|reflexivity]. simpl. destruct (f a); reflexivity. Qed.

Lemma returns_then {A B : Type} (m : W A) (k : W B) :
  returns (m ;;w k) = returns m && returns k.
Proof. rewrite returns_wbind. unfold returns. destruct (snd m); reflexivity. Qed.

Lemma returns_wfor {A : Type} (l : list A) (body : A -> W unit) :
  returns (wfor l body) = forallb (fun x => returns (body x)) l.
Proof.
  induction l as [|x l IH]; [reflexivity|].
  cbn [wfor forallb]. rewrite returns_then, IH. reflexivity.
Qed.

Lemma returns_eval_then {A B : Type} (o : option A) (f : A -> W B) :
  (forall a, returns (f a) = true) ->
  returns (wbind (eval o) f) = is_some o.
Proof.
  intros H. rewrite returns_wbind. destruct o as [a|]; [apply H | reflexivity].
Qed.

Lemma idx_is_some (l : list nat) (i : nat) : is_some (idx l i) = (i <? List.length l).
Proof.
  unfold idx. destruct (nth_error l i) eqn:E; cbn [is_some]; symmetry.
  - apply Nat.ltb_lt. apply nth_error_Some. congruence.
  - apply Nat.ltb_ge. apply nth_error_None. exact E.
Qed.

Lemma is_some_obind {A B : Type} (o : option A) (f : A -> option B) (b : bool) :
  (forall a, is_some (f a) = b) -> is_some (obind o f) = is_some o && b.
Proof. intros H. destruct o as [a|]; [apply H | reflexivity]. Qed.

(** [_generate_skip] raises [IndexError] exactly on a line with fewer
    than five spaces. *)
Lemma generate_skip_is_some (skip skip_type : string) :
  is_some (_generate_skip skip skip_type) = (5 <=? List.length (indices_of " " skip)).
Proof.
  unfold _generate_skip. cbv zeta.
  set (sp := indices_of " " skip).
  rewrite (is_some_obind _ _ (5 <=? List.length sp)).
  - rewrite idx_is_some.
    destruct (5 <=? List.length sp) eqn:E; [|apply andb_false_r].
    apply Nat.leb_le in E. rewrite andb_true_r. apply Nat.ltb_lt. lia.
  - intros s2.
    rewrite (is_some_obind _ _ true) by (intros [c v]; reflexivity).
    rewrite andb_true_r.
    destruct (List.length sp =? 9) eqn:E9.
    + apply Nat.eqb_eq in E9.
      rewrite (is_some_obind _ _ true).
      * rewrite idx_is_some, E9. reflexivity.
      * intros s5. rewrite (is_some_obind _ _ true) by reflexivity.
        rewrite idx_is_some, E9. reflexivity.
    + assert (H34 : forall (f : nat -> nat -> option (string * string)),
                 (forall s3 s4, is_some (f s3 s4) = true) ->
                 is_some (obind (idx sp 3) (fun s3 => obind (idx sp 4) (f s3)))
                 = (5 <=? List.length sp)).
      { intros f Hf.
        rewrite (is_some_obind _ _ (5 <=? List.length sp)).
        - rewrite idx_is_some.
          destruct (5 <=? List.length sp) eqn:E; [|apply andb_false_r].
          apply Nat.leb_le in E. rewrite andb_true_r. apply Nat.ltb_lt. lia.
        - intros s3. rewrite (is_some_obind _ _ true) by (intros s4; apply Hf).
          rewrite idx_is_some, andb_true_r.
          destruct (5 <=? List.length sp) eqn:E.
          + apply Nat.leb_le in E. apply Nat.ltb_lt. lia.
          + apply Nat.leb_gt in E. apply Nat.ltb_ge. lia. }
      destruct (contains skip "contains").
      * apply (H34 (fun s3 s4 => Some ("contains", slice (s3 + 1) (s4 - 1) skip))).
        reflexivity.
      * apply (H34 (fun s3 s4 =>
                      Some (replace ">" "&gt;"
                              (replace "<" "&lt;" (slice (s2 + 1) s3 skip)),
                            slice (s3 + 1) (s4 - 1) skip))).
        reflexivity.
Qed.

Lemma split1_nonempty (c : ascii) (s : string) : split1 c s <> [].
Proof.
  destruct s as [|a s]; cbn [split1]; [discriminate|].
  destruct (Ascii.eqb a c); [discriminate|].
  destruct (split1 c s); discriminate.
Qed.

(** [s.split(c, 1)] has two parts when [c] occurs in [s], one otherwise. *)
Lemma split1_length (c : ascii) (s : string) :
  List.length (split1 c s) = if any_char (Ascii.eqb c) s then 2 else 1.
Proof.
  induction s as [|a s IH]; [reflexivity|].
  cbn [split1 any_char]. rewrite (Ascii.eqb_sym c a).
  destruct (Ascii.eqb a c); [reflexivity|]. cbn [orb].
  destruct (split1 c s) as [|h t] eqn:E; [destruct (split1_nonempty c s E)|].
  exact IH.
Qed.

(** [_generate_logic_check] raises [ValueError] exactly on a logic check
    without a semicolon. *)
Lemma generate_logic_check_is_some (logic_check : string) :
  is_some (_generate_logic_check logic_check) = contains logic_check ";".
Proof.
  unfold _generate_logic_check. rewrite contains_char.
  pose proof (split1_length ";" logic_check) as H.
  destruct (split1 ";" logic_check) as [|p0 [|p1 [|p2 rest]]];
    destruct (any_char (Ascii.eqb ";") logic_check); try discriminate H.
  - reflexivity.
  - cbv zeta. destruct (contains _ " or "); reflexivity.
Qed.

Lemma forallb_pointwise {A : Type} (f g : A -> bool) (l : list A) :
  (forall x, f x = g x) -> forallb f l = forallb g l.
Proof.
  intros H. induction l as [|x l IH]; [reflexivity|].
  cbn [forallb]. rewrite H, IH. reflexivity.
Qed.

(** What the emitter needs of a question in order to return. *)
Definition emits_skip (skip : string) : bool :=
  negb (startswith skip "preskip:" || startswith skip "postskip:")
  || (5 <=? List.length (indices_of " " skip)).

Definition emittable (q : Question.t) : bool :=
  forallb (fun logic_check => contains logic_check ";") q.(Question.logicChecks)
  && forallb emits_skip (_split_lines q.(Question.skip)).

Lemma returns_logic_checks_block (q : Question.t) :
  returns (logic_checks_block q)
  = forallb (fun logic_check => contains logic_check ";") q.(Question.logicChecks).
Proof.
  unfold logic_checks_block. rewrite returns_wfor.
  apply forallb_pointwise. intros logic_check.
  rewrite returns_then. cbn [returns write snd andb].
  rewrite returns_eval_then by reflexivity.
  apply generate_logic_check_is_some.
Qed.

Lemma returns_skip_group (tag skip_type : string) (group : list string) :
  returns (skip_group tag skip_type group)
  = forallb (fun s => 5 <=? List.length (indices_of " " s)) group.
Proof.
  unfold skip_group. destruct group as [|s0 group]; [reflexivity|].
  rewrite !returns_then, returns_wfor. cbn [returns write snd andb].
  rewrite andb_true_r. apply forallb_pointwise. intros s.
  rewrite returns_eval_then by reflexivity.
  apply generate_skip_is_some.
Qed.

Lemma forallb_on_filter {A : Type} (p f : A -> bool) (l : list A) :
  forallb f (filter p l) = forallb (fun x => negb (p x) || f x) l.
Proof.
  induction l as [|x l IH]; [reflexivity|].
  cbn [filter forallb]. destruct (p x); cbn [forallb negb orb]; rewrite IH; reflexivity.
Qed.

Lemma forallb_and {A : Type} (f g : A -> bool) (l : list A) :
  forallb f l && forallb g l = forallb (fun x => f x && g x) l.
Proof.
  induction l as [|x l IH]; [reflexivity|].
  cbn [forallb]. rewrite <- IH.
  destruct (f x), (g x), (forallb f l), (forallb g l); reflexivity.
Qed.

Lemma returns_skip_block (q : Question.t) :
  returns (skip_block q) = forallb emits_skip (_split_lines q.(Question.skip)).
Proof.
  unfold skip_block.
  destruct (truthy (Question.skip q)) eqn:E.
  - cbv zeta. fold (_split_lines (Question.skip q)).
    set (lines := _split_lines (Question.skip q)).
    rewrite returns_then, !returns_skip_group, !forallb_on_filter, forallb_and.
    apply forallb_pointwise. intros s. unfold emits_skip.
    destruct (startswith s "preskip:"), (startswith s "postskip:"),
      (5 <=? List.length (indices_of " " s)); reflexivity.
  - destruct (Question.skip q); [reflexivity | discriminate E].
Qed.

Lemma returns_write_question (q : Question.t) :
  returns (write_question q) = emittable q.
Proof.
  unfold write_question, emittable.
  rewrite !returns_then, returns_logic_checks_block, returns_skip_block.
  cbn [returns write write_all snd andb]. rewrite !andb_true_r. reflexivity.
Qed.

Lemma returns_write_xml (worksheet_name : string) (question_list : list Question.t) :
  returns (write_xml worksheet_name question_list) = forallb emittable question_list.
Proof.
  unfold write_xml. rewrite !returns_then, returns_wfor.
  cbn [returns write wret snd andb]. rewrite !andb_true_r.
  apply forallb_pointwise. intros q. apply returns_write_question.
Qed.

Lemma write_xml_result (worksheet_name : string) (question_list : list Question.t) :
  snd (write_xml worksheet_name question_list)
  = if forallb emittable question_list then Some (xml_file_name worksheet_name)
    else None.
Proof.
  rewrite <- (returns_write_xml worksheet_name). unfold returns, write_xml.
  destruct (wfor question_list write_question) as [w [[]|]]; reflexivity.
Qed.

(** ** A sheet without diagnostics can be emitted *)

Lemma split_nonempty (c : ascii) (s : string) : split c s <> [].
Proof.
  destruct s as [|a s]; cbn [split]; [discriminate|].
  destruct (Ascii.eqb a c); [discriminate|].
  destruct (split c s); discriminate.
Qed.

Lemma split_one (c : ascii) (s b : string) :
  split c s = [b] -> s = b /\ lacks c b = true.
Proof.
  revert b. induction s as [|a s IH]; intros b; cbn [split].
  - intros H. inversion H. split; reflexivity.
  - destruct (Ascii.eqb a c) eqn:E.
    + intros H. inversion H as [[H0 H1]]. destruct (split_nonempty c s H1).
    + destruct (split c s) as [|h t] eqn:Es; [destruct (split_nonempty c s Es)|].
      intros H. inversion H; subst. destruct (IH h eq_refl) as [-> Hl].
      split; [reflexivity|]. rewrite lacks_cons, E. exact Hl.
Qed.

(** The two parts of a text with one [c]. *)
Lemma split_two (c : ascii) (s a b : string) :
  split c s = [a; b] ->
  s = String.append a (String c b) /\ lacks c a = true /\ lacks c b = true.
Proof.
  revert a. induction s as [|x s IH]; intros a; cbn [split].
  - discriminate.
  - destruct (Ascii.eqb x c) eqn:E.
    + intros H. inversion H as [[H0 H1]]. apply Ascii.eqb_eq in E. subst x.
      destruct (split_one c s b H1) as [-> Hb]. repeat split; auto.
    + destruct (split c s) as [|h t] eqn:Es; [destruct (split_nonempty c s Es)|].
      intros H. inversion H; subst. destruct (IH h eq_refl) as [-> [Ha Hb]].
      repeat split; auto. rewrite lacks_cons, E. exact Ha.
Qed.

(** As many parts as separators, and one more. *)
Lemma split_length (c : ascii) (s : string) (i : nat) :
  List.length (split c s) = S (List.length (indices_from i c s)).
Proof.
  revert i. induction s as [|a s IH]; intros i; [reflexivity|].
  cbn [split indices_from]. destruct (Ascii.eqb a c).
  - cbn [List.length]. rewrite (IH (S i)). reflexivity.
  - destruct (split c s) as [|h t] eqn:Es; [destruct (split_nonempty c s Es)|].
    rewrite <- (IH (S i)). reflexivity.
Qed.

Lemma indices_from_app_length (c : ascii) (x y : string) (i j : nat) :
  List.length (indices_from i c (String.append x y))
  = List.length (indices_from i c x) + List.length (indices_from j c y).
Proof.
  revert i. induction x as [|a x IH]; intros i; cbn [String.append indices_from].
  - cbn [List.length Nat.add]. clear. revert i j.
    induction y as [|b y IH]; intros i j; [reflexivity|].
    cbn [indices_from]. destruct (Ascii.eqb b c); cbn [List.length];
      rewrite (IH (S i) (S j)); reflexivity.
  - destruct (Ascii.eqb a c); cbn [List.length]; rewrite IH; reflexivity.
Qed.

Lemma indices_from_lacks (c : ascii) (s : string) (i : nat) :
  lacks c s = false -> 1 <= List.length (indices_from i c s).
Proof.
  revert i. induction s as [|a s IH]; intros i; [discriminate|].
  rewrite lacks_cons. cbn [indices_from].
  destruct (Ascii.eqb a c); cbn [negb andb List.length]; [lia | apply IH].
Qed.

(** Text without a [c], added at the end, goes to the last part. *)
Lemma split_app_lacks (c : ascii) (x y : string) :
  lacks c y = true ->
  split c (String.append x y)
  = removelast (split c x) ++ [String.append (last (split c x) "") y].
Proof.
  intros Hy. induction x as [|a x IH].
  - cbn [String.append split removelast last app]. apply split_lacks, Hy.
  - cbn [String.append split]. rewrite IH.
    destruct (split c x) as [|h t] eqn:Es; [destruct (split_nonempty c x Es)|].
    destruct (Ascii.eqb a c).
    + destruct t; reflexivity.
    + destruct t; reflexivity.
Qed.

Lemma truthy_app_r (x : string) (c : ascii) (y : string) :
  truthy (String.append x (String c y)) = true.
Proof. destruct x; reflexivity. Qed.

Lemma char_in_app_r (c : ascii) (x y : string) :
  char_in c y -> char_in c (String.append x y).
Proof. induction x; cbn [String.append char_in]; auto. Qed.

Lemma char_in_lstrip (p : ascii -> bool) (c : ascii) (s : string) :
  char_in c s -> p c = false -> char_in c (lstrip_by p s).
Proof.
  intros Hc Hp. induction s as [|a s IH]; [destruct Hc|].
  cbn [lstrip_by]. destruct (p a) eqn:E; [|exact Hc].
  destruct Hc as [-> | Hc]; [congruence | auto].
Qed.

Lemma char_in_rstrip (p : ascii -> bool) (c : ascii) (s : string) :
  char_in c s -> p c = false -> char_in c (rstrip_by p s).
Proof.
  intros Hc Hp. induction s as [|a s IH]; [destruct Hc|].
  cbn [rstrip_by]. destruct Hc as [-> | Hc].
  - destruct (rstrip_by p s); [rewrite Hp|]; left; reflexivity.
  - specialize (IH Hc). destruct (rstrip_by p s); [destruct IH|].
    right. exact IH.
Qed.

Lemma char_in_strip (c : ascii) (s : string) :
  char_in c s -> isspace c = false -> char_in c (strip s).
Proof.
  intros Hc Hp. unfold strip, strip_by.
  apply char_in_rstrip; [apply char_in_lstrip|]; assumption.
Qed.

Lemma name_ok_char (fieldname : string) (c : ascii) :
  name_ok fieldname -> char_in c fieldname -> isalnum c || Ascii.eqb c "_" = true.
Proof.
  unfold name_ok. intros H Hc.
  destruct (isalnum c || Ascii.eqb c "_") eqn:E; [reflexivity|].
  assert (Hany : any_char (fun c => negb (isalnum c) && negb (Ascii.eqb c "_")) fieldname
                 = true).
  { apply any_char_true_iff. exists c. split; [exact Hc|].
    apply orb_false_iff in E. destruct E as [-> ->]. reflexivity. }
  congruence.
Qed.

Lemma last_filter_last {A : Type} (p : A -> bool) (l : list A) (x d : A) :
  p x = true -> last (filter p (l ++ [x])) d = x.
Proof.
  intros H. rewrite filter_app. cbn [filter]. rewrite H. apply last_last.
Qed.

(** A line that passed the check of the syntax of skips, and whose last
    word is a field name, has five spaces. *)
Lemma checked_skip_spaces (skip : string) :
  skip_syntax_ok skip -> name_ok (skip_target skip) ->
  5 <= List.length (indices_of " " skip).
Proof.
  intros [logic_section [rest [Hsplit Hwords]]] Hname.
  destruct (split_two _ _ _ _ Hsplit) as [-> [_ _]].
  unfold indices_of.
  rewrite (indices_from_app_length " " logic_section (String "," rest) 0 0).
  rewrite (split_length " " logic_section 0) in Hwords.
  destruct (lacks " " (String "," rest)) eqn:Hrest.
  2:{ pose proof (indices_from_lacks " " _ 0 Hrest). lia. }
  exfalso.
  unfold skip_target, skip_words in Hname.
  rewrite (split_app_lacks " " _ _ Hrest) in Hname.
  rewrite last_filter_last in Hname by apply truthy_app_r.
  assert (Hcomma : char_in "," (strip (String.append (last (split " " logic_section) "")
                                         (String "," rest)))).
  { apply char_in_strip; [|reflexivity].
    apply char_in_app_r. left. reflexivity. }
  pose proof (name_ok_char _ _ Hname Hcomma) as H. discriminate H.
Qed.

Lemma flat_map_nil_in {A B : Type} (f : A -> list B) (l : list A) (x : A) :
  flat_map f l = [] -> In x l -> f x = [].
Proof. intros H. apply flat_map_nil_iff. exact H. Qed.

(** The names that the check of the targets of skips lets pass are names
    of questions of the list. *)
Lemma skip_target_known (worksheet : string) (questions : list Question.t)
    (q : Question.t) (line : string) :
  skip_diagnostics worksheet questions = [] ->
  In q questions -> In line (_split_lines q.(Question.skip)) ->
  exists q', In q' questions /\ q'.(Question.fieldName) = skip_target line.
Proof.
  intros Hnone Hq Hline.
  unfold skip_diagnostics in Hnone.
  pose proof (flat_map_nil_in _ _ q Hnone Hq) as H. cbv beta in H.
  rewrite (split_lines_truthy _ _ Hline) in H. cbn [negb] in H.
  pose proof (flat_map_nil_in _ _ line H Hline) as Hl.
  unfold skip_line_diagnostics in Hl.
  destruct (_ <? 4); [discriminate Hl|].
  apply app_eq_nil in Hl. destruct Hl as [_ Hl].
  unfold skip_target_diagnostics in Hl.
  destruct (field_index questions (skip_target line)) as [j|] eqn:Ej;
    [|discriminate Hl].
  destruct (field_index_some _ _ _ Ej) as [q' [Hn Hq']].
  exists q'. split; [|exact Hq']. apply (nth_error_In _ _ Hn).
Qed.

Lemma forallb_Forall {A : Type} (f : A -> bool) (l : list A) :
  Forall (fun x => f x = true) l -> forallb f l = true.
Proof. intros H. apply forallb_forall. apply Forall_forall. exact H. Qed.

(** After a call of [create_question_list] that leaves the flag of the
    sheet down, the emitter can take every question of the list. *)
Lemma clean_pass_emittable (set_iter : list string -> list string)
    (worksheet : Worksheet) (s : Reader) :
  worksheetErrorsEncountered (snd (create_question_list set_iter worksheet s)) = false ->
  forallb emittable (fst (create_question_list set_iter worksheet s)) = true.
Proof.
  rewrite create_question_list_phases. cbn [fst snd].
  destruct (rows_phase_yields worksheet) as [qs [l [Hrun [_ [_ [Hchecked _]]]]]].
  rewrite Hrun. cbn [worksheetErrorsEncountered questionList].
  destruct (has_error l) eqn:El; [intros H; discriminate H|].
  specialize (Hchecked eq_refl).
  destruct (late_diagnostics set_iter (title worksheet) qs) as [|m late] eqn:Hlate.
  2:{ cbn [nonempty add_errors worksheetErrorsEncountered orb]. discriminate. }
  intros _.
  unfold late_diagnostics in Hlate.
  apply app_eq_nil in Hlate. destruct Hlate as [_ Hlate].
  apply app_eq_nil in Hlate. destruct Hlate as [Hskips _].
  apply forallb_forall. intros q Hq.
  pose proof (proj1 (Forall_forall _ _) Hchecked q Hq) as [_ [Hlogic Hsyntax]].
  unfold emittable. apply andb_true_iff. split.
  - apply forallb_Forall. exact Hlogic.
  - apply forallb_forall. intros line Hline.
    unfold emits_skip. apply orb_true_iff. right. apply Nat.leb_le.
    apply checked_skip_spaces.
    + apply (proj1 (Forall_forall _ _) Hsyntax line Hline).
    + destruct (skip_target_known _ _ _ _ Hskips Hq Hline) as [q' [Hq' <-]].
      apply (proj1 (Forall_forall _ _) Hchecked q' Hq').
Qed.

(** ** The log and the flags *)

(** X1. A call of [create_question_list] only appends to the log of the
    reader.  It leaves the flag of the sheet up exactly when one of the
    lines it appended is a diagnostic (a line that begins with ERROR), and
    the flag of the reader up exactly when it was up before or the flag of
    the sheet is up; the list it returns is the list it leaves in the
    reader. *)
Theorem pass_appends_to_log_and_sets_flags
    (set_iter : list string -> list string) (worksheet : Worksheet) (s : Reader) :
  let result := create_question_list set_iter worksheet s in
  exists lines,
    logstring (snd result) = logstring s ++ lines
    /\ worksheetErrorsEncountered (snd result) = has_error lines
    /\ errorsEncountered (snd result)
       = errorsEncountered s || worksheetErrorsEncountered (snd result)
    /\ questionList (snd result) = fst result.
Proof.
  cbv zeta.
  destruct (create_question_list_effect set_iter worksheet s) as [l Hl].
  exists l. rewrite Hl. repeat split.
Qed.

(** ** Rows and questions *)

(** X2. The questions that [create_question_list] returns are those of
    the rows below the header that are not merged in the last column,
    have a name in the first and do not make the body of the loop raise
    (the digits of their MaxCharacters, when they are only digits, are
    not more than [int] converts), in the order of the rows; each carries
    the trimmed cells of its row in the attributes that are copied (name,
    types, text, maximum of characters, ranges, special buttons, skip),
    with -9 where the code puts it for an empty cell, whatever the
    Responses and LogicCheck cells hold and whatever was diagnosed. *)
Theorem questions_follow_rows
    (set_iter : list string -> list string) (worksheet : Worksheet) (s : Reader) :
  map copied_columns (fst (create_question_list set_iter worksheet s))
  = map (row_columns worksheet)
      (filter (gives_question worksheet) (data_rows worksheet)).
Proof.
  rewrite create_question_list_phases. cbn [fst].
  destruct (rows_phase_yields worksheet) as [qs [l [Hrun [Hcols _]]]].
  rewrite Hrun. exact Hcols.
Qed.

Lemma filter_length_split {A : Type} (p a : A -> bool) (l : list A) :
  List.length (filter p l)
  = List.length (filter (fun x => p x && a x) l)
    + List.length (filter (fun x => p x && negb (a x)) l).
Proof.
  induction l as [|x l IH]; [reflexivity|].
  cbn [filter]. destruct (p x), (a x); cbn [andb negb List.length]; lia.
Qed.

Lemma filter_pointwise {A : Type} (f g : A -> bool) (l : list A) :
  (forall x, In x l -> f x = g x) -> filter f l = filter g l.
Proof.
  induction l as [|x l IH]; intros H; [reflexivity|].
  cbn [filter]. rewrite (H x (or_introl eq_refl)), IH; [reflexivity|].
  intros y Hy. apply H. right. exact Hy.
Qed.

Lemma data_rows_below_header (worksheet : Worksheet) (row_idx : nat) :
  In row_idx (data_rows worksheet) -> (row_idx =? 1) = false.
Proof. unfold data_rows. rewrite in_seq. intros H. apply Nat.eqb_neq. lia. Qed.

(** X3. [count_data_rows] counts the rows that [create_question_list]
    turns into a question together with those it rejects for want of a
    name and those that the handler of unexpected exceptions refuses:
    the rows below the header that are not merged in the last column. *)
Theorem data_rows_counted
    (set_iter : list string -> list string) (worksheet : Worksheet) (s : Reader) :
  count_data_rows worksheet
  = List.length (fst (create_question_list set_iter worksheet s))
    + List.length (filter (lacks_name worksheet) (data_rows worksheet))
    + List.length (filter (refused worksheet) (data_rows worksheet)).
Proof.
  rewrite create_question_list_phases. cbn [fst].
  destruct (rows_phase_yields worksheet) as [qs [l [Hrun [Hcols _]]]].
  rewrite Hrun. cbn [questionList].
  apply (f_equal (@List.length _)) in Hcols. rewrite !length_map in Hcols.
  rewrite Hcols.
  set (merged := fun i => negb (_is_cell_merged worksheet i NUMBER_OF_COLUMNS)).
  change (count_data_rows worksheet)
    with (List.length (filter merged (data_rows worksheet))).
  set (named := fun i => truthy (_get_cell_trim worksheet i 1)).
  set (converts := fun i => negb (max_chars_raises
                                 (or_default (_get_cell_trim worksheet i 5) "-9"))).
  assert (Hg : filter (gives_question worksheet) (data_rows worksheet)
               = filter (fun i => (merged i && named i) && converts i) (data_rows worksheet)).
  { apply filter_pointwise. intros i Hi. unfold gives_question, named_row.
    rewrite (data_rows_below_header _ _ Hi). reflexivity. }
  assert (Hr : filter (refused worksheet) (data_rows worksheet)
               = filter (fun i => (merged i && named i) && negb (converts i))
                   (data_rows worksheet)).
  { apply filter_pointwise. intros i Hi. unfold refused, named_row, converts.
    rewrite (data_rows_below_header _ _ Hi), negb_involutive. reflexivity. }
  assert (Hl : filter (lacks_name worksheet) (data_rows worksheet)
               = filter (fun i => merged i && negb (named i)) (data_rows worksheet)).
  { apply filter_pointwise. intros i Hi. unfold lacks_name.
    rewrite (data_rows_below_header _ _ Hi). reflexivity. }
  rewrite Hg, Hr, Hl.
  rewrite (filter_length_split merged named (data_rows worksheet)).
  rewrite (filter_length_split (fun i => merged i && named i) converts
             (data_rows worksheet)).
  lia.
Qed.

(** [c * n] for a one-character [c]. *)
Fixpoint char_times (c : ascii) (n : nat) : string :=
  match n with
  | O => EmptyString
  | S k => String c (char_times c k)
  end.

(** A sheet whose first question has a MaxCharacters of 4301 digits. *)
Definition sheet_with_long_max_characters : Worksheet :=
  mkWorksheet "demo_dd"
    [header_row;
     text_row ["age"; "text"; "integer"; "Age?"; char_times "1" 4301; ""; ""; ""; ""; ""; ""; ""; "";
               ""];
     text_row ["name"; "text"; "text"; "Name?"; "80"; ""; ""; ""; ""; ""; ""; ""; ""; ""]]
    [].

(** On that sheet [int] raises in the first row below the header: the
    handler records the exception, the row gives no question, and the
    second row gives the only one. *)
Lemma long_max_characters_refused :
  let sheet := sheet_with_long_max_characters in
  let result := create_question_list (fun l => l) sheet init in
  map Question.fieldName (fst result) = ["name"]
  /\ count_data_rows sheet = 2
  /\ filter (gives_question sheet) (data_rows sheet) = [3]
  /\ filter (lacks_name sheet) (data_rows sheet) = []
  /\ filter (refused sheet) (data_rows sheet) = [2]
  /\ logstring (snd result)
     = [fstr [CR; "Checking worksheet: 'demo_dd'"];
        fstr ["ERROR: An unexpected error occurred while processing row 2 in worksheet ";
              "'demo_dd'. The error was: Exceeds the limit (4300 digits) for integer ";
              "string conversion: value has 4301 digits; ";
              "use sys.set_int_max_str_digits() to increase the limit"]]
  /\ worksheetErrorsEncountered (snd result) = true.
Proof. vm_compute. repeat split; reflexivity. Qed.

(** X4. A row below the header that is not merged in the last column and
    has no name in the first leaves the flag of the sheet up, whatever
    the other rows hold. *)
Theorem row_without_name_fails_sheet
    (set_iter : list string -> list string) (worksheet : Worksheet) (s : Reader)
    (row_idx : nat) :
  In row_idx (data_rows worksheet) ->
  _is_cell_merged worksheet row_idx NUMBER_OF_COLUMNS = false ->
  _get_cell_trim worksheet row_idx 1 = "" ->
  worksheetErrorsEncountered (snd (create_question_list set_iter worksheet s)) = true.
Proof.
  intros Hin Hmerged Hname.
  rewrite create_question_list_phases. cbn [snd].
  destruct (rows_phase_yields worksheet) as [qs [l [Hrun [_ [_ [_ Hblank]]]]]].
  rewrite Hrun. cbn [worksheetErrorsEncountered].
  assert (El : has_error l = true).
  { apply Hblank. apply existsb_exists. exists row_idx. split; [exact Hin|].
    unfold lacks_name.
    rewrite (data_rows_below_header _ _ Hin), Hmerged, Hname. reflexivity. }
  rewrite El. reflexivity.
Qed.

(** A sheet whose second row below the header has no name. *)
Definition sheet_with_nameless_row : Worksheet :=
  mkWorksheet "demo_dd"
    [header_row;
     text_row ["age"; "text"; "integer"; "Age?"; "3"; ""; ""; ""; ""; ""; ""; ""; ""; ""];
     text_row [""; "text"; "text"; "Name?"; "80"; ""; ""; ""; ""; ""; ""; ""; ""; ""]]
    [].

Lemma row_without_name_witness :
  worksheetErrorsEncountered
    (snd (create_question_list (fun l => l) sheet_with_nameless_row init)) = true.
Proof.
  apply (row_without_name_fails_sheet (fun l => l) sheet_with_nameless_row init 3).
  - vm_compute. auto.
  - reflexivity.
  - reflexivity.
Defined.

(** ** The emitter after the reader *)

(** X5. When [create_question_list] leaves the flag of the sheet down,
    [write_xml] returns on the list of questions: no logic check and no
    skip of the list makes it raise. *)
Theorem emitter_returns_after_clean_pass
    (set_iter : list string -> list string) (worksheet : Worksheet) (s : Reader)
    (worksheet_name : string) :
  worksheetErrorsEncountered (snd (create_question_list set_iter worksheet s)) = false ->
  snd (write_xml worksheet_name (fst (create_question_list set_iter worksheet s)))
  = Some (xml_file_name worksheet_name).
Proof.
  intros H. rewrite write_xml_result.
  rewrite (clean_pass_emittable set_iter worksheet s H). reflexivity.
Qed.

Lemma emitter_returns_witness :
  worksheetErrorsEncountered (snd (create_question_list (fun l => l) clean_sheet init))
  = false
  /\ snd (write_xml "demo_dd" (fst (create_question_list (fun l => l) clean_sheet init)))
     = Some (xml_file_name "demo_dd").
Proof.
  assert (H : worksheetErrorsEncountered
                (snd (create_question_list (fun l => l) clean_sheet init)) = false)
    by (vm_compute; reflexivity).
  split; [exact H|].
  exact (emitter_returns_after_clean_pass (fun l => l) clean_sheet init "demo_dd" H).
Defined.

Lemma forallb_false_exists {A : Type} (f : A -> bool) (l : list A) :
  forallb f l = false <-> exists x, In x l /\ f x = false.
Proof.
  induction l as [|a l IH]; cbn [forallb In].
  - split; [discriminate | intros [x [[] _]]].
  - rewrite andb_false_iff, IH. split.
    + intros [H | [x [Hx Hf]]]; [exists a | exists x]; auto.
    + intros [x [[<- | Hx] Hf]]; [left | right; exists x]; auto.
Qed.

(** X6. [write_xml] raises exactly when the list holds a question with a
    logic check that has no semicolon, or with a line in its skip that
    begins with preskip: or postskip: and has fewer than five spaces;
    otherwise it returns the name of the file. *)
Theorem write_xml_raises_exactly
    (worksheet_name : string) (question_list : list Question.t) :
  (snd (write_xml worksheet_name question_list) = None
   <-> exists q, In q question_list
       /\ ((exists logic_check,
              In logic_check q.(Question.logicChecks)
              /\ contains logic_check ";" = false)
           \/ (exists skip,
                 In skip (_split_lines q.(Question.skip))
                 /\ (startswith skip "preskip:" = true
                     \/ startswith skip "postskip:" = true)
                 /\ List.length (indices_of " " skip) < 5)))
  /\ (snd (write_xml worksheet_name question_list) <> None
      -> snd (write_xml worksheet_name question_list)
         = Some (xml_file_name worksheet_name)).
Proof.
  rewrite write_xml_result. split.
  - destruct (forallb emittable question_list) eqn:E.
    + split; [discriminate|].
      intros [q [Hq Hbad]]. exfalso.
      assert (Hf : forallb emittable question_list = false).
      { apply forallb_false_exists. exists q. split; [exact Hq|].
        unfold emittable. apply andb_false_iff.
        destruct Hbad as [[lc [Hlc Hsemi]] | [skip [Hskip [Hstart Hspaces]]]].
        - left. apply forallb_false_exists. exists lc. auto.
        - right. apply forallb_false_exists. exists skip. split; [exact Hskip|].
          unfold emits_skip. apply orb_false_iff. split.
          + apply negb_false_iff. apply orb_true_iff. exact Hstart.
          + apply Nat.leb_gt. exact Hspaces. }
      congruence.
    + split; [intros _ | reflexivity].
      apply forallb_false_exists in E. destruct E as [q [Hq Hbad]].
      exists q. split; [exact Hq|].
      unfold emittable in Hbad. apply andb_false_iff in Hbad.
      destruct Hbad as [Hbad | Hbad]; apply forallb_false_exists in Hbad.
      * left. exact Hbad.
      * right. destruct Hbad as [skip [Hskip Hbad]].
        exists skip. split; [exact Hskip|].
        unfold emits_skip in Hbad. apply orb_false_iff in Hbad.
        destruct Hbad as [Hstart Hspaces].
        apply negb_false_iff, orb_true_iff in Hstart.
        apply Nat.leb_gt in Hspaces. auto.
  - destruct (forallb emittable question_list); [reflexivity | congruence].
Qed.

(** X7. [_generate_skip] raises exactly on a line with fewer than five
    spaces, whatever the kind of skip. *)
Theorem generate_skip_raises_exactly (skip skip_type : string) :
  _generate_skip skip skip_type = None <-> List.length (indices_of " " skip) < 5.
Proof.
  pose proof (generate_skip_is_some skip skip_type) as H.
  rewrite <- Nat.leb_gt. rewrite <- H.
  destruct (_generate_skip skip skip_type); cbn [is_some]; split; congruence.
Qed.

(** X8. [_generate_logic_check] raises exactly on a logic check that has
    no semicolon. *)
Theorem generate_logic_check_raises_exactly (logic_check : string) :
  _generate_logic_check logic_check = None <-> contains logic_check ";" = false.
Proof.
  rewrite <- generate_logic_check_is_some.
  destruct (_generate_logic_check logic_check); cbn [is_some]; split; congruence.
Qed.

(** ** The run never ends by an exception of the emitter *)

Module RunReturns.

Import Processor.

(** Every list of questions in the cache can be emitted, unless a sheet
    failed. *)
Definition cache_ok (self : t) : Prop :=
  errorsEncountered self = false ->
  Forall (fun item => forallb emittable (snd item) = true) (question_list_cache self).

Lemma cache_set_Forall (P : string * list Question.t -> Prop)
    (k : string) (v : list Question.t) (d : list (string * list Question.t)) :
  Forall P d -> P (k, v) -> Forall P (cache_set k v d).
Proof.
  intros Hd Hv. induction d as [|[k' v'] d IH]; cbn [cache_set].
  - constructor; [exact Hv | constructor].
  - inversion Hd; subst. destruct (String.eqb k k'); constructor; auto.
Qed.

Lemma read_sheet_cache_ok (env : Environment) (st : t * list Event) (ws : Worksheet) :
  cache_ok (fst st) -> cache_ok (fst (read_sheet env st ws)).
Proof.
  destruct st as [self events]. unfold read_sheet, cache_ok. cbn [fst].
  intros Hold.
  destruct (create_question_list_effect (set_iter env) ws ExcelReader.init) as [l Hl].
  pose proof (clean_pass_emittable (set_iter env) ws ExcelReader.init) as Hclean.
  destruct (create_question_list (set_iter env) ws ExcelReader.init) as [qlist reader].
  cbn [fst snd] in *. subst reader.
  cbn [errorsEncountered question_list_cache ExcelReader.errorsEncountered
       ExcelReader.worksheetErrorsEncountered ExcelReader.init orb] in *.
  destruct (has_error l); [discriminate|].
  intros Hself. apply cache_set_Forall; [apply Hold; exact Hself|].
  apply Hclean. reflexivity.
Qed.

Lemma read_sheets_cache_ok (env : Environment) (sheets : list Worksheet)
    (st : t * list Event) :
  cache_ok (fst st) -> cache_ok (fst (fold_left (read_sheet env) sheets st)).
Proof.
  revert st. induction sheets as [|ws sheets IH]; intros st H; cbn [fold_left].
  - exact H.
  - apply IH, read_sheet_cache_ok, H.
Qed.

Lemma write_sheets_returns (env : Environment) (items : list (string * list Question.t)) :
  Forall (fun item => forallb emittable (snd item) = true) items ->
  forall self xml_files events,
    fst (write_sheets env items self xml_files events) <> None.
Proof.
  induction items as [|[ws_name qlist] items IH]; intros H self xml_files events;
    cbn [write_sheets].
  - discriminate.
  - inversion H as [|? ? Hq Hrest]; subst. cbn [snd] in Hq.
    cbv zeta. rewrite write_xml_result, Hq. apply IH. exact Hrest.
Qed.

(** X9. [run] returns: whatever the workbook holds, the call of
    [write_xml] never raises, since it is only made when every sheet
    passed the reader; the run ends with the code 0 or 1. *)
Theorem run_returns (env : Environment) (config : AppConfig)
    (workbook : option (list Worksheet)) :
  exists code, snd (run env config workbook) = Returned code /\ code <= 1.
Proof.
  destruct workbook as [workbook|]; cbn [run].
  2:{ exists 1. split; [reflexivity | lia]. }
  cbv zeta.
  pose proof (read_sheets_cache_ok env (selected_worksheets workbook) (init, [])) as Hok.
  destruct (fold_left (read_sheet env) (selected_worksheets workbook) (init, []))
    as [self events].
  cbn [fst] in Hok.
  assert (Hcache : cache_ok self).
  { apply Hok. intros _. constructor. }
  clear Hok.
  destruct (errorsEncountered self) eqn:Eself; cbn [negb].
  - rewrite Eself. exists 1. split; [reflexivity | lia].
  - pose proof (write_sheets_returns env _ (Hcache Eself) self [] events) as Hw.
    destruct (write_sheets env (question_list_cache self) self [] events)
      as [[[self' xml_files]|] events'].
    + cbn [errorsEncountered].
      destruct (errorsEncountered self');
        [exists 1 | exists 0]; split; cbn; auto.
    + destruct Hw. reflexivity.
Qed.

End RunReturns.

(** X10. A sheet whose header row is not the fourteen column names, cell
    for cell after trimming, is left with its flag up, whatever its other
    rows hold. *)
Theorem wrong_header_fails_sheet
    (set_iter : list string -> list string) (worksheet : Worksheet) (s : Reader) :
  current_headers worksheet <> COLUMN_NAMES ->
  worksheetErrorsEncountered (snd (create_question_list set_iter worksheet s)) = true.
Proof.
  intros H. rewrite create_question_list_phases. cbn [snd].
  rewrite (wrong_header_logged worksheet s H).
  apply (wrong_header_logged worksheet s H).
Qed.

(** The clean sheet with the names of its two first columns exchanged. *)
Definition sheet_with_wrong_header : Worksheet :=
  mkWorksheet "demo_dd"
    [text_row ["QuestionType"; "FieldName"; "FieldType"; "QuestionText"; "MaxCharacters";
               "Responses"; "LowerRange"; "UpperRange"; "LogicCheck"; "DontKnow"; "Refuse";
               "NA"; "Skip"; "Comments"];
     text_row ["age"; "text"; "integer"; "Age?"; "3"; ""; ""; ""; ""; ""; ""; ""; ""; ""]]
    [].

Lemma wrong_header_witness :
  worksheetErrorsEncountered
    (snd (create_question_list (fun l => l) sheet_with_wrong_header init)) = true.
Proof.
  apply (wrong_header_fails_sheet (fun l => l) sheet_with_wrong_header init).
  vm_compute. discriminate.
Defined.

(** ** What the parsers put into a question *)

Lemma questions_shaped (set_iter : list string -> list string)
    (worksheet : Worksheet) (s : Reader) :
  Forall shaped (fst (create_question_list set_iter worksheet s)).
Proof.
  rewrite create_question_list_phases. cbn [fst].
  destruct (rows_phase_yields worksheet) as [qs [l [Hrun [_ [Hshaped _]]]]].
  rewrite Hrun. exact Hshaped.
Qed.

(** X11. Every parameter of a query in a question that
    [create_question_list] returns has a name that begins with @, whether
    the sheet gave it with the @ or without. *)
Theorem query_parameters_begin_with_at
    (set_iter : list string -> list string) (worksheet : Worksheet) (s : Reader) :
  Forall (fun q =>
            Forall (fun param =>
                      startswith param.(CalculationParameter.name) "@" = true)
              q.(Question.calculationQueryParameters))
    (fst (create_question_list set_iter worksheet s)).
Proof.
  apply (Forall_impl _ (P := shaped)); [|apply questions_shaped].
  intros q H. apply H.
Qed.

(** X12. Every filter of a question that [create_question_list] returns
    has one of seven operators: the four comparisons with their angle
    brackets escaped, and =, != and <> as they are. *)
Theorem filter_operators_are_escaped
    (set_iter : list string -> list string) (worksheet : Worksheet) (s : Reader) :
  Forall (fun q =>
            Forall (fun flt =>
                      In flt.(Filter.operator)
                        ["&gt;"; "&lt;"; "&gt;="; "&lt;="; "="; "!="; "<>"])
              q.(Question.responseFilters))
    (fst (create_question_list set_iter worksheet s)).
Proof.
  apply (Forall_impl _ (P := shaped)); [|apply questions_shaped].
  intros q H. apply H.
Qed.

(** X13. The parts of a math or concat calculation in a question that
    [create_question_list] returns are constants, lookups or queries
    without parts of their own and without parameters, and the results
    of the branches of a case are constants: the reader makes no nested
    calculation. *)
Theorem calculation_parts_are_flat
    (set_iter : list string -> list string) (worksheet : Worksheet) (s : Reader) :
  Forall (fun q =>
            Forall simple_part
              (q.(Question.calculationMathParts) ++ q.(Question.calculationConcatParts))
            /\ Forall (fun cond => constant_result cond.(CaseCondition.result))
                 q.(Question.calculationCaseConditions)
            /\ (q.(Question.calculationCaseElse) = None
                \/ constant_result q.(Question.calculationCaseElse)))
    (fst (create_question_list set_iter worksheet s)).
Proof.
  apply (Forall_impl _ (P := shaped)); [|apply questions_shaped].
  intros q [_ [_ [Hm [Hc [Hw He]]]]].
  split; [apply Forall_app; auto | auto].
Qed.

(** ** The index of the field names *)

(** X14. The index that the checks over the whole sheet build from the
    list of questions gives a name the position of the last question that
    bears it, and nothing to a name that no question bears. *)
Theorem field_index_is_last_occurrence (questions : list Question.t) (name : string) :
  match field_index questions name with
  | Some j =>
      (exists q, nth_error questions j = Some q /\ q.(Question.fieldName) = name)
      /\ (forall k q, j < k -> nth_error questions k = Some q ->
            q.(Question.fieldName) <> name)
  | None => forall q, In q questions -> q.(Question.fieldName) <> name
  end.
Proof.
  induction questions as [|q0 questions IH] using rev_ind.
  - cbn. intros q [].
  - rewrite field_index_snoc.
    destruct (String.eqb name (Question.fieldName q0)) eqn:E.
    + apply String.eqb_eq in E. split.
      * exists q0. split; [|auto].
        rewrite nth_error_app2, Nat.sub_diag by lia. reflexivity.
      * intros k q Hk Hq.
        assert (Hlen : k < List.length (questions ++ [q0]))
          by (apply nth_error_Some; congruence).
        rewrite length_app in Hlen. cbn in Hlen. lia.
    + apply String.eqb_neq in E.
      destruct (field_index questions name) as [j|].
      * destruct IH as [[q [Hq Hname]] Hlater]. split.
        -- exists q. split; [|exact Hname].
           rewrite nth_error_app1; [exact Hq|]. apply nth_error_Some. congruence.
        -- intros k q' Hk Hq'.
           destruct (Nat.lt_ge_cases k (List.length questions)) as [Hlt | Hge].
           ++ rewrite nth_error_app1 in Hq' by exact Hlt. apply (Hlater k q' Hk Hq').
           ++ rewrite nth_error_app2 in Hq' by exact Hge.
              destruct (k - List.length questions) as [|n]; cbn in Hq'.
              ** inversion Hq'; subst. auto.
              ** destruct n; discriminate Hq'.
      * intros q Hq. apply in_app_or in Hq. destruct Hq as [Hq | [<- | []]].
        -- apply IH. exact Hq.
        -- auto.
Qed.

(** ** The lines of a cell *)

(** The characters of [s] that satisfy [p], in order. *)
Fixpoint keep_chars (p : ascii -> bool) (s : string) : string :=
  match s with
  | EmptyString => EmptyString
  | String a s' => if p a then String a (keep_chars p s') else keep_chars p s'
  end.

Definition is_newline (c : ascii) : bool :=
  Ascii.eqb c (ascii_of_nat 13) || Ascii.eqb c (ascii_of_nat 10).

Definition no_newline (c : ascii) : bool := negb (is_newline c).

Lemma re_split_newlines_nonempty (s : string) : re_split_newlines s <> [].
Proof.
  destruct s as [|a s]; cbn [re_split_newlines]; [discriminate|].
  cbv zeta.
  destruct (Ascii.eqb a (ascii_of_nat 13)).
  - destruct s as [|b s]; [discriminate|].
    destruct (Ascii.eqb b (ascii_of_nat 10)); discriminate.
  - destruct (Ascii.eqb a (ascii_of_nat 10)); [discriminate|].
    destruct (re_split_newlines s); discriminate.
Qed.

Lemma re_split_newlines_bounded (n : nat) (s : string) :
  String.length s <= n ->
  Forall (fun line => any_char is_newline line = false) (re_split_newlines s)
  /\ String.concat "" (re_split_newlines s) = keep_chars no_newline s.
Proof.
  revert s. induction n as [|n IH]; intros s Hlen.
  { destruct s; [split; [repeat constructor | reflexivity] | cbn in Hlen; lia]. }
  destruct s as [|a s]; [split; [repeat constructor | reflexivity]|].
  cbn [String.length] in Hlen.
  assert (IHs : Forall (fun line => any_char is_newline line = false)
                  (re_split_newlines s)
                /\ String.concat "" (re_split_newlines s) = keep_chars no_newline s).
  { apply IH. lia. }
  assert (Hcons : forall l : list string,
             l <> [] -> String.concat "" ("" :: l) = String.concat "" l).
  { intros [|x l] H; [destruct H; reflexivity | reflexivity]. }
  cbn [re_split_newlines keep_chars]. cbv zeta.
  unfold no_newline, is_newline at 2. unfold no_newline in IHs, IH.
  destruct (Ascii.eqb a (ascii_of_nat 13)) eqn:E13; cbn [orb negb].
  - destruct s as [|b s].
    + split; [repeat constructor | reflexivity].
    + destruct (Ascii.eqb b (ascii_of_nat 10)) eqn:E10.
      * assert (IHt : Forall (fun line => any_char is_newline line = false)
                        (re_split_newlines s)
                      /\ String.concat "" (re_split_newlines s)
                         = keep_chars no_newline s).
        { apply IH. cbn [String.length] in Hlen. lia. }
        destruct IHt as [Hall Hcat]. split; [constructor; [reflexivity | exact Hall]|].
        rewrite Hcons by apply re_split_newlines_nonempty.
        cbn [keep_chars]. unfold no_newline, is_newline. rewrite E10, orb_true_r.
        cbn [negb]. exact Hcat.
      * destruct IHs as [Hall Hcat]. split; [constructor; [reflexivity | exact Hall]|].
        rewrite Hcons by apply re_split_newlines_nonempty. exact Hcat.
  - destruct (Ascii.eqb a (ascii_of_nat 10)) eqn:E10; cbn [negb].
    + destruct IHs as [Hall Hcat]. split; [constructor; [reflexivity | exact Hall]|].
      rewrite Hcons by apply re_split_newlines_nonempty. exact Hcat.
    + destruct IHs as [Hall Hcat].
      destruct (re_split_newlines s) as [|h t] eqn:Es;
        [destruct (re_split_newlines_nonempty s Es)|].
      inversion Hall as [|? ? Hh Ht]; subst. split.
      * constructor; [|exact Ht]. cbn [any_char]. unfold is_newline at 1.
        rewrite E13, E10. exact Hh.
      * rewrite <- Hcat. destruct t; reflexivity.
Qed.

Lemma re_split_newlines_parts (s : string) :
  Forall (fun line => any_char is_newline line = false) (re_split_newlines s)
  /\ String.concat "" (re_split_newlines s) = keep_chars no_newline s.
Proof. apply (re_split_newlines_bounded (String.length s)). lia. Qed.

Lemma concat_cons (x : string) (l : list string) :
  String.concat "" (x :: l) = String.append x (String.concat "" l).
Proof.
  destruct l; cbn [String.concat]; [rewrite append_empty_r|]; reflexivity.
Qed.

Lemma concat_filter_truthy (l : list string) :
  String.concat "" (filter truthy l) = String.concat "" l.
Proof.
  induction l as [|x l IH]; [reflexivity|].
  cbn [filter]. rewrite (concat_cons x l).
  destruct x as [|a x]; cbn [truthy]; [exact IH|].
  rewrite concat_cons, IH. reflexivity.
Qed.

(** X15. [_split_lines] cuts a text at its line breaks and loses nothing
    else: no line it returns is empty or holds a carriage return or a
    line feed, and the lines put together again are the text without its
    carriage returns and line feeds. *)
Theorem split_lines_keeps_the_text (text : string) :
  Forall (fun line => line <> "" /\ any_char is_newline line = false)
    (_split_lines text)
  /\ fstr (_split_lines text) = keep_chars no_newline text.
Proof.
  destruct (re_split_newlines_parts text) as [Hall Hcat]. unfold _split_lines. split.
  - apply Forall_forall. intros line Hline. apply filter_In in Hline.
    destruct Hline as [Hin Ht]. split.
    + intros ->. discriminate Ht.
    + apply (proj1 (Forall_forall _ _) Hall line Hin).
  - unfold fstr. rewrite concat_filter_truthy. exact Hcat.
Qed.

(** ** Duplicate names *)

Lemma has_duplicates_false_iff (l : list string) : has_duplicates l = false <-> NoDup l.
Proof.
  induction l as [|x l IH]; cbn [has_duplicates].
  - split; [constructor | reflexivity].
  - rewrite orb_false_iff, IH. split.
    + intros [Hx Hl]. constructor; [|exact Hl].
      intros Hin. apply mem_true_iff in Hin. congruence.
    + intros H. inversion H as [|? ? Hx Hl]; subst. split; [|exact Hl].
      destruct (mem x l) eqn:E; [|reflexivity].
      apply mem_true_iff in E. contradiction.
Qed.

Lemma insert_sorted_permutation (x : string) (l : list string) :
  Permutation (x :: l) (insert_sorted x l).
Proof.
  induction l as [|y l IH]; cbn [insert_sorted]; [apply Permutation_refl|].
  destruct (str_leb x y); [apply Permutation_refl|].
  apply (perm_trans (perm_swap y x l)). apply perm_skip. exact IH.
Qed.

Lemma sort_permutation (l : list string) :
  Permutation l (fold_right insert_sorted [] l).
Proof.
  induction l as [|x l IH]; cbn [fold_right]; [apply perm_nil|].
  apply (perm_trans (perm_skip x IH)). apply insert_sorted_permutation.
Qed.

Lemma dedup_In (x : string) (l : list string) : In x (dedup l) <-> In x l.
Proof.
  induction l as [|y l IH]; cbn [dedup]; [tauto|].
  destruct (mem y l) eqn:E; cbn [In]; rewrite IH; [|tauto].
  apply mem_true_iff in E. split; [auto|]. intros [<- | H]; auto.
Qed.

Lemma dedup_NoDup (l : list string) : NoDup (dedup l).
Proof.
  induction l as [|y l IH]; cbn [dedup]; [constructor|].
  destruct (mem y l) eqn:E; [exact IH|].
  constructor; [|exact IH]. rewrite dedup_In. intros H.
  apply mem_true_iff in H. congruence.
Qed.

Lemma count_pos_In (x : string) (l : list string) : 0 < count x l -> In x l.
Proof.
  unfold count. induction l as [|y l IH]; cbn [filter List.length]; [lia|].
  destruct (String.eqb x y) eqn:E.
  - apply String.eqb_eq in E. subst. left. reflexivity.
  - intros H. right. apply IH. exact H.
Qed.

(** The names that the diagnostic of duplicates lists: each name that
    occurs more than once, once. *)
Lemma sorted_duplicates_spec (l : list string) :
  (forall x, In x (sorted_duplicates l) <-> 1 < count x l)
  /\ NoDup (sorted_duplicates l).
Proof.
  unfold sorted_duplicates. split.
  - intros x. split.
    + intros H. apply (Permutation_in _ (Permutation_sym (sort_permutation _))) in H.
      apply dedup_In, filter_In in H. destruct H as [_ H].
      apply Nat.ltb_lt. exact H.
    + intros H. apply (Permutation_in _ (sort_permutation _)).
      apply dedup_In, filter_In. split.
      * apply count_pos_In. lia.
      * apply Nat.ltb_lt. exact H.
  - apply (Permutation_NoDup (sort_permutation _)). apply dedup_NoDup.
Qed.

Lemma add_errors_same (msgs : list string) (s : Reader) :
  add_errors msgs s = s <-> msgs = [].
Proof.
  split.
  - intros H. apply (f_equal logstring) in H. cbn [add_errors logstring] in H.
    apply (f_equal (@List.length _)) in H. rewrite length_app in H.
    destruct msgs; [reflexivity | cbn [List.length] in H; lia].
  - intros ->. apply add_errors_nil.
Qed.

(** X16. The check of duplicate names leaves the reader as it is exactly
    when no two questions of the list, the information questions apart,
    bear the same name.  Otherwise it records one diagnostic, which lists
    each name borne more than once, once. *)
Theorem duplicate_names_diagnosed_exactly (worksheet : string) (s : Reader) :
  let fields :=
    map Question.fieldName
      (filter (fun q => negb (String.eqb q.(Question.questionType) "information"))
         (questionList s)) in
  let names := sorted_duplicates fields in
  (snd (_check_duplicate_columns worksheet s) = s <-> NoDup fields)
  /\ (snd (_check_duplicate_columns worksheet s) = s
      \/ snd (_check_duplicate_columns worksheet s)
         = add_errors
             [fstr ["ERROR - Duplicate fieldnames found in worksheet: "; worksheet;
                    ". Duplicated fieldnames: "; join "," names; ". ";
                    "Check for empty rows at the end of the spreadsheet and delete them."]]
             s)
  /\ (forall name, In name names <-> 1 < count name fields)
  /\ NoDup names.
Proof.
  cbv zeta. rewrite check_duplicate_columns_records. cbn [snd].
  unfold duplicate_diagnostics. cbv zeta.
  set (fields := map Question.fieldName _).
  pose proof (has_duplicates_false_iff fields) as Hdup.
  destruct (sorted_duplicates_spec fields) as [Hin Hnodup].
  split; [|split; [|split; [exact Hin | exact Hnodup]]].
  - rewrite add_errors_same. rewrite <- Hdup.
    destruct (has_duplicates fields); split; congruence.
  - destruct (has_duplicates fields); [right; reflexivity|].
    left. apply add_errors_nil.
Qed.

(** ** The maximum of characters *)

(** [all(p(c) for c in s)] *)
Fixpoint all_char (p : ascii -> bool) (s : string) : bool :=
  match s with
  | EmptyString => true
  | String c s' => p c && all_char p s'
  end.

(** r"[class]*$" from any position: it matches when what is left is of
    the class. *)
Lemma star_to_end (p : ascii -> bool) (s bef : string) (c : Re.caps) :
  is_some (Re.star_greedy p (Re.run Re.Eol Re.accept_at_end) bef s c) = all_char p s.
Proof.
  revert bef. induction s as [|a s IH]; intros bef; [reflexivity|].
  cbn [Re.star_greedy all_char].
  assert (Hstop : Re.run Re.Eol Re.accept_at_end (bef, String a s) c = None).
  { cbn [Re.run Re.after snd]. destruct s; [|reflexivity].
    destruct (Ascii.eqb a (ascii_of_nat 10)); reflexivity. }
  rewrite Hstop. destruct (p a); [|reflexivity]. cbn [andb].
  rewrite <- (IH (String a bef)).
  destruct (Re.star_greedy _ _ _ s c); reflexivity.
Qed.

(** r"^\d+$" matches the texts made of one decimal digit or more. *)
Lemma fullmatch_numeric_only (s : string) :
  Re.fullmatch NUMERIC_ONLY_RE s = truthy s && all_char isdecimal s.
Proof.
  unfold Re.fullmatch, NUMERIC_ONLY_RE.
  cbn [Re.seq Re.run Re.before Re.after fst snd].
  destruct s as [|a s]; [reflexivity|].
  cbn [truthy all_char andb]. unfold Re.digit at 1.
  destruct (isdecimal a); [|reflexivity]. cbn [andb].
  change (all_char isdecimal s) with (all_char Re.digit s).
  rewrite <- (star_to_end Re.digit s (String a "") []).
  destruct (Re.star_greedy _ _ _ s []); reflexivity.
Qed.

Lemma error_changes (msg : string) (s : Reader) : snd (_error msg s) <> s.
Proof.
  intros H. apply (f_equal logstring) in H. cbn in H.
  apply (f_equal (@List.length _)) in H. rewrite length_app in H. cbn in H. lia.
Qed.

(** What [_check_max_chars_value] accepts: it returns and records
    nothing. *)
Definition accepted_max_chars (max_chars : string) : bool :=
  let numeric := if startswith max_chars "=" then drop 1 max_chars else max_chars in
  truthy numeric && all_char isdecimal numeric
  && negb (int_raises numeric)
  && (1 <=? int numeric)%N && (int numeric <=? 2000)%N.

Lemma error_then_changes {A : Type} (msg : string) (a b : A) (s : Reader) :
  (_error msg ;; ret a) s <> (b, s).
Proof.
  intros H. apply (f_equal snd) in H. exact (error_changes msg s H).
Qed.

Lemma check_max_chars_value_accepts
    (worksheet max_chars fieldname : string) (s : Reader) :
  _check_max_chars_value worksheet max_chars fieldname s = (Returns, s)
  <-> accepted_max_chars max_chars = true.
Proof.
  unfold _check_max_chars_value, accepted_max_chars. cbv zeta.
  set (numeric := if startswith max_chars "=" then drop 1 max_chars else max_chars).
  rewrite fullmatch_numeric_only.
  destruct (truthy numeric && all_char isdecimal numeric); cbn [negb andb].
  - destruct (int_raises numeric); cbn [negb andb];
      [split; [intros H; inversion H | discriminate]|].
    rewrite N.ltb_antisym, (N.ltb_antisym (int numeric) 2000).
    destruct (1 <=? int numeric)%N, (int numeric <=? 2000)%N; cbn [negb orb andb];
      split; try reflexivity; try discriminate;
      intros H; destruct (error_then_changes _ _ _ _ H).
  - split; [intros H; destruct (error_then_changes _ _ _ _ H) | discriminate].
Qed.

(** X17. [_check_max_chars_value] returns and records nothing exactly
    when the value, after one = at its start if there is one, is made of
    decimal digits, one or more and not more than [int] converts, and is
    a number from 1 to 2000.  It raises exactly when the value is made of
    decimal digits that are more than [int] converts, and it has recorded
    nothing then; in every other case it returns. *)
Theorem max_characters_accepted_exactly
    (worksheet max_chars fieldname : string) (s : Reader) :
  let numeric := if startswith max_chars "=" then drop 1 max_chars else max_chars in
  let run := _check_max_chars_value worksheet max_chars fieldname s in
  (run = (Returns, s)
   <-> numeric <> ""
       /\ all_char isdecimal numeric = true
       /\ String.length numeric <= MAX_STR_DIGITS
       /\ (1 <= int numeric <= 2000)%N)
  /\ (if truthy numeric && all_char isdecimal numeric
         && (MAX_STR_DIGITS <? String.length numeric)
      then run = (Raises (int_error numeric), s)
      else fst run = Returns).
Proof.
  cbv zeta. split.
  - rewrite check_max_chars_value_accepts. unfold accepted_max_chars, int_raises.
    cbv zeta.
    set (numeric := if startswith max_chars "=" then drop 1 max_chars else max_chars).
    rewrite !andb_true_iff, !N.leb_le, negb_true_iff, Nat.ltb_ge. split.
    + intros [[[[Ht Hd] Hlen] Hlo] Hhi]. repeat split; auto.
      intros E. rewrite E in Ht. discriminate Ht.
    + intros [Hne [Hd [Hlen [Hlo Hhi]]]]. repeat split; auto.
      destruct numeric; [destruct Hne; reflexivity | reflexivity].
  - unfold _check_max_chars_value. cbv zeta.
    set (numeric := if startswith max_chars "=" then drop 1 max_chars else max_chars).
    rewrite fullmatch_numeric_only. fold (int_raises numeric).
    destruct (truthy numeric && all_char isdecimal numeric); cbn [negb andb];
      [|reflexivity].
    destruct (int_raises numeric); [reflexivity|].
    destruct (_ || _)%bool; reflexivity.
Qed.

(** [int] and [str] on the integers that are not negative. *)
Lemma int_acc_of_uint_acc (d : Decimal.uint) (acc : positive) :
  int_acc (N.pos acc) (NilEmpty.string_of_uint d) = N.pos (Pos.of_uint_acc d acc).
Proof.
  revert acc. induction d; intros acc; cbn [NilEmpty.string_of_uint int_acc Pos.of_uint_acc];
    try reflexivity; rewrite <- IHd; f_equal;
    match goal with
    | |- context [N.of_nat ?n] =>
        let v := eval vm_compute in (N.of_nat n) in change (N.of_nat n) with v
    end;
    lia.
Qed.

Lemma int_of_uint (d : Decimal.uint) :
  int_acc 0 (NilEmpty.string_of_uint d) = Pos.of_uint d.
Proof.
  induction d; cbn [NilEmpty.string_of_uint int_acc Pos.of_uint];
    try reflexivity; try exact IHd;
    rewrite <- int_acc_of_uint_acc; reflexivity.
Qed.

Lemma all_decimal_uint (d : Decimal.uint) :
  all_char isdecimal (NilEmpty.string_of_uint d) = true.
Proof. induction d; cbn [NilEmpty.string_of_uint all_char]; auto. Qed.

Lemma to_uint_not_nil (p : positive) : Pos.to_uint p <> Decimal.Nil.
Proof.
  intros H. pose proof (DecimalPos.Unsigned.of_to p) as Hp.
  rewrite H in Hp. discriminate Hp.
Qed.

Lemma str_of_positive (p : positive) :
  str_of_Z (Z.pos p) = NilEmpty.string_of_uint (Pos.to_uint p).
Proof.
  unfold str_of_Z. cbn [Z.to_int NilZero.string_of_int].
  unfold NilZero.string_of_uint.
  destruct (Pos.to_uint p) eqn:E; try reflexivity.
  destruct (to_uint_not_nil p E).
Qed.

Lemma strip_nothing (s : string) :
  all_char (fun c => negb (isspace c)) s = true -> strip s = s.
Proof.
  intros H. unfold strip, strip_by.
  assert (Hl : lstrip_by isspace s = s).
  { destruct s as [|a s]; [reflexivity|]. cbn [lstrip_by].
    cbn [all_char] in H. apply andb_true_iff in H. destruct H as [Ha _].
    apply negb_true_iff in Ha. rewrite Ha. reflexivity. }
  rewrite Hl. clear Hl. induction s as [|a s IH]; [reflexivity|].
  cbn [all_char] in H. apply andb_true_iff in H. destruct H as [Ha Hs].
  apply negb_true_iff in Ha.
  cbn [rstrip_by]. rewrite (IH Hs). destruct s; [rewrite Ha|]; reflexivity.
Qed.

Lemma all_char_impl (p q : ascii -> bool) (s : string) :
  (forall c, p c = true -> q c = true) -> all_char p s = true -> all_char q s = true.
Proof.
  intros H. induction s as [|a s IH]; [reflexivity|].
  cbn [all_char]. rewrite !andb_true_iff. intros [Ha Hs]. auto.
Qed.

Lemma decimal_not_space (c : ascii) : isdecimal c = true -> negb (isspace c) = true.
Proof.
  unfold isdecimal, isspace, in_range. intros H.
  apply andb_true_iff in H. destruct H as [H1 H2].
  apply Nat.leb_le in H1, H2.
  apply negb_true_iff. repeat (apply orb_false_iff; split);
    try (apply andb_false_iff; first [left; apply Nat.leb_gt; lia
                                     | right; apply Nat.leb_gt; lia]);
    apply Nat.eqb_neq; lia.
Qed.

Lemma startswith_cons (a : ascii) (s : string) (c : ascii) :
  startswith (String a s) (String c "") = Ascii.eqb c a.
Proof.
  unfold startswith. rewrite prefix_cons. destruct s; cbn; apply andb_true_r.
Qed.

(** The integers accepted are written with few digits. *)
Lemma small_positive_digits (p : positive) :
  (p <= 2000)%positive ->
  String.length (NilEmpty.string_of_uint (Pos.to_uint p)) <= 4.
Proof.
  intros Hp.
  assert (H : forallb
                (fun n => String.length
                            (NilEmpty.string_of_uint (Pos.to_uint (Pos.of_nat n))) <=? 4)
                (List.seq 1 2000) = true) by (vm_compute; reflexivity).
  rewrite forallb_forall in H. specialize (H (Pos.to_nat p)).
  rewrite Pos2Nat.id in H. apply Nat.leb_le, H, in_seq. lia.
Qed.

(** Beyond the limit of digits, zeros at the start counted: 4300 zeros and
    a 5 raise though the number is 5, and so do 4301 ones; 4299 zeros
    and a 5 are accepted. *)
Lemma max_characters_beyond_the_limit :
  _check_max_chars_value "demo_dd" (String.append (char_times "0" 4300) "5") "age" init
  = (Raises (fstr ["Exceeds the limit (4300 digits) for integer string conversion: ";
                   "value has 4301 digits; ";
                   "use sys.set_int_max_str_digits() to increase the limit"]), init)
  /\ fst (_check_max_chars_value "demo_dd" (char_times "1" 4301) "age" init)
     = Raises (int_error (char_times "1" 4301))
  /\ _check_max_chars_value "demo_dd" (String.append (char_times "0" 4299) "5") "age" init
     = (Returns, init).
Proof. vm_compute. repeat split; reflexivity. Qed.

(** X18. An integer cell in the MaxCharacters column is accepted exactly
    when the integer is from 1 to 2000: what [_to_str] and the trimming
    make of it is what [_check_max_chars_value] reads back. *)
Theorem integer_max_characters_accepted_exactly
    (worksheet fieldname : string) (z : Z) (s : Reader) :
  _check_max_chars_value worksheet (strip (_to_str (VInt z))) fieldname s = (Returns, s)
  <-> (1 <= z <= 2000)%Z.
Proof.
  rewrite check_max_chars_value_accepts. unfold accepted_max_chars. cbv zeta.
  cbn [_to_str].
  destruct z as [|p|p].
  - cbn. split; [discriminate | lia].
  - rewrite str_of_positive.
    rewrite strip_nothing
      by (apply (all_char_impl isdecimal); [apply decimal_not_space
                                            | apply all_decimal_uint]).
    assert (Hne : truthy (NilEmpty.string_of_uint (Pos.to_uint p)) = true).
    { pose proof (to_uint_not_nil p). destruct (Pos.to_uint p); try reflexivity.
      congruence. }
    assert (Hstart : startswith (NilEmpty.string_of_uint (Pos.to_uint p)) "=" = false).
    { destruct (Pos.to_uint p); try reflexivity; cbn [NilEmpty.string_of_uint];
        rewrite startswith_cons; reflexivity. }
    rewrite Hstart, Hne. unfold int.
    rewrite int_of_uint, DecimalPos.Unsigned.of_to, all_decimal_uint.
    cbn [andb]. rewrite !andb_true_iff, !N.leb_le, negb_true_iff.
    unfold int_raises. rewrite Nat.ltb_ge. split; [lia|].
    intros Hz. split; [split; [|lia]|lia].
    pose proof (small_positive_digits p) as Hd. unfold MAX_STR_DIGITS. lia.
  - split; [|lia]. intros Hd. exfalso. revert Hd.
    unfold str_of_Z. cbn [Z.to_int NilZero.string_of_int].
    set (d := NilZero.string_of_uint (Pos.to_uint p)).
    assert (Hs : strip (String "-" d) = String "-" (rstrip_by isspace d)).
    { unfold strip, strip_by. cbn [lstrip_by].
      replace (isspace "-") with false by reflexivity.
      cbn [rstrip_by]. destruct (rstrip_by isspace d) eqn:E; reflexivity. }
    rewrite Hs. rewrite startswith_cons.
    replace (Ascii.eqb "=" "-") with false by reflexivity.
    cbn [truthy all_char andb]. replace (isdecimal "-") with false by reflexivity.
    discriminate.
Qed.

(** ** The names of the documents *)

(** No occurrence of [old] in [x ++ y] begins inside [x]. *)
Fixpoint no_start (old x y : string) : bool :=
  match x with
  | EmptyString => true
  | String a x' => negb (String.prefix old (String.append x y)) && no_start old x' y
  end.

Lemma replace_app_no_start (old new x y : string) :
  no_start old x y = true ->
  replace old new (String.append x y) = String.append x (replace old new y).
Proof.
  unfold replace. induction x as [|a x IH]; [reflexivity|].
  cbn [no_start]. rewrite andb_true_iff, negb_true_iff. intros [Hp Hx].
  cbn [String.append replace_aux]. cbn [String.append] in Hp. rewrite Hp.
  rewrite (IH Hx). reflexivity.
Qed.

Lemma prefix_empty (s : string) : String.prefix "" s = true.
Proof. destruct s; reflexivity. Qed.

Lemma prefix_app_long (old x y : string) :
  String.length old <= String.length x ->
  String.prefix old (String.append x y) = String.prefix old x.
Proof.
  revert x. induction old as [|c old IH]; intros x H.
  - rewrite !prefix_empty. reflexivity.
  - destruct x as [|a x]; [cbn in H; lia|].
    cbn [String.append]. rewrite !prefix_cons. rewrite IH; [reflexivity|].
    cbn [String.length] in H. lia.
Qed.

Lemma contains_false_cons (a : ascii) (x old : string) :
  contains (String a x) old = false ->
  String.prefix old (String a x) = false /\ contains x old = false.
Proof. rewrite contains_cons. apply orb_false_iff. Qed.

(** When [old] does not occur in [x], and cannot begin in the last
    characters of [x] and end in [y], no occurrence begins inside [x]. *)
Lemma no_start_of_contains (old y : string) :
  (forall x, x <> "" -> String.length x < String.length old ->
     String.prefix old (String.append x y) = false) ->
  forall x, contains x old = false -> no_start old x y = true.
Proof.
  intros Hedge. induction x as [|a x IH]; intros Hx; [reflexivity|].
  apply contains_false_cons in Hx. destruct Hx as [Hp Hx].
  cbn [no_start]. rewrite (IH Hx), andb_true_r. apply negb_true_iff.
  destruct (Nat.le_gt_cases (String.length old) (String.length (String a x)))
    as [Hlong | Hshort].
  - rewrite prefix_app_long by exact Hlong. exact Hp.
  - apply Hedge; [discriminate | exact Hshort].
Qed.

(** The four edges between a stem and the text that follows it. *)
Ltac edge :=
  let x := fresh "x" in
  let Hne := fresh in
  let Hlen := fresh in
  intros x Hne Hlen;
  destruct x as [|a [|b [|c [|d x]]]];
  first
    [ destruct Hne; reflexivity
    | cbn [String.length] in Hlen; lia
    | cbn [String.append]; rewrite ?prefix_cons;
      repeat match goal with
             | |- context [Ascii.eqb ?u ?v] =>
                 is_ground u; is_ground v;
                 let r := eval vm_compute in (Ascii.eqb u v) in
                 change (Ascii.eqb u v) with r
             end;
      rewrite ?andb_false_r; reflexivity ].

Lemma edge_dd_dd :
  forall x, x <> "" -> String.length x < String.length "_dd" ->
    String.prefix "_dd" (String.append x "_dd") = false.
Proof. edge. Qed.

Lemma edge_dd_xml :
  forall x, x <> "" -> String.length x < String.length "_dd" ->
    String.prefix "_dd" (String.append x "_xml") = false.
Proof. edge. Qed.

Lemma edge_xml_xml :
  forall x, x <> "" -> String.length x < String.length "_xml" ->
    String.prefix "_xml" (String.append x "_xml") = false.
Proof. edge. Qed.

Lemma edge_xml_dot :
  forall x, x <> "" -> String.length x < String.length "_xml" ->
    String.prefix "_xml" (String.append x ".xml") = false.
Proof. edge. Qed.


Lemma drop_append (x y : string) : drop (String.length x) (String.append x y) = y.
Proof.
  rewrite <- (Nat.add_0_r (String.length x)). rewrite drop_app. apply drop_zero.
Qed.

Lemma xml_file_name_dd (stem : string) :
  xml_file_name (String.append stem "_dd") = String.append stem ".xml".
Proof.
  unfold xml_file_name, endswith, drop_last. rewrite append_length.
  cbn [String.length].
  replace (String.length stem + 3 - 3) with (String.length stem) by lia.
  rewrite drop_append, take_app.
  replace (3 <=? String.length stem + 3) with true by (symmetry; apply Nat.leb_le; lia).
  cbn [andb]. rewrite String.eqb_refl. unfold fstr. cbn [String.concat].
  reflexivity.
Qed.

Lemma xml_file_name_xml (stem : string) :
  xml_file_name (String.append stem "_xml") = String.append stem ".xml".
Proof.
  unfold xml_file_name, endswith, drop_last. rewrite append_length.
  cbn [String.length].
  replace (String.length stem + 4 - 3) with (String.length stem + 1) by lia.
  replace (String.length stem + 4 - 4) with (String.length stem) by lia.
  rewrite drop_app, take_app.
  replace (String.eqb (drop 1 "_xml") "_dd") with false by reflexivity.
  rewrite andb_false_r. unfold fstr. cbn [String.concat]. reflexivity.
Qed.

(** X19. The name that [run] enters in the manifest for a sheet and the
    name of the file that [write_xml] writes for it are computed in two
    ways, the one by replacing every _dd and every _xml of the title, the
    other by cutting the title's ending.  They agree on a title in which
    _dd or _xml occurs at the end only. *)
Theorem manifest_name_is_file_name (stem ending : string) :
  In ending ["_dd"; "_xml"] ->
  contains stem "_dd" = false ->
  contains stem "_xml" = false ->
  replace "_xml" ".xml" (replace "_dd" ".xml" (String.append stem ending))
  = xml_file_name (String.append stem ending).
Proof.
  intros Hending Hdd Hxml.
  pose proof (no_start_of_contains "_xml" ".xml" edge_xml_dot stem Hxml) as Hdot.
  destruct Hending as [<- | [<- | []]].
  - rewrite xml_file_name_dd.
    rewrite (replace_app_no_start "_dd" ".xml" stem "_dd")
      by (apply (no_start_of_contains "_dd" "_dd" edge_dd_dd); exact Hdd).
    replace (replace "_dd" ".xml" "_dd") with ".xml" by reflexivity.
    rewrite (replace_app_no_start "_xml" ".xml" stem ".xml" Hdot).
    reflexivity.
  - rewrite xml_file_name_xml.
    rewrite (replace_app_no_start "_dd" ".xml" stem "_xml")
      by (apply (no_start_of_contains "_dd" "_xml" edge_dd_xml); exact Hdd).
    replace (replace "_dd" ".xml" "_xml") with "_xml" by reflexivity.
    rewrite (replace_app_no_start "_xml" ".xml" stem "_xml")
      by (apply (no_start_of_contains "_xml" "_xml" edge_xml_xml); exact Hxml).
    reflexivity.
Qed.

Lemma manifest_name_witness :
  replace "_xml" ".xml" (replace "_dd" ".xml" (String.append "household" "_dd"))
  = xml_file_name (String.append "household" "_dd").
Proof.
  apply (manifest_name_is_file_name "household" "_dd").
  - left. reflexivity.
  - reflexivity.
  - reflexivity.
Defined.

(** ** A run in which every sheet passes the reader *)

Module CleanRun.

Import Processor RunProperties RunReturns.

(** The cache after the sheets were read: per title, the questions of
    the last sheet that bears it. *)
Definition cache_of (env : Environment) (sheets : list Worksheet)
  : list (string * list Question.t) :=
  fold_left
    (fun d ws =>
       cache_set (title ws)
         (fst (create_question_list (set_iter env) ws ExcelReader.init)) d)
    sheets [].

(** The name and the content of the document of an item of the cache. *)
Definition document (item : string * list Question.t) : string * string :=
  (xml_file_name (fst item), written (write_xml (fst item) (snd item))).

(** The name that the manifest lists for an item of the cache. *)
Definition manifest_name (item : string * list Question.t) : string :=
  replace "_xml" ".xml" (replace "_dd" ".xml" (fst item)).

Lemma read_sheets_cache (env : Environment) (sheets : list Worksheet) :
  forall st,
    question_list_cache (fst (fold_left (read_sheet env) sheets st))
    = fold_left
        (fun d ws =>
           cache_set (title ws)
             (fst (create_question_list (set_iter env) ws ExcelReader.init)) d)
        sheets (question_list_cache (fst st))
    /\ generated_files (fst (fold_left (read_sheet env) sheets st))
       = generated_files (fst st).
Proof.
  induction sheets as [|ws sheets IH]; intros [self events]; cbn [fold_left].
  - split; reflexivity.
  - destruct (IH (read_sheet env (self, events) ws)) as [Hc Hg].
    rewrite Hc, Hg. unfold read_sheet.
    destruct (create_question_list (set_iter env) ws ExcelReader.init)
      as [qlist reader].
    split; reflexivity.
Qed.

Lemma write_sheets_all (env : Environment) (items : list (string * list Question.t)) :
  Forall (fun item => forallb emittable (snd item) = true) items ->
  forall self xml_files events,
    write_sheets env items self xml_files events
    = (Some (mk (Processor.errorsEncountered self
                 || negb (forallb (fun d => _validate_xml_syntax env (snd d))
                            (map document items)))
                (generated_files self ++ map fst (map document items))
                (question_list_cache self),
             xml_files ++ map manifest_name items),
       events ++ map (fun d => WriteXml (fst d) (snd d)) (map document items)).
Proof.
  induction items as [|[ws_name qlist] items IH]; intros H self xml_files events.
  - cbn [write_sheets map forallb negb]. rewrite orb_false_r, !app_nil_r.
    destruct self; reflexivity.
  - inversion H as [|? ? Hq Hrest]; subst. cbn [snd] in Hq.
    cbn [write_sheets]. cbv zeta. rewrite write_xml_result, Hq.
    rewrite (IH Hrest).
    cbn [map forallb document fst snd Processor.errorsEncountered generated_files
         question_list_cache manifest_name].
    rewrite <- !app_assoc. cbn [app].
    destruct (_validate_xml_syntax env (written (write_xml ws_name qlist)));
      cbn [negb andb orb]; [reflexivity|].
    rewrite orb_true_r. reflexivity.
Qed.

(** X20. When every selected sheet passes the reader, [run] reads the
    sheets, writes one document per title in the cache, in the order in
    which the titles were first met, and the manifest with the names of
    the documents; it then makes the archive of these files and returns 0
    if every document is well-formed for the parser, and otherwise makes
    no archive and returns 1, the documents and the manifest having been
    written all the same.  The log is written last in both cases. *)
Theorem clean_run_emits_every_sheet
    (env : Environment) (config : AppConfig) (workbook : list Worksheet) :
  let sheets := selected_worksheets workbook in
  let documents := map document (cache_of env sheets) in
  let valid := forallb (fun d => _validate_xml_syntax env (snd d)) documents in
  (forall ws, In ws sheets -> sheet_failed env ws = false) ->
  run env config (Some workbook)
  = (reads sheets
     ++ map (fun d => WriteXml (fst d) (snd d)) documents
     ++ [WriteManifest (surveyName config) (surveyId config)
           (fstr [surveyId config; ".sqlite"])
           (map manifest_name (cache_of env sheets))]
     ++ (if valid
         then [CreateZipFile (fstr [surveyId config; ".zip"])
                 (map fst documents ++ ["survey_manifest.gistx"])]
         else [])
     ++ [WriteLogfile],
     Returned (if valid then 0 else 1)).
Proof.
  intros sheets documents valid Hclean. unfold run. fold sheets.
  destruct (read_sheets env sheets (Processor.init, [])) as [He Hf].
  destruct (read_sheets_cache env sheets (Processor.init, [])) as [Hc Hg].
  pose proof (read_sheets_cache_ok env sheets (Processor.init, [])) as Hok.
  destruct (fold_left (read_sheet env) sheets (Processor.init, [])) as [self events].
  cbn [fst snd app Processor.errorsEncountered Processor.init orb question_list_cache
       generated_files] in He, Hf, Hc, Hg, Hok.
  fold (cache_of env sheets) in Hc.
  assert (Hnone : existsb (sheet_failed env) sheets = false).
  { destruct (existsb (sheet_failed env) sheets) eqn:E; [|reflexivity].
    apply existsb_exists in E. destruct E as [ws [Hin Hfail]].
    rewrite (Hclean ws Hin) in Hfail. discriminate Hfail. }
  rewrite Hnone in Hf. rewrite Hf. cbn [negb].
  assert (Hcache : Forall (fun item => forallb emittable (snd item) = true)
                     (question_list_cache self)).
  { apply Hok; [intros _; constructor | exact Hf]. }
  rewrite (write_sheets_all env _ Hcache).
  rewrite Hf, Hg, Hc, He. cbn [orb app Processor.errorsEncountered generated_files].
  fold documents. fold valid.
  destruct valid; cbn [negb]; rewrite <- !app_assoc; reflexivity.
Qed.

Lemma clean_run_witness :
  run example_environment example_config (Some [clean_sheet])
  = ([CreateQuestionList "demo_dd";
      WriteXml "demo.xml"
        (written (write_xml "demo_dd"
                    (fst (create_question_list (fun l => l) clean_sheet ExcelReader.init))));
      WriteManifest "Demo" "demo" "demo.sqlite" ["demo.xml"];
      CreateZipFile "demo.zip" ["demo.xml"; "survey_manifest.gistx"];
      WriteLogfile],
     Returned 0).
Proof.
  rewrite (clean_run_emits_every_sheet example_environment example_config [clean_sheet]).
  - reflexivity.
  - intros ws [<- | []]. vm_compute. reflexivity.
Defined.

End CleanRun.

(** ** The field that a skip tests *)

(** A sheet in which the skip of the second row tests the first row. *)
Lemma clean_sheet_skip_line :
  let s := snd (create_question_list (fun l => l) clean_sheet init) in
  nth_error (questionList s) 1 = Some (nth 1 (questionList s) Question.default)
  /\ In "preskip: if age < 5, skip to dob"
       (_split_lines (Question.skip (nth 1 (questionList s) Question.default)))
  /\ worksheetErrorsEncountered (snd (_check_skip_to_field_names "demo_dd" s)) = false.
Proof. vm_compute. split; [reflexivity | split; [left; reflexivity | reflexivity]]. Qed.

(** X21. Whenever the pass over the skips runs, for every skip line of
    four words or more of every question: a tested field that the index
    places after the question gets the "checks skip for a FieldName AFTER
    the current question" diagnostic, and a tested field that is no field
    name gets the "checks skip of a nonexistent FieldName" diagnostic.
    Hence, when the pass leaves the sheet free of errors, the field that
    a skip line tests is the name of a question, placed not after the
    position that the index gives the question bearing the skip. *)
Theorem skip_checked_field_must_not_come_after
    (worksheet : string) (s : Reader) (i : nat) (q : Question.t) (line : string) :
  nth_error (questionList s) i = Some q ->
  In line (_split_lines q.(Question.skip)) ->
  let index := field_index (questionList s) in
  let cur := q.(Question.fieldName) in
  let checked := skip_checked_field line in
  let after := snd (_check_skip_to_field_names worksheet s) in
  (4 <= List.length (skip_words line) ->
   (forall j, index checked = Some j -> item index cur < j ->
      In (skip_check_after_message worksheet cur checked) (logstring after))
   /\ (index checked = None ->
       In (skip_check_nonexistent_message worksheet cur checked) (logstring after)))
  /\ (worksheetErrorsEncountered after = false ->
      exists j q',
        index checked = Some j /\ j <= item index cur
        /\ nth_error (questionList s) j = Some q'
        /\ q'.(Question.fieldName) = checked).
Proof.
  intros Hi Hline index cur checked after.
  assert (Hq : In q (questionList s)) by (eapply nth_error_In; eassumption).
  assert (Hlog : forall msg,
             In msg (skip_line_diagnostics worksheet index cur line) ->
             In msg (logstring after)).
  { intros msg. apply skip_line_diagnostics_logged; assumption. }
  split.
  - intros Hwords.
    assert (Hlong : (List.length (skip_words line) <? 4) = false)
      by (apply Nat.ltb_ge; exact Hwords).
    assert (Hchecked : forall msg,
               In msg (skip_checked_diagnostics worksheet index cur line) ->
               In msg (logstring after)).
    { intros msg Hmsg. apply Hlog. unfold skip_line_diagnostics. rewrite Hlong.
      apply in_or_app. left. exact Hmsg. }
    split.
    + intros j Hj Hlt. apply Hchecked. unfold skip_checked_diagnostics.
      fold checked. rewrite Hj.
      apply Nat.ltb_lt in Hlt. rewrite Hlt. left; reflexivity.
    + intros Hnone. apply Hchecked. unfold skip_checked_diagnostics.
      fold checked. rewrite Hnone. left; reflexivity.
  - intros Hclean. subst after.
    rewrite check_skip_to_field_names_records in Hclean.
    cbn [snd add_errors worksheetErrorsEncountered] in Hclean.
    apply orb_false_iff in Hclean. destruct Hclean as [_ Hnone].
    assert (Hnil : skip_diagnostics worksheet (questionList s) = [])
      by (destruct (skip_diagnostics worksheet (questionList s)); [reflexivity | discriminate]).
    unfold skip_diagnostics in Hnil. rewrite flat_map_nil_iff in Hnil.
    specialize (Hnil q Hq). rewrite (split_lines_truthy _ _ Hline) in Hnil.
    cbn [negb] in Hnil. rewrite flat_map_nil_iff in Hnil.
    specialize (Hnil line Hline). fold index cur in Hnil.
    unfold skip_line_diagnostics in Hnil.
    destruct (List.length (skip_words line) <? 4) eqn:Hlen; [discriminate|].
    apply app_eq_nil in Hnil. destruct Hnil as [Hnil _].
    unfold skip_checked_diagnostics in Hnil. fold checked in Hnil.
    destruct (index checked) as [j|] eqn:Hj; [|discriminate].
    destruct (item index cur <? j) eqn:Hlt; [discriminate|].
    apply Nat.ltb_ge in Hlt.
    destruct (field_index_some _ _ _ Hj) as [q' [Hn Hname]].
    exists j, q'. repeat split; auto.
Qed.

Lemma skip_checked_field_witness :
  let s := snd (create_question_list (fun l => l) clean_sheet init) in
  exists j q',
    field_index (questionList s) "age" = Some j
    /\ j <= item (field_index (questionList s)) "sex"
    /\ nth_error (questionList s) j = Some q' /\ q'.(Question.fieldName) = "age".
Proof.
  intros s.
  destruct clean_sheet_skip_line as [Hi [Hline Hclean]]. fold s in Hi, Hline, Hclean.
  destruct (skip_checked_field_must_not_come_after "demo_dd" s 1
              (nth 1 (questionList s) Question.default)
              "preskip: if age < 5, skip to dob" Hi Hline) as [_ H].
  exact (H Hclean).
Defined.

(** ** The syntax check of a Skip cell stops at the first line it refuses *)

Lemma check_skip_syntax_line_one (worksheet fieldname skip : string) :
  post (_check_skip_syntax_line worksheet fieldname skip)
    (fun f l => (f = Next /\ l = []) \/ (f = Return /\ List.length l = 1)).
Proof.
  unfold _check_skip_syntax_line. cbv zeta.
  repeat (post_step; cbv beta); try (left; split; reflexivity);
    try (right; split; reflexivity).
Qed.

Lemma for_return_one {A : Type} (l : list A) (body : A -> M flow) :
  (forall x, post (body x)
               (fun f l' => (f = Next /\ l' = []) \/ (f = Return /\ List.length l' = 1))) ->
  post (for_return l body) (fun _ l' => List.length l' <= 1).
Proof.
  intros H. induction l as [|x l IH]; cbn [for_return].
  - apply post_pass. cbn. lia.
  - apply (post_seq _ _ _ _ (H x)). intros f l1 [[-> ->] | [-> Hl1]].
    + apply (post_weaken _ _ _ IH). intros _ l2 Hl2. exact Hl2.
    + apply post_pass. rewrite app_nil_r. lia.
Qed.

(** X22. [_check_skip_syntax] records one diagnostic at most for a Skip
    cell, however many of its lines are ill-formed: it returns at the
    first line that it refuses. *)
Theorem skip_syntax_check_records_once
    (worksheet skip_text fieldname : string) (s : Reader) :
  let after := snd (_check_skip_syntax worksheet skip_text fieldname s) in
  exists lines,
    logstring after = logstring s ++ lines
    /\ List.length lines <= 1
    /\ questionList after = questionList s.
Proof.
  cbv zeta.
  assert (H : post (_check_skip_syntax worksheet skip_text fieldname)
                (fun _ l => List.length l <= 1)).
  { unfold _check_skip_syntax. apply for_return_one.
    intros line. apply check_skip_syntax_line_one. }
  destruct H as [a [l [Hrun Hl]]]. exists l. rewrite Hrun.
  destruct s; cbn. auto.
Qed.

(** ** The ranges *)

(** Where a greedy run of a class ends. *)
Fixpoint run_end (p : ascii -> bool) (bef s : string) : Re.pos :=
  match s with
  | String a s' => if p a then run_end p (String a bef) s' else (bef, s)
  | EmptyString => (bef, s)
  end.

(** The characters of the class that a text begins with. *)
Fixpoint leading (p : ascii -> bool) (s : string) : string :=
  match s with
  | String a s' => if p a then String a (leading p s') else EmptyString
  | EmptyString => EmptyString
  end.

Lemma run_end_after (p : ascii -> bool) (s bef : string) :
  snd (run_end p bef s) = lstrip_by p s.
Proof.
  revert bef. induction s as [|a s IH]; intros bef; cbn [run_end lstrip_by];
    [reflexivity|].
  destruct (p a); [apply IH | reflexivity].
Qed.

(** A greedy run hands over where it ends and nowhere else, when what
    follows it in the pattern cannot begin with a character of the class. *)
Lemma star_greedy_commits (p : ascii -> bool) (k : Re.cont) :
  (forall bef a rest c, p a = true -> k (bef, String a rest) c = None) ->
  forall s bef c, Re.star_greedy p k bef s c = k (run_end p bef s) c.
Proof.
  intros Hk. induction s as [|a s IH]; intros bef c; cbn [Re.star_greedy run_end];
    [reflexivity|].
  destruct (p a) eqn:Ha; [|reflexivity].
  rewrite IH. destruct (k (run_end p (String a bef) s) c) eqn:E; [reflexivity|].
  apply Hk. exact Ha.
Qed.

Lemma eol_at_end (bef s : string) (c : Re.caps) :
  is_some (Re.run Re.Eol Re.accept_at_end (bef, s) c) = negb (truthy s).
Proof.
  destruct s as [|a [|b s]]; cbn [Re.run Re.after snd]; try reflexivity.
  destruct (Ascii.eqb a (ascii_of_nat 10)); reflexivity.
Qed.

(** r"[class]*" before the end of the pattern. *)
Lemma star_greedy_to_end (p : ascii -> bool) (k : Re.cont) :
  (forall bef s c, is_some (k (bef, s) c) = negb (truthy s)) ->
  forall s bef c, is_some (Re.star_greedy p k bef s c) = all_char p s.
Proof.
  intros Hk. induction s as [|a s IH]; intros bef c; cbn [Re.star_greedy all_char].
  - apply Hk.
  - destruct (p a); cbn [andb]; [|apply Hk].
    rewrite <- (IH (String a bef) c).
    destruct (Re.star_greedy p k (String a bef) s c); [reflexivity | apply Hk].
Qed.

Lemma leading_lstrip (p : ascii -> bool) (s : string) :
  s = String.append (leading p s) (lstrip_by p s).
Proof.
  induction s as [|a s IH]; cbn [leading lstrip_by]; [reflexivity|].
  destruct (p a); cbn [String.append]; [f_equal; exact IH | reflexivity].
Qed.

Lemma all_char_leading (p : ascii -> bool) (s : string) : all_char p (leading p s) = true.
Proof.
  induction s as [|a s IH]; cbn [leading]; [reflexivity|].
  destruct (p a) eqn:E; [|reflexivity]. cbn [all_char]. rewrite E, IH. reflexivity.
Qed.

Lemma leading_nonempty (p : ascii -> bool) (s : string) :
  Re.first_is p s = true -> leading p s <> "".
Proof.
  destruct s as [|a s]; cbn [Re.first_is leading]; [discriminate|].
  intros ->. discriminate.
Qed.

Lemma lstrip_by_app (p : ascii -> bool) (w rest : string) :
  all_char p w = true -> Re.first_is p rest = false ->
  lstrip_by p (String.append w rest) = rest.
Proof.
  intros Hw Hrest. induction w as [|a w IH]; cbn [String.append].
  - destruct rest as [|b rest]; [reflexivity|].
    cbn [Re.first_is] in Hrest. cbn [lstrip_by]. rewrite Hrest. reflexivity.
  - cbn [all_char] in Hw. apply andb_true_iff in Hw. destruct Hw as [Ha Hw].
    cbn [lstrip_by]. rewrite Ha. exact (IH Hw).
Qed.

Lemma first_is_app (p : ascii -> bool) (w rest : string) :
  w <> "" -> all_char p w = true -> Re.first_is p (String.append w rest) = true.
Proof.
  destruct w as [|a w]; [intros H; destruct H; reflexivity|].
  intros _ H. cbn [all_char] in H. apply andb_true_iff in H. exact (proj1 H).
Qed.

(** *** Numbers *)

(** What may follow the whole part of a number: nothing, or a point and
    one decimal digit or more. *)
Definition decimal_tail (rest : string) : bool :=
  match rest with
  | EmptyString => true
  | String c frac => Ascii.eqb c "." && truthy frac && all_char isdecimal frac
  end.

Lemma digit_not_point (a : ascii) : Re.digit a = true -> Ascii.eqb "." a = false.
Proof.
  intros H. destruct (Ascii.eqb_spec "." a) as [<- | _]; [discriminate H | reflexivity].
Qed.

Lemma fullmatch_is_some (r : Re.re) (s : string) :
  Re.fullmatch r s = is_some (Re.run r Re.accept_at_end ("", s) []).
Proof. reflexivity. Qed.

Lemma run_seq (r1 r2 : Re.re) (k : Re.cont) (x : Re.pos) (c : Re.caps) :
  Re.run (Re.Seq r1 r2) k x c = Re.run r1 (Re.run r2 k) x c.
Proof. reflexivity. Qed.

Lemma run_bol (k : Re.cont) (s : string) (c : Re.caps) :
  Re.run Re.Bol k ("", s) c = k ("", s) c.
Proof. reflexivity. Qed.

Lemma run_opt (r : Re.re) (k : Re.cont) (x : Re.pos) (c : Re.caps) :
  Re.run (Re.Opt r) k x c
  = match Re.run r k x c with Some res => Some res | None => k x c end.
Proof. reflexivity. Qed.

Lemma run_grp (n : nat) (r : Re.re) (k : Re.cont) (x : Re.pos) (c : Re.caps) :
  Re.run (Re.Grp n r) k x c
  = Re.run r
      (fun y c' =>
         k y ((n, take (String.length (Re.after x) - String.length (Re.after y))
                    (Re.after x)) :: c'))
      x c.
Proof. reflexivity. Qed.

Lemma run_cls (p : ascii -> bool) (k : Re.cont) (bef s : string) (c : Re.caps) :
  Re.run (Re.Cls p) k (bef, s) c
  = match s with
    | String a s' => if p a then k (String a bef, s') c else None
    | EmptyString => None
    end.
Proof. reflexivity. Qed.

Lemma run_plus (p : ascii -> bool) (k : Re.cont) (bef s : string) (c : Re.caps) :
  Re.run (Re.Plus p) k (bef, s) c
  = match s with
    | String a s' => if p a then Re.star_greedy p k (String a bef) s' c else None
    | EmptyString => None
    end.
Proof. reflexivity. Qed.

Lemma run_lit1 (ch : ascii) (k : Re.cont) (bef s : string) (c : Re.caps) :
  Re.run (Re.Lit (String ch "")) k (bef, s) c
  = match s with
    | String a s' => if Ascii.eqb ch a then k (String a bef, s') c else None
    | EmptyString => None
    end.
Proof.
  cbn [Re.run Re.before Re.after fst snd String.length].
  destruct s as [|a s]; [reflexivity|].
  rewrite prefix_cons, prefix_empty, andb_true_r.
  destruct (Ascii.eqb ch a); reflexivity.
Qed.

Lemma run_fraction (bef rest : string) (c : Re.caps) :
  is_some (Re.run (Re.Opt (Re.Grp 1 (Re.Seq (Re.Lit ".") (Re.Plus Re.digit))))
             (Re.run Re.Eol Re.accept_at_end) (bef, rest) c)
  = decimal_tail rest.
Proof.
  set (K := Re.run Re.Eol Re.accept_at_end).
  assert (HK : forall b s0 x, is_some (K (b, s0) x) = negb (truthy s0))
    by (intros; apply eol_at_end).
  rewrite run_opt, run_grp, run_seq, run_lit1.
  destruct rest as [|a frac]; [apply HK|].
  cbn [decimal_tail]. rewrite (Ascii.eqb_sym a ".").
  destruct (Ascii.eqb "." a) eqn:Ea; cbn [andb]; [|apply HK].
  rewrite run_plus.
  destruct frac as [|d frac]; [apply HK|].
  cbn [truthy all_char andb]. unfold Re.digit at 1.
  destruct (isdecimal d); cbn [andb]; [|apply HK].
  match goal with
  | |- context [Re.star_greedy ?p ?k ?b ?s ?x] =>
      pose proof (star_greedy_to_end p k (fun b' s' c' => HK b' s' _) s b x) as H;
      destruct (Re.star_greedy p k b s x)
  end.
  - exact H.
  - rewrite HK. exact H.
Qed.

(** r"^\d+(\.\d+)?$" matches one decimal digit or more, followed by
    nothing or by a point and one decimal digit or more. *)
Lemma fullmatch_decimal (s : string) :
  Re.fullmatch DECIMAL_RE s
  = Re.first_is Re.digit s && decimal_tail (lstrip_by Re.digit s).
Proof.
  rewrite fullmatch_is_some. unfold DECIMAL_RE. cbn [Re.seq].
  rewrite run_seq, run_bol, run_seq, run_plus.
  set (tail := Re.Opt (Re.Grp 1 (Re.Seq (Re.Lit ".") (Re.Plus Re.digit)))).
  change (Re.run (Re.Seq tail Re.Eol) Re.accept_at_end)
    with (Re.run tail (Re.run Re.Eol Re.accept_at_end)).
  destruct s as [|a s]; [reflexivity|].
  cbn [Re.first_is lstrip_by].
  destruct (Re.digit a) eqn:Ha; [|reflexivity]. cbn [andb].
  rewrite star_greedy_commits.
  - rewrite <- (run_end_after Re.digit s (String a "")).
    destruct (run_end Re.digit (String a "") s) as [bef rest]. cbn [snd].
    apply run_fraction.
  - intros bef d rest c Hd.
    pose proof (run_fraction bef (String d rest) c) as H. fold tail in H.
    cbn [decimal_tail] in H. rewrite (Ascii.eqb_sym d "."), (digit_not_point d Hd) in H.
    cbn [andb] in H. destruct (Re.run tail _ _ c); [discriminate H | reflexivity].
Qed.

(** The numbers that [_check_numeric_range] accepts: a whole part of one
    decimal digit or more, followed by nothing or by a point and a
    fraction of one decimal digit or more. *)
Definition is_number (value : string) : Prop :=
  exists whole rest,
    value = String.append whole rest
    /\ whole <> "" /\ all_char isdecimal whole = true
    /\ (rest = ""
        \/ exists frac,
             rest = String "." frac
             /\ frac <> "" /\ all_char isdecimal frac = true).

Lemma fullmatch_decimal_number (value : string) :
  Re.fullmatch DECIMAL_RE value = true <-> is_number value.
Proof.
  rewrite fullmatch_decimal, andb_true_iff. unfold is_number. split.
  - intros [Hfirst Htail].
    exists (leading Re.digit value), (lstrip_by Re.digit value).
    split; [apply leading_lstrip|].
    split; [apply leading_nonempty; exact Hfirst|].
    split; [apply (all_char_leading Re.digit)|].
    destruct (lstrip_by Re.digit value) as [|c frac]; [left; reflexivity|].
    right. cbn [decimal_tail] in Htail.
    apply andb_true_iff in Htail. destruct Htail as [Htail Hd].
    apply andb_true_iff in Htail. destruct Htail as [Hc Hne].
    apply Ascii.eqb_eq in Hc. subst c. exists frac.
    split; [reflexivity|]. split; [|exact Hd].
    intros E. rewrite E in Hne. discriminate Hne.
  - intros [whole [rest [-> [Hne [Hd Hrest]]]]].
    assert (Hstop : Re.first_is Re.digit rest = false)
      by (destruct Hrest as [-> | [frac [-> _]]]; reflexivity).
    split; [apply first_is_app; assumption|].
    rewrite (lstrip_by_app Re.digit whole rest Hd Hstop).
    destruct Hrest as [-> | [frac [-> [Hf Hdf]]]]; [reflexivity|].
    cbn [decimal_tail]. rewrite Hdf.
    destruct frac; [destruct Hf; reflexivity | reflexivity].
Qed.

(** X23. [_check_numeric_range] records nothing exactly when the value
    is a whole part of one decimal digit or more, followed by nothing or
    by a point and a fraction of one decimal digit or more: no sign, no
    exponent, no space, no point at either end. *)
Theorem numeric_range_accepted_exactly
    (worksheet value fieldname range_name : string) (s : Reader) :
  snd (_check_numeric_range worksheet value fieldname range_name s) = s
  <-> is_number value.
Proof.
  rewrite <- fullmatch_decimal_number. unfold _check_numeric_range.
  destruct (Re.fullmatch DECIMAL_RE value); cbn [negb when].
  - split; reflexivity.
  - split; [intros H; destruct (error_changes _ _ H) | discriminate].
Qed.

(** *** Dates *)

Lemma one_of_In (s : string) (c : ascii) :
  one_of s c = true <-> In c (list_ascii_of_string s).
Proof.
  unfold one_of. induction s as [|a s IH]; cbn [any_char list_ascii_of_string In].
  - split; [discriminate | intros []].
  - rewrite orb_true_iff, IH, Ascii.eqb_eq. split; intros [H | H]; auto.
Qed.

Lemma digit_not_unit (a : ascii) : Re.digit a = true -> one_of "dwmy" a = false.
Proof.
  intros H. destruct (one_of "dwmy" a) eqn:E; [|reflexivity].
  apply one_of_In in E. cbn [list_ascii_of_string In] in E.
  destruct E as [<- | [<- | [<- | [<- | []]]]]; discriminate H.
Qed.

(** What follows the digits of an offset: one letter of unit. *)
Definition offset_tail (rest : string) : bool :=
  match rest with
  | String u EmptyString => one_of "dwmy" u
  | _ => false
  end.

Lemma run_unit (bef rest : string) (c : Re.caps) :
  is_some (Re.run (Re.Seq (Re.Grp 3 (Re.Cls (one_of "dwmy"))) Re.Eol)
             Re.accept_at_end (bef, rest) c)
  = offset_tail rest.
Proof.
  rewrite run_seq, run_grp, run_cls.
  destruct rest as [|u t]; [reflexivity|]. cbn [offset_tail].
  destruct (one_of "dwmy" u); [|destruct t; reflexivity].
  rewrite eol_at_end. destruct t; reflexivity.
Qed.

(** r"^([+-])(\d+)([dwmy])$" matches a sign, one decimal digit or more
    and a letter of unit. *)
Lemma fullmatch_date_range (s : string) :
  Re.fullmatch DATE_RANGE_RE s
  = match s with
    | String sign r =>
        one_of "+-" sign && Re.first_is Re.digit r
        && offset_tail (lstrip_by Re.digit r)
    | EmptyString => false
    end.
Proof.
  rewrite fullmatch_is_some. unfold DATE_RANGE_RE. cbn [Re.seq].
  rewrite run_seq, run_bol, run_seq, run_grp, run_cls.
  destruct s as [|sign r]; [reflexivity|].
  destruct (one_of "+-" sign); [|reflexivity]. cbn [andb].
  rewrite run_seq, run_grp, run_plus.
  destruct r as [|d r]; [reflexivity|]. cbn [Re.first_is lstrip_by].
  destruct (Re.digit d); [|reflexivity]. cbn [andb].
  rewrite star_greedy_commits.
  - rewrite <- (run_end_after Re.digit r (String d (String sign ""))).
    destruct (run_end Re.digit (String d (String sign "")) r) as [bef rest].
    cbn [snd]. apply run_unit.
  - intros bef a rest c Ha.
    match goal with
    | |- Re.run ?r ?k (bef, String a rest) ?x = None =>
        pose proof (run_unit bef (String a rest) x) as H;
        destruct (Re.run r k (bef, String a rest) x)
    end; [|reflexivity].
    cbn [offset_tail is_some] in H. rewrite (digit_not_unit a Ha) in H.
    destruct rest; discriminate H.
Qed.

(** [all(p(c) for p, c in zip(classes, s))] for a [s] as long as [classes]. *)
Fixpoint matches_classes (classes : list (ascii -> bool)) (s : string) : bool :=
  match classes, s with
  | [], EmptyString => true
  | p :: classes', String a s' => p a && matches_classes classes' s'
  | _, _ => false
  end.

Lemma seq_cons_snoc (r e : Re.re) (rs : list Re.re) :
  Re.seq (r :: rs ++ [e]) = Re.Seq r (Re.seq (rs ++ [e])).
Proof. destruct rs; reflexivity. Qed.

(** A pattern of one-character items and the end. *)
Lemma run_one_character_items (rs : list Re.re) (classes : list (ascii -> bool)) :
  Forall2
    (fun (r : Re.re) (p : ascii -> bool) =>
       forall (k : Re.cont) (bef s : string) (c : Re.caps),
         Re.run r k (bef, s) c
         = match s with
           | String a s' => if p a then k (String a bef, s') c else None
           | EmptyString => None
           end)
    rs classes ->
  forall bef s c,
    is_some (Re.run (Re.seq (rs ++ [Re.Eol])) Re.accept_at_end (bef, s) c)
    = matches_classes classes s.
Proof.
  induction 1 as [|r p rs classes Hr Hrest IH]; intros bef s c.
  - cbn [app Re.seq]. rewrite eol_at_end. destruct s; reflexivity.
  - cbn [app]. rewrite seq_cons_snoc, run_seq, Hr.
    destruct s as [|a s]; [reflexivity|]. cbn [matches_classes].
    destruct (p a); [apply IH | reflexivity].
Qed.

Definition calendar_classes : list (ascii -> bool) :=
  [Re.digit; Re.digit; Re.digit; Re.digit; Ascii.eqb "-";
   Re.digit; Re.digit; Ascii.eqb "-"; Re.digit; Re.digit].

(** r"^\d{4}-\d{2}-\d{2}$" *)
Lemma fullmatch_hardcoded_date (s : string) :
  Re.fullmatch HARDCODED_DATE_RE s = matches_classes calendar_classes s.
Proof.
  rewrite fullmatch_is_some. unfold HARDCODED_DATE_RE.
  change (Re.seq [Re.Bol; Re.Cls Re.digit; Re.Cls Re.digit; Re.Cls Re.digit;
                  Re.Cls Re.digit; Re.Lit "-"; Re.Cls Re.digit; Re.Cls Re.digit;
                  Re.Lit "-"; Re.Cls Re.digit; Re.Cls Re.digit; Re.Eol])
    with (Re.Seq Re.Bol
            (Re.seq ([Re.Cls Re.digit; Re.Cls Re.digit; Re.Cls Re.digit;
                      Re.Cls Re.digit; Re.Lit "-"; Re.Cls Re.digit; Re.Cls Re.digit;
                      Re.Lit "-"; Re.Cls Re.digit; Re.Cls Re.digit] ++ [Re.Eol]))).
  rewrite run_seq, run_bol.
  apply run_one_character_items. unfold calendar_classes.
  repeat constructor; intros; first [apply run_cls | apply run_lit1].
Qed.

(** The values that [_check_date_range] accepts besides 0. *)
Definition is_offset (value : string) : Prop :=
  exists sign digits unit,
    value = String sign (String.append digits (String unit ""))
    /\ In sign ["+"; "-"]%char
    /\ digits <> "" /\ all_char isdecimal digits = true
    /\ In unit ["d"; "w"; "m"; "y"]%char.

Definition is_calendar_date (value : string) : Prop :=
  exists y m d,
    value = String.append y (String "-" (String.append m (String "-" d)))
    /\ String.length y = 4 /\ String.length m = 2 /\ String.length d = 2
    /\ all_char isdecimal y = true /\ all_char isdecimal m = true
    /\ all_char isdecimal d = true
    /\ (1 <= int y)%N /\ (1 <= int m <= 12)%N
    /\ (1 <= int d <= days_in_month (int y) (int m))%N.

Lemma fullmatch_date_range_offset (value : string) :
  Re.fullmatch DATE_RANGE_RE value = true <-> is_offset value.
Proof.
  rewrite fullmatch_date_range. unfold is_offset. split.
  - destruct value as [|sign r]; [discriminate|].
    rewrite !andb_true_iff. intros [[Hs Hfirst] Htail].
    destruct (lstrip_by Re.digit r) as [|u [|? ?]] eqn:E; try discriminate Htail.
    cbn [offset_tail] in Htail.
    exists sign, (leading Re.digit r), u.
    split; [f_equal; rewrite <- E; apply leading_lstrip|].
    split; [apply (one_of_In "+-"); exact Hs|].
    split; [apply leading_nonempty; exact Hfirst|].
    split; [apply (all_char_leading Re.digit)|].
    apply (one_of_In "dwmy"). exact Htail.
  - intros [sign [digits [unit [-> [Hs [Hne [Hd Hu]]]]]]].
    apply (one_of_In "+-") in Hs. apply (one_of_In "dwmy") in Hu.
    assert (Hstop : Re.first_is Re.digit (String unit "") = false).
    { cbn [Re.first_is]. destruct (Re.digit unit) eqn:E; [|reflexivity].
      rewrite (digit_not_unit unit E) in Hu. discriminate Hu. }
    rewrite Hs, (first_is_app Re.digit digits _ Hne Hd).
    rewrite (lstrip_by_app Re.digit digits _ Hd Hstop).
    cbn [andb offset_tail]. exact Hu.
Qed.

Lemma calendar_date_accepted (value : string) :
  Re.fullmatch HARDCODED_DATE_RE value && strptime_ymd value = true
  <-> is_calendar_date value.
Proof.
  rewrite fullmatch_hardcoded_date, andb_true_iff. unfold is_calendar_date. split.
  - intros [Hshape Hdate].
    destruct value as [|y1 [|y2 [|y3 [|y4 [|h1 [|m1 [|m2 [|h2 [|d1 [|d2 [|? ?]]]]]]]]]]];
      unfold calendar_classes in Hshape; cbn [matches_classes] in Hshape;
      repeat match type of Hshape with
             | _ && _ = true =>
                 let H := fresh "Hc" in
                 apply andb_true_iff in Hshape; destruct Hshape as [H Hshape]
             end;
      try discriminate Hshape.
    repeat match goal with
           | H : Ascii.eqb "-" _ = true |- _ => apply Ascii.eqb_eq in H; subst
           end.
    unfold strptime_ymd in Hdate. cbv zeta in Hdate.
    cbn [slice Nat.sub drop take] in Hdate.
    rewrite !andb_true_iff, !N.leb_le in Hdate.
    destruct Hdate as [[[[Hy Hm1] Hm2] Hd1] Hd2].
    exists (String y1 (String y2 (String y3 (String y4 "")))),
           (String m1 (String m2 "")), (String d1 (String d2 "")).
    unfold Re.digit in *. cbn [String.append String.length all_char].
    repeat match goal with H : isdecimal _ = true |- _ => rewrite H; clear H end.
    repeat split; auto.
  - intros [y [m [d [-> [Ly [Lm [Ld [Hy [Hm [Hd [Hy1 [Hm1 [Hd1 Hd2]]]]]]]]]]]]].
    destruct y as [|y1 [|y2 [|y3 [|y4 [|? ?]]]]]; try discriminate Ly.
    destruct m as [|m1 [|m2 [|? ?]]]; try discriminate Lm.
    destruct d as [|d1 [|d2 [|? ?]]]; try discriminate Ld.
    cbn [all_char] in Hy, Hm, Hd.
    repeat match goal with
           | H : _ && _ = true |- _ => apply andb_true_iff in H; destruct H
           end.
    split.
    + unfold calendar_classes, Re.digit. cbn [String.append matches_classes].
      repeat match goal with H : isdecimal _ = true |- _ => rewrite H; clear H end.
      reflexivity.
    + unfold strptime_ymd. cbv zeta. cbn [String.append slice Nat.sub drop take].
      rewrite !andb_true_iff, !N.leb_le. repeat split; tauto.
Qed.

Definition is_date_value (value : string) : Prop :=
  In value ["0"; "+0d"; "-0d"] \/ is_offset value \/ is_calendar_date value.

Lemma date_value_accepted (value : string) :
  mem value ["0"; "+0d"; "-0d"]
  || Re.fullmatch DATE_RANGE_RE value
  || (Re.fullmatch HARDCODED_DATE_RE value && strptime_ymd value) = true
  <-> is_date_value value.
Proof.
  unfold is_date_value.
  rewrite !orb_true_iff, mem_true_iff, fullmatch_date_range_offset,
    calendar_date_accepted.
  tauto.
Qed.

Lemma unset_is_no_date_value : ~ is_date_value "-9".
Proof. rewrite <- date_value_accepted. vm_compute. discriminate. Qed.

(** X24. [_check_date_range] records nothing exactly when the value is 0,
    +0d or -0d, or an offset (a sign, one decimal digit or more and one of
    the letters d, w, m, y), or a date of the calendar written yyyy-mm-dd
    with a year from 1, a month from 1 to 12 and a day of that month. *)
Theorem date_range_accepted_exactly
    (worksheet value fieldname range_name : string) (s : Reader) :
  snd (_check_date_range worksheet value fieldname range_name s) = s
  <-> is_date_value value.
Proof.
  unfold _check_date_range.
  destruct (String.eqb_spec value "-9") as [-> | _].
  - split; [intros H; destruct (error_changes _ _ H)|].
    intros H. destruct (unset_is_no_date_value H).
  - rewrite <- date_value_accepted.
    destruct (mem value ["0"; "+0d"; "-0d"]); [split; reflexivity|].
    destruct (Re.fullmatch DATE_RANGE_RE value); [split; reflexivity|].
    destruct (Re.fullmatch HARDCODED_DATE_RE value); cbn [andb orb].
    + destruct (strptime_ymd value); [split; reflexivity|].
      split; [intros H; destruct (error_changes _ _ H) | discriminate].
    + split; [intros H; destruct (error_changes _ _ H) | discriminate].
Qed.

(** ** What the reader has checked of the columns of a question *)

Definition text_ok (qtype text : string) : Prop := text <> "" \/ qtype = "automatic".

Definition max_chars_ok (max_chars : string) : Prop :=
  max_chars = "-9" \/ accepted_max_chars max_chars = true.

Definition types_ok (qtype ftype : string) : Prop :=
  In qtype VALID_QUESTION_TYPES
  /\ In ftype VALID_FIELD_TYPES
  /\ (qtype = "radio" -> ftype = "integer")
  /\ (qtype = "checkbox" -> ftype = "text")
  /\ (qtype = "date" -> In ftype ["date"; "datetime"]).

Definition ranges_ok (qtype lower upper : string) : Prop :=
  (qtype = "date" -> is_date_value lower /\ is_date_value upper)
  /\ (qtype <> "date" ->
      (lower = "-9" \/ is_number lower) /\ (upper = "-9" \/ is_number upper)).

Definition button_ok (value : string) : Prop := In value ["-9"; "True"; "False"].

Definition valid_columns (q : Question.t) : Prop :=
  text_ok q.(Question.questionType) q.(Question.questionText)
  /\ max_chars_ok q.(Question.maxCharacters)
  /\ types_ok q.(Question.questionType) q.(Question.fieldType)
  /\ ranges_ok q.(Question.questionType) q.(Question.lowerRange) q.(Question.upperRange)
  /\ button_ok q.(Question.dontKnow)
  /\ button_ok q.(Question.refuse)
  /\ button_ok q.(Question.na).

(** [guards m P]: the method [m] reads nothing of the reader, and [P]
    holds when it logs no diagnostic. *)
Definition guards {A : Type} (m : M A) (P : Prop) : Prop :=
  post m (fun _ l => has_error l = false -> P).

Lemma guards_plain {A : Type} (m : M A) : plain m -> guards m True.
Proof. intros H. apply (post_weaken _ _ _ H). auto. Qed.

Lemma guards_weaken {A : Type} (m : M A) (P Q : Prop) :
  guards m P -> (P -> Q) -> guards m Q.
Proof. intros H HPQ. apply (post_weaken _ _ _ H). auto. Qed.

Lemma guards_error_when (b : bool) (msg : string) :
  is_error_line msg = true -> guards (when b (_error msg)) (b = false).
Proof.
  intros Hmsg. apply post_when; intros Hb; [|intros _; exact Hb].
  apply post_error; [exact Hmsg|].
  intros E. rewrite (has_error_one msg [] Hmsg) in E. discriminate E.
Qed.

Lemma guards_when (b : bool) (m : M unit) (P : Prop) :
  guards m P -> guards (when b m) (b = false \/ P).
Proof.
  intros H. apply post_when; intros Hb; [|intros _; left; exact Hb].
  apply (post_weaken _ _ _ H). auto.
Qed.

Lemma guards_seq {A : Type} (m : M unit) (k : M A) (P Q : Prop) :
  guards m P -> guards k Q -> guards (m ;; k) (P /\ Q).
Proof.
  intros Hm Hk. apply (post_seq _ _ _ _ Hm). intros _ l1 H1.
  apply (post_weaken _ _ _ Hk). intros _ l2 H2 E.
  apply has_error_app_false in E. destruct E as [E1 E2]. auto.
Qed.

Lemma check_max_chars_value_guards (worksheet max_chars fieldname : string) :
  post (_check_max_chars_value worksheet max_chars fieldname)
    (fun o l => has_error l = false -> o = Returns ->
                accepted_max_chars max_chars = true).
Proof.
  unfold _check_max_chars_value, accepted_max_chars. cbv zeta.
  set (numeric := if startswith max_chars "=" then drop 1 max_chars else max_chars).
  rewrite fullmatch_numeric_only.
  destruct (truthy numeric && all_char isdecimal numeric); cbn [negb andb];
    [|apply post_bind, post_error; [reflexivity|]; apply post_ret; error_logged].
  destruct (int_raises numeric); cbn [negb andb];
    [apply post_ret; intros _ H; discriminate H|].
  rewrite N.ltb_antisym, (N.ltb_antisym (int numeric) 2000).
  destruct (1 <=? int numeric)%N, (int numeric <=? 2000)%N; cbn [negb orb andb];
    first [apply post_ret; reflexivity
          | apply post_bind, post_error; [reflexivity|]; apply post_ret; error_logged].
Qed.

Lemma check_numeric_range_guards (worksheet value fieldname range_name : string) :
  guards (_check_numeric_range worksheet value fieldname range_name) (is_number value).
Proof.
  unfold _check_numeric_range.
  eapply guards_weaken; [apply guards_error_when; reflexivity|].
  intros H. apply negb_false_iff in H. apply fullmatch_decimal_number. exact H.
Qed.

Lemma check_date_range_guards (worksheet value fieldname range_name : string) :
  guards (_check_date_range worksheet value fieldname range_name) (is_date_value value).
Proof.
  apply (guards_weaken _
           (mem value ["0"; "+0d"; "-0d"]
            || Re.fullmatch DATE_RANGE_RE value
            || (Re.fullmatch HARDCODED_DATE_RE value && strptime_ymd value) = true));
    [|apply date_value_accepted].
  unfold guards, _check_date_range.
  destruct (String.eqb value "-9"); [apply post_error; [reflexivity | error_logged]|].
  destruct (mem value ["0"; "+0d"; "-0d"]); [apply post_pass; reflexivity|].
  destruct (Re.fullmatch DATE_RANGE_RE value); [apply post_pass; reflexivity|].
  destruct (Re.fullmatch HARDCODED_DATE_RE value);
    [|apply post_error; [reflexivity | error_logged]].
  destruct (strptime_ymd value); [apply post_pass; reflexivity|].
  apply post_error; [reflexivity | error_logged].
Qed.

Lemma check_special_button_guards (worksheet value fieldname button_name : string) :
  guards (_check_special_button worksheet value fieldname button_name)
    (In value ["True"; "False"]).
Proof.
  unfold _check_special_button.
  eapply guards_weaken; [apply guards_error_when; reflexivity|].
  intros H. apply negb_false_iff in H. apply mem_true_iff. exact H.
Qed.

Lemma button_guards (worksheet value fieldname button_name : string) :
  guards (when (negb (String.eqb value "-9"))
            (_check_special_button worksheet value fieldname button_name))
    (button_ok value).
Proof.
  apply (guards_weaken _ _ _ (guards_when _ _ _ (check_special_button_guards _ _ _ _))).
  unfold button_ok. intros [H | [H | [H | []]]].
  - apply negb_false_iff, String.eqb_eq in H. left. auto.
  - right. left. exact H.
  - right. right. left. exact H.
Qed.

Lemma max_chars_guards (worksheet max_chars fieldname : string) :
  post (if negb (String.eqb max_chars "-9")
        then _check_max_chars_value worksheet max_chars fieldname
        else ret Returns)
    (fun o l => has_error l = false -> o = Returns -> max_chars_ok max_chars).
Proof.
  unfold max_chars_ok.
  destruct (String.eqb_spec max_chars "-9") as [E | _]; cbn [negb].
  - apply post_ret. intros _ _. left. exact E.
  - apply (post_weaken _ _ _ (check_max_chars_value_guards _ _ _)).
    intros o l H E1 E2. right. exact (H E1 E2).
Qed.

Lemma text_guards (qtype text msg : string) :
  is_error_line msg = true ->
  guards (when (String.eqb text "" && negb (String.eqb qtype "automatic")) (_error msg))
    (text_ok qtype text).
Proof.
  intros Hmsg. apply (guards_weaken _ _ _ (guards_error_when _ _ Hmsg)).
  unfold text_ok. intros H.
  destruct (String.eqb_spec text ""); [|left; assumption].
  destruct (String.eqb_spec qtype "automatic"); [right; assumption | discriminate H].
Qed.

Lemma ranges_guards (worksheet qtype lower upper fieldname : string) :
  guards
    (if String.eqb qtype "date" then
       _check_date_range worksheet lower fieldname "LowerRange" ;;
       _check_date_range worksheet upper fieldname "UpperRange"
     else
       when (negb (String.eqb lower "-9"))
         (_check_numeric_range worksheet lower fieldname "LowerRange") ;;
       when (negb (String.eqb upper "-9"))
         (_check_numeric_range worksheet upper fieldname "UpperRange"))
    (ranges_ok qtype lower upper).
Proof.
  unfold ranges_ok. destruct (String.eqb_spec qtype "date") as [Hd | Hd].
  - apply (guards_weaken _ _ _
             (guards_seq _ _ _ _ (check_date_range_guards _ _ _ _)
                (check_date_range_guards _ _ _ _))).
    intros H. split; [intros _; exact H | intros Hn; destruct (Hn Hd)].
  - apply (guards_weaken _ _ _
             (guards_seq _ _ _ _
                (guards_when _ _ _ (check_numeric_range_guards _ _ _ _))
                (guards_when _ _ _ (check_numeric_range_guards _ _ _ _)))).
    intros [Hl Hu]. split; [intros E; destruct (Hd E) | intros _].
    split; [destruct Hl as [Hl | Hl] | destruct Hu as [Hu | Hu]];
      first [right; assumption | left; apply negb_false_iff, String.eqb_eq in Hl; exact Hl
             | left; apply negb_false_iff, String.eqb_eq in Hu; exact Hu].
Qed.

Lemma pair_rule (x a y b : string) :
  String.eqb x a && negb (String.eqb y b) = false -> x = a -> y = b.
Proof.
  intros H ->. rewrite String.eqb_refl in H. cbn [andb] in H.
  apply negb_false_iff, String.eqb_eq in H. exact H.
Qed.

Lemma check_question_field_type_guards (q : Question.t) (worksheet : string) :
  guards (_check_question_field_type q worksheet)
    (types_ok q.(Question.questionType) q.(Question.fieldType)).
Proof.
  unfold _check_question_field_type. cbv zeta.
  eapply guards_weaken.
  - apply guards_seq; [apply guards_error_when; reflexivity|].
    apply guards_seq; [apply guards_error_when; reflexivity|].
    apply guards_seq; [apply guards_error_when; reflexivity|].
    apply guards_seq; [apply guards_error_when; reflexivity|].
    apply guards_seq; [apply guards_error_when; reflexivity|].
    apply guards_plain. apply plain_when. apply plain_static_responses_loop.
  - intros [H1 [H2 [H3 [H4 [H5 _]]]]]. unfold types_ok.
    apply negb_false_iff, mem_true_iff in H1.
    apply negb_false_iff, mem_true_iff in H2.
    split; [exact H1|]. split; [exact H2|].
    split; [apply (pair_rule _ _ _ _ H3)|].
    split; [apply (pair_rule _ _ _ _ H4)|].
    intros E. rewrite E in H5. cbn [String.eqb Ascii.eqb Bool.eqb andb] in H5.
    apply negb_false_iff, mem_true_iff in H5. exact H5.
Qed.

Definition row_valid (qs : list Question.t) (l : list string) : Prop :=
  has_error l = false -> Forall valid_columns qs.

Lemma yields_guarded {A : Type} (m : M A) (f : A -> M unit) (P : Prop)
    (Q : list Question.t -> list string -> Prop) :
  guards m P ->
  (forall a l1, (has_error l1 = false -> P) ->
     yields (f a) (fun qs l2 => Q qs (l1 ++ l2))) ->
  yields (bind m f) Q.
Proof. intros Hm Hf. apply (yields_after _ _ _ _ Hm). exact Hf. Qed.

Lemma valid_columns_last (dk rf na sk : string) (q : Question.t) :
  text_ok q.(Question.questionType) q.(Question.questionText) ->
  max_chars_ok q.(Question.maxCharacters) ->
  types_ok q.(Question.questionType) q.(Question.fieldType) ->
  ranges_ok q.(Question.questionType) q.(Question.lowerRange) q.(Question.upperRange) ->
  button_ok dk -> button_ok rf -> button_ok na ->
  valid_columns
    (Question.set_skip sk
       (Question.set_na na (Question.set_refuse rf (Question.set_dontKnow dk q)))).
Proof. intros. unfold valid_columns. cbn. tauto. Qed.

Lemma process_row_valid (worksheet : Worksheet) (row_idx : nat) :
  yields (process_row worksheet row_idx) row_valid.
Proof.
  unfold process_row, row_valid. cbv zeta.
  destruct (row_idx =? 1).
  { apply yields_post. apply post_plain; [plain_auto|]. intros _ l _. constructor. }
  destruct (_is_cell_merged _ _ _).
  { apply yields_post. apply post_pass. intros _. constructor. }
  cbn [Question.fieldName Question.set_fieldName].
  destruct (truthy (_get_cell_trim worksheet row_idx 1)) eqn:Hname; cbn [negb].
  2:{ apply yields_post. apply post_error; [reflexivity|]. intros _. constructor. }
  (* the name *)
  apply yields_after_plain; [plain_auto|]. intros _ l1.
  (* the question text *)
  eapply yields_guarded; [apply text_guards; reflexivity|]. intros _ l2 Hl2.
  (* the maximum of characters *)
  apply (yields_after _ _ _ _ (max_chars_guards _ _ _)). intros checked l3 Hl3.
  destruct checked as [|ex].
  2:{ apply yields_post. apply post_error; [reflexivity|]. intros _. constructor. }
  assert (Hl3' : has_error l3 = false ->
                 max_chars_ok (or_default (_get_cell_trim worksheet row_idx 5) "-9"))
    by (intros E; exact (Hl3 E eq_refl)).
  clear Hl3. rename Hl3' into Hl3.
  (* the Responses cell *)
  match goal with
  | |- yields (bind ?m _) _ =>
      match m with
      | context [Question.set_responses _ ?q0] =>
          assert (Hparse : carries (held q0) m);
          [|assert (Hfirst0 : shaped q0) by apply shaped_first]
      end
  end.
  { destruct (startswith _ "source:");
      [apply parse_dynamic_responses_kept, (held_refl _ (shaped_first _ _ _ _ _))|].
    destruct (startswith _ "calc:").
    { destruct (String.eqb _ "automatic").
      - destruct (negb _);
          [apply parse_automatic_calculation_kept, (held_refl _ (shaped_first _ _ _ _ _))
          | apply carries_ret, (held_refl _ (shaped_first _ _ _ _ _))].
      - carries_step. apply carries_ret, (held_refl _ (shaped_first _ _ _ _ _)). }
    destruct (startswith _ "mask:").
    { destruct (String.eqb _ "text").
      - apply carries_ret, held_set_mask, shaped_first.
      - carries_step. apply carries_ret, (held_refl _ (shaped_first _ _ _ _ _)). }
    apply carries_ret, held_set_responses, shaped_first. }
  apply (yields_after _ _ _ _ Hparse). clear Hparse Hfirst0.
  intros q l4 [[Hq Hlc] Hshaped].
  destruct (copied_columns_first (_get_cell_trim worksheet row_idx 1)
              (_get_cell_trim worksheet row_idx 2) (_get_cell_trim worksheet row_idx 3)
              (_get_cell_trim worksheet row_idx 4)
              (or_default (_get_cell_trim worksheet row_idx 5) "-9")) as [Hfirst Hnone].
  cbv zeta in Hfirst, Hnone. rewrite Hfirst in Hq. rewrite Hnone in Hlc.
  clear Hfirst Hnone.
  injection Hq as G1 G2 G3 G4 G5 G6 G7 G8 G9 G10 G11.
  cbn [Question.questionText Question.questionType Question.maxCharacters
       Question.set_questionText Question.set_questionType Question.set_maxCharacters
       Question.set_fieldType Question.set_fieldName] in Hl2, Hl3.
  rewrite <- G2, <- G4 in Hl2. rewrite <- G5 in Hl3.
  (* the types *)
  eapply yields_guarded; [apply check_question_field_type_guards|]. intros _ l5 Hl5.
  (* the ranges *)
  eapply yields_guarded; [apply ranges_guards|]. intros _ l6 Hl6.
  (* the logic checks *)
  match goal with
  | |- yields (bind ?m _) _ =>
      match m with
      | context [ret ?q1] => assert (Hlogic : post m (logic_lines_post q1))
      end
  end.
  { destruct (truthy (_get_cell_trim worksheet row_idx 9)).
    - apply logic_check_lines_post; [exact Hlc | apply shaped_ranges, Hshaped].
    - apply post_ret.
      split; [reflexivity | split; [apply shaped_ranges, Hshaped|]]. intros _.
      change (Forall has_semicolon (Question.logicChecks q)).
      rewrite Hlc. constructor. }
  apply (yields_after _ _ _ _ Hlogic). clear Hlogic. intros q' l7 [Hq' _].
  rewrite copied_columns_ranges in Hq'.
  injection Hq' as F1 F2 F3 F4 F5 F6 F7 F8 F9 F10 F11.
  cbn [Question.questionType Question.lowerRange Question.upperRange
       Question.set_upperRange Question.set_lowerRange] in Hl6.
  rewrite <- F2, <- F6, <- F7 in Hl6.
  rewrite <- F2, <- F3 in Hl5. rewrite <- F2, <- F4 in Hl2. rewrite <- F5 in Hl3.
  (* the special buttons *)
  eapply yields_guarded; [apply button_guards|]. intros _ l8 Hl8.
  eapply yields_guarded; [apply button_guards|]. intros _ l9 Hl9.
  eapply yields_guarded; [apply button_guards|]. intros _ l10 Hl10.
  cbn [Question.dontKnow Question.refuse Question.na Question.set_dontKnow
       Question.set_refuse Question.set_na] in Hl8, Hl9, Hl10.
  (* the skips *)
  apply yields_after_plain; [plain_auto|]. intros _ l11.
  apply yields_append. rewrite !app_nil_r. intros E.
  repeat (apply has_error_app_false in E; destruct E as [? E]).
  constructor; [|constructor].
  apply valid_columns_last; auto.
Qed.

Lemma rows_valid (worksheet : Worksheet) (rows : list nat) :
  yields (for_each rows (process_row worksheet)) row_valid.
Proof.
  induction rows as [|row_idx rows IH]; cbn [for_each].
  - apply yields_post, post_pass. intros _. constructor.
  - apply (yields_seq _ _ _ _ (process_row_valid worksheet row_idx)).
    intros qs1 l1 H1. apply (yields_weaken _ _ _ IH). intros qs2 l2 H2 E.
    apply has_error_app_false in E. destruct E as [E1 E2].
    apply Forall_app. auto.
Qed.

(** X25. In a sheet that [create_question_list] leaves free of errors,
    every question has a text unless it is automatic; a maximum of
    characters that is unset or accepted; a question type and a field type
    of the lists, the field type integer for a radio, text for a checkbox,
    date or datetime for a date; for a date both ranges set, each a date
    value; for any other type each range unset or a number; and each of
    DontKnow, Refuse and NA unset, True or False. *)
Theorem accepted_questions_are_valid
    (set_iter : list string -> list string) (worksheet : Worksheet) (s : Reader) :
  worksheetErrorsEncountered (snd (create_question_list set_iter worksheet s)) = false ->
  Forall valid_columns (fst (create_question_list set_iter worksheet s)).
Proof.
  rewrite create_question_list_phases. cbn [fst snd].
  rewrite rows_phase_start.
  destruct (rows_valid worksheet (List.seq 1 (max_row worksheet)))
    as [qs [l [Hrun Hvalid]]].
  rewrite Hrun. cbn [snd extend emit rows_start questionList worksheetErrorsEncountered
                     app orb].
  destruct (has_error l) eqn:El; [|intros _; exact (Hvalid El)].
  unfold extend, emit. cbn [worksheetErrorsEncountered]. rewrite El, orb_true_r.
  discriminate.
Qed.

Lemma accepted_questions_witness :
  Forall valid_columns (fst (create_question_list (fun l => l) clean_sheet init)).
Proof.
  apply (accepted_questions_are_valid (fun l => l) clean_sheet init).
  vm_compute. reflexivity.
Defined.

(** ** The syntax of a logic check *)

Lemma split1_parts (c : ascii) (s : string) :
  any_char (Ascii.eqb c) s = true ->
  exists a b,
    split1 c s = [a; b] /\ s = String.append a (String c b) /\ lacks c a = true.
Proof.
  induction s as [|x s IH]; cbn [any_char split1]; [discriminate|].
  rewrite (Ascii.eqb_sym c x). destruct (Ascii.eqb x c) eqn:E; cbn [orb].
  - intros _. apply Ascii.eqb_eq in E. subst x. exists "", s. repeat split.
  - intros H. destruct (IH H) as [a [b [Hs [Hsplit Ha]]]]. rewrite Hs.
    exists (String x a), b. split; [reflexivity|].
    split; [cbn [String.append]; f_equal; exact Hsplit|].
    rewrite lacks_cons, E, Ha. reflexivity.
Qed.

Lemma split1_app (c : ascii) (a b : string) :
  lacks c a = true -> split1 c (String.append a (String c b)) = [a; b].
Proof.
  induction a as [|x a IH]; cbn [String.append split1].
  - intros _. rewrite Ascii.eqb_refl. reflexivity.
  - rewrite lacks_cons, andb_true_iff, negb_true_iff. intros [Hx Ha].
    rewrite Hx, (IH Ha). reflexivity.
Qed.

(** A logic check that [_check_logic_check_syntax] accepts: an
    expression without a semicolon, a semicolon and a message; the
    message, trimmed, begins and ends with a single quote, and the
    expression, trimmed, holds one of the operators. *)
Definition is_logic_check (logic_check : string) : Prop :=
  exists expression message,
    logic_check = String.append expression (String ";" message)
    /\ lacks ";" expression = true
    /\ startswith (strip message) "'" = true
    /\ endswith (strip message) "'" = true
    /\ exists op,
         In op ["="; "!="; "<>"; ">"; ">="; "<"; "<="; "and"; "or"]
         /\ contains (strip expression) op = true.

(** X26. [_check_logic_check_syntax] records nothing exactly when the
    logic check is an expression, a semicolon and a message, the message
    between single quotes once trimmed and the expression holding one of
    the operators =, !=, <>, >, >=, <, <=, and, or.  The text is cut at
    its first semicolon, so that the message may hold semicolons. *)
Theorem logic_check_accepted_exactly
    (worksheet logic_check fieldname : string) (s : Reader) :
  snd (_check_logic_check_syntax worksheet logic_check fieldname s) = s
  <-> is_logic_check logic_check.
Proof.
  unfold _check_logic_check_syntax, is_logic_check. rewrite contains_char.
  destruct (any_char (Ascii.eqb ";") logic_check) eqn:Hc; cbn [negb].
  - destruct (split1_parts _ _ Hc) as [a [b [Hs [Hlc Ha]]]]. rewrite Hs. cbv zeta.
    assert (Hsame : forall e m,
              logic_check = String.append e (String ";" m) -> lacks ";" e = true ->
              e = a /\ m = b).
    { intros e m He Hl. pose proof (split1_app ";" e m Hl) as H.
      rewrite <- He, Hs in H. injection H as -> ->. split; reflexivity. }
    destruct (startswith (strip b) "'" && endswith (strip b) "'") eqn:Hq; cbn [negb].
    + destruct (existsb _ _) eqn:Hop; cbn [negb when].
      * split; [intros _ | reflexivity]. exists a, b.
        apply andb_true_iff in Hq. destruct Hq as [Hq1 Hq2].
        apply existsb_exists in Hop. destruct Hop as [op [Hin Hop]].
        repeat split; auto. exists op. auto.
      * split; [intros H; destruct (error_changes _ _ H)|].
        intros [e [m [He [Hl [_ [_ [op [Hin Hcontains]]]]]]]].
        destruct (Hsame e m He Hl) as [-> ->].
        assert (Htrue : existsb (fun op => contains (strip a) op)
                          ["="; "!="; "<>"; ">"; ">="; "<"; "<="; "and"; "or"] = true)
          by (apply existsb_exists; exists op; auto).
        rewrite Htrue in Hop. discriminate Hop.
    + split; [intros H; destruct (error_changes _ _ H)|].
      intros [e [m [He [Hl [Hq1 [Hq2 _]]]]]].
      destruct (Hsame e m He Hl) as [-> ->].
      rewrite Hq1, Hq2 in Hq. discriminate Hq.
  - split; [intros H; destruct (error_changes _ _ H)|].
    intros [e [m [He _]]].
    assert (Hl : lacks ";" logic_check = false).
    { rewrite He, lacks_app, lacks_cons, Ascii.eqb_refl, andb_false_r. reflexivity. }
    unfold lacks in Hl. rewrite Hc in Hl. discriminate Hl.
Qed.

(** ** The static responses *)

(** The key of a response: what precedes its first colon. *)
Definition response_key (response : string) : string :=
  match find ":" response with
  | Some index => take index response
  | None => response
  end.

(** A response that the loop over the static responses accepts: one
    colon, no space at the start, no space after the colon. *)
Definition response_ok (response : string) : Prop :=
  List.length (split ":" response) = 2
  /\ startswith response " " = false
  /\ contains response ": " = false.

Lemma find_none_split (c : ascii) (s : string) : find c s = None -> split c s = [s].
Proof.
  induction s as [|a s IH]; cbn [find split]; [reflexivity|].
  destruct (Ascii.eqb a c); [discriminate|].
  destruct (find c s); [discriminate|]. intros _. rewrite (IH eq_refl). reflexivity.
Qed.

Lemma static_responses_loop_accepts (fieldname worksheet : string)
    (responses : list string) :
  forall seen s,
    NoDup seen ->
    snd (static_responses_loop fieldname worksheet seen responses s) = s
    <-> Forall response_ok responses /\ NoDup (seen ++ map response_key responses).
Proof.
  induction responses as [|r rs IH]; intros seen s Hseen;
    cbn [static_responses_loop map].
  - rewrite app_nil_r. split; [intros _; split; [constructor | exact Hseen] | reflexivity].
  - cbv zeta.
    assert (Hbad : forall msg,
              (Forall response_ok (r :: rs) /\
               NoDup (seen ++ response_key r :: map response_key rs) -> False) ->
              snd (_error msg s) = s
              <-> Forall response_ok (r :: rs)
                  /\ NoDup (seen ++ response_key r :: map response_key rs)).
    { intros msg H. split; [intros E; destruct (error_changes _ _ E) | intros E].
      destruct (H E). }
    destruct (find ":" r) as [i|] eqn:Hf.
    2:{ apply Hbad. intros [H _]. inversion H as [|? ? [Hlen _] _]; subst.
        rewrite (find_none_split _ _ Hf) in Hlen. discriminate Hlen. }
    destruct (List.length (split ":" r) =? 2) eqn:Hlen; cbn [negb].
    2:{ apply Hbad. intros [H _]. inversion H as [|? ? [Hl _] _]; subst.
        apply Nat.eqb_neq in Hlen. contradiction. }
    apply Nat.eqb_eq in Hlen.
    assert (Happ : seen ++ response_key r :: map response_key rs
                   = (seen ++ [take i r]) ++ map response_key rs)
      by (unfold response_key at 1; rewrite Hf, <- app_assoc; reflexivity).
    destruct (has_duplicates (seen ++ [take i r])) eqn:Hd.
    { apply Hbad. intros [_ H]. rewrite Happ in H. apply NoDup_app_remove_r in H.
      apply has_duplicates_false_iff in H. rewrite H in Hd. discriminate Hd. }
    apply has_duplicates_false_iff in Hd.
    destruct (startswith r " ") eqn:Hsp.
    { apply Hbad. intros [H _]. inversion H as [|? ? [_ [Hs _]] _]; subst.
      rewrite Hs in Hsp. discriminate Hsp. }
    destruct (contains r ": ") eqn:Hcs.
    { apply Hbad. intros [H _]. inversion H as [|? ? [_ [_ Hs]] _]; subst.
      rewrite Hs in Hcs. discriminate Hcs. }
    rewrite (IH _ s Hd), Happ. split.
    + intros [Hrs Hnd]. split; [|exact Hnd].
      constructor; [|exact Hrs]. repeat split; assumption.
    + intros [Hrs Hnd]. split; [|exact Hnd]. inversion Hrs; assumption.
Qed.

(** X27. The loop of [_check_question_field_type] over the static
    responses records nothing exactly when every response holds one
    colon, does not begin with a space and has no space after the colon,
    and no two responses have the same key, the key being what precedes
    the colon. *)
Theorem static_responses_accepted_exactly
    (fieldname worksheet : string) (responses : list string) (s : Reader) :
  snd (static_responses_loop fieldname worksheet [] responses s) = s
  <-> Forall response_ok responses /\ NoDup (map response_key responses).
Proof. apply (static_responses_loop_accepts fieldname worksheet responses [] s), NoDup_nil. Qed.

(** ** An upper range without a lower range *)

(** X28. For a question that is no date and has no lower range,
    [write_xml] writes the same whatever the upper range: an UpperRange
    given without a LowerRange does not reach the document. *)
Theorem upper_range_alone_is_dropped (upper : string) (q : Question.t) :
  q.(Question.questionType) <> "date" ->
  q.(Question.lowerRange) = "-9" ->
  write_question (Question.set_upperRange upper q) = write_question q.
Proof.
  intros Htype Hlower. apply String.eqb_neq in Htype.
  assert (Hn : numeric_check_block (Question.set_upperRange upper q)
               = numeric_check_block q).
  { unfold numeric_check_block.
    cbn [Question.questionType Question.lowerRange Question.set_upperRange].
    rewrite Hlower. cbn [String.eqb Ascii.eqb Bool.eqb negb andb].
    rewrite andb_false_r. reflexivity. }
  assert (Hd : date_range_block (Question.set_upperRange upper q) = date_range_block q).
  { unfold date_range_block.
    cbn [Question.questionType Question.set_upperRange]. rewrite Htype. reflexivity. }
  unfold write_question. rewrite Hn, Hd. reflexivity.
Qed.

Lemma upper_range_alone_witness :
  write_question
    (Question.set_upperRange "10"
       (Question.set_lowerRange "-9" (Question.set_questionType "text" Question.default)))
  = write_question
      (Question.set_lowerRange "-9" (Question.set_questionType "text" Question.default)).
Proof.
  apply (upper_range_alone_is_dropped "10"
           (Question.set_lowerRange "-9"
              (Question.set_questionType "text" Question.default))).
  - discriminate.
  - reflexivity.
Defined.

(** ** The two ways to escape an operator *)

(** X29. [_convert_operator_to_xml], which the emitter applies to the
    operator of a when condition, gives one of seven texts, none with an
    angle bracket.  It agrees with [_parse_operator], which the reader
    applies to the operator of a filter, on every operator but <>, which
    it escapes and [_parse_operator] does not. *)
Theorem operator_escapers_agree_but_on_unequal (op : string) :
  In (_convert_operator_to_xml op)
    ["="; "!="; "&lt;&gt;"; "&gt;"; "&lt;"; "&gt;="; "&lt;="]
  /\ _convert_operator_to_xml op
     = (if String.eqb (strip op) "<>" then "&lt;&gt;" else _parse_operator op).
Proof.
  unfold _convert_operator_to_xml, _parse_operator. cbv zeta.
  cbn [dict_get mem existsb].
  destruct (String.eqb (strip op) "=") eqn:E1.
  { apply String.eqb_eq in E1. rewrite E1. cbn. auto 10. }
  destruct (String.eqb (strip op) "!=") eqn:E2.
  { apply String.eqb_eq in E2. rewrite E2. cbn. auto 10. }
  destruct (String.eqb (strip op) "<>") eqn:E3.
  { cbn. auto 10. }
  destruct (String.eqb (strip op) ">") eqn:E4.
  { cbn. auto 10. }
  destruct (String.eqb (strip op) "<") eqn:E5.
  { cbn. auto 10. }
  destruct (String.eqb (strip op) ">=") eqn:E6.
  { cbn. auto 10. }
  destruct (String.eqb (strip op) "<=") eqn:E7; cbn; auto 10.
Qed.

(** ** The value of a static response *)

Lemma find_app (c : ascii) (a b : string) :
  lacks c a = true -> find c (String.append a (String c b)) = Some (String.length a).
Proof.
  induction a as [|x a IH]; cbn [String.append find String.length].
  - intros _. rewrite Ascii.eqb_refl. reflexivity.
  - rewrite lacks_cons, andb_true_iff, negb_true_iff. intros [Hx Ha].
    rewrite Hx, (IH Ha). reflexivity.
Qed.

(** X30. For a response made of a key without a colon, a colon and a
    label, the value that [write_xml] writes is the key that
    [_check_question_field_type] compared with the keys of the other
    responses, and the text it writes is the label, trimmed. *)
Theorem response_value_is_checked_key (key label : string) :
  lacks ":" key = true ->
  response_key (String.append key (String ":" label)) = key
  /\ response_line (String.append key (String ":" label))
     = fstr [T3; "<response value = '"; key; "'>"; strip label; "</response>"; LF].
Proof.
  intros Hkey. unfold response_key, response_line.
  rewrite (find_app ":" key label Hkey), take_app.
  replace (String.length key + 1) with (String.length key + 1 + 0) by lia.
  rewrite <- Nat.add_assoc, drop_app. cbn [Nat.add drop].
  split; reflexivity.
Qed.

Lemma response_value_witness :
  response_key (String.append "1" (String ":" " Male")) = "1"
  /\ response_line (String.append "1" (String ":" " Male"))
     = fstr [T3; "<response value = '"; "1"; "'>"; strip " Male"; "</response>"; LF].
Proof.
  destruct (response_value_is_checked_key "1" " Male") as [Hkey Hline].
  - reflexivity.
  - split; [exact Hkey | exact Hline].
Defined.

(** ** The text child of a question *)

(** *** Reading a text for an opening [<text] *)

(** What opens a [<text> ] child, whatever follows the name. *)
Definition TEXT_OPEN : string := "<text".

(** One character read with the first [q] characters of [TEXT_OPEN] just
    behind: [None] when that character completes it. *)
Definition step (q : nat) (a : ascii) : option nat :=
  let restart := if Ascii.eqb "<" a then 1 else 0 in
  match q with
  | 1 => Some (if Ascii.eqb "t" a then 2 else restart)
  | 2 => Some (if Ascii.eqb "e" a then 3 else restart)
  | 3 => Some (if Ascii.eqb "x" a then 4 else restart)
  | 4 => if Ascii.eqb "t" a then None else Some restart
  | _ => Some restart
  end.

Fixpoint scan (q : nat) (s : string) : option nat :=
  match s with
  | EmptyString => Some q
  | String a s' =>
      match step q a with
      | Some q' => scan q' s'
      | None => None
      end
  end.

(** No [<text] is completed in [s], read with [q] characters of it behind. *)
Definition passes_from (q : nat) (s : string) : Prop := scan q s <> None.

(** [s] holds no [<text] whatever comes before it. *)
Definition passes (s : string) : Prop := forall q, passes_from q s.

(** [s] holds no [<text] whatever comes before it, and ends on a character
    that starts none. *)
Definition resets (s : string) : Prop := forall q, scan q s = Some 0.

Definition resetsb (s : string) : bool :=
  forallb (fun q => match scan q s with Some 0 => true | _ => false end)
          [0; 1; 2; 3; 4; 5].

Lemma scan_app (a b : string) (q : nat) :
  scan q (String.append a b)
  = match scan q a with Some q' => scan q' b | None => None end.
Proof.
  revert q. induction a as [|x a IH]; intros q; [reflexivity|].
  cbn [String.append scan]. destruct (step q x); [apply IH | reflexivity].
Qed.

Lemma step_beyond (q : nat) (a : ascii) : step (5 + q) a = step 0 a.
Proof. reflexivity. Qed.

Lemma resetsb_resets (s : string) : resetsb s = true -> resets s.
Proof.
  unfold resetsb. cbn [forallb]. intros H q.
  repeat (apply andb_true_iff in H; destruct H as [?H H]).
  assert (Hq : forall k, match scan k s with Some 0 => true | _ => false end = true ->
                         scan k s = Some 0).
  { intros k. destruct (scan k s) as [[|n]|]; [reflexivity | discriminate | discriminate]. }
  do 5 (destruct q as [|q]; [apply Hq; assumption|]).
  destruct s as [|a s]; [discriminate|].
  change (scan (S (S (S (S (S q))))) (String a s))
    with (match step (5 + q) a with Some q' => scan q' s | None => None end).
  rewrite step_beyond. apply (Hq 0). assumption.
Qed.

Lemma resets_passes (s : string) : resets s -> passes s.
Proof. intros H q. unfold passes_from. rewrite H. discriminate. Qed.

Lemma passes_nil : passes "".
Proof. intros q. discriminate. Qed.

Lemma passes_app (a b : string) : passes a -> passes b -> passes (String.append a b).
Proof.
  intros Ha Hb q. unfold passes_from. rewrite scan_app.
  specialize (Ha q). unfold passes_from in Ha.
  destruct (scan q a) as [q'|]; [apply Hb | contradiction].
Qed.

Lemma passes_resets (a b : string) : passes a -> resets b -> resets (String.append a b).
Proof.
  intros Ha Hb q. rewrite scan_app.
  specialize (Ha q). unfold passes_from in Ha.
  destruct (scan q a) as [q'|]; [apply Hb | contradiction].
Qed.

(** A character read from the start does at least as well as read with
    something behind. *)
Lemma passes_from_start (s : string) (q : nat) : passes_from q s -> passes_from 0 s.
Proof.
  unfold passes_from. revert q. induction s as [|a s IH]; intros q H; [discriminate|].
  cbn [scan] in *. unfold step at 1.
  destruct (step q a) as [q1|] eqn:E; [|contradiction].
  destruct (Ascii.eqb "<" a) eqn:El.
  - assert (q1 = 1) as ->; [|exact H].
    apply Ascii.eqb_eq in El. subst a.
    do 5 (destruct q as [|q]; [cbn in E; congruence|]). cbn in E. congruence.
  - apply (IH q1 H).
Qed.

Lemma passes_from_tail (a : ascii) (s : string) (q : nat) :
  passes_from q (String a s) -> passes_from 0 s.
Proof.
  unfold passes_from. cbn [scan]. destruct (step q a) as [q1|]; [|contradiction].
  apply passes_from_start.
Qed.

(** One state of [scan_contains]: the character read is compared with
    those of [TEXT_OPEN], and both sides are reduced to the same search. *)
Ltac scan_case a :=
  cbn [scan step take String.append];
  repeat match goal with
    | |- context [Ascii.eqb ?c a] =>
        let E := fresh "E" in
        destruct (Ascii.eqb c a) eqn:E; [apply Ascii.eqb_eq in E; subst a|]
    end;
  repeat rewrite contains_cons; repeat rewrite prefix_cons;
  repeat match goal with E : Ascii.eqb _ _ = false |- _ => rewrite E; clear E end;
  cbn [Ascii.eqb Bool.eqb andb orb];
  repeat rewrite contains_cons in *; repeat rewrite prefix_cons in *;
  cbn [Ascii.eqb Bool.eqb andb orb] in *;
  solve [assumption | split; [discriminate | reflexivity] | split; intros _; reflexivity | tauto
        | match goal with |- context [String.prefix EmptyString ?s] =>
            destruct s; split; intros _; reflexivity end].

(** Reading agrees with the search for [TEXT_OPEN]. *)
Lemma scan_contains (s : string) (q : nat) :
  q <= 4 ->
  scan q s = None <-> contains (String.append (take q TEXT_OPEN) s) TEXT_OPEN = true.
Proof.
  unfold TEXT_OPEN. revert q. induction s as [|a s IH]; intros q Hq.
  - do 5 (destruct q as [|q]; [split; discriminate|]). lia.
  - assert (I0 := IH 0 ltac:(lia)). assert (I1 := IH 1 ltac:(lia)).
    assert (I2 := IH 2 ltac:(lia)). assert (I3 := IH 3 ltac:(lia)).
    assert (I4 := IH 4 ltac:(lia)). clear IH.
    cbn [take String.append] in I0, I1, I2, I3, I4.
    do 5 (destruct q as [|q]; [scan_case a|]).
    lia.
Qed.

Lemma contains_passes (s : string) :
  contains s TEXT_OPEN = false <-> passes_from 0 s.
Proof.
  unfold passes_from. rewrite <- not_true_iff_false.
  rewrite (scan_contains s 0 (Nat.le_0_l 4)). reflexivity.
Qed.

(** *** Parts of a text that holds no [<text] *)

Lemma passes_from_cons (q : nat) (a : ascii) (s : string) :
  passes_from q (String a s) ->
  exists q1, step q a = Some q1 /\ passes_from q1 s.
Proof.
  unfold passes_from. cbn [scan]. destruct (step q a) as [q1|]; [|contradiction].
  intros H. exists q1. split; [reflexivity | exact H].
Qed.

Lemma passes_from_step (q q1 : nat) (a : ascii) (s : string) :
  step q a = Some q1 -> passes_from q1 s -> passes_from q (String a s).
Proof. unfold passes_from. cbn [scan]. intros ->. trivial. Qed.

Lemma passes_from_one (q : nat) (a : ascii) (s : string) :
  passes_from q (String a s) -> passes_from q (String a "").
Proof.
  intros H. destruct (passes_from_cons _ _ _ H) as [q1 [E _]].
  apply (passes_from_step _ q1); [exact E | discriminate].
Qed.

Lemma passes_from_take (q n : nat) (s : string) :
  passes_from q s -> passes_from q (take n s).
Proof.
  revert q s. induction n as [|n IH]; intros q s H; [destruct s; discriminate|].
  destruct s as [|a s]; [discriminate|]. cbn [take].
  destruct (passes_from_cons _ _ _ H) as [q1 [E H1]].
  apply (passes_from_step _ q1); [exact E | apply IH, H1].
Qed.

Lemma passes_from_drop (q n : nat) (s : string) :
  passes_from q s -> passes_from 0 (drop n s).
Proof.
  revert q s. induction n as [|n IH]; intros q s H.
  - destruct s; apply (passes_from_start _ q), H.
  - destruct s as [|a s]; [discriminate|]. cbn [drop].
    apply (IH 0), (passes_from_tail a s q), H.
Qed.

Lemma passes_from_slice (q a b : nat) (s : string) :
  passes_from q s -> passes_from 0 (slice a b s).
Proof. intros H. apply passes_from_take, (passes_from_drop q), H. Qed.

Lemma passes_from_drop_last (q k : nat) (s : string) :
  passes_from q s -> passes_from q (drop_last k s).
Proof. apply passes_from_take. Qed.

Lemma passes_from_lstrip_by (p : ascii -> bool) (q : nat) (s : string) :
  passes_from q s -> passes_from 0 (lstrip_by p s).
Proof.
  revert q. induction s as [|a s IH]; intros q H; [discriminate|].
  cbn [lstrip_by]. destruct (p a).
  - apply (IH 0), (passes_from_tail a s q), H.
  - apply (passes_from_start _ q), H.
Qed.

Lemma passes_from_rstrip_by (p : ascii -> bool) (q : nat) (s : string) :
  passes_from q s -> passes_from q (rstrip_by p s).
Proof.
  revert q. induction s as [|a s IH]; intros q H; [discriminate|].
  destruct (passes_from_cons _ _ _ H) as [q1 [E H1]].
  cbn [rstrip_by]. specialize (IH q1 H1).
  destruct (rstrip_by p s) as [|b r].
  - destruct (p a); [discriminate|]. apply (passes_from_one q a s), H.
  - apply (passes_from_step _ q1); assumption.
Qed.

Lemma passes_from_strip (q : nat) (s : string) :
  passes_from q s -> passes_from 0 (strip s).
Proof. intros H. apply passes_from_rstrip_by, (passes_from_lstrip_by _ q), H. Qed.

(** The pieces of a text cut at separators: the first starts where the
    text starts, the others start afresh. *)
Definition pieces_pass (q : nat) (l : list string) : Prop :=
  match l with
  | [] => True
  | h :: t => passes_from q h /\ Forall (passes_from 0) t
  end.

Lemma pieces_pass_all (q : nat) (l : list string) :
  pieces_pass q l -> Forall (passes_from 0) l.
Proof.
  destruct l as [|h t]; [constructor|]. intros [Hh Ht].
  constructor; [apply (passes_from_start _ q), Hh | exact Ht].
Qed.

Lemma pieces_pass_grow (q q1 : nat) (a : ascii) (l : list string) :
  step q a = Some q1 -> pieces_pass q1 l ->
  pieces_pass q match l with
                | h :: t => String a h :: t
                | [] => [String a EmptyString]
                end.
Proof.
  intros E H. destruct l as [|h t].
  - split; [|constructor]. apply (passes_from_step _ q1); [exact E | discriminate].
  - destruct H as [Hh Ht]. split; [|exact Ht].
    apply (passes_from_step _ q1); assumption.
Qed.

Lemma pieces_pass_fresh (q : nat) (l : list string) :
  Forall (passes_from 0) l -> pieces_pass q (EmptyString :: l).
Proof. intros H. split; [discriminate | exact H]. Qed.

Lemma split1_passes (c : ascii) (s : string) (q : nat) :
  passes_from q s -> pieces_pass q (split1 c s).
Proof.
  revert q. induction s as [|a s IH]; intros q H; [split; [discriminate | constructor]|].
  destruct (passes_from_cons _ _ _ H) as [q1 [E H1]].
  cbn [split1]. destruct (Ascii.eqb a c).
  - apply pieces_pass_fresh. constructor; [|constructor].
    apply (passes_from_start _ q1), H1.
  - apply (pieces_pass_grow q q1); [exact E | apply IH, H1].
Qed.

Lemma split_str_aux_passes (sep : string) (s : string) (skip q q' : nat) :
  passes_from q s -> (skip = 0 -> q' = q) ->
  pieces_pass q' (split_str_aux sep skip s).
Proof.
  revert skip q q'. induction s as [|a s IH]; intros skip q q' H Hq.
  - split; [discriminate | constructor].
  - destruct (passes_from_cons _ _ _ H) as [q1 [E H1]].
    assert (H0 : passes_from 0 s) by apply (passes_from_start _ q1), H1.
    assert (Hrest : Forall (passes_from 0) (split_str_aux sep 0 s)).
    { apply (pieces_pass_all 0), (IH 0 0 0 H0). reflexivity. }
    cbn [split_str_aux]. destruct skip as [|[|k]].
    + rewrite (Hq eq_refl).
      destruct (String.prefix sep (String a s)).
      * destruct (String.length sep) as [|[|k]].
        -- apply pieces_pass_fresh, Hrest.
        -- apply pieces_pass_fresh, Hrest.
        -- apply (IH (S k) 0 q H0). discriminate.
      * apply (pieces_pass_grow q q1); [exact E | apply (IH 0 q1 q1 H1); reflexivity].
    + apply pieces_pass_fresh, Hrest.
    + apply (IH (S k) 0 q' H0). discriminate.
Qed.

Lemma split_str_passes (sep s : string) (q : nat) :
  passes_from q s -> Forall (passes_from 0) (split_str sep s).
Proof.
  intros H. apply (pieces_pass_all q), (split_str_aux_passes sep s 0 q q H). reflexivity.
Qed.

Lemma re_split_newlines_passes (s : string) (q : nat) :
  passes_from q s -> pieces_pass q (re_split_newlines s).
Proof.
  assert (Hall : forall n s q, String.length s <= n -> passes_from q s ->
                   pieces_pass q (re_split_newlines s)).
  { clear s q. induction n as [|n IH]; intros [|a t] q Hn H;
      try (split; [discriminate | constructor]); [cbn in Hn; lia|].
    cbn [String.length] in Hn.
    destruct (passes_from_cons _ _ _ H) as [q1 [E H1]].
    assert (H0 : passes_from 0 t) by apply (passes_from_start _ q1), H1.
    assert (Htail : Forall (passes_from 0) (re_split_newlines t)).
    { apply (pieces_pass_all 0), IH; [lia | exact H0]. }
    cbn [re_split_newlines]. cbv zeta.
    destruct (Ascii.eqb a (ascii_of_nat 13)).
    - destruct t as [|b t']; [apply pieces_pass_fresh, Htail|].
      destruct (Ascii.eqb b (ascii_of_nat 10)); [|apply pieces_pass_fresh, Htail].
      apply pieces_pass_fresh, (pieces_pass_all 0), IH;
        [cbn [String.length] in Hn; lia | apply (passes_from_tail b t' 0), H0].
    - destruct (Ascii.eqb a (ascii_of_nat 10)); [apply pieces_pass_fresh, Htail|].
      apply (pieces_pass_grow q q1); [exact E | apply IH; [lia | exact H1]]. }
  apply (Hall (String.length s)). lia.
Qed.

(** *** Replacements *)

(** A replacement that resets brings no [<text] and joins none. *)
Lemma replace_aux_passes (old new : string) (s : string) (skip q : nat) :
  resets new -> passes_from q s -> (skip <> 0 -> q = 0) ->
  passes_from q (replace_aux old new skip s).
Proof.
  intros Hnew. revert skip q. induction s as [|a s IH]; intros skip q H Hq; [discriminate|].
  destruct (passes_from_cons _ _ _ H) as [q1 [E H1]].
  assert (H0 : passes_from 0 s) by apply (passes_from_start _ q1), H1.
  cbn [replace_aux]. destruct skip as [|k].
  - destruct (String.prefix old (String a s)).
    + unfold passes_from. rewrite scan_app, (Hnew q).
      apply (IH _ 0 H0). reflexivity.
    + apply (passes_from_step _ q1); [exact E|]. apply (IH 0 q1 H1). intros []. reflexivity.
  - rewrite (Hq ltac:(discriminate)). apply (IH k 0 H0). reflexivity.
Qed.

Lemma replace_passes (old new s : string) (q : nat) :
  resets new -> passes_from q s -> passes_from q (replace old new s).
Proof.
  intros Hnew H. apply replace_aux_passes; [exact Hnew | exact H|]. intros []. reflexivity.
Qed.

Lemma sub_aux_passes (r : Re.re) (repl : string) (aft : string) (skip : nat)
    (bef : string) (q : nat) :
  resets repl -> passes_from q aft -> (skip <> 0 -> q = 0) ->
  passes_from q (Re.sub_aux r repl skip bef aft).
Proof.
  intros Hrepl. revert skip bef q.
  induction aft as [|a s IH]; intros skip bef q H Hq; [discriminate|].
  destruct (passes_from_cons _ _ _ H) as [q1 [E H1]].
  assert (H0 : passes_from 0 s) by apply (passes_from_start _ q1), H1.
  assert (Hcopy : passes_from q (String a (Re.sub_aux r repl 0 (String a bef) s))).
  { apply (passes_from_step _ q1); [exact E|]. apply (IH 0 _ q1 H1). intros []. reflexivity. }
  cbn [Re.sub_aux]. destruct skip as [|k].
  - destruct (Re.run r Re.accept (bef, String a s) []) as [[y caps]|]; [|exact Hcopy].
    destruct (String.length (String a s) - String.length (Re.after y)); [exact Hcopy|].
    unfold passes_from. rewrite scan_app, (Hrepl q).
    apply (IH _ _ 0 H0). reflexivity.
  - rewrite (Hq ltac:(discriminate)). apply (IH k _ 0 H0). reflexivity.
Qed.

Lemma sub_passes (r : Re.re) (repl s : string) (q : nat) :
  resets repl -> passes_from q s -> passes_from q (Re.sub r repl s).
Proof.
  intros Hrepl H. apply sub_aux_passes; [exact Hrepl | exact H|]. intros []. reflexivity.
Qed.

(** *** Formatted texts *)

Lemma fstr_step (p : string) (l : list string) :
  fstr (p :: l) = String.append p (fstr l).
Proof.
  unfold fstr. cbn [String.concat]. destruct l; [|reflexivity].
  symmetry. apply append_empty_r.
Qed.

(** The pieces of a formatted text, read in turn; the flag says that the
    piece before ended on a character that starts no [<text]. *)
Inductive chain : bool -> list string -> Prop :=
| chain_nil (b : bool) : chain b []
| chain_resets (b : bool) (p : string) (l : list string) :
    resetsb p = true -> chain true l -> chain b (p :: l)
| chain_value (v : string) (l : list string) :
    passes_from 0 v -> chain false l -> chain true (v :: l)
| chain_passes (b : bool) (p : string) (l : list string) :
    passes p -> chain false l -> chain b (p :: l).

Lemma chain_scan (b : bool) (l : list string) :
  chain b l -> forall q, (b = true -> q = 0) -> passes_from q (fstr l).
Proof.
  induction 1 as [b|b p l Hp _ IH|v l Hv _ IH|b p l Hp _ IH]; intros q Hq.
  - discriminate.
  - rewrite fstr_step. unfold passes_from. rewrite scan_app.
    rewrite (resetsb_resets p Hp q). apply IH. reflexivity.
  - rewrite (Hq eq_refl), fstr_step. unfold passes_from. rewrite scan_app.
    unfold passes_from in Hv. destruct (scan 0 v) as [q'|]; [|contradiction].
    apply IH. discriminate.
  - rewrite fstr_step. unfold passes_from. rewrite scan_app.
    specialize (Hp q). unfold passes_from in Hp.
    destruct (scan q p) as [q'|]; [|contradiction].
    apply IH. discriminate.
Qed.

Lemma chain_fstr (l : list string) : chain false l -> passes (fstr l).
Proof. intros H q. apply (chain_scan false l H). discriminate. Qed.

Lemma concat_passes (sep : string) (l : list string) :
  passes sep -> Forall passes l -> passes (String.concat sep l).
Proof.
  intros Hsep H. induction H as [|x l Hx Hl IH]; [apply passes_nil|].
  cbn [String.concat]. destruct l as [|y l]; [exact Hx|].
  apply passes_app; [exact Hx|]. apply passes_app; [exact Hsep | exact IH].
Qed.

Lemma tabs_passes (n : nat) : passes (tabs n).
Proof.
  induction n as [|n IH]; [apply passes_nil|].
  cbn [tabs]. apply passes_app; [|exact IH].
  apply resets_passes, resetsb_resets. reflexivity.
Qed.

Lemma separator_attr_passes (separator : string) :
  passes_from 0 separator -> passes (separator_attr separator).
Proof.
  intros H. unfold separator_attr. destruct (truthy separator); [|apply passes_nil].
  apply chain_fstr.
  apply chain_resets; [reflexivity|]. apply chain_value; [exact H|].
  apply chain_resets; [reflexivity|]. apply chain_nil.
Qed.

Lemma resetsb_passes (s : string) : resetsb s = true -> passes s.
Proof. intros H. apply resets_passes, resetsb_resets, H. Qed.

Definition passesb (s : string) : bool :=
  forallb (fun q => match scan q s with Some _ => true | None => false end)
          [0; 1; 2; 3; 4; 5].

Lemma passesb_passes (s : string) : passesb s = true -> passes s.
Proof.
  unfold passesb. cbn [forallb]. intros H q. unfold passes_from.
  repeat (apply andb_true_iff in H; destruct H as [?H H]).
  do 5 (destruct q as [|q];
        [match goal with
         | Hq : match scan ?k s with Some _ => true | None => false end = true
           |- scan ?k s <> None => destruct (scan k s); [discriminate | discriminate Hq]
         end|]).
  destruct s as [|a s]; [discriminate|].
  change (scan (S (S (S (S (S q))))) (String a s))
    with (match step (5 + q) a with Some q' => scan q' s | None => None end).
  rewrite step_beyond.
  change (match step 0 a with Some q' => scan q' s | None => None end)
    with (scan 0 (String a s)).
  destruct (scan 0 (String a s)); [discriminate | discriminate H0].
Qed.

Create HintDb passes.

#[local] Hint Extern 1 (passes _) => apply passesb_passes; reflexivity : passes.

#[local] Hint Resolve tabs_passes separator_attr_passes passes_app passes_nil : passes.

(** The facts about the values, one by one. *)
Ltac split_values :=
  repeat match goal with
    | H : Forall _ (_ ++ _) |- _ => apply Forall_app in H; destruct H
    | H : Forall _ (_ :: _) |- _ => apply Forall_cons_iff in H; destruct H
    | H : Forall _ [] |- _ => clear H
    end.

(** A formatted text whose pieces are fixed texts and values. *)
Ltac chain_pieces :=
  repeat first
    [ apply chain_nil
    | apply chain_resets; [reflexivity|]
    | apply chain_value; [assumption|]
    | apply chain_passes; [solve [auto with passes]|] ].

Ltac formatted := solve [apply chain_fstr; chain_pieces].

(** Lines written one after the other, each a formatted text. *)
Ltac lines :=
  repeat match goal with
    | |- Forall _ [] => apply Forall_nil
    | |- Forall _ (_ :: _) =>
        apply Forall_cons; [first [formatted | solve [auto with passes]]|]
    | |- Forall _ (_ ++ _) => apply Forall_app; split
    end.

(** *** The values copied into the element of an automatic question *)

Definition parameter_values (params : list CalculationParameter.t) : list string :=
  flat_map (fun param => [param.(CalculationParameter.name);
                          param.(CalculationParameter.fieldName)]) params.

Fixpoint part_values (part : CalculationPart.t) : list string :=
  match part with
  | CalculationPart.mk _ constantValue lookupField querySql queryParameters
      mathOperator parts concatSeparator =>
      [constantValue; lookupField; querySql]
      ++ parameter_values queryParameters
      ++ [mathOperator; concatSeparator]
      ++ (fix nested (l : list CalculationPart.t) : list string :=
            match l with
            | [] => []
            | p :: l' => part_values p ++ nested l'
            end) parts
  end.

Definition condition_values (cond : CaseCondition.t) : list string :=
  [cond.(CaseCondition.field); cond.(CaseCondition.value)]
  ++ match cond.(CaseCondition.result) with
     | Some result => part_values result
     | None => []
     end.

Definition calculation_values (q : Question.t) : list string :=
  [q.(Question.calculationQuerySql)]
  ++ parameter_values q.(Question.calculationQueryParameters)
  ++ flat_map condition_values q.(Question.calculationCaseConditions)
  ++ match q.(Question.calculationCaseElse) with
     | Some part => part_values part
     | None => []
     end
  ++ [q.(Question.calculationConstantValue); q.(Question.calculationLookupField);
      q.(Question.calculationMathOperator)]
  ++ flat_map part_values q.(Question.calculationMathParts)
  ++ [q.(Question.calculationConcatSeparator)]
  ++ flat_map part_values q.(Question.calculationConcatParts)
  ++ [q.(Question.calculationUnit)].

(** Every value of the question that [write_xml] copies between the tags
    of an automatic question: the question text is not among them, nor
    are the responses, written for other question types only. *)
Definition copied_values (q : Question.t) : list string :=
  [q.(Question.fieldName); q.(Question.fieldType)]
  ++ calculation_values q
  ++ [q.(Question.maxCharacters); q.(Question.mask); q.(Question.uniqueCheckMessage);
      q.(Question.lowerRange); q.(Question.upperRange)]
  ++ q.(Question.logicChecks)
  ++ [q.(Question.skip)].

(** The value brings no [<text]. *)
Definition plain_value (v : string) : Prop := contains v TEXT_OPEN = false.

Lemma plain_values_pass (l : list string) :
  Forall plain_value l -> Forall (passes_from 0) l.
Proof. apply Forall_impl. intros v. apply contains_passes. Qed.

(** *** The lines of a calculation *)

Lemma parameter_lines_pass (indent : string) (params : list CalculationParameter.t) :
  passes indent -> Forall (passes_from 0) (parameter_values params) ->
  Forall passes (parameter_lines indent params).
Proof.
  intros Hindent. unfold parameter_lines, parameter_values.
  induction params as [|param params IH]; intros H; [constructor|].
  cbn [flat_map map] in *. split_values.
  constructor; [formatted | apply IH; assumption].
Qed.

Lemma generate_calculation_part_passes (part : CalculationPart.t) :
  Forall (passes_from 0) (part_values part) ->
  forall indent_level, Forall passes (_generate_calculation_part part indent_level).
Proof.
  induction part as [type constantValue lookupField querySql queryParameters
                       mathOperator parts concatSeparator IH] using CalculationPart_ind'.
  intros H indent_level. cbn [part_values] in H.
  assert (Hnested : forall n,
            Forall passes
              ((fix nested (l : list CalculationPart.t) : list string :=
                  match l with
                  | [] => []
                  | p :: l' => _generate_calculation_part p (n + 1) ++ nested l'
                  end) parts)).
  { intros n. pose proof H as Hv.
    do 3 (apply Forall_app in Hv; destruct Hv as [_ Hv]).
    revert Hv. clear H.
    induction IH as [|p l Hp _ IHl]; intros Hv; [constructor|].
    apply Forall_app in Hv. destruct Hv as [Hv1 Hv2].
    apply Forall_app. split; [apply Hp, Hv1 | apply IHl, Hv2]. }
  do 3 (apply Forall_app in H; destruct H as [? H]). clear H. split_values.
  cbn [_generate_calculation_part]. cbv zeta.
  destruct type; lines; try apply Hnested.
  apply parameter_lines_pass; [auto with passes | assumption].
Qed.

Lemma convert_operator_passes (op : string) :
  passes_from 0 (_convert_operator_to_xml op).
Proof.
  unfold _convert_operator_to_xml. cbn [dict_get].
  repeat match goal with
    | |- context [String.eqb ?a ?b] => destruct (String.eqb a b)
    end; discriminate.
Qed.

Lemma flat_map_pass {A : Type} (f : A -> list string) (g : A -> list string)
    (l : list A) :
  (forall x, Forall (passes_from 0) (g x) -> Forall passes (f x)) ->
  Forall (passes_from 0) (flat_map g l) -> Forall passes (flat_map f l).
Proof.
  intros Hf. induction l as [|x l IH]; intros H; [constructor|].
  cbn [flat_map] in *. apply Forall_app in H. destruct H as [Hx Hl].
  apply Forall_app. split; [apply Hf, Hx | apply IH, Hl].
Qed.

Lemma generate_calculation_xml_passes (q : Question.t) :
  Forall (passes_from 0) (calculation_values q) ->
  Forall passes (_generate_calculation_xml q).
Proof.
  unfold calculation_values. intros H.
  apply Forall_app in H. destruct H as [Hsql H].
  apply Forall_app in H. destruct H as [Hparams H].
  apply Forall_app in H. destruct H as [Hconds H].
  apply Forall_app in H. destruct H as [Helse H].
  apply Forall_app in H. destruct H as [Hthree H].
  apply Forall_app in H. destruct H as [Hmath H].
  apply Forall_app in H. destruct H as [Hsep H].
  apply Forall_app in H. destruct H as [Hconcat Hunit].
  split_values.
  unfold _generate_calculation_xml.
  destruct (Question.calculationType q); lines;
    try (apply parameter_lines_pass; [auto with passes | assumption]);
    try (eapply flat_map_pass; [|eassumption]; intros part Hpart;
         apply generate_calculation_part_passes, Hpart).
  - revert Hconds. apply flat_map_pass. intros cond Hcond.
    unfold condition_values in Hcond.
    apply Forall_app in Hcond. destruct Hcond as [Hfv Hresult]. split_values.
    assert (Hop := convert_operator_passes (CaseCondition.operator cond)).
    cbv zeta. lines.
    destruct (CaseCondition.result cond) as [result|]; [|constructor].
    apply generate_calculation_part_passes, Hresult.
  - destruct (Question.calculationCaseElse q) as [part|]; lines.
    apply generate_calculation_part_passes, Helse.
Qed.

(** *** Logic checks and skips *)

Lemma or_lines_pass (parts : list string) :
  Forall (passes_from 0) parts -> Forall passes (or_lines parts).
Proof.
  induction 1 as [|part rest Hpart Hrest IH]; [constructor|].
  assert (Hstrip := passes_from_strip 0 part Hpart).
  cbn [or_lines]. destruct rest as [|next rest].
  - lines.
  - constructor; [formatted | exact IH].
Qed.

Lemma generate_logic_check_passes (logic_check text : string) :
  passes_from 0 logic_check ->
  _generate_logic_check logic_check = Some text -> passes text.
Proof.
  intros H. unfold _generate_logic_check.
  assert (Hparts := split1_passes ";" logic_check 0 H).
  destruct (split1 ";" logic_check) as [|part0 [|part1 [|part2 rest]]]; try discriminate.
  destruct Hparts as [H0 Hrest]. split_values.
  assert (Hmessage : passes_from 0 (strip part1)) by (apply (passes_from_strip 0); assumption).
  cbv zeta.
  set (expression :=
         Re.sub BARE_GT_RE "&gt;"
           (Re.sub BARE_LT_RE "&lt;"
              (replace ">=" "&gt;="
                 (replace "<=" "&lt;="
                    (replace "<>" "&lt;&gt;" (replace "!=" "&lt;&gt;" (strip part0))))))).
  assert (Hexpression : passes_from 0 expression).
  { unfold expression.
    repeat first
      [ apply sub_passes; [apply resetsb_resets; reflexivity|]
      | apply replace_passes; [apply resetsb_resets; reflexivity|] ].
    apply (passes_from_strip 0), H0. }
  destruct (contains expression " or "); intros E; injection E as <-.
  - unfold join. apply concat_passes; [auto with passes|].
    apply Forall_app. split.
    + apply or_lines_pass, (split_str_passes " or " expression 0), Hexpression.
    + lines.
  - formatted.
Qed.

Lemma generate_skip_passes (skip skip_type text : string) :
  passes_from 0 skip ->
  _generate_skip skip skip_type = Some text -> passes text.
Proof.
  intros H. unfold _generate_skip, obind.
  destruct (idx (indices_of " " skip) 2) as [s2|]; [|discriminate].
  assert (Hfield : forall a b, passes_from 0 (slice a b skip))
    by (intros a b; apply (passes_from_slice 0), H).
  assert (Htarget : forall n, passes_from 0 (drop n skip))
    by (intros n; apply (passes_from_drop 0), H).
  assert (Hcondition : forall a b,
            passes_from 0 (replace ">" "&gt;" (replace "<" "&lt;" (slice a b skip)))).
  { intros a b.
    do 2 (apply replace_passes; [apply resetsb_resets; reflexivity|]). apply Hfield. }
  destruct (List.length (indices_of " " skip) =? 9).
  - destruct (idx (indices_of " " skip) 5) as [s5|]; [|discriminate].
    destruct (idx (indices_of " " skip) 6) as [s6|]; [|discriminate].
    intros E. injection E as <-.
    pose proof (Hfield (s5 + 1) (s6 - 1)). pose proof (Hfield 12 s2).
    pose proof (Hfield 13 s2). pose proof (Htarget (last (indices_of " " skip) 0 + 1)).
    destruct (String.eqb skip_type "postSkip"); formatted.
  - destruct (contains skip "contains").
    + destruct (idx (indices_of " " skip) 3) as [s3|]; [|discriminate].
      destruct (idx (indices_of " " skip) 4) as [s4|]; [|discriminate].
      intros E. injection E as <-.
      pose proof (Hfield (s3 + 1) (s4 - 1)). pose proof (Hfield 12 s2).
      pose proof (Hfield 13 s2). pose proof (Htarget (last (indices_of " " skip) 0 + 1)).
      destruct (String.eqb skip_type "postSkip"); formatted.
    + destruct (idx (indices_of " " skip) 3) as [s3|]; [|discriminate].
      destruct (idx (indices_of " " skip) 4) as [s4|]; [|discriminate].
      intros E. injection E as <-.
      pose proof (Hfield (s3 + 1) (s4 - 1)). pose proof (Hfield 12 s2).
      pose proof (Hfield 13 s2). pose proof (Htarget (last (indices_of " " skip) 0 + 1)).
      pose proof (Hcondition (s2 + 1) s3).
      destruct (String.eqb skip_type "postSkip"); formatted.
Qed.

(** *** The element of one question *)

Lemma snd_wbind {A B : Type} (m : W A) (f : A -> W B) :
  snd (wbind m f) = match snd m with Some a => snd (f a) | None => None end.
Proof.
  destruct m as [w [a|]]; simpl; [|reflexivity]. destruct (f a); reflexivity.
Qed.

Lemma Forall_wfor_in {A : Type} (P : string -> Prop) (l : list A) (body : A -> W unit) :
  (forall x, In x l -> Forall P (fst (body x))) -> Forall P (fst (wfor l body)).
Proof.
  induction l as [|x l IH]; intros H; [constructor|].
  cbn [wfor]. apply Forall_wbind.
  - apply H. left. reflexivity.
  - intros _. apply IH. intros y Hy. apply H. right. exact Hy.
Qed.

Lemma logic_checks_block_passes (q : Question.t) :
  Forall (passes_from 0) q.(Question.logicChecks) ->
  Forall passes (fst (logic_checks_block q)).
Proof.
  intros H. unfold logic_checks_block. apply Forall_wfor_in. intros logic_check Hin.
  rewrite Forall_forall in H. specialize (H logic_check Hin).
  apply Forall_wbind; [cbn [write fst]; lines|]. intros _.
  apply Forall_wbind_result; [constructor|]. intros text Htext.
  cbn [eval snd] in Htext.
  assert (Ht := generate_logic_check_passes logic_check text H Htext).
  apply Forall_wbind; [|intros _]; cbn [write fst]; lines.
Qed.

Lemma skip_group_passes (tag skip_type : string) (group : list string) :
  resetsb tag = true -> Forall (passes_from 0) group ->
  Forall passes (fst (skip_group tag skip_type group)).
Proof.
  intros Htag H. apply resetsb_passes in Htag.
  unfold skip_group. destruct group as [|s group]; [constructor|].
  apply Forall_wbind; [cbn [write fst]; lines|]. intros _.
  apply Forall_wbind; [|intros _; cbn [write fst]; lines].
  apply Forall_wfor_in. intros line Hin.
  rewrite Forall_forall in H. specialize (H line Hin).
  apply Forall_wbind_result; [constructor|]. intros text Htext.
  cbn [eval snd] in Htext.
  assert (Ht := generate_skip_passes line skip_type text H Htext).
  cbn [write fst]. constructor; [|constructor]. auto with passes.
Qed.

Lemma Forall_filter {A : Type} (P : A -> Prop) (f : A -> bool) (l : list A) :
  Forall P l -> Forall P (filter f l).
Proof.
  induction 1 as [|x l Hx _ IH]; [constructor|].
  cbn [filter]. destruct (f x); [constructor|]; assumption.
Qed.

Lemma skip_block_passes (q : Question.t) :
  passes_from 0 q.(Question.skip) -> Forall passes (fst (skip_block q)).
Proof.
  intros H. unfold skip_block. destruct (truthy (Question.skip q)); [|constructor].
  assert (Hlines : Forall (passes_from 0)
                     (filter truthy (re_split_newlines (Question.skip q)))).
  { apply Forall_filter, (pieces_pass_all 0), re_split_newlines_passes, H. }
  cbv zeta. apply Forall_wbind; [|intros _];
    (apply skip_group_passes; [reflexivity | apply Forall_filter, Hlines]).
Qed.

(** Every text written for an automatic question holds no [<text] and
    joins none with the text written before it. *)
Lemma automatic_element_passes (q : Question.t) :
  q.(Question.questionType) = "automatic" ->
  Forall (passes_from 0) (copied_values q) ->
  Forall passes (fst (write_question q)).
Proof.
  intros Htype H. unfold copied_values in H.
  apply Forall_app in H. destruct H as [Hname H].
  apply Forall_app in H. destruct H as [Hcalculation H].
  apply Forall_app in H. destruct H as [Hfive H].
  apply Forall_app in H. destruct H as [Hchecks Hskip].
  split_values.
  unfold write_question.
  apply Forall_wbind;
    [cbn [write fst]; unfold open_tag; rewrite Htype; lines|intros _].
  apply Forall_wbind;
    [cbn [write_all fst]; unfold text_block; rewrite Htype; constructor|intros _].
  apply Forall_wbind; [cbn [write_all fst]|intros _].
  { unfold calculation_block.
    destruct (_ && _); [apply generate_calculation_xml_passes, Hcalculation | constructor]. }
  apply Forall_wbind; [cbn [write_all fst]|intros _].
  { unfold max_characters_block. destruct (negb _); lines. }
  apply Forall_wbind; [cbn [write_all fst]|intros _].
  { unfold mask_block. destruct (truthy _); lines. }
  apply Forall_wbind; [cbn [write_all fst]|intros _].
  { unfold unique_check_block. destruct (truthy _); lines. }
  apply Forall_wbind; [cbn [write_all fst]|intros _].
  { unfold numeric_check_block. destruct (_ && _); lines. }
  apply Forall_wbind; [cbn [write_all fst]|intros _].
  { unfold date_range_block. rewrite Htype. constructor. }
  apply Forall_wbind; [apply logic_checks_block_passes, Hchecks|intros _].
  apply Forall_wbind; [cbn [write_all fst]|intros _].
  { unfold responses_block. rewrite Htype. constructor. }
  apply Forall_wbind; [apply skip_block_passes; assumption|intros _].
  apply Forall_wbind; [cbn [write_all fst]|intros _].
  { unfold special_buttons_block.
    destruct (mem (Question.dontKnow q) _), (mem (Question.refuse q) _),
      (mem (Question.na q) _); lines. }
  cbn [write fst]. lines.
Qed.

Lemma automatic_element_plain (q : Question.t) :
  q.(Question.questionType) = "automatic" ->
  Forall (fun v => contains v "<text" = false) (copied_values q) ->
  contains (fstr (fst (write_question q))) "<text" = false.
Proof.
  intros Htype H. apply contains_passes.
  apply (concat_passes "" _ passes_nil).
  apply automatic_element_passes; [exact Htype|].
  apply plain_values_pass, H.
Qed.

(** *** The file *)

Definition XML_DECLARATION : string := fstr ["<?xml version = '1.0' encoding = 'utf-8'?>"; LF].
Definition SURVEY_OPEN : string := fstr ["<survey>"; LF; LF].

(** What [write_xml] writes once it is through the questions. *)
Definition closing_lines : list string :=
  [fstr [T1; "<question type = 'information' fieldname = 'end_of_questions' fieldtype = 'n/a'>"; LF];
   fstr [T2; "<text>Press the 'Finish' button to save the data.</text >"; LF];
   fstr [T1; "</question>"; LF; LF];
   fstr ["</survey>"; LF]].

Lemma write_xml_written (worksheet_name : string) (question_list : list Question.t) :
  fst (write_xml worksheet_name question_list)
  = [XML_DECLARATION; SURVEY_OPEN]
    ++ fst (wfor question_list write_question)
    ++ match snd (wfor question_list write_question) with
       | Some _ => closing_lines
       | None => []
       end.
Proof.
  unfold write_xml. rewrite !fst_wbind. cbn [write fst snd].
  destruct (snd (wfor question_list write_question)); reflexivity.
Qed.

Lemma wfor_reached {A : Type} (body : A -> W unit) (before : list A) (x : A)
    (after : list A) :
  snd (wfor before body) = Some tt ->
  fst (wfor (before ++ x :: after) body)
  = flat_map (fun y => fst (body y)) before
    ++ fst (body x)
    ++ match snd (body x) with
       | Some _ => fst (wfor after body)
       | None => []
       end.
Proof.
  induction before as [|y before IH]; intros H.
  - cbn [app flat_map wfor]. rewrite fst_wbind. reflexivity.
  - cbn [wfor] in H. rewrite snd_wbind in H.
    cbn [app flat_map wfor]. rewrite fst_wbind.
    destruct (snd (body y)) as [u|]; [|discriminate].
    rewrite (IH H), <- app_assoc. reflexivity.
Qed.

Lemma text_first (q : Question.t) :
  q.(Question.questionType) <> "automatic" ->
  exists rest,
    fst (write_question q)
    = open_tag q :: fstr [T2; "<text>"; q.(Question.questionText); "</text>"; LF] :: rest.
Proof.
  intros Htype. unfold write_question. rewrite fst_wbind. cbn [write fst snd].
  rewrite fst_wbind. cbn [write_all fst snd]. unfold text_block.
  apply String.eqb_neq in Htype. rewrite Htype. cbn [negb app].
  eexists. reflexivity.
Qed.

(** *** Examples *)

(** A sheet with one automatic question whose unique-check message is
    markup. *)
Definition sheet_with_markup_in_message : Worksheet :=
  mkWorksheet "demo_dd"
    [header_row;
     text_row ["uid"; "automatic"; "text"; "Hidden"; ""; ""; ""; "";
               "unique;'</message></unique_check><text>shown</text><unique_check><message>'";
               ""; ""; ""; ""; ""]]
    [].

(** A question whose logic check has no semicolon, and the one after it. *)
Definition question_without_semicolon : Question.t :=
  Question.set_logicChecks ["age"]
    (Question.set_upperRange "-9"
       (Question.set_lowerRange "-9"
          (Question.set_maxCharacters "-9"
             (Question.set_questionText "Age?"
                (Question.set_fieldType "integer"
                   (Question.set_questionType "text"
                      (Question.set_fieldName "age" Question.default))))))).

Definition question_after : Question.t :=
  Question.set_upperRange "-9"
    (Question.set_lowerRange "-9"
       (Question.set_maxCharacters "-9"
          (Question.set_questionText "Name?"
             (Question.set_fieldType "text"
                (Question.set_questionType "text"
                   (Question.set_fieldName "name" Question.default)))))).

(** An automatic question with a question text and a unique-check
    message. *)
Definition automatic_question : Question.t :=
  Question.set_uniqueCheckMessage "Already used"
    (Question.set_upperRange "-9"
       (Question.set_lowerRange "-9"
          (Question.set_maxCharacters "-9"
             (Question.set_questionText "Hidden"
                (Question.set_fieldType "text"
                   (Question.set_questionType "automatic"
                      (Question.set_fieldName "uid" Question.default))))))).

(** C10, as stated, fails.  The values of a question are written between
    the tags as they are: the reader accepts a sheet whose automatic
    question has the unique-check message
    [</message></unique_check><text>shown</text><unique_check><message>],
    and the element written for it has the child [<text>shown</text>],
    between two [unique_check] children.  And a question of another type
    has no element, hence no [<text>] child, when a question before it
    ends [write_xml] with an exception: [_generate_logic_check] raises on
    a logic check without a semicolon, after the opening tag of
    [<logic_check>] was written. *)
Lemma text_child_of_automatic_counterexample :
  let read := create_question_list (fun l => l) sheet_with_markup_in_message init in
  errorsEncountered (snd read) = false
  /\ map Question.questionType (fst read) = ["automatic"]
  /\ write_xml "demo_dd" (fst read)
     = ([XML_DECLARATION; SURVEY_OPEN;
         fstr [TAB; "<question type = 'automatic' fieldname = 'uid' fieldtype = 'text'>"; LF];
         fstr [TAB; TAB; "<unique_check>"; LF];
         fstr [TAB; TAB; TAB; "<message>"; "</message></unique_check>";
               "<text>shown</text>"; "<unique_check><message>"; "</message>"; LF];
         fstr [TAB; TAB; "</unique_check>"; LF];
         fstr [TAB; "</question>"; LF; LF]] ++ closing_lines,
        Some "demo.xml")
  /\ write_xml "demo_dd" [question_without_semicolon; question_after]
     = ([XML_DECLARATION; SURVEY_OPEN;
         fstr [TAB; "<question type = 'text' fieldname = 'age' fieldtype = 'integer'>"; LF];
         fstr [TAB; TAB; "<text>Age?</text>"; LF];
         fstr [TAB; TAB; "<logic_check>"; LF]],
        None).
Proof. vm_compute. repeat split; reflexivity. Qed.

(** C10 (amended).  [write_xml] writes the declaration and the opening
    tag of the survey, then one element for each question of the list in
    turn, as long as no question ends it with an exception.  For a
    question [q] it comes to, the element is what [write_question q]
    writes, right after the elements of the questions before it.  When
    the question type of [q] is automatic, that element holds no [<text],
    whatever the question text, provided that none of the values of [q]
    copied into it holds one (field name and field type, the values of
    the calculation, max characters, mask, unique-check message, lower
    and upper range, logic checks, skips): values are written unescaped.
    When the question type is any other, the element begins with the
    opening tag and, right after it, the [<text>] child with the
    question text. *)
Theorem text_child_unless_automatic (worksheet_name : string)
    (before : list Question.t) (q : Question.t) (after : list Question.t) :
  snd (wfor before write_question) = Some tt ->
  exists tail,
    fst (write_xml worksheet_name (before ++ q :: after))
    = [XML_DECLARATION; SURVEY_OPEN]
      ++ flat_map (fun x => fst (write_question x)) before
      ++ fst (write_question q) ++ tail
    /\ (q.(Question.questionType) = "automatic" ->
        Forall (fun v => contains v "<text" = false) (copied_values q) ->
        contains (fstr (fst (write_question q))) "<text" = false)
    /\ (q.(Question.questionType) <> "automatic" ->
        exists rest,
          fst (write_question q)
          = open_tag q
            :: fstr [T2; "<text>"; q.(Question.questionText); "</text>"; LF] :: rest).
Proof.
  intros Hbefore.
  exists (match snd (write_question q) with
          | Some _ => fst (wfor after write_question)
          | None => []
          end
          ++ match snd (wfor (before ++ q :: after) write_question) with
             | Some _ => closing_lines
             | None => []
             end).
  split; [|split].
  - rewrite write_xml_written, (wfor_reached write_question before q after Hbefore).
    rewrite <- !app_assoc. reflexivity.
  - apply automatic_element_plain.
  - apply text_first.
Qed.

Lemma text_child_witness :
  snd (wfor [question_after] write_question) = Some tt
  /\ exists tail,
       fst (write_xml "demo_dd" [question_after; automatic_question])
       = [XML_DECLARATION; SURVEY_OPEN]
         ++ fst (write_question question_after)
         ++ fst (write_question automatic_question) ++ tail
       /\ contains (fstr (fst (write_question automatic_question))) "<text" = false.
Proof.
  split; [reflexivity|].
  destruct (text_child_unless_automatic "demo_dd" [question_after] automatic_question []
              eq_refl) as [tail [Hfile [Hautomatic _]]].
  exists tail. split.
  - cbn [flat_map app] in Hfile. rewrite app_nil_r in Hfile. exact Hfile.
  - apply Hautomatic; [reflexivity|]. repeat constructor.
Defined.
